(** * Noeta DSL front end: lexer, parser, semantic analyzer, diagnostics, runner

A shallow embedding of the Python sources under [Code/noeta]:
- [noeta_errors.py]   diagnostics, formatting, edit distance, suggestions;
- [noeta_lexer.py]    [Lexer]: source text to position-tagged tokens;
- [noeta_parser.py]   [Parser]: recursive descent over the token list;
- [noeta_semantic.py] [SymbolTable] and [SemanticAnalyzer];
- [noeta_codegen.py]  [CodeGenerator.generate] and its display visitors;
- [noeta_runner.py]   [compile_noeta].

Conventions of the embedding.
- A Python [str] is a [string] whose characters are the code points below
  256 (the character [c] is the code point [nat_of_ascii c]); the
  character classes [isdecimal], [isdigit], [isalpha], [isalnum] and
  [lower] are those of Python on these code points, so the model speaks
  about source text in this range.
- Python integers that count lines, columns and lengths never go below
  zero in this code and are [nat]; integer literals of the language are [Z].
- A float token keeps the literal it was read from; [float] of a literal
  or an integer, the truth value and the [repr] of the result are those
  of IEEE 754 binary64 (nearest, ties to even; the shortest decimal that
  converts back). No floating-point arithmetic is performed by the
  compiler front end.
- An exception is a value: [Raise e] where [e] is either a [NoetaError]
  or a built-in Python exception with its class and message.
- A dict is an association list in insertion order (Python dicts keep it,
  and the hints printed by the analyzer depend on it).
- Statement kinds outside the modelled fragment are kept abstract: their
  parse routine, analyzer visitor and code generator visitor are
  variables of the section [Compiler], so every theorem holds whatever
  those routines do. The analyzer visitors of these kinds are also given
  as they are written ([OtherStatement], [SemanticAnalyzer.visit_other]),
  for the theorems that speak about every visitor of the analyzer. *)

From Stdlib Require Import String Ascii List Arith Bool Lia ZArith DecimalString.
From Stdlib Require Import Sorted Permutation.
Import ListNotations.
Local Open Scope list_scope.
Local Open Scope nat_scope.
Local Open Scope string_scope.

Set Implicit Arguments.
#[local] Set Warnings "-register-all".

(* ===================================================================== *)
(** * Python string helpers *)
(* ===================================================================== *)

Definition LF : ascii := "010"%char.
Definition nl : string := String LF EmptyString.
Definition dq : string := String "034"%char EmptyString.
Definition ESC : string := String "027"%char EmptyString.

(** [str(n)] for a non-negative integer. *)
Definition str_nat (n : nat) : string := NilZero.string_of_uint (Nat.to_uint n).

(** [str(z)] for an integer. *)
Definition str_Z (z : Z) : string := NilZero.string_of_int (Z.to_int z).

(** [c * n] for a one-character string [c]. *)
Fixpoint repeat_str (s : string) (n : nat) : string :=
  match n with
  | 0 => EmptyString
  | S n' => s ++ repeat_str s n'
  end.

(** The format spec [{n:4d}]: right-justified in a field of width four. *)
Definition fmt_4d (n : nat) : string :=
  let s := str_nat n in
  repeat_str " " (4 - String.length s) ++ s.

(** [sep.join(parts)]. *)
Fixpoint join (sep : string) (parts : list string) : string :=
  match parts with
  | [] => EmptyString
  | [p] => p
  | p :: rest => p ++ sep ++ join sep rest
  end.

(** [lo <= n <= hi]. *)
Definition between (lo n hi : nat) : bool := ((lo <=? n) && (n <=? hi))%nat.

(** [c.lower()] for one character: the capital letters are [A] to [Z] and
    the code points 192 to 222 but for the multiplication sign 215. *)
Definition lower_char (c : ascii) : ascii :=
  let n := nat_of_ascii c in
  if between 65 n 90 || between 192 n 214 || between 216 n 222
  then ascii_of_nat (n + 32) else c.

(** [s.lower()]. *)
Fixpoint lower (s : string) : string :=
  match s with
  | EmptyString => EmptyString
  | String c s' => String (lower_char c) (lower s')
  end.

(** [c.isdecimal()]: the digits that [int] and [float] read. *)
Definition isdecimal (c : ascii) : bool := between 48 (nat_of_ascii c) 57.

(** [c.isdigit()]: the decimal digits and the superscripts two, three and
    one (code points 178, 179 and 185). *)
Definition isdigit (c : ascii) : bool :=
  let n := nat_of_ascii c in
  (isdecimal c || (n =? 178) || (n =? 179) || (n =? 185))%nat.

(** [c.isalpha()]: the letters below code point 256. *)
Definition isalpha (c : ascii) : bool :=
  let n := nat_of_ascii c in
  (between 65 n 90 || between 97 n 122 || (n =? 170) || (n =? 181) || (n =? 186)
   || between 192 n 214 || between 216 n 246 || between 248 n 255)%nat.

(** [c.isalnum()]: letters, digits and the fractions at 188 to 190. *)
Definition isalnum (c : ascii) : bool :=
  isalpha c || isdigit c || between 188 (nat_of_ascii c) 190.

(** [all(p(c) for c in s)]. *)
Fixpoint all_chars (p : ascii -> bool) (s : string) : bool :=
  match s with
  | EmptyString => true
  | String c s' => p c && all_chars p s'
  end.

(** [c in chars] for a one-character [c]. *)
Fixpoint char_in (c : ascii) (chars : string) : bool :=
  match chars with
  | EmptyString => false
  | String d rest => Ascii.eqb c d || char_in c rest
  end.

(** [s.startswith(p)]. *)
Fixpoint startswith (s p : string) : bool :=
  match p, s with
  | EmptyString, _ => true
  | String a p', String b s' => Ascii.eqb a b && startswith s' p'
  | String _ _, EmptyString => false
  end.

(** [p in s] for strings. *)
Fixpoint contains (s p : string) : bool :=
  startswith s p ||
  match s with
  | EmptyString => false
  | String _ s' => contains s' p
  end.

(** [s.endswith(p)]. *)
Definition endswith (s p : string) : bool :=
  let ls := String.length s in
  let lp := String.length p in
  (lp <=? ls)%nat && String.eqb (substring (ls - lp) lp s) p.

(** [s.split(c)] for a one-character separator: never empty. *)
Fixpoint split_on (c : ascii) (s : string) : list string :=
  match s with
  | EmptyString => [EmptyString]
  | String d s' =>
      match split_on c s' with
      | [] => [EmptyString]
      | hd :: tl => if Ascii.eqb d c then EmptyString :: hd :: tl
                    else String d hd :: tl
      end
  end.

(** [source_code.split(newline) if source_code else []]. *)
Definition source_lines_of (source_code : string) : list string :=
  match source_code with
  | EmptyString => []
  | _ => split_on LF source_code
  end.

(** The helper [_get_source_line] shared by parser and analyzer. *)
Definition get_source_line (source_lines : list string) (line_num : nat) : string :=
  match source_lines with
  | [] => EmptyString
  | _ =>
      if ((line_num <? 1) || (length source_lines <? line_num))%nat then EmptyString
      else nth (line_num - 1) source_lines EmptyString
  end.

(* ===================================================================== *)
(** * Diagnostics ([noeta_errors.py]) *)
(* ===================================================================== *)

Inductive ErrorCategory : Set := LEXER | SYNTAX | SEMANTIC | RUNTIME | TYPE.

Definition ErrorCategory_value (c : ErrorCategory) : string :=
  match c with
  | LEXER => "Lexical Error"
  | SYNTAX => "Syntax Error"
  | SEMANTIC => "Semantic Error"
  | RUNTIME => "Runtime Error"
  | TYPE => "Type Error"
  end.

Definition ErrorCategory_eqb (a b : ErrorCategory) : bool :=
  match a, b with
  | LEXER, LEXER | SYNTAX, SYNTAX | SEMANTIC, SEMANTIC
  | RUNTIME, RUNTIME | TYPE, TYPE => true
  | _, _ => false
  end.

Record ErrorContext : Set := mkErrorContext {
  ctx_line : nat;
  ctx_column : nat;
  ctx_length : nat;
  ctx_source_line : string
}.

(** The dataclass constructor followed by [__post_init__]: a length below one
    becomes one. *)
Definition ErrorContext_new (line column length : nat) (source_line : string)
  : ErrorContext :=
  mkErrorContext line column (if (length <? 1)%nat then 1 else length) source_line.

Record NoetaError : Set := mkNoetaError {
  message : string;
  category : ErrorCategory;
  context : option ErrorContext;
  hint : option string;
  suggestion : option string
}.

(** Built-in exception classes that this code base raises or provokes. *)
Inductive PyExcClass : Set :=
  | SyntaxError | AttributeError | TypeError | ValueError | KeyError
  | NotImplementedError | RecursionError | RuntimeError | OverflowError
  | OtherException.

Inductive exn : Set :=
  | NoetaExc (e : NoetaError)
  | PyExc (cls : PyExcClass) (msg : string).

Inductive outcome (A : Type) : Type :=
  | Ok (a : A)
  | Raise (e : exn).
Arguments Ok {A} a.
Arguments Raise {A} e.

(** Truthiness of an optional string: [None] and the empty string are false. *)
Definition truthy_str (o : option string) : option string :=
  match o with
  | Some EmptyString => None
  | other => other
  end.

Module ErrorFormatter.

Definition RED : string := ESC ++ "[91m".
Definition YELLOW : string := ESC ++ "[93m".
Definition BLUE : string := ESC ++ "[94m".
Definition CYAN : string := ESC ++ "[96m".
Definition GREEN : string := ESC ++ "[92m".
Definition BOLD : string := ESC ++ "[1m".
Definition RESET : string := ESC ++ "[0m".

Section WithTerminal.
  (** [_supports_color()]: whether [sys.stderr] is a terminal. *)
  Variable supports_color : bool.

Definition colorize (text color : string) : string :=
  if supports_color then color ++ text ++ RESET else text.

Definition format_source_context (c : ErrorContext) : string :=
  let line_num_str := fmt_4d (ctx_line c) in
  let source_line := "    " ++ line_num_str ++ " | " ++ ctx_source_line c in
  let spaces := 4 + String.length line_num_str + 3 + ctx_column c - 1 in
  let arrow := repeat_str " " spaces ++ colorize (repeat_str "^" (ctx_length c)) CYAN in
  join nl [source_line; arrow].

Definition format (error : NoetaError) : string :=
  let header :=
    match context error with
    | Some c =>
        ErrorCategory_value (category error) ++ " at line " ++ str_nat (ctx_line c)
        ++ ", column " ++ str_nat (ctx_column c) ++ ":"
    | None => ErrorCategory_value (category error) ++ ":"
    end in
  let lines1 := [colorize header (RED ++ BOLD)] in
  let lines2 :=
    match context error with
    | Some c =>
        match ctx_source_line c with
        | EmptyString => lines1
        | _ => List.app lines1 [format_source_context c]
        end
    | None => lines1
    end in
  let lines3 := List.app lines2 ["    " ++ colorize (message error) RED] in
  let lines4 :=
    match truthy_str (hint error) with
    | Some h => List.app lines3 [EmptyString; colorize ("Hint: " ++ h) YELLOW]
    | None => lines3
    end in
  let lines5 :=
    match truthy_str (suggestion error) with
    | Some s => List.app lines4 [colorize ("Did you mean: " ++ s) GREEN]
    | None => lines4
    end in
  join nl lines5.
End WithTerminal.

End ErrorFormatter.

(** [str(e)] of an exception: a [NoetaError] passes its formatted text to
    [Exception.__init__]. *)
Definition exn_str (supports_color : bool) (e : exn) : string :=
  match e with
  | NoetaExc err => ErrorFormatter.format supports_color err
  | PyExc _ msg => msg
  end.

(* --------------------------------------------------------------------- *)
(** ** Edit distance and suggestions *)
(* --------------------------------------------------------------------- *)

(** [min(a, b, c)]. *)
Definition min3 (a b c : nat) : nat := Nat.min a (Nat.min b c).

(** The inner loop of [levenshtein_distance]: the entries of [current_row]
    after its first one. [prev] is [previous_row] from index [j] on and [left]
    is [current_row[j]]. *)
Fixpoint lev_inner (c1 : ascii) (s2 : list ascii) (prev : list nat) (left : nat)
  : list nat :=
  match s2, prev with
  | c2 :: s2', p_j :: ((p_j1 :: _) as prev') =>
      let insertions := p_j1 + 1 in
      let deletions := left + 1 in
      let substitutions := p_j + (if Ascii.eqb c1 c2 then 0 else 1) in
      let v := min3 insertions deletions substitutions in
      v :: lev_inner c1 s2' prev' v
  | _, _ => []
  end.

(** The outer loop: [i] is the index of the next character of [s1]. *)
Fixpoint lev_outer (s1 s2 : list ascii) (i : nat) (previous_row : list nat)
  : list nat :=
  match s1 with
  | [] => previous_row
  | c1 :: s1' =>
      let current_row := (i + 1) :: lev_inner c1 s2 previous_row (i + 1) in
      lev_outer s1' s2 (S i) current_row
  end.

(** The body of [levenshtein_distance] once [len(s1) >= len(s2)]. *)
Definition levenshtein_rows (s1 s2 : list ascii) : nat :=
  match s2 with
  | [] => length s1
  | _ => last (lev_outer s1 s2 0 (seq 0 (length s2 + 1))) 0
  end.

Definition levenshtein_distance (s1 s2 : string) : nat :=
  let l1 := list_ascii_of_string s1 in
  let l2 := list_ascii_of_string s2 in
  if (length l1 <? length l2)%nat then levenshtein_rows l2 l1
  else levenshtein_rows l1 l2.

(** [list.sort(key=...)] is stable; a stable insertion sort gives the same
    list. [insert_by_key] puts [x] before the first entry with a larger or
    equal key, and the list is built from the right. *)
Fixpoint insert_by_key (A : Type) (key : A -> nat) (x : A) (l : list A) : list A :=
  match l with
  | [] => [x]
  | y :: l' => if (key x <=? key y)%nat then x :: y :: l'
               else y :: insert_by_key key x l'
  end.

Fixpoint sort_by_key (A : Type) (key : A -> nat) (l : list A) : list A :=
  match l with
  | [] => []
  | x :: l' => insert_by_key key x (sort_by_key key l')
  end.

(** The list [distances] built by the loop of [suggest_similar]. *)
Fixpoint similar_distances (attempted : string) (available : list string)
  (max_distance : nat) : list (nat * string) :=
  match available with
  | [] => []
  | name :: rest =>
      let dist := levenshtein_distance (lower attempted) (lower name) in
      if (dist <=? max_distance)%nat
      then (dist, name) :: similar_distances attempted rest max_distance
      else similar_distances attempted rest max_distance
  end.

Definition suggest_similar (attempted : string) (available : list string)
  (max_suggestions max_distance : nat) : list string :=
  match available with
  | [] => []
  | _ =>
      let distances := similar_distances attempted available max_distance in
      map snd (firstn max_suggestions (sort_by_key fst distances))
  end.

(* --------------------------------------------------------------------- *)
(** ** Token descriptions and error constructors *)
(* --------------------------------------------------------------------- *)

(** [s.replace('_', ' ')]. *)
Fixpoint underscores_to_spaces (s : string) : string :=
  match s with
  | EmptyString => EmptyString
  | String c s' =>
      String (if Ascii.eqb c "_"%char then " "%char else c) (underscores_to_spaces s')
  end.

Definition token_descriptions : list (string * string) :=
  [ ("IDENTIFIER", "dataset or column name");
    ("STRING_LITERAL", "string value");
    ("NUMERIC_LITERAL", "number");
    ("INTEGER", "integer number");
    ("FLOAT", "decimal number");
    ("BOOLEAN", "true or false");
    ("NONE", "None value");
    ("LPAREN", "opening parenthesis (");
    ("RPAREN", "closing parenthesis )");
    ("LBRACE", "opening brace {");
    ("RBRACE", "closing brace }");
    ("LBRACKET", "opening bracket [");
    ("RBRACKET", "closing bracket ]");
    ("COMMA", "comma");
    ("DOT", "dot");
    ("EQUALS", "equals sign =");
    ("COLON", "colon :");
    ("SEMICOLON", "semicolon");
    ("AS", dq ++ "as" ++ dq ++ " keyword");
    ("WITH", dq ++ "with" ++ dq ++ " keyword");
    ("WHERE", dq ++ "where" ++ dq ++ " keyword");
    ("COLUMN", dq ++ "column" ++ dq ++ " keyword");
    ("COLUMNS", dq ++ "columns" ++ dq ++ " keyword");
    ("EOF", "end of file") ].

(** [d.get(k)] on an association list. *)
Fixpoint assoc_get (V : Type) (k : string) (d : list (string * V)) : option V :=
  match d with
  | [] => None
  | (k', v) :: rest => if String.eqb k k' then Some v else assoc_get k rest
  end.

Definition get_token_type_description (token_type_name : string) : string :=
  match assoc_get token_type_name token_descriptions with
  | Some d => d
  | None => underscores_to_spaces (lower token_type_name)
  end.

(** [create_semantic_error]: the context is dropped when the line is not
    positive. *)
Definition create_semantic_error (msg : string) (line column : nat)
  (source_line : string) (length : nat) (hint suggestion : option string)
  : NoetaError :=
  let context :=
    if (0 <? line)%nat then Some (ErrorContext_new line column length source_line)
    else None in
  mkNoetaError msg SEMANTIC context hint suggestion.

(* --------------------------------------------------------------------- *)
(** ** Reports over several diagnostics *)
(* --------------------------------------------------------------------- *)

Module MultiErrorFormatter.

(** One step of the loop of [group_errors_by_category]: append [error] to
    the list stored under its category, creating the entry at the end of
    the dict when the category is new. *)
Fixpoint group_add (error : NoetaError)
  (grouped : list (ErrorCategory * list NoetaError))
  : list (ErrorCategory * list NoetaError) :=
  match grouped with
  | [] => [(category error, [error])]
  | (c, es) :: rest =>
      if ErrorCategory_eqb c (category error) then (c, List.app es [error]) :: rest
      else (c, es) :: group_add error rest
  end.

Definition group_errors_by_category (errors : list NoetaError)
  : list (ErrorCategory * list NoetaError) :=
  fold_left (fun grouped error => group_add error grouped) errors [].

Fixpoint grouped_get (c : ErrorCategory)
  (grouped : list (ErrorCategory * list NoetaError)) : option (list NoetaError) :=
  match grouped with
  | [] => None
  | (c', es) :: rest => if ErrorCategory_eqb c c' then Some es else grouped_get c rest
  end.

Section WithTerminal.
  Variable supports_color : bool.

Definition paint (color text : string) : string :=
  if supports_color then color ++ text ++ ErrorFormatter.RESET else text.

(** The lines appended for one error of a category. *)
Definition error_lines (error_num : nat) (error : NoetaError) : list string :=
  let l1 := [nl ++ "[Error " ++ str_nat error_num ++ "]"] in
  let l2 :=
    match context error with
    | Some c =>
        let location := "  Line " ++ str_nat (ctx_line c) ++ ", column "
                        ++ str_nat (ctx_column c) ++ ":" in
        let l := List.app l1 [paint ErrorFormatter.RED location] in
        match ctx_source_line c with
        | EmptyString => l
        | _ => List.app l [ErrorFormatter.format_source_context supports_color c]
        end
    | None => l1
    end in
  let l3 := List.app l2 [paint ErrorFormatter.RED ("    " ++ message error)] in
  let l4 :=
    match truthy_str (hint error) with
    | Some h => List.app l3 [paint ErrorFormatter.YELLOW ("  Hint: " ++ h)]
    | None => l3
    end in
  match truthy_str (suggestion error) with
  | Some s => List.app l4 [paint ErrorFormatter.GREEN ("  Did you mean: " ++ s)]
  | None => l4
  end.

(** The inner loop over the errors of one category; returns the lines and
    the next error number. *)
Fixpoint category_error_lines (error_num : nat) (errors : list NoetaError)
  : list string * nat :=
  match errors with
  | [] => ([], error_num)
  | e :: rest =>
      let '(ls, n) := category_error_lines (S error_num) rest in
      (List.app (error_lines error_num e) ls, n)
  end.

(** The outer loop over the fixed category order. *)
Fixpoint category_blocks (cats : list ErrorCategory)
  (grouped : list (ErrorCategory * list NoetaError)) (error_num : nat)
  : list string :=
  match cats with
  | [] => []
  | c :: cats' =>
      match grouped_get c grouped with
      | None => category_blocks cats' grouped error_num
      | Some category_errors =>
          let category_header :=
            nl ++ ErrorCategory_value c ++ "s ("
            ++ str_nat (length category_errors) ++ "):" in
          let '(ls, n) := category_error_lines error_num category_errors in
          List.app
            (paint ErrorFormatter.BOLD category_header :: repeat_str "-" 60 :: ls)
            (category_blocks cats' grouped n)
      end
  end.

Definition format_multiple (errors : list NoetaError) : string :=
  match errors with
  | [] => "No errors to display"
  | [e] => ErrorFormatter.format supports_color e
  | _ =>
      let header := "Found " ++ str_nat (length errors) ++ " errors in compilation:" in
      let head_lines :=
        [paint (ErrorFormatter.RED ++ ErrorFormatter.BOLD) header; EmptyString] in
      let grouped := group_errors_by_category errors in
      let body := category_blocks [LEXER; SYNTAX; SEMANTIC; TYPE; RUNTIME] grouped 1 in
      let footer :=
        "Total: " ++ str_nat (length errors) ++ " error"
        ++ (if Nat.eqb (length errors) 1 then EmptyString else "s") ++ " found" in
      let tail_lines :=
        [EmptyString; repeat_str "=" 60;
         paint (ErrorFormatter.RED ++ ErrorFormatter.BOLD) footer] in
      join nl (List.app head_lines (List.app body tail_lines))
  end.
End WithTerminal.

End MultiErrorFormatter.

Definition create_multi_error (supports_color : bool) (errors : list NoetaError)
  : NoetaError :=
  match errors with
  | [] => mkNoetaError "No errors to display" RUNTIME None None None
  | [e] => e
  | first :: _ =>
      let formatted_message := MultiErrorFormatter.format_multiple supports_color errors in
      mkNoetaError formatted_message (category first) None None None
  end.

(* ===================================================================== *)
(** * Tokens ([noeta_lexer.py]) *)
(* ===================================================================== *)

(** The enumeration [TokenType]; members are written [TokenType.LOAD] as in
    the source. *)
Module TokenType.

Inductive t : Set :=
  | LOAD | SELECT | FILTER | SORT | JOIN | GROUPBY | SAMPLE | DROPNA | FILLNA | MUTATE
  | APPLY | DESCRIBE | SUMMARY | OUTLIERS | QUANTILE | NORMALIZE | BINNING | ROLLING
  | HYPOTHESIS | BOXPLOT | HEATMAP | PAIRPLOT | TIMESERIES | PIE | SAVE | EXPORT_PLOT
  | INFO | UNIQUE | VALUE_COUNTS | SHOW | SELECT_BY_TYPE | HEAD | TAIL | ILOC | LOC
  | RENAME | REORDER | FILTER_BETWEEN | FILTER_ISIN | FILTER_CONTAINS | FILTER_STARTSWITH
  | FILTER_ENDSWITH | FILTER_REGEX | FILTER_NULL | FILTER_NOTNULL | FILTER_DUPLICATES
  | ROUND | ABS | SQRT | POWER | LOG | CEIL | FLOOR | UPPER | LOWER | STRIP | LSTRIP
  | RSTRIP | TITLE | CAPITALIZE | REPLACE | SPLIT | CONCAT | SUBSTRING | LENGTH
  | EXTRACT_REGEX | FIND | PARSE_DATETIME | EXTRACT | EXTRACT_YEAR | EXTRACT_MONTH
  | EXTRACT_DAY | EXTRACT_HOUR | EXTRACT_MINUTE | EXTRACT_SECOND | EXTRACT_DAYOFWEEK
  | EXTRACT_DAYOFYEAR | EXTRACT_WEEKOFYEAR | EXTRACT_QUARTER | DATE_DIFF | DATE_ADD
  | DATE_SUBTRACT | FORMAT_DATETIME | ASTYPE | TO_NUMERIC | ONE_HOT_ENCODE | LABEL_ENCODE
  | STANDARD_SCALE | MINMAX_SCALE | ISNULL | NOTNULL | COUNT_NA | FILL_FORWARD
  | FILL_BACKWARD | FILL_MEAN | FILL_MEDIAN | FILL_MODE | INTERPOLATE | DUPLICATED
  | COUNT_DUPLICATES | DROP_DUPLICATES | QCUT | CUT | SORT_INDEX | RANK | FILTER_GROUPS
  | GROUP_TRANSFORM | WINDOW_RANK | WINDOW_LAG | WINDOW_LEAD | ROLLING_MEAN | ROLLING_SUM
  | ROLLING_STD | ROLLING_MIN | ROLLING_MAX | EXPANDING_MEAN | EXPANDING_SUM
  | EXPANDING_MIN | EXPANDING_MAX | CUMSUM | CUMMAX | CUMMIN | CUMPROD | PCT_CHANGE
  | DIFF | SHIFT | PIVOT | PIVOT_TABLE | MELT | STACK | UNSTACK | TRANSPOSE | CROSSTAB
  | MERGE | CONCAT_VERTICAL | CONCAT_HORIZONTAL | UNION | INTERSECTION | DIFFERENCE
  | SET_INDEX | RESET_INDEX | APPLY_ROW | APPLY_COLUMN | APPLYMAP | MAP | MAP_VALUES
  | RESAMPLE | ASSIGN_CONST | ROBUST_SCALE | MAXABS_SCALE | ORDINAL_ENCODE
  | TARGET_ENCODE | ASSERT_UNIQUE | ASSERT_NO_NULLS | ASSERT_RANGE | REINDEX
  | SET_MULTIINDEX | ANY | ALL | COUNT_TRUE | COMPARE | CSV | JSON | EXCEL | PARQUET
  | SQL | AS | BY | WITH | ON | FROM | AGG | COMPUTE | COLUMN | COLUMNS | VALUE | VALUES
  | N | RANDOM | METHOD | Q | BINS | WINDOW | FUNCTION | TRANSFORM | VS | TEST | X | Y
  | LABELS | TO | FORMAT | FILENAME | WIDTH | HEIGHT | DESC | WHERE | ASC | TYPE | ROWS
  | MAPPING | ORDER | LIMIT | OFFSET | FIRST | LAST | MIN | MAX | PATTERN | KEEP | SUBSET
  | AND | OR | NOT | IN | BETWEEN | CONTAINS | STARTS_WITH | ENDS_WITH | MATCHES | IS
  | NULL | PART | DECIMALS | EXPONENT | BASE | SEPARATOR | UNIT | OLD | NEW
  | DELIMITER_STR | START | END | DTYPE_STR | ERRORS | STRATEGY | AXIS | ASCENDING
  | PERIODS | ID_VARS | VALUE_VARS | VAR_NAME | VALUE_NAME | LEFT | RIGHT | LEFT_ON
  | RIGHT_ON | SUFFIXES | HOW | AGGFUNC | FILL_VALUE | LEVEL | RULE | CONDITION | PCT
  | DROP | IGNORE_INDEX | DELIMITER | ENCODING | HEADER | NAMES | USECOLS | DTYPE
  | SKIPROWS | NROWS | NA_VALUES | THOUSANDS | DECIMAL | COMMENT_CHAR | SKIP_BLANK_LINES
  | PARSE_DATES | DATE_FORMAT | CHUNKSIZE | COMPRESSION | LOW_MEMORY | MEMORY_MAP
  | ORIENT | TYP | CONVERT_AXES | CONVERT_DATES | PRECISE_FLOAT | DATE_UNIT | LINES
  | SHEET | SHEET_NAME | INDEX_COL | ENGINE | CONVERTERS | SKIPFOOTER | FILTERS
  | USE_NULLABLE_DTYPES | STORAGE_OPTIONS | PARAMS | COERCE_FLOAT | INDEX | INDEX_LABEL
  | NA_REP | MODE | QUOTING | QUOTECHAR | ESCAPECHAR | LINETERMINATOR | FLOAT_FORMAT
  | TARGET | CHARS | GROUP | STRING_LITERAL | NUMERIC_LITERAL | BOOLEAN_LITERAL
  | IDENTIFIER | EQ | NEQ | LT | GT | LTE | GTE | ASSIGN | PLUS | MINUS | STAR | SLASH
  | PERCENT | DOT | LPAREN | RPAREN | LBRACE | RBRACE | LBRACKET | RBRACKET | COLON
  | COMMA | NEWLINE | EOF | COMMENT.

(** The number [auto()] gives each member, in declaration order. *)
Definition value (x : t) : positive :=
  match x with
  | LOAD => 1 | SELECT => 2 | FILTER => 3 | SORT => 4 | JOIN => 5 | GROUPBY => 6
  | SAMPLE => 7 | DROPNA => 8 | FILLNA => 9 | MUTATE => 10 | APPLY => 11 | DESCRIBE => 12
  | SUMMARY => 13 | OUTLIERS => 14 | QUANTILE => 15 | NORMALIZE => 16 | BINNING => 17
  | ROLLING => 18 | HYPOTHESIS => 19 | BOXPLOT => 20 | HEATMAP => 21 | PAIRPLOT => 22
  | TIMESERIES => 23 | PIE => 24 | SAVE => 25 | EXPORT_PLOT => 26 | INFO => 27
  | UNIQUE => 28 | VALUE_COUNTS => 29 | SHOW => 30 | SELECT_BY_TYPE => 31 | HEAD => 32
  | TAIL => 33 | ILOC => 34 | LOC => 35 | RENAME => 36 | REORDER => 37
  | FILTER_BETWEEN => 38 | FILTER_ISIN => 39 | FILTER_CONTAINS => 40
  | FILTER_STARTSWITH => 41 | FILTER_ENDSWITH => 42 | FILTER_REGEX => 43
  | FILTER_NULL => 44 | FILTER_NOTNULL => 45 | FILTER_DUPLICATES => 46 | ROUND => 47
  | ABS => 48 | SQRT => 49 | POWER => 50 | LOG => 51 | CEIL => 52 | FLOOR => 53
  | UPPER => 54 | LOWER => 55 | STRIP => 56 | LSTRIP => 57 | RSTRIP => 58 | TITLE => 59
  | CAPITALIZE => 60 | REPLACE => 61 | SPLIT => 62 | CONCAT => 63 | SUBSTRING => 64
  | LENGTH => 65 | EXTRACT_REGEX => 66 | FIND => 67 | PARSE_DATETIME => 68
  | EXTRACT => 69 | EXTRACT_YEAR => 70 | EXTRACT_MONTH => 71 | EXTRACT_DAY => 72
  | EXTRACT_HOUR => 73 | EXTRACT_MINUTE => 74 | EXTRACT_SECOND => 75
  | EXTRACT_DAYOFWEEK => 76 | EXTRACT_DAYOFYEAR => 77 | EXTRACT_WEEKOFYEAR => 78
  | EXTRACT_QUARTER => 79 | DATE_DIFF => 80 | DATE_ADD => 81 | DATE_SUBTRACT => 82
  | FORMAT_DATETIME => 83 | ASTYPE => 84 | TO_NUMERIC => 85 | ONE_HOT_ENCODE => 86
  | LABEL_ENCODE => 87 | STANDARD_SCALE => 88 | MINMAX_SCALE => 89 | ISNULL => 90
  | NOTNULL => 91 | COUNT_NA => 92 | FILL_FORWARD => 93 | FILL_BACKWARD => 94
  | FILL_MEAN => 95 | FILL_MEDIAN => 96 | FILL_MODE => 97 | INTERPOLATE => 98
  | DUPLICATED => 99 | COUNT_DUPLICATES => 100 | DROP_DUPLICATES => 101 | QCUT => 102
  | CUT => 103 | SORT_INDEX => 104 | RANK => 105 | FILTER_GROUPS => 106
  | GROUP_TRANSFORM => 107 | WINDOW_RANK => 108 | WINDOW_LAG => 109 | WINDOW_LEAD => 110
  | ROLLING_MEAN => 111 | ROLLING_SUM => 112 | ROLLING_STD => 113 | ROLLING_MIN => 114
  | ROLLING_MAX => 115 | EXPANDING_MEAN => 116 | EXPANDING_SUM => 117
  | EXPANDING_MIN => 118 | EXPANDING_MAX => 119 | CUMSUM => 120 | CUMMAX => 121
  | CUMMIN => 122 | CUMPROD => 123 | PCT_CHANGE => 124 | DIFF => 125 | SHIFT => 126
  | PIVOT => 127 | PIVOT_TABLE => 128 | MELT => 129 | STACK => 130 | UNSTACK => 131
  | TRANSPOSE => 132 | CROSSTAB => 133 | MERGE => 134 | CONCAT_VERTICAL => 135
  | CONCAT_HORIZONTAL => 136 | UNION => 137 | INTERSECTION => 138 | DIFFERENCE => 139
  | SET_INDEX => 140 | RESET_INDEX => 141 | APPLY_ROW => 142 | APPLY_COLUMN => 143
  | APPLYMAP => 144 | MAP => 145 | MAP_VALUES => 146 | RESAMPLE => 147
  | ASSIGN_CONST => 148 | ROBUST_SCALE => 149 | MAXABS_SCALE => 150
  | ORDINAL_ENCODE => 151 | TARGET_ENCODE => 152 | ASSERT_UNIQUE => 153
  | ASSERT_NO_NULLS => 154 | ASSERT_RANGE => 155 | REINDEX => 156 | SET_MULTIINDEX => 157
  | ANY => 158 | ALL => 159 | COUNT_TRUE => 160 | COMPARE => 161 | CSV => 162
  | JSON => 163 | EXCEL => 164 | PARQUET => 165 | SQL => 166 | AS => 167 | BY => 168
  | WITH => 169 | ON => 170 | FROM => 171 | AGG => 172 | COMPUTE => 173 | COLUMN => 174
  | COLUMNS => 175 | VALUE => 176 | VALUES => 177 | N => 178 | RANDOM => 179
  | METHOD => 180 | Q => 181 | BINS => 182 | WINDOW => 183 | FUNCTION => 184
  | TRANSFORM => 185 | VS => 186 | TEST => 187 | X => 188 | Y => 189 | LABELS => 190
  | TO => 191 | FORMAT => 192 | FILENAME => 193 | WIDTH => 194 | HEIGHT => 195
  | DESC => 196 | WHERE => 197 | ASC => 198 | TYPE => 199 | ROWS => 200 | MAPPING => 201
  | ORDER => 202 | LIMIT => 203 | OFFSET => 204 | FIRST => 205 | LAST => 206 | MIN => 207
  | MAX => 208 | PATTERN => 209 | KEEP => 210 | SUBSET => 211 | AND => 212 | OR => 213
  | NOT => 214 | IN => 215 | BETWEEN => 216 | CONTAINS => 217 | STARTS_WITH => 218
  | ENDS_WITH => 219 | MATCHES => 220 | IS => 221 | NULL => 222 | PART => 223
  | DECIMALS => 224 | EXPONENT => 225 | BASE => 226 | SEPARATOR => 227 | UNIT => 228
  | OLD => 229 | NEW => 230 | DELIMITER_STR => 231 | START => 232 | END => 233
  | DTYPE_STR => 234 | ERRORS => 235 | STRATEGY => 236 | AXIS => 237 | ASCENDING => 238
  | PERIODS => 239 | ID_VARS => 240 | VALUE_VARS => 241 | VAR_NAME => 242
  | VALUE_NAME => 243 | LEFT => 244 | RIGHT => 245 | LEFT_ON => 246 | RIGHT_ON => 247
  | SUFFIXES => 248 | HOW => 249 | AGGFUNC => 250 | FILL_VALUE => 251 | LEVEL => 252
  | RULE => 253 | CONDITION => 254 | PCT => 255 | DROP => 256 | IGNORE_INDEX => 257
  | DELIMITER => 258 | ENCODING => 259 | HEADER => 260 | NAMES => 261 | USECOLS => 262
  | DTYPE => 263 | SKIPROWS => 264 | NROWS => 265 | NA_VALUES => 266 | THOUSANDS => 267
  | DECIMAL => 268 | COMMENT_CHAR => 269 | SKIP_BLANK_LINES => 270 | PARSE_DATES => 271
  | DATE_FORMAT => 272 | CHUNKSIZE => 273 | COMPRESSION => 274 | LOW_MEMORY => 275
  | MEMORY_MAP => 276 | ORIENT => 277 | TYP => 278 | CONVERT_AXES => 279
  | CONVERT_DATES => 280 | PRECISE_FLOAT => 281 | DATE_UNIT => 282 | LINES => 283
  | SHEET => 284 | SHEET_NAME => 285 | INDEX_COL => 286 | ENGINE => 287
  | CONVERTERS => 288 | SKIPFOOTER => 289 | FILTERS => 290 | USE_NULLABLE_DTYPES => 291
  | STORAGE_OPTIONS => 292 | PARAMS => 293 | COERCE_FLOAT => 294 | INDEX => 295
  | INDEX_LABEL => 296 | NA_REP => 297 | MODE => 298 | QUOTING => 299 | QUOTECHAR => 300
  | ESCAPECHAR => 301 | LINETERMINATOR => 302 | FLOAT_FORMAT => 303 | TARGET => 304
  | CHARS => 305 | GROUP => 306 | STRING_LITERAL => 307 | NUMERIC_LITERAL => 308
  | BOOLEAN_LITERAL => 309 | IDENTIFIER => 310 | EQ => 311 | NEQ => 312 | LT => 313
  | GT => 314 | LTE => 315 | GTE => 316 | ASSIGN => 317 | PLUS => 318 | MINUS => 319
  | STAR => 320 | SLASH => 321 | PERCENT => 322 | DOT => 323 | LPAREN => 324
  | RPAREN => 325 | LBRACE => 326 | RBRACE => 327 | LBRACKET => 328 | RBRACKET => 329
  | COLON => 330 | COMMA => 331 | NEWLINE => 332 | EOF => 333 | COMMENT => 334
  end%positive.

(** The member's [.name]. *)
Definition name (x : t) : string :=
  match x with
  | LOAD => "LOAD" | SELECT => "SELECT" | FILTER => "FILTER" | SORT => "SORT"
  | JOIN => "JOIN" | GROUPBY => "GROUPBY" | SAMPLE => "SAMPLE" | DROPNA => "DROPNA"
  | FILLNA => "FILLNA" | MUTATE => "MUTATE" | APPLY => "APPLY" | DESCRIBE => "DESCRIBE"
  | SUMMARY => "SUMMARY" | OUTLIERS => "OUTLIERS" | QUANTILE => "QUANTILE"
  | NORMALIZE => "NORMALIZE" | BINNING => "BINNING" | ROLLING => "ROLLING"
  | HYPOTHESIS => "HYPOTHESIS" | BOXPLOT => "BOXPLOT" | HEATMAP => "HEATMAP"
  | PAIRPLOT => "PAIRPLOT" | TIMESERIES => "TIMESERIES" | PIE => "PIE" | SAVE => "SAVE"
  | EXPORT_PLOT => "EXPORT_PLOT" | INFO => "INFO" | UNIQUE => "UNIQUE"
  | VALUE_COUNTS => "VALUE_COUNTS" | SHOW => "SHOW" | SELECT_BY_TYPE => "SELECT_BY_TYPE"
  | HEAD => "HEAD" | TAIL => "TAIL" | ILOC => "ILOC" | LOC => "LOC" | RENAME => "RENAME"
  | REORDER => "REORDER" | FILTER_BETWEEN => "FILTER_BETWEEN"
  | FILTER_ISIN => "FILTER_ISIN" | FILTER_CONTAINS => "FILTER_CONTAINS"
  | FILTER_STARTSWITH => "FILTER_STARTSWITH" | FILTER_ENDSWITH => "FILTER_ENDSWITH"
  | FILTER_REGEX => "FILTER_REGEX" | FILTER_NULL => "FILTER_NULL"
  | FILTER_NOTNULL => "FILTER_NOTNULL" | FILTER_DUPLICATES => "FILTER_DUPLICATES"
  | ROUND => "ROUND" | ABS => "ABS" | SQRT => "SQRT" | POWER => "POWER" | LOG => "LOG"
  | CEIL => "CEIL" | FLOOR => "FLOOR" | UPPER => "UPPER" | LOWER => "LOWER"
  | STRIP => "STRIP" | LSTRIP => "LSTRIP" | RSTRIP => "RSTRIP" | TITLE => "TITLE"
  | CAPITALIZE => "CAPITALIZE" | REPLACE => "REPLACE" | SPLIT => "SPLIT"
  | CONCAT => "CONCAT" | SUBSTRING => "SUBSTRING" | LENGTH => "LENGTH"
  | EXTRACT_REGEX => "EXTRACT_REGEX" | FIND => "FIND"
  | PARSE_DATETIME => "PARSE_DATETIME" | EXTRACT => "EXTRACT"
  | EXTRACT_YEAR => "EXTRACT_YEAR" | EXTRACT_MONTH => "EXTRACT_MONTH"
  | EXTRACT_DAY => "EXTRACT_DAY" | EXTRACT_HOUR => "EXTRACT_HOUR"
  | EXTRACT_MINUTE => "EXTRACT_MINUTE" | EXTRACT_SECOND => "EXTRACT_SECOND"
  | EXTRACT_DAYOFWEEK => "EXTRACT_DAYOFWEEK" | EXTRACT_DAYOFYEAR => "EXTRACT_DAYOFYEAR"
  | EXTRACT_WEEKOFYEAR => "EXTRACT_WEEKOFYEAR" | EXTRACT_QUARTER => "EXTRACT_QUARTER"
  | DATE_DIFF => "DATE_DIFF" | DATE_ADD => "DATE_ADD" | DATE_SUBTRACT => "DATE_SUBTRACT"
  | FORMAT_DATETIME => "FORMAT_DATETIME" | ASTYPE => "ASTYPE"
  | TO_NUMERIC => "TO_NUMERIC" | ONE_HOT_ENCODE => "ONE_HOT_ENCODE"
  | LABEL_ENCODE => "LABEL_ENCODE" | STANDARD_SCALE => "STANDARD_SCALE"
  | MINMAX_SCALE => "MINMAX_SCALE" | ISNULL => "ISNULL" | NOTNULL => "NOTNULL"
  | COUNT_NA => "COUNT_NA" | FILL_FORWARD => "FILL_FORWARD"
  | FILL_BACKWARD => "FILL_BACKWARD" | FILL_MEAN => "FILL_MEAN"
  | FILL_MEDIAN => "FILL_MEDIAN" | FILL_MODE => "FILL_MODE"
  | INTERPOLATE => "INTERPOLATE" | DUPLICATED => "DUPLICATED"
  | COUNT_DUPLICATES => "COUNT_DUPLICATES" | DROP_DUPLICATES => "DROP_DUPLICATES"
  | QCUT => "QCUT" | CUT => "CUT" | SORT_INDEX => "SORT_INDEX" | RANK => "RANK"
  | FILTER_GROUPS => "FILTER_GROUPS" | GROUP_TRANSFORM => "GROUP_TRANSFORM"
  | WINDOW_RANK => "WINDOW_RANK" | WINDOW_LAG => "WINDOW_LAG"
  | WINDOW_LEAD => "WINDOW_LEAD" | ROLLING_MEAN => "ROLLING_MEAN"
  | ROLLING_SUM => "ROLLING_SUM" | ROLLING_STD => "ROLLING_STD"
  | ROLLING_MIN => "ROLLING_MIN" | ROLLING_MAX => "ROLLING_MAX"
  | EXPANDING_MEAN => "EXPANDING_MEAN" | EXPANDING_SUM => "EXPANDING_SUM"
  | EXPANDING_MIN => "EXPANDING_MIN" | EXPANDING_MAX => "EXPANDING_MAX"
  | CUMSUM => "CUMSUM" | CUMMAX => "CUMMAX" | CUMMIN => "CUMMIN" | CUMPROD => "CUMPROD"
  | PCT_CHANGE => "PCT_CHANGE" | DIFF => "DIFF" | SHIFT => "SHIFT" | PIVOT => "PIVOT"
  | PIVOT_TABLE => "PIVOT_TABLE" | MELT => "MELT" | STACK => "STACK"
  | UNSTACK => "UNSTACK" | TRANSPOSE => "TRANSPOSE" | CROSSTAB => "CROSSTAB"
  | MERGE => "MERGE" | CONCAT_VERTICAL => "CONCAT_VERTICAL"
  | CONCAT_HORIZONTAL => "CONCAT_HORIZONTAL" | UNION => "UNION"
  | INTERSECTION => "INTERSECTION" | DIFFERENCE => "DIFFERENCE"
  | SET_INDEX => "SET_INDEX" | RESET_INDEX => "RESET_INDEX" | APPLY_ROW => "APPLY_ROW"
  | APPLY_COLUMN => "APPLY_COLUMN" | APPLYMAP => "APPLYMAP" | MAP => "MAP"
  | MAP_VALUES => "MAP_VALUES" | RESAMPLE => "RESAMPLE" | ASSIGN_CONST => "ASSIGN_CONST"
  | ROBUST_SCALE => "ROBUST_SCALE" | MAXABS_SCALE => "MAXABS_SCALE"
  | ORDINAL_ENCODE => "ORDINAL_ENCODE" | TARGET_ENCODE => "TARGET_ENCODE"
  | ASSERT_UNIQUE => "ASSERT_UNIQUE" | ASSERT_NO_NULLS => "ASSERT_NO_NULLS"
  | ASSERT_RANGE => "ASSERT_RANGE" | REINDEX => "REINDEX"
  | SET_MULTIINDEX => "SET_MULTIINDEX" | ANY => "ANY" | ALL => "ALL"
  | COUNT_TRUE => "COUNT_TRUE" | COMPARE => "COMPARE" | CSV => "CSV" | JSON => "JSON"
  | EXCEL => "EXCEL" | PARQUET => "PARQUET" | SQL => "SQL" | AS => "AS" | BY => "BY"
  | WITH => "WITH" | ON => "ON" | FROM => "FROM" | AGG => "AGG" | COMPUTE => "COMPUTE"
  | COLUMN => "COLUMN" | COLUMNS => "COLUMNS" | VALUE => "VALUE" | VALUES => "VALUES"
  | N => "N" | RANDOM => "RANDOM" | METHOD => "METHOD" | Q => "Q" | BINS => "BINS"
  | WINDOW => "WINDOW" | FUNCTION => "FUNCTION" | TRANSFORM => "TRANSFORM" | VS => "VS"
  | TEST => "TEST" | X => "X" | Y => "Y" | LABELS => "LABELS" | TO => "TO"
  | FORMAT => "FORMAT" | FILENAME => "FILENAME" | WIDTH => "WIDTH" | HEIGHT => "HEIGHT"
  | DESC => "DESC" | WHERE => "WHERE" | ASC => "ASC" | TYPE => "TYPE" | ROWS => "ROWS"
  | MAPPING => "MAPPING" | ORDER => "ORDER" | LIMIT => "LIMIT" | OFFSET => "OFFSET"
  | FIRST => "FIRST" | LAST => "LAST" | MIN => "MIN" | MAX => "MAX"
  | PATTERN => "PATTERN" | KEEP => "KEEP" | SUBSET => "SUBSET" | AND => "AND"
  | OR => "OR" | NOT => "NOT" | IN => "IN" | BETWEEN => "BETWEEN"
  | CONTAINS => "CONTAINS" | STARTS_WITH => "STARTS_WITH" | ENDS_WITH => "ENDS_WITH"
  | MATCHES => "MATCHES" | IS => "IS" | NULL => "NULL" | PART => "PART"
  | DECIMALS => "DECIMALS" | EXPONENT => "EXPONENT" | BASE => "BASE"
  | SEPARATOR => "SEPARATOR" | UNIT => "UNIT" | OLD => "OLD" | NEW => "NEW"
  | DELIMITER_STR => "DELIMITER_STR" | START => "START" | END => "END"
  | DTYPE_STR => "DTYPE_STR" | ERRORS => "ERRORS" | STRATEGY => "STRATEGY"
  | AXIS => "AXIS" | ASCENDING => "ASCENDING" | PERIODS => "PERIODS"
  | ID_VARS => "ID_VARS" | VALUE_VARS => "VALUE_VARS" | VAR_NAME => "VAR_NAME"
  | VALUE_NAME => "VALUE_NAME" | LEFT => "LEFT" | RIGHT => "RIGHT" | LEFT_ON => "LEFT_ON"
  | RIGHT_ON => "RIGHT_ON" | SUFFIXES => "SUFFIXES" | HOW => "HOW" | AGGFUNC => "AGGFUNC"
  | FILL_VALUE => "FILL_VALUE" | LEVEL => "LEVEL" | RULE => "RULE"
  | CONDITION => "CONDITION" | PCT => "PCT" | DROP => "DROP"
  | IGNORE_INDEX => "IGNORE_INDEX" | DELIMITER => "DELIMITER" | ENCODING => "ENCODING"
  | HEADER => "HEADER" | NAMES => "NAMES" | USECOLS => "USECOLS" | DTYPE => "DTYPE"
  | SKIPROWS => "SKIPROWS" | NROWS => "NROWS" | NA_VALUES => "NA_VALUES"
  | THOUSANDS => "THOUSANDS" | DECIMAL => "DECIMAL" | COMMENT_CHAR => "COMMENT_CHAR"
  | SKIP_BLANK_LINES => "SKIP_BLANK_LINES" | PARSE_DATES => "PARSE_DATES"
  | DATE_FORMAT => "DATE_FORMAT" | CHUNKSIZE => "CHUNKSIZE"
  | COMPRESSION => "COMPRESSION" | LOW_MEMORY => "LOW_MEMORY"
  | MEMORY_MAP => "MEMORY_MAP" | ORIENT => "ORIENT" | TYP => "TYP"
  | CONVERT_AXES => "CONVERT_AXES" | CONVERT_DATES => "CONVERT_DATES"
  | PRECISE_FLOAT => "PRECISE_FLOAT" | DATE_UNIT => "DATE_UNIT" | LINES => "LINES"
  | SHEET => "SHEET" | SHEET_NAME => "SHEET_NAME" | INDEX_COL => "INDEX_COL"
  | ENGINE => "ENGINE" | CONVERTERS => "CONVERTERS" | SKIPFOOTER => "SKIPFOOTER"
  | FILTERS => "FILTERS" | USE_NULLABLE_DTYPES => "USE_NULLABLE_DTYPES"
  | STORAGE_OPTIONS => "STORAGE_OPTIONS" | PARAMS => "PARAMS"
  | COERCE_FLOAT => "COERCE_FLOAT" | INDEX => "INDEX" | INDEX_LABEL => "INDEX_LABEL"
  | NA_REP => "NA_REP" | MODE => "MODE" | QUOTING => "QUOTING" | QUOTECHAR => "QUOTECHAR"
  | ESCAPECHAR => "ESCAPECHAR" | LINETERMINATOR => "LINETERMINATOR"
  | FLOAT_FORMAT => "FLOAT_FORMAT" | TARGET => "TARGET" | CHARS => "CHARS"
  | GROUP => "GROUP" | STRING_LITERAL => "STRING_LITERAL"
  | NUMERIC_LITERAL => "NUMERIC_LITERAL" | BOOLEAN_LITERAL => "BOOLEAN_LITERAL"
  | IDENTIFIER => "IDENTIFIER" | EQ => "EQ" | NEQ => "NEQ" | LT => "LT" | GT => "GT"
  | LTE => "LTE" | GTE => "GTE" | ASSIGN => "ASSIGN" | PLUS => "PLUS" | MINUS => "MINUS"
  | STAR => "STAR" | SLASH => "SLASH" | PERCENT => "PERCENT" | DOT => "DOT"
  | LPAREN => "LPAREN" | RPAREN => "RPAREN" | LBRACE => "LBRACE" | RBRACE => "RBRACE"
  | LBRACKET => "LBRACKET" | RBRACKET => "RBRACKET" | COLON => "COLON" | COMMA => "COMMA"
  | NEWLINE => "NEWLINE" | EOF => "EOF" | COMMENT => "COMMENT"
  end.

(** Members are singletons: [==] on them is equality of their numbers. *)
Definition eqb (a b : t) : bool := Pos.eqb (value a) (value b).

(** [x in types]. *)
Definition mem (x : t) (types : list t) : bool := existsb (eqb x) types.

(** The keyword table built in [Lexer.__init__], in source order. *)
Definition keywords : list (string * t) :=
  [
    ("load", LOAD); ("select", SELECT); ("filter", FILTER); ("sort", SORT);
    ("join", JOIN); ("groupby", GROUPBY); ("sample", SAMPLE); ("dropna", DROPNA);
    ("fillna", FILLNA); ("mutate", MUTATE); ("apply", APPLY); ("describe", DESCRIBE);
    ("summary", SUMMARY); ("outliers", OUTLIERS); ("quantile", QUANTILE);
    ("normalize", NORMALIZE); ("binning", BINNING); ("rolling", ROLLING);
    ("hypothesis", HYPOTHESIS); ("boxplot", BOXPLOT); ("heatmap", HEATMAP);
    ("pairplot", PAIRPLOT); ("timeseries", TIMESERIES); ("pie", PIE); ("save", SAVE);
    ("export_plot", EXPORT_PLOT); ("info", INFO); ("unique", UNIQUE);
    ("value_counts", VALUE_COUNTS); ("show", SHOW); ("select_by_type", SELECT_BY_TYPE);
    ("head", HEAD); ("tail", TAIL); ("iloc", ILOC); ("loc", LOC); ("rename", RENAME);
    ("reorder", REORDER); ("filter_between", FILTER_BETWEEN);
    ("filter_isin", FILTER_ISIN); ("filter_contains", FILTER_CONTAINS);
    ("filter_startswith", FILTER_STARTSWITH); ("filter_endswith", FILTER_ENDSWITH);
    ("filter_regex", FILTER_REGEX); ("filter_null", FILTER_NULL);
    ("filter_notnull", FILTER_NOTNULL); ("filter_duplicates", FILTER_DUPLICATES);
    ("round", ROUND); ("abs", ABS); ("sqrt", SQRT); ("power", POWER); ("log", LOG);
    ("ceil", CEIL); ("floor", FLOOR); ("upper", UPPER); ("lower", LOWER);
    ("strip", STRIP); ("lstrip", LSTRIP); ("rstrip", RSTRIP); ("title", TITLE);
    ("capitalize", CAPITALIZE); ("replace", REPLACE); ("split", SPLIT);
    ("concat", CONCAT); ("substring", SUBSTRING); ("length", LENGTH);
    ("extract_regex", EXTRACT_REGEX); ("find", FIND); ("parse_datetime", PARSE_DATETIME);
    ("extract", EXTRACT); ("extract_year", EXTRACT_YEAR);
    ("extract_month", EXTRACT_MONTH); ("extract_day", EXTRACT_DAY);
    ("extract_hour", EXTRACT_HOUR); ("extract_minute", EXTRACT_MINUTE);
    ("extract_second", EXTRACT_SECOND); ("extract_dayofweek", EXTRACT_DAYOFWEEK);
    ("extract_dayofyear", EXTRACT_DAYOFYEAR); ("extract_weekofyear", EXTRACT_WEEKOFYEAR);
    ("extract_quarter", EXTRACT_QUARTER); ("date_diff", DATE_DIFF);
    ("date_add", DATE_ADD); ("date_subtract", DATE_SUBTRACT);
    ("format_datetime", FORMAT_DATETIME); ("astype", ASTYPE); ("to_numeric", TO_NUMERIC);
    ("one_hot_encode", ONE_HOT_ENCODE); ("label_encode", LABEL_ENCODE);
    ("standard_scale", STANDARD_SCALE); ("minmax_scale", MINMAX_SCALE);
    ("isnull", ISNULL); ("notnull", NOTNULL); ("count_na", COUNT_NA);
    ("fill_forward", FILL_FORWARD); ("fill_backward", FILL_BACKWARD);
    ("fill_mean", FILL_MEAN); ("fill_median", FILL_MEDIAN); ("fill_mode", FILL_MODE);
    ("interpolate", INTERPOLATE); ("duplicated", DUPLICATED);
    ("count_duplicates", COUNT_DUPLICATES); ("drop_duplicates", DROP_DUPLICATES);
    ("qcut", QCUT); ("cut", CUT); ("sort_index", SORT_INDEX); ("rank", RANK);
    ("filter_groups", FILTER_GROUPS); ("group_transform", GROUP_TRANSFORM);
    ("window_rank", WINDOW_RANK); ("window_lag", WINDOW_LAG);
    ("window_lead", WINDOW_LEAD); ("rolling_mean", ROLLING_MEAN);
    ("rolling_sum", ROLLING_SUM); ("rolling_std", ROLLING_STD);
    ("rolling_min", ROLLING_MIN); ("rolling_max", ROLLING_MAX);
    ("expanding_mean", EXPANDING_MEAN); ("expanding_sum", EXPANDING_SUM);
    ("expanding_min", EXPANDING_MIN); ("expanding_max", EXPANDING_MAX);
    ("cumsum", CUMSUM); ("cummax", CUMMAX); ("cummin", CUMMIN); ("cumprod", CUMPROD);
    ("pct_change", PCT_CHANGE); ("diff", DIFF); ("shift", SHIFT); ("pivot", PIVOT);
    ("pivot_table", PIVOT_TABLE); ("melt", MELT); ("stack", STACK); ("unstack", UNSTACK);
    ("transpose", TRANSPOSE); ("crosstab", CROSSTAB); ("merge", MERGE);
    ("concat_vertical", CONCAT_VERTICAL); ("concat_horizontal", CONCAT_HORIZONTAL);
    ("union", UNION); ("intersection", INTERSECTION); ("difference", DIFFERENCE);
    ("set_index", SET_INDEX); ("reset_index", RESET_INDEX); ("apply_row", APPLY_ROW);
    ("apply_column", APPLY_COLUMN); ("map", MAP); ("applymap", APPLYMAP);
    ("map_values", MAP_VALUES); ("resample", RESAMPLE); ("assign", ASSIGN_CONST);
    ("robust_scale", ROBUST_SCALE); ("maxabs_scale", MAXABS_SCALE);
    ("ordinal_encode", ORDINAL_ENCODE); ("target_encode", TARGET_ENCODE);
    ("assert_unique", ASSERT_UNIQUE); ("assert_no_nulls", ASSERT_NO_NULLS);
    ("assert_range", ASSERT_RANGE); ("reindex", REINDEX);
    ("set_multiindex", SET_MULTIINDEX); ("any", ANY); ("all", ALL);
    ("count_true", COUNT_TRUE); ("compare", COMPARE); ("csv", CSV); ("json", JSON);
    ("excel", EXCEL); ("parquet", PARQUET); ("sql", SQL); ("as", AS); ("by", BY);
    ("with", WITH); ("on", ON); ("from", FROM); ("agg", AGG); ("compute", COMPUTE);
    ("column", COLUMN); ("columns", COLUMNS); ("transform", TRANSFORM); ("value", VALUE);
    ("values", VALUES); ("n", N); ("random", RANDOM); ("method", METHOD); ("q", Q);
    ("bins", BINS); ("window", WINDOW); ("function", FUNCTION); ("vs", VS);
    ("test", TEST); ("x", X); ("y", Y); ("labels", LABELS); ("to", TO);
    ("format", FORMAT); ("filename", FILENAME); ("width", WIDTH); ("height", HEIGHT);
    ("desc", DESC); ("where", WHERE); ("asc", ASC); ("type", TYPE); ("rows", ROWS);
    ("mapping", MAPPING); ("order", ORDER); ("limit", LIMIT); ("offset", OFFSET);
    ("first", FIRST); ("last", LAST); ("min", MIN); ("max", MAX); ("pattern", PATTERN);
    ("keep", KEEP); ("subset", SUBSET); ("and", AND); ("or", OR); ("not", NOT);
    ("in", IN); ("between", BETWEEN); ("contains", CONTAINS);
    ("starts_with", STARTS_WITH); ("ends_with", ENDS_WITH); ("matches", MATCHES);
    ("is", IS); ("null", NULL); ("true", BOOLEAN_LITERAL); ("false", BOOLEAN_LITERAL);
    ("part", PART); ("decimals", DECIMALS); ("exponent", EXPONENT); ("base", BASE);
    ("separator", SEPARATOR); ("unit", UNIT); ("old", OLD); ("new", NEW);
    ("target", TARGET); ("chars", CHARS); ("group", GROUP);
    ("delimiter_str", DELIMITER_STR); ("start", START); ("end", END);
    ("dtype_str", DTYPE_STR); ("errors", ERRORS); ("strategy", STRATEGY); ("axis", AXIS);
    ("ascending", ASCENDING); ("periods", PERIODS); ("id_vars", ID_VARS);
    ("value_vars", VALUE_VARS); ("var_name", VAR_NAME); ("value_name", VALUE_NAME);
    ("left", LEFT); ("right", RIGHT); ("left_on", LEFT_ON); ("right_on", RIGHT_ON);
    ("suffixes", SUFFIXES); ("how", HOW); ("aggfunc", AGGFUNC);
    ("fill_value", FILL_VALUE); ("level", LEVEL); ("rule", RULE);
    ("condition", CONDITION); ("pct", PCT); ("drop", DROP);
    ("ignore_index", IGNORE_INDEX); ("delimiter", DELIMITER); ("encoding", ENCODING);
    ("header", HEADER); ("names", NAMES); ("usecols", USECOLS); ("dtype", DTYPE);
    ("skiprows", SKIPROWS); ("nrows", NROWS); ("na_values", NA_VALUES);
    ("thousands", THOUSANDS); ("decimal", DECIMAL); ("comment", COMMENT_CHAR);
    ("skip_blank_lines", SKIP_BLANK_LINES); ("parse_dates", PARSE_DATES);
    ("date_format", DATE_FORMAT); ("chunksize", CHUNKSIZE); ("compression", COMPRESSION);
    ("low_memory", LOW_MEMORY); ("memory_map", MEMORY_MAP); ("orient", ORIENT);
    ("typ", TYP); ("convert_axes", CONVERT_AXES); ("convert_dates", CONVERT_DATES);
    ("precise_float", PRECISE_FLOAT); ("date_unit", DATE_UNIT); ("lines", LINES);
    ("sheet", SHEET); ("sheet_name", SHEET_NAME); ("index_col", INDEX_COL);
    ("engine", ENGINE); ("converters", CONVERTERS); ("skipfooter", SKIPFOOTER);
    ("filters", FILTERS); ("use_nullable_dtypes", USE_NULLABLE_DTYPES);
    ("storage_options", STORAGE_OPTIONS); ("params", PARAMS);
    ("coerce_float", COERCE_FLOAT); ("index", INDEX); ("index_label", INDEX_LABEL);
    ("na_rep", NA_REP); ("mode", MODE); ("quoting", QUOTING); ("quotechar", QUOTECHAR);
    ("escapechar", ESCAPECHAR); ("lineterminator", LINETERMINATOR);
    ("float_format", FLOAT_FORMAT) ].

End TokenType.

(** The [value] carried by a token: text for identifiers, keywords, strings
    and operators; a number for numeric literals; a boolean; [None] at the end
    marker. *)
Inductive TokenValue : Set :=
  | VStr (s : string)
  | VInt (n : Z)
  | VFloat (literal : string)
  | VBool (b : bool)
  | VNone.

Record Token : Set := mkToken {
  tok_type : TokenType.t;
  tok_value : TokenValue;
  tok_line : nat;
  tok_column : nat
}.

(** The value of a string of decimal digits. *)
Fixpoint int_of_digits (acc : Z) (digits : string) : Z :=
  match digits with
  | EmptyString => acc
  | String c rest =>
      int_of_digits (10 * acc + Z.of_nat (nat_of_ascii c - 48))%Z rest
  end.

(** The default of [sys.get_int_max_str_digits()]: CPython 3.11 and later
    refuse to convert a text of more digits than this to an [int]; earlier
    versions have no limit. *)
Definition int_max_str_digits : nat := 4300.

(** The number of decimal digits a text starts with. *)
Fixpoint leading_digits (s : string) : nat :=
  match s with
  | EmptyString => 0
  | String c rest => if isdecimal c then S (leading_digits rest) else 0
  end.

(** [int(value)] for a text of digit characters. [int] counts the decimal
    digits the text starts with against the limit before it looks at the
    rest; the [repr] of such a text is the text in single quotes. *)
Definition py_int (value : string) : outcome Z :=
  let digits := leading_digits value in
  if (int_max_str_digits <? digits)%nat then
    Raise (PyExc ValueError
             ("Exceeds the limit (" ++ str_nat int_max_str_digits
              ++ " digits) for integer string conversion: value has "
              ++ str_nat digits
              ++ " digits; use sys.set_int_max_str_digits() to increase the limit"))
  else if (0 <? digits)%nat && all_chars isdecimal value then
    Ok (int_of_digits 0 value)
  else
    Raise (PyExc ValueError
             ("invalid literal for int() with base 10: '" ++ value ++ "'")).

Fixpoint count_char (c : ascii) (s : string) : nat :=
  match s with
  | EmptyString => 0
  | String d rest => (if Ascii.eqb c d then 1 else 0) + count_char c rest
  end.

(* --------------------------------------------------------------------- *)
(** ** Floats *)
(* --------------------------------------------------------------------- *)

Local Open Scope Z_scope.

(** The floats that [float] makes of a numeric token value: zero, a
    finite value [m * 2 ^ e] or its negative, with [2 ^ 52 <= m < 2 ^ 53]
    (or [m < 2 ^ 52] and [e = -1074], a subnormal), or infinity. *)
Inductive double : Set :=
  | DZero
  | DFinite (negative : bool) (m e : Z)
  | DInf.

(** [b ^ z], and one when [z] is negative: the factor that [b ^ z]
    gives to the numerator of a fraction. *)
Definition power (b z : Z) : Z := if z <? 0 then 1 else b ^ z.

Definition double_eqb (a b : double) : bool :=
  match a, b with
  | DZero, DZero | DInf, DInf => true
  | DFinite s m e, DFinite s' m' e' => Bool.eqb s s' && (m =? m') && (e =? e')
  | _, _ => false
  end.

(** The float nearest to [num / den], ties to the even mantissa, as the
    IEEE 754 conversion of CPython rounds; [0 <= num] and [0 < den]. *)
Definition round_double (num den : Z) : double :=
  if num <=? 0 then DZero
  else
    let l := Z.log2 num - Z.log2 den in
    let k := if (den * power 2 l <=? num * power 2 (- l)) then l else l - 1 in
    let e := Z.max (k - 52) (-1074) in
    let n' := num * power 2 (- e) in
    let d' := den * power 2 e in
    let q := n' / d' in
    let r := n' mod d' in
    let m := if (d' <? 2 * r) || ((d' =? 2 * r) && Z.odd q) then q + 1 else q in
    let '(m, e) := if m =? 2 ^ 53 then (2 ^ 52, e + 1) else (m, e) in
    if m =? 0 then DZero
    else if 971 <? e then DInf
    else DFinite false m e.

(** [float(literal)] for decimal digits around one dot. *)
Definition float_of_literal (literal : string) : double :=
  match split_on "."%char literal with
  | whole :: fraction :: _ =>
      round_double (int_of_digits 0 (whole ++ fraction))
                   (10 ^ Z.of_nat (String.length fraction))
  | _ => round_double (int_of_digits 0 literal) 1
  end.

(** [float(n)] for an integer within the range of the floats. *)
Definition float_of_Z (n : Z) : double :=
  match round_double (Z.abs n) 1 with
  | DFinite _ m e => DFinite (n <? 0) m e
  | other => other
  end.

(** [bool(x)] for a float. *)
Definition double_truthy (x : double) : bool :=
  match x with
  | DZero => false
  | _ => true
  end.

(** The greatest [k] from [k] up with [10 ^ (k + 1) <= num / den] no more,
    on a budget. *)
Fixpoint floor_log10_from (fuel : nat) (k num den : Z) : Z :=
  match fuel with
  | O => k
  | S fuel' =>
      if den * power 10 (k + 1) <=? num * power 10 (- (k + 1))
      then floor_log10_from fuel' (k + 1) num den
      else k
  end.

(** [floor(log10(num / den))] for [0 < num / den]: the binary logarithm
    times [log10(2)] is at most one away from it. *)
Definition floor_log10 (num den : Z) : Z :=
  let estimate := (Z.log2 num - Z.log2 den) * 30103 / 100000 in
  floor_log10_from 4 (estimate - 2) num den.

(** The candidate with [n] digits for the shortest text of the float [x],
    whose value is [num / den] and whose decimal logarithm is [log10]: the
    mantissa [c] and the exponent [p] of the decimal [c * 10 ^ p] with [n]
    digits nearest to the float, if it converts back to it. *)
Definition shortest_candidate (x : double) (num den log10 : Z) (n : Z)
  : option (Z * Z) :=
  let p := log10 - (n - 1) in
  let n' := num * power 10 (- p) in
  let d' := den * power 10 p in
  let lo := n' / d' in
  let r := n' mod d' in
  let hi := lo + 1 in
  let back c := double_eqb (round_double (c * power 10 p) (power 10 (- p))) x in
  let nearer_hi := (d' <? 2 * r) || ((d' =? 2 * r) && Z.odd lo) in
  match back lo, back hi with
  | true, true => Some (if nearer_hi then hi else lo, p)
  | true, false => Some (lo, p)
  | false, true => Some (hi, p)
  | false, false => None
  end.

Fixpoint shortest_from (fuel : nat) (x : double) (num den log10 : Z) (n : Z) : Z * Z :=
  match fuel with
  | O => (num / den, 0)
  | S fuel' =>
      match shortest_candidate x num den log10 n with
      | Some found => found
      | None => shortest_from fuel' x num den log10 (n + 1)
      end
  end.

Fixpoint strip_zeros (fuel : nat) (c p : Z) : Z * Z :=
  match fuel with
  | O => (c, p)
  | S fuel' => if (c mod 10 =? 0) && (0 <? c) then strip_zeros fuel' (c / 10) (p + 1) else (c, p)
  end.

(** The digits of the shortest decimal that converts back to the float, and
    the place of the decimal point: the float is [0.digits * 10 ^ point]. *)
Definition shortest_digits (x : double) : string * Z :=
  match x with
  | DFinite _ m e =>
      let num := m * power 2 e in
      let den := power 2 (- e) in
      let '(c, p) := shortest_from 17 x num den (floor_log10 num den) 1 in
      let '(c, p) := strip_zeros 20 c p in
      let digits := str_Z c in
      (digits, Z.of_nat (String.length digits) + p)
  | _ => (EmptyString, 0)
  end.

(** [repr(x)], which is [str(x)], for a float: the shortest decimal that
    converts back to [x], written with an exponent when the decimal point
    is more than 16 places to the right of the first digit or more than
    3 to the left. *)
Definition double_repr (x : double) : string :=
  match x with
  | DZero => "0.0"
  | DInf => "inf"
  | DFinite negative _ _ =>
      let '(digits, point) := shortest_digits (match x with
                                               | DFinite _ m e => DFinite false m e
                                               | other => other
                                               end) in
      let n := Z.of_nat (String.length digits) in
      (if negative then "-" else EmptyString) ++
      if (16 <? point) || (point <? -3) then
        let exponent := point - 1 in
        let tail := substring 1 (String.length digits - 1) digits in
        let shown := str_Z (Z.abs exponent) in
        substring 0 1 digits
        ++ (match tail with EmptyString => EmptyString | _ => "." ++ tail end)
        ++ "e" ++ (if exponent <? 0 then "-" else "+")
        ++ (if Z.abs exponent <? 10 then "0" else EmptyString) ++ shown
      else if point <=? 0 then
        "0." ++ repeat_str "0" (Z.to_nat (- point)) ++ digits
      else if n <=? point then
        digits ++ repeat_str "0" (Z.to_nat (point - n)) ++ ".0"
      else
        substring 0 (Z.to_nat point) digits ++ "."
        ++ substring (Z.to_nat point) (String.length digits - Z.to_nat point) digits
  end.

Local Close Scope Z_scope.

(** The texts of digit characters and dots that [float] accepts: decimal
    digits around exactly one dot, with a digit on one side at least. *)
Definition float_literal (value : string) : bool :=
  (count_char "."%char value =? 1)%nat
  && all_chars (fun c => isdecimal c || Ascii.eqb c "."%char) value
  && (2 <=? String.length value)%nat.

(* ===================================================================== *)
(** * Lexer *)
(* ===================================================================== *)

Module Lexer.

(** The fields [source], [line], [column] of a [Lexer]; [rest] is
    [source[pos:]], which stands for [pos]. *)
Record state : Set := mk {
  source : string;
  rest : string;
  line : nat;
  column : nat
}.

Definition init (source : string) : state := mk source source 1 1.

Definition current_char (lx : state) : option ascii :=
  match rest lx with
  | EmptyString => None
  | String c _ => Some c
  end.

(** [peek_char()] with its default offset of one. *)
Definition peek_char (lx : state) : option ascii :=
  match rest lx with
  | String _ (String c _) => Some c
  | _ => None
  end.

Definition _get_current_line (lx : state) : string :=
  let lines := split_on LF (source lx) in
  if ((0 <? line lx) && (line lx <=? length lines))%nat
  then nth (line lx - 1) lines EmptyString
  else EmptyString.

Definition advance (lx : state) : state :=
  match rest lx with
  | String c r =>
      if Ascii.eqb c LF then mk (source lx) r (line lx + 1) 1
      else mk (source lx) r (line lx) (column lx + 1)
  | EmptyString => mk (source lx) EmptyString (line lx) (column lx + 1)
  end.

(** Space, tab and carriage return. *)
Definition blanks : string :=
  String " "%char (String "009"%char (String "013"%char EmptyString)).

Definition is_char (o : option ascii) (c : ascii) : bool :=
  match o with
  | Some d => Ascii.eqb d c
  | None => false
  end.

(** Loops that consume at least one character per iteration run on a
    budget of the number of characters left: when it is used up the input
    is used up too, and the loop condition is false. *)
Fixpoint skip_whitespace_loop (fuel : nat) (lx : state) : state :=
  match fuel with
  | 0 => lx
  | S fuel' =>
      match current_char lx with
      | Some c => if char_in c blanks then skip_whitespace_loop fuel' (advance lx) else lx
      | None => lx
      end
  end.

Definition skip_whitespace (lx : state) : state :=
  skip_whitespace_loop (String.length (rest lx)) lx.

Fixpoint skip_comment_loop (fuel : nat) (lx : state) : state :=
  match fuel with
  | 0 => lx
  | S fuel' =>
      match current_char lx with
      | Some c => if Ascii.eqb c LF then lx else skip_comment_loop fuel' (advance lx)
      | None => lx
      end
  end.

Definition skip_comment (lx : state) : state :=
  if is_char (current_char lx) "#"%char
  then skip_comment_loop (String.length (rest lx)) lx
  else lx.

Fixpoint read_string_loop (fuel : nat) (value : string) (lx : state)
  : string * state :=
  match fuel with
  | 0 => (value, lx)
  | S fuel' =>
      match current_char lx with
      | Some c =>
          if Ascii.eqb c "034"%char then (value, lx)
          else if Ascii.eqb c "\"%char && is_char (peek_char lx) "034"%char
          then read_string_loop fuel' (value ++ dq) (advance (advance lx))
          else read_string_loop fuel' (value ++ String c EmptyString) (advance lx)
      | None => (value, lx)
      end
  end.

(** [read_string]: no error is raised when the input ends before the
    closing quote. *)
Definition read_string (lx : state) : string * state :=
  let lx1 := advance lx in
  let '(value, lx2) := read_string_loop (String.length (rest lx1)) EmptyString lx1 in
  if is_char (current_char lx2) "034"%char then (value, advance lx2)
  else (value, lx2).

Fixpoint read_number_loop (fuel : nat) (value : string) (lx : state)
  : string * state :=
  match fuel with
  | 0 => (value, lx)
  | S fuel' =>
      match current_char lx with
      | Some c =>
          if isdigit c || Ascii.eqb c "."%char
          then read_number_loop fuel' (value ++ String c EmptyString) (advance lx)
          else (value, lx)
      | None => (value, lx)
      end
  end.

(** [float(value) if '.' in value else int(value)]. The state is the one
    after the loop. *)
Definition read_number (lx : state) : outcome TokenValue * state :=
  let '(value, lx') := read_number_loop (String.length (rest lx)) EmptyString lx in
  if char_in "."%char value then
    if float_literal value then (Ok (VFloat value), lx')
    else (Raise (PyExc ValueError
                   ("could not convert string to float: '" ++ value ++ "'")), lx')
  else
    match py_int value with
    | Ok n => (Ok (VInt n), lx')
    | Raise e => (Raise e, lx')
    end.

Fixpoint read_identifier_loop (fuel : nat) (value : string) (lx : state)
  : string * state :=
  match fuel with
  | 0 => (value, lx)
  | S fuel' =>
      match current_char lx with
      | Some c =>
          if isalnum c || Ascii.eqb c "_"%char
          then read_identifier_loop fuel' (value ++ String c EmptyString) (advance lx)
          else (value, lx)
      | None => (value, lx)
      end
  end.

Definition read_identifier (lx : state) : string * state :=
  read_identifier_loop (String.length (rest lx)) EmptyString lx.

(** The operator and punctuation part of [next_token], in source order:
    [c] is the current character, [line] and [col] were saved before. *)
Definition operator_token (lx : state) (c : ascii) : outcome (Token * state) :=
  let line := line lx in
  let col := column lx in
  let peek := peek_char lx in
  let one (ty : TokenType.t) :=
    Ok (mkToken ty (VStr (String c EmptyString)) line col, advance lx) in
  let two (ty : TokenType.t) (text : string) :=
    Ok (mkToken ty (VStr text) line col, advance (advance lx)) in
  if Ascii.eqb c "="%char && is_char peek "="%char then two TokenType.EQ "=="
  else if Ascii.eqb c "!"%char && is_char peek "="%char then two TokenType.NEQ "!="
  else if Ascii.eqb c "<"%char && is_char peek "="%char then two TokenType.LTE "<="
  else if Ascii.eqb c ">"%char && is_char peek "="%char then two TokenType.GTE ">="
  else if Ascii.eqb c "<"%char then one TokenType.LT
  else if Ascii.eqb c ">"%char then one TokenType.GT
  else if Ascii.eqb c "="%char then one TokenType.ASSIGN
  else if Ascii.eqb c "+"%char then one TokenType.PLUS
  else if Ascii.eqb c "-"%char then one TokenType.MINUS
  else if Ascii.eqb c "*"%char then one TokenType.STAR
  else if Ascii.eqb c "/"%char then one TokenType.SLASH
  else if Ascii.eqb c "%"%char then one TokenType.PERCENT
  else if Ascii.eqb c "*"%char && is_char peek "*"%char then two TokenType.EXPONENT "**"
  else if Ascii.eqb c "."%char then one TokenType.DOT
  else if Ascii.eqb c "("%char then one TokenType.LPAREN
  else if Ascii.eqb c ")"%char then one TokenType.RPAREN
  else if Ascii.eqb c "{"%char then one TokenType.LBRACE
  else if Ascii.eqb c "}"%char then one TokenType.RBRACE
  else if Ascii.eqb c "["%char then one TokenType.LBRACKET
  else if Ascii.eqb c "]"%char then one TokenType.RBRACKET
  else if Ascii.eqb c ":"%char then one TokenType.COLON
  else if Ascii.eqb c ","%char then one TokenType.COMMA
  else
    let context := ErrorContext_new (Lexer.line lx) (column lx) 1 (_get_current_line lx) in
    Raise (NoetaExc (mkNoetaError
      ("Unexpected character '" ++ String c EmptyString ++ "'")
      LEXER (Some context)
      (Some "This character is not valid in Noeta syntax") None)).

(** [next_token]: the [while] loop iterates again only after blanks or a
    comment were skipped, so it runs on the same budget as the loops above. *)
Fixpoint next_token_loop (fuel : nat) (lx : state) : outcome (Token * state) :=
  match current_char lx with
  | None => Ok (mkToken TokenType.EOF VNone (line lx) (column lx), lx)
  | Some c =>
      if char_in c blanks then
        match fuel with
        | 0 => Ok (mkToken TokenType.EOF VNone (line lx) (column lx), lx)
        | S fuel' => next_token_loop fuel' (skip_whitespace lx)
        end
      else if Ascii.eqb c LF then
        Ok (mkToken TokenType.NEWLINE (VStr nl) (line lx) (column lx), advance lx)
      else if Ascii.eqb c "#"%char then
        match fuel with
        | 0 => Ok (mkToken TokenType.EOF VNone (line lx) (column lx), lx)
        | S fuel' => next_token_loop fuel' (skip_comment lx)
        end
      else if Ascii.eqb c "034"%char then
        let '(value, lx') := read_string lx in
        Ok (mkToken TokenType.STRING_LITERAL (VStr value) (line lx) (column lx), lx')
      else if isdigit c then
        match read_number lx with
        | (Ok value, lx') =>
            Ok (mkToken TokenType.NUMERIC_LITERAL value (line lx) (column lx), lx')
        | (Raise e, _) => Raise e
        end
      else if isalpha c || Ascii.eqb c "_"%char then
        let '(value, lx') := read_identifier lx in
        if String.eqb (lower value) "true" then
          Ok (mkToken TokenType.BOOLEAN_LITERAL (VBool true) (line lx) (column lx), lx')
        else if String.eqb (lower value) "false" then
          Ok (mkToken TokenType.BOOLEAN_LITERAL (VBool false) (line lx) (column lx), lx')
        else
          let token_type :=
            match assoc_get (lower value) TokenType.keywords with
            | Some ty => ty
            | None => TokenType.IDENTIFIER
            end in
          Ok (mkToken token_type (VStr value) (line lx) (column lx), lx')
      else operator_token lx c
  end.

Definition next_token (lx : state) : outcome (Token * state) :=
  next_token_loop (String.length (rest lx)) lx.

(** [tokenize]: newline tokens are dropped, the end marker is kept and
    ends the loop. Every other token consumes a character. *)
Fixpoint tokenize_loop (fuel : nat) (tokens : list Token) (lx : state)
  : outcome (list Token) :=
  match next_token lx with
  | Raise e => Raise e
  | Ok (token, lx') =>
      let tokens' :=
        if TokenType.eqb (tok_type token) TokenType.NEWLINE then tokens
        else List.app tokens [token] in
      if TokenType.eqb (tok_type token) TokenType.EOF then Ok tokens'
      else
        match fuel with
        | 0 => Ok tokens'
        | S fuel' => tokenize_loop fuel' tokens' lx'
        end
  end.

Definition tokenize (source : string) : outcome (list Token) :=
  tokenize_loop (String.length source) [] (init source).

End Lexer.

(* ===================================================================== *)
(** * AST model ([noeta_ast.py]) *)
(* ===================================================================== *)

(** Values built by [Parser.parse_value]. *)
Inductive Value : Set :=
  | PStr (s : string)
  | PInt (n : Z)
  | PFloat (literal : string)
  | PBool (b : bool)
  | PNone
  | PList (items : list Value)
  | PDict (entries : list (string * Value)).

Definition Value_of_token (v : TokenValue) : Value :=
  match v with
  | VStr s => PStr s
  | VInt n => PInt n
  | VFloat l => PFloat l
  | VBool b => PBool b
  | VNone => PNone
  end.

(** The text of a token. The lexer gives every identifier, keyword, string
    and operator token a [str] value (lemma [next_token_text] below); the
    other kinds are never read as text by the modelled routines. *)
Definition tok_text (t : Token) : string :=
  match tok_value t with
  | VStr s => s
  | _ => EmptyString
  end.

(** [d[k] = v] on a dict: an existing key keeps its place. *)
Fixpoint dict_set (V : Type) (k : string) (v : V) (d : list (string * V))
  : list (string * V) :=
  match d with
  | [] => [(k, v)]
  | (k', v') :: rest =>
      if String.eqb k k' then (k, v) :: rest else (k', v') :: dict_set k v rest
  end.

(** The condition tree of the [where] clause. *)
Inductive CompoundConditionNode : Set :=
  | BinaryConditionNode (left : CompoundConditionNode) (operator : string)
      (right : CompoundConditionNode)
  | NotConditionNode (condition : CompoundConditionNode)
  | ComparisonNode (left : string) (operator : string) (right : Value)
  | BetweenNode (column : string) (min_value max_value : Value)
  | InNode (column : string) (values : list Value)
  | StringMatchNode (column match_type pattern : string)
  | NullCheckNode (column : string) (is_not_null : bool).

(** The expression tree of the DSL expression language. *)
Inductive ExpressionNode : Set :=
  | BinaryOpNode (left : ExpressionNode) (operator : string) (right : ExpressionNode)
  | UnaryOpNode (operator : string) (operand : ExpressionNode)
  | LiteralNode (value : Value)
  | IdentifierNode (name : string)
  | FunctionCallNode (function_name : string) (arguments : list ExpressionNode)
  | ConditionalExprNode (condition true_expr false_expr : ExpressionNode).

(** [MutationNode.expression] is a string in the brace syntax and an
    expression tree in the [with] syntax. *)
Inductive MutationExpr : Set :=
  | MText (s : string)
  | MTree (e : ExpressionNode).

Record MutationNode : Set := mkMutationNode {
  new_column : string;
  expression : MutationExpr
}.

Section Nodes.
  (** Statement nodes of the kinds that are not modelled. *)
  Variable Unmodelled : Type.

(** The fields of the statement classes, in declaration order. *)
Inductive Statement : Type :=
  | LoadNode (filepath alias : string) (format : option Value)
      (params : option (list (string * Value)))
  | LoadCSVNode (filepath : string) (params : list (string * Value)) (alias : string)
  | LoadJSONNode (filepath : string) (params : list (string * Value)) (alias : string)
  | LoadExcelNode (filepath : string) (params : list (string * Value)) (alias : string)
  | LoadParquetNode (filepath : string) (params : list (string * Value)) (alias : string)
  | LoadSQLNode (query connection : string) (params : list (string * Value))
      (alias : string)
  | SaveNode (source_alias filepath : string) (format : option Value)
      (params : option (list (string * Value)))
  | SaveCSVNode (source_alias filepath : string) (params : list (string * Value))
  | SaveJSONNode (source_alias filepath : string) (params : list (string * Value))
  | SaveExcelNode (source_alias filepath : string) (params : list (string * Value))
  | SaveParquetNode (source_alias filepath : string) (params : list (string * Value))
  | SelectNode (source_alias : string) (columns : list string)
      (new_alias : option string)
  | UpdatedFilterNode (source_alias : string) (condition : CompoundConditionNode)
      (new_alias : option string)
  | JoinNode (alias1 alias2 join_column : string) (new_alias : option string)
  | MutateNode (source_alias : string) (mutations : list MutationNode)
      (new_alias : option string)
  | DescribeNode (source_alias : string) (columns : option (list string))
  | SummaryNode (source_alias : string)
  | InfoNode (source_alias : string)
  | CountNANode (source_alias : string)
  | PowerNode (source_alias column : string) (new_alias : option string)
      (exponent : double)
  | UnmodelledNode (u : Unmodelled).

(** An [ASTNode] object: the position attributes of the base class and the
    fields of its class. (A class with a data field called [column] keeps
    that field under the attribute name; only [line] is read before
    [column] is looked at, see [create_semantic_error].) *)
Record ASTNode : Type := mkASTNode {
  node_line : nat;
  node_column : nat;
  node_stmt : Statement
}.

(** Construction by the dataclass [__init__] followed by [__post_init__]:
    both position attributes start at zero. *)
Definition new_node (s : Statement) : ASTNode := mkASTNode 0 0 s.

Definition set_position (line column : nat) (n : ASTNode) : ASTNode :=
  mkASTNode line column (node_stmt n).

(** [ProgramNode.statements]. *)
Definition ProgramNode : Type := list ASTNode.

(** The class name used by the visitors' [getattr] dispatch. *)
Definition class_name (unmodelled_class_name : Unmodelled -> string)
  (s : Statement) : string :=
  match s with
  | LoadNode _ _ _ _ => "LoadNode"
  | LoadCSVNode _ _ _ => "LoadCSVNode"
  | LoadJSONNode _ _ _ => "LoadJSONNode"
  | LoadExcelNode _ _ _ => "LoadExcelNode"
  | LoadParquetNode _ _ _ => "LoadParquetNode"
  | LoadSQLNode _ _ _ _ => "LoadSQLNode"
  | SaveNode _ _ _ _ => "SaveNode"
  | SaveCSVNode _ _ _ => "SaveCSVNode"
  | SaveJSONNode _ _ _ => "SaveJSONNode"
  | SaveExcelNode _ _ _ => "SaveExcelNode"
  | SaveParquetNode _ _ _ => "SaveParquetNode"
  | SelectNode _ _ _ => "SelectNode"
  | UpdatedFilterNode _ _ _ => "UpdatedFilterNode"
  | JoinNode _ _ _ _ => "JoinNode"
  | MutateNode _ _ _ => "MutateNode"
  | DescribeNode _ _ => "DescribeNode"
  | SummaryNode _ => "SummaryNode"
  | InfoNode _ => "InfoNode"
  | CountNANode _ => "CountNANode"
  | PowerNode _ _ _ _ => "PowerNode"
  | UnmodelledNode u => unmodelled_class_name u
  end.
End Nodes.

Arguments LoadNode {Unmodelled}.
Arguments LoadCSVNode {Unmodelled}.
Arguments LoadJSONNode {Unmodelled}.
Arguments LoadExcelNode {Unmodelled}.
Arguments LoadParquetNode {Unmodelled}.
Arguments LoadSQLNode {Unmodelled}.
Arguments SaveNode {Unmodelled}.
Arguments SaveCSVNode {Unmodelled}.
Arguments SaveJSONNode {Unmodelled}.
Arguments SaveExcelNode {Unmodelled}.
Arguments SaveParquetNode {Unmodelled}.
Arguments SelectNode {Unmodelled}.
Arguments UpdatedFilterNode {Unmodelled}.
Arguments JoinNode {Unmodelled}.
Arguments MutateNode {Unmodelled}.
Arguments DescribeNode {Unmodelled}.
Arguments SummaryNode {Unmodelled}.
Arguments InfoNode {Unmodelled}.
Arguments CountNANode {Unmodelled}.
Arguments PowerNode {Unmodelled}.
Arguments UnmodelledNode {Unmodelled}.

(* --------------------------------------------------------------------- *)
(** ** The other statement classes the analyzer visits *)
(* --------------------------------------------------------------------- *)

(** The statement classes outside [Statement] for which [noeta_semantic.py]
    has a visitor, grouped by what the visitor does. The visitors
    [visit_ExplodeNode], [visit_AppendNode], [visit_CrossJoinNode],
    [visit_CorrNode] and [visit_CovNode] are for classes that [noeta_ast.py]
    does not define; no node reaches them. *)

(** The classes whose visitor looks up [source_alias] and registers
    [new_alias] with a copy of the schema of the source. *)
Inductive CopyClass : Set :=
  | FilterNode | HeadNode | TailNode | SampleNode | ILocNode | LocNode
  | RenameColumnsNode | ReorderColumnsNode | FilterStartsWithNode | FilterEndsWithNode
  | FilterRegexNode | FilterNotNullNode | FilterDuplicatesNode | SortNode | ApplyNode
  | AbsNode | SqrtNode | LogNode | CeilNode | FloorNode | StripNode | LStripNode
  | RStripNode | ReplaceNode | SplitNode | ConcatNode | SubstringNode | LengthNode
  | TitleNode | CapitalizeNode | ExtractRegexNode | FindNode | ParseDatetimeNode
  | ExtractYearNode | ExtractMonthNode | ExtractDayNode | ExtractHourNode
  | ExtractMinuteNode | ExtractSecondNode | ExtractDayOfWeekNode | ExtractDayOfYearNode
  | ExtractWeekOfYearNode | ExtractQuarterNode | DateAddNode | DateSubtractNode
  | FormatDateTimeNode | DateDiffNode | ToNumericNode | LabelEncodeNode
  | OrdinalEncodeNode | TargetEncodeNode | StandardScaleNode | MinMaxScaleNode
  | RobustScaleNode | MaxAbsScaleNode | CumSumNode | CumMaxNode | CumMinNode
  | CumProdNode | PctChangeNode | DiffNode | ShiftNode | SetIndexNode | ResetIndexNode
  | SortIndexNode | ReindexNode | SetMultiIndexNode | RankNode | WindowRankNode
  | WindowLagNode | WindowLeadNode | RollingNode | RollingMeanNode | RollingSumNode
  | RollingStdNode | RollingMinNode | RollingMaxNode | ExpandingMeanNode
  | ExpandingSumNode | ExpandingMinNode | ExpandingMaxNode | BinningNode | QcutNode
  | ApplyMapNode | MapValuesNode.

(** The classes whose visitor looks up [source_alias] and registers
    [new_alias] with an empty schema. *)
Inductive ReshapeClass : Set :=
  | SelectByTypeNode | OneHotEncodeNode | PivotNode | PivotTableNode | MeltNode
  | StackNode | UnstackNode | TransposeNode | NormalizeNode | CrosstabNode.

(** The classes whose visitor only looks up [source_alias]. *)
Inductive InspectClass : Set :=
  | UniqueNode | ValueCountsNode | AssertUniqueNode | AssertNoNullsNode
  | AssertRangeNode | AnyNode | AllNode | CountTrueNode.

(** The classes whose visitor looks up [source_alias], checks the field
    [column] against the schema of the source when it is known, and
    registers [new_alias] with a copy of that schema. *)
Inductive ColumnClass : Set :=
  | FilterBetweenNode | FilterIsInNode | FilterContainsNode | FilterNullNode
  | FillNANode | RoundNode | UpperNode | LowerNode | AsTypeNode.

(** The classes whose visitor starts by reading [node.alias1], an attribute
    the class does not have: the fields of [ConcatVerticalNode] and
    [ConcatHorizontalNode] are [sources], [new_alias] and [ignore_index],
    those of [DifferenceNode] are [left_alias], [right_alias] and
    [new_alias], those of [CompareNode] are [left_alias] and [right_alias]. *)
Inductive MisreadClass : Set :=
  | ConcatVerticalNode | ConcatHorizontalNode | DifferenceNode | CompareNode.

(** The first word of the [source] text the visitor registers with
    [new_alias]: [f'<word> from {node.source_alias}']. *)
Definition copy_operation (cls : CopyClass) : string :=
  match cls with
  | FilterNode => "filter"
  | HeadNode => "head"
  | TailNode => "tail"
  | SampleNode => "sample"
  | ILocNode => "iloc"
  | LocNode => "loc"
  | RenameColumnsNode => "rename"
  | ReorderColumnsNode => "reorder"
  | FilterStartsWithNode => "filter_startswith"
  | FilterEndsWithNode => "filter_endswith"
  | FilterRegexNode => "filter_regex"
  | FilterNotNullNode => "filter_notnull"
  | FilterDuplicatesNode => "filter_duplicates"
  | SortNode => "sort"
  | ApplyNode => "apply"
  | AbsNode => "abs"
  | SqrtNode => "sqrt"
  | LogNode => "log"
  | CeilNode => "ceil"
  | FloorNode => "floor"
  | StripNode => "strip"
  | LStripNode => "lstrip"
  | RStripNode => "rstrip"
  | ReplaceNode => "replace"
  | SplitNode => "split"
  | ConcatNode => "concat"
  | SubstringNode => "substring"
  | LengthNode => "length"
  | TitleNode => "title"
  | CapitalizeNode => "capitalize"
  | ExtractRegexNode => "extract_regex"
  | FindNode => "find"
  | ParseDatetimeNode => "parse_datetime"
  | ExtractYearNode => "extract_year"
  | ExtractMonthNode => "extract_month"
  | ExtractDayNode => "extract_day"
  | ExtractHourNode => "extract_hour"
  | ExtractMinuteNode => "extract_minute"
  | ExtractSecondNode => "extract_second"
  | ExtractDayOfWeekNode => "extract_dayofweek"
  | ExtractDayOfYearNode => "extract_dayofyear"
  | ExtractWeekOfYearNode => "extract_weekofyear"
  | ExtractQuarterNode => "extract_quarter"
  | DateAddNode => "date_add"
  | DateSubtractNode => "date_subtract"
  | FormatDateTimeNode => "format_datetime"
  | DateDiffNode => "date_diff"
  | ToNumericNode => "to_numeric"
  | LabelEncodeNode => "label_encode"
  | OrdinalEncodeNode => "ordinal_encode"
  | TargetEncodeNode => "target_encode"
  | StandardScaleNode => "standard_scale"
  | MinMaxScaleNode => "minmax_scale"
  | RobustScaleNode => "robust_scale"
  | MaxAbsScaleNode => "maxabs_scale"
  | CumSumNode => "cumsum"
  | CumMaxNode => "cummax"
  | CumMinNode => "cummin"
  | CumProdNode => "cumprod"
  | PctChangeNode => "pct_change"
  | DiffNode => "diff"
  | ShiftNode => "shift"
  | SetIndexNode => "set_index"
  | ResetIndexNode => "reset_index"
  | SortIndexNode => "sort_index"
  | ReindexNode => "reindex"
  | SetMultiIndexNode => "set_multiindex"
  | RankNode => "rank"
  | WindowRankNode => "window_rank"
  | WindowLagNode => "window_lag"
  | WindowLeadNode => "window_lead"
  | RollingNode => "rolling"
  | RollingMeanNode => "rolling_mean"
  | RollingSumNode => "rolling_sum"
  | RollingStdNode => "rolling_std"
  | RollingMinNode => "rolling_min"
  | RollingMaxNode => "rolling_max"
  | ExpandingMeanNode => "expanding_mean"
  | ExpandingSumNode => "expanding_sum"
  | ExpandingMinNode => "expanding_min"
  | ExpandingMaxNode => "expanding_max"
  | BinningNode => "binning"
  | QcutNode => "qcut"
  | ApplyMapNode => "applymap"
  | MapValuesNode => "map_values"
  end.

Definition reshape_operation (cls : ReshapeClass) : string :=
  match cls with
  | SelectByTypeNode => "select_by_type"
  | OneHotEncodeNode => "one_hot_encode"
  | PivotNode => "pivot"
  | PivotTableNode => "pivot_table"
  | MeltNode => "melt"
  | StackNode => "stack"
  | UnstackNode => "unstack"
  | TransposeNode => "transpose"
  | NormalizeNode => "normalize"
  | CrosstabNode => "crosstab"
  end.

Definition column_operation (cls : ColumnClass) : string :=
  match cls with
  | FilterBetweenNode => "filter_between"
  | FilterIsInNode => "filter_isin"
  | FilterContainsNode => "filter_contains"
  | FilterNullNode => "filter_null"
  | FillNANode => "fillna"
  | RoundNode => "round"
  | UpperNode => "upper"
  | LowerNode => "lower"
  | AsTypeNode => "astype"
  end.

Definition misread_class_name (cls : MisreadClass) : string :=
  match cls with
  | ConcatVerticalNode => "ConcatVerticalNode"
  | ConcatHorizontalNode => "ConcatHorizontalNode"
  | DifferenceNode => "DifferenceNode"
  | CompareNode => "CompareNode"
  end.

(** A statement of a class outside [Statement]: its class and, of its
    fields, those its visitor reads, in the order the class declares them.
    [UnvisitedNode] is a node of any class without a visitor, under its
    class name. *)
Inductive OtherStatement : Set :=
  | CopyNode (cls : CopyClass) (source_alias : string) (new_alias : option string)
  | ReshapeNode (cls : ReshapeClass) (source_alias : string) (new_alias : option string)
  | InspectNode (cls : InspectClass) (source_alias : string)
  | ColumnNode (cls : ColumnClass) (source_alias column : string)
      (new_alias : option string)
  | GroupByNode (source_alias : string) (group_columns : list string)
      (new_alias : option string)
  | MergeNode (left_alias right_alias : string)
      (new_alias on left_on right_on : option string)
  | DropNANode (source_alias : string) (columns : option (list string))
      (new_alias : option string)
  | DropDuplicatesNode (source_alias : string) (new_alias : option string)
      (subset : option (list string))
  | FillForwardNode (source_alias : string) (new_alias column : option string)
  | ShowNode (alias : string)
  | MisreadNode (cls : MisreadClass)
  | UnvisitedNode (class_name : string).

(* ===================================================================== *)
(** * Parser ([noeta_parser.py]) *)
(* ===================================================================== *)

(** [repr(s)]: a character that is not printable (the code points below 32,
    from 127 to 160, and 173) is written as an escape. *)
Definition hex_digit (n : nat) : ascii :=
  if (n <? 10)%nat then ascii_of_nat (48 + n) else ascii_of_nat (87 + n).

Fixpoint repr_chars (quote : ascii) (s : string) : string :=
  match s with
  | EmptyString => EmptyString
  | String c rest =>
      let n := nat_of_ascii c in
      let piece :=
        if Ascii.eqb c "\"%char then "\\"
        else if Ascii.eqb c quote then String "\"%char (String c EmptyString)
        else if Ascii.eqb c LF then "\n"
        else if Ascii.eqb c "013"%char then "\r"
        else if Ascii.eqb c "009"%char then "\t"
        else if ((n <? 32) || between 127 n 160 || (n =? 173))%nat
        then "\x" ++ String (hex_digit (n / 16)) (String (hex_digit (n mod 16)) EmptyString)
        else String c EmptyString in
      piece ++ repr_chars quote rest
  end.

Definition repr_str (s : string) : string :=
  if char_in "'"%char s && negb (char_in "034"%char s)
  then dq ++ repr_chars "034"%char s ++ dq
  else "'" ++ repr_chars "'"%char s ++ "'".

(** [repr] of a token value. *)
Definition repr_value (v : TokenValue) : string :=
  match v with
  | VStr s => repr_str s
  | VInt n => str_Z n
  | VFloat l => double_repr (float_of_literal l)
  | VBool true => "True"
  | VBool false => "False"
  | VNone => "None"
  end.

(** [str(token_type)]. *)
Definition TokenType_str (t : TokenType.t) : string := "TokenType." ++ TokenType.name t.

(** The dataclass [repr] of a token. *)
Definition Token_repr (t : Token) : string :=
  "Token(type=<" ++ TokenType_str (tok_type t) ++ ": "
  ++ str_nat (Pos.to_nat (TokenType.value (tok_type t))) ++ ">, value="
  ++ repr_value (tok_value t) ++ ", line=" ++ str_nat (tok_line t)
  ++ ", column=" ++ str_nat (tok_column t) ++ ")".

Definition opt_Token_repr (o : option Token) : string :=
  match o with
  | Some t => Token_repr t
  | None => "None"
  end.

Definition type_name_of (v : TokenValue) : string :=
  match v with
  | VStr _ => "str"
  | VInt _ => "int"
  | VFloat _ => "float"
  | VBool _ => "bool"
  | VNone => "NoneType"
  end.

(** [len(value)]: only text has a length. *)
Definition len_value (v : TokenValue) : outcome nat :=
  match v with
  | VStr s => Ok (String.length s)
  | other =>
      Raise (PyExc TypeError ("object of type '" ++ type_name_of other ++ "' has no len()"))
  end.

(** Truthiness of a token value. *)
Definition truthy_value (v : TokenValue) : bool :=
  match v with
  | VStr EmptyString => false
  | VStr _ => true
  | VInt n => negb (Z.eqb n 0)
  | VFloat l => double_truthy (float_of_literal l)
  | VBool b => b
  | VNone => false
  end.

(** [float(x)] on a token value. Numeric tokens carry an integer or a float;
    text is not converted by the modelled routines. *)
Definition py_float (v : TokenValue) : outcome double :=
  match v with
  | VInt n =>
      match float_of_Z n with
      | DInf => Raise (PyExc OverflowError "int too large to convert to float")
      | x => Ok x
      end
  | VFloat l => Ok (float_of_literal l)
  | VBool b => Ok (float_of_Z (if b then 1 else 0))
  | VStr s => Raise (PyExc ValueError ("could not convert string to float: " ++ repr_str s))
  | VNone =>
      Raise (PyExc TypeError
               "float() argument must be a string or a real number, not 'NoneType'")
  end.

(** The depth of nested calls the interpreter allows
    ([sys.getrecursionlimit()]); the recursive routines raise
    [RecursionError] beyond it. *)
Definition recursion_limit : nat := 1000.

Definition RecursionError_exn : exn :=
  PyExc RecursionError "maximum recursion depth exceeded".

Module Parser.

Section WithTokens.
  Variable Unmodelled : Type.

(** The parse routines of the statement kinds that are not modelled, by
    leading keyword. Each of them starts by consuming the keyword; given
    the token list and the position of the keyword, the routine returns
    its node and the number of further tokens it consumed, or raises. *)
Variable parse_unmodelled :
  TokenType.t -> list Token -> nat -> outcome (Unmodelled * nat).

(** [self.tokens] and the source text given to the constructor. *)
Variable tokens : list Token.
Variable source_code : string.

Definition source_lines : list string := source_lines_of source_code.

(** A routine reads and moves [self.pos], and returns or raises. *)
Definition M (A : Type) : Type := nat -> outcome (A * nat).

Definition ret (A : Type) (a : A) : M A := fun pos => Ok (a, pos).

Definition bind (A B : Type) (m : M A) (k : A -> M B) : M B :=
  fun pos =>
    match m pos with
    | Ok (a, pos') => k a pos'
    | Raise e => Raise e
    end.

Definition raise (A : Type) (e : exn) : M A := fun _ => Raise e.
Arguments raise {A} e.

Definition lift (A : Type) (o : outcome A) : M A :=
  fun pos =>
    match o with
    | Ok a => Ok (a, pos)
    | Raise e => Raise e
    end.

Definition get_pos : M nat := fun pos => Ok (pos, pos).

Notation "x <- m ;; k" := (bind m (fun x => k))
  (at level 61, m at next level, right associativity).
Notation "m ;;; k" := (bind m (fun _ => k))
  (at level 61, right associativity).

Definition current_token : M (option Token) :=
  fun pos => Ok (nth_error tokens pos, pos).

Definition advance : M unit := fun pos => Ok (tt, S pos).

(** [match] over the given token kinds, as a truth value. *)
Definition match_ (token_types : list TokenType.t) : M bool :=
  token <- current_token ;;
  ret (match token with
       | Some t => TokenType.mem (tok_type t) token_types
       | None => false
       end).

Definition _get_source_line (line_num : nat) : string :=
  get_source_line source_lines line_num.

Definition _friendly_token_name (token_type : TokenType.t) : string :=
  get_token_type_description (TokenType.name token_type).

(** [_create_error_context(token)] for a token that is not [None]. *)
Definition _create_error_context (token : Token) : outcome ErrorContext :=
  let source_line := _get_source_line (tok_line token) in
  if truthy_value (tok_value token) then
    match len_value (tok_value token) with
    | Ok length =>
        Ok (ErrorContext_new (tok_line token) (tok_column token) length source_line)
    | Raise e => Raise e
    end
  else Ok (ErrorContext_new (tok_line token) (tok_column token) 1 source_line).

(** [expect(token_type)]; no caller passes a [context] string. *)
Definition expect (token_type : TokenType.t) : M Token :=
  fun pos =>
    let at_end (last : option Token) : outcome (Token * nat) :=
      let message := "Unexpected end of file. Expected "
                     ++ _friendly_token_name token_type in
      let hint := "The file ended before the statement was complete" in
      match last with
      | Some last_token =>
          match len_value (tok_value last_token) with
          | Ok n =>
              let error_context :=
                ErrorContext_new (tok_line last_token) (tok_column last_token + n) 1
                  (_get_source_line (tok_line last_token)) in
              Raise (NoetaExc (mkNoetaError message SYNTAX (Some error_context)
                                 (Some hint) None))
          | Raise e => Raise e
          end
      | None => Raise (NoetaExc (mkNoetaError message SYNTAX None (Some hint) None))
      end in
    let last : option Token :=
      if ((0 <? pos) && (pos - 1 <? length tokens))%nat
      then nth_error tokens (pos - 1) else None in
    match nth_error tokens pos with
    | None => at_end last
    | Some token =>
        if TokenType.eqb (tok_type token) TokenType.EOF then at_end last
        else if negb (TokenType.eqb (tok_type token) token_type) then
          let message := "Expected " ++ _friendly_token_name token_type ++ ", got "
                         ++ _friendly_token_name (tok_type token) in
          match _create_error_context token with
          | Ok c =>
              Raise (NoetaExc (mkNoetaError message SYNTAX (Some c)
                                 (Some "Check the syntax for this operation") None))
          | Raise e => Raise e
          end
        else Ok (token, S pos)
    end.

(** What a loop body tells its loop. *)
Inductive loop_step (A : Type) : Type :=
  | Continue (a : A)
  | Break (a : A).
Arguments Continue {A} a.
Arguments Break {A} a.

(** A [while] loop whose body consumes at least one token per iteration.
    It runs on a budget of [length tokens] iterations, which such a loop
    cannot use up. *)
Fixpoint while_loop (A : Type) (budget : nat) (cond : M bool)
  (body : A -> M (loop_step A)) (acc : A) : M A :=
  fun pos =>
    match cond pos with
    | Raise e => Raise e
    | Ok (false, pos1) => Ok (acc, pos1)
    | Ok (true, pos1) =>
        match budget with
        | 0 => Ok (acc, pos1)
        | S budget' =>
            match body acc pos1 with
            | Raise e => Raise e
            | Ok (Break acc', pos2) => Ok (acc', pos2)
            | Ok (Continue acc', pos2) => while_loop budget' cond body acc' pos2
            end
        end
    end.

Definition while_ (A : Type) (cond : M bool) (body : A -> M (loop_step A)) (acc : A)
  : M A :=
  while_loop (length tokens) cond body acc.

(** [if self.match(AS): advance; new_alias = expect(IDENTIFIER).value]. *)
Definition optional_as : M (option string) :=
  is_as <- match_ [TokenType.AS] ;;
  if is_as then
    advance ;;;
    t <- expect TokenType.IDENTIFIER ;;
    ret (Some (tok_text t))
  else ret None.

(* ------------------------------------------------------------------- *)
(** ** Values, lists and dicts *)
(* ------------------------------------------------------------------- *)

Definition dict_key : M string :=
  is_str <- match_ [TokenType.STRING_LITERAL] ;;
  if is_str then t <- expect TokenType.STRING_LITERAL ;; ret (tok_text t)
  else t <- expect TokenType.IDENTIFIER ;; ret (tok_text t).

(** [parse_value], [parse_list_value] and [parse_dict_value] call each
    other; [depth] is the number of nested calls still allowed. *)
Fixpoint parse_value (depth : nat) : M Value :=
  match depth with
  | 0 => raise RecursionError_exn
  | S depth' =>
      token <- current_token ;;
      match token with
      | None => raise (PyExc SyntaxError "Expected value")
      | Some token =>
          let ty := tok_type token in
          let is_identifier := TokenType.eqb ty TokenType.IDENTIFIER in
          let low := lower (tok_text token) in
          if TokenType.eqb ty TokenType.STRING_LITERAL then
            advance ;;; ret (Value_of_token (tok_value token))
          else if TokenType.eqb ty TokenType.NUMERIC_LITERAL then
            advance ;;; ret (Value_of_token (tok_value token))
          else if is_identifier && (String.eqb low "true" || String.eqb low "false") then
            advance ;;; ret (PBool (String.eqb low "true"))
          else if is_identifier && (String.eqb low "none" || String.eqb low "null") then
            advance ;;; ret PNone
          else if TokenType.eqb ty TokenType.LBRACKET then
            items <- parse_list_value depth' ;; ret (PList items)
          else if TokenType.eqb ty TokenType.LBRACE then
            entries <- parse_dict_value depth' ;; ret (PDict entries)
          else if is_identifier then
            advance ;;; ret (Value_of_token (tok_value token))
          else
            raise (PyExc SyntaxError
                     ("Unexpected token type for value: " ++ TokenType_str ty))
      end
  end

with parse_list_value (depth : nat) : M (list Value) :=
  match depth with
  | 0 => raise RecursionError_exn
  | S depth' =>
      expect TokenType.LBRACKET ;;;
      is_empty <- match_ [TokenType.RBRACKET] ;;
      if is_empty then advance ;;; ret []
      else
        first <- parse_value depth' ;;
        values <- while_ (match_ [TokenType.COMMA])
                    (fun values =>
                       advance ;;;
                       trailing <- match_ [TokenType.RBRACKET] ;;
                       if trailing then ret (Break values)
                       else v <- parse_value depth' ;;
                            ret (Continue (List.app values [v])))
                    [first] ;;
        expect TokenType.RBRACKET ;;;
        ret values
  end

with parse_dict_value (depth : nat) : M (list (string * Value)) :=
  match depth with
  | 0 => raise RecursionError_exn
  | S depth' =>
      expect TokenType.LBRACE ;;;
      is_empty <- match_ [TokenType.RBRACE] ;;
      if is_empty then advance ;;; ret []
      else
        key <- dict_key ;;
        expect TokenType.COLON ;;;
        value <- parse_value depth' ;;
        result <- while_ (match_ [TokenType.COMMA])
                    (fun result =>
                       advance ;;;
                       trailing <- match_ [TokenType.RBRACE] ;;
                       if trailing then ret (Break result)
                       else key <- dict_key ;;
                            expect TokenType.COLON ;;;
                            value <- parse_value depth' ;;
                            ret (Continue (dict_set key value result)))
                    [(key, value)] ;;
        expect TokenType.RBRACE ;;;
        ret result
  end.

(* ------------------------------------------------------------------- *)
(** ** The [where] clause *)
(* ------------------------------------------------------------------- *)

Definition comparison_types : list TokenType.t :=
  [TokenType.EQ; TokenType.NEQ; TokenType.LT; TokenType.GT; TokenType.LTE;
   TokenType.GTE].

(** The dict [op_map] of [parse_primary_condition] and [parse_comparison]. *)
Definition op_map (t : TokenType.t) : option string :=
  if TokenType.eqb t TokenType.EQ then Some "=="
  else if TokenType.eqb t TokenType.NEQ then Some "!="
  else if TokenType.eqb t TokenType.LT then Some "<"
  else if TokenType.eqb t TokenType.GT then Some ">"
  else if TokenType.eqb t TokenType.LTE then Some "<="
  else if TokenType.eqb t TokenType.GTE then Some ">="
  else None.

(** [column <pattern keyword> "pattern"]. *)
Definition string_match (column match_type : string) : M CompoundConditionNode :=
  advance ;;;
  pattern <- expect TokenType.STRING_LITERAL ;;
  ret (StringMatchNode column match_type (tok_text pattern)).

Fixpoint parse_where_clause (depth : nat) : M CompoundConditionNode :=
  match depth with
  | 0 => raise RecursionError_exn
  | S depth' => parse_or_condition depth'
  end

with parse_or_condition (depth : nat) : M CompoundConditionNode :=
  match depth with
  | 0 => raise RecursionError_exn
  | S depth' =>
      left <- parse_and_condition depth' ;;
      while_ (match_ [TokenType.OR])
        (fun left =>
           advance ;;;
           right <- parse_and_condition depth' ;;
           ret (Continue (BinaryConditionNode left "or" right)))
        left
  end

with parse_and_condition (depth : nat) : M CompoundConditionNode :=
  match depth with
  | 0 => raise RecursionError_exn
  | S depth' =>
      left <- parse_not_condition depth' ;;
      while_ (match_ [TokenType.AND])
        (fun left =>
           advance ;;;
           right <- parse_not_condition depth' ;;
           ret (Continue (BinaryConditionNode left "and" right)))
        left
  end

with parse_not_condition (depth : nat) : M CompoundConditionNode :=
  match depth with
  | 0 => raise RecursionError_exn
  | S depth' =>
      is_not <- match_ [TokenType.NOT] ;;
      if is_not then
        advance ;;;
        condition <- parse_not_condition depth' ;;
        ret (NotConditionNode condition)
      else parse_primary_condition depth'
  end

with parse_primary_condition (depth : nat) : M CompoundConditionNode :=
  match depth with
  | 0 => raise RecursionError_exn
  | S depth' =>
      is_paren <- match_ [TokenType.LPAREN] ;;
      if is_paren then
        advance ;;;
        condition <- parse_where_clause depth' ;;
        expect TokenType.RPAREN ;;;
        ret condition
      else
        is_ident <- match_ [TokenType.IDENTIFIER] ;;
        if negb is_ident then
          token <- current_token ;;
          raise (PyExc SyntaxError
                   ("Expected column name in condition, got " ++ opt_Token_repr token))
        else
          column_token <- expect TokenType.IDENTIFIER ;;
          let column := tok_text column_token in
          token <- current_token ;;
          let is_ (ty : TokenType.t) : bool :=
            match token with
            | Some t => TokenType.eqb (tok_type t) ty
            | None => false
            end in
          if is_ TokenType.BETWEEN then
            advance ;;;
            min_value <- parse_value depth' ;;
            expect TokenType.AND ;;;
            max_value <- parse_value depth' ;;
            ret (BetweenNode column min_value max_value)
          else if is_ TokenType.IN then
            advance ;;;
            values <- parse_list_value depth' ;;
            ret (InNode column values)
          else if is_ TokenType.CONTAINS then string_match column "contains"
          else if is_ TokenType.STARTS_WITH then string_match column "starts_with"
          else if is_ TokenType.ENDS_WITH then string_match column "ends_with"
          else if is_ TokenType.MATCHES then string_match column "matches"
          else if is_ TokenType.IS then
            advance ;;;
            is_not <- match_ [TokenType.NOT] ;;
            (if is_not then advance else ret tt) ;;;
            expect TokenType.NULL ;;;
            ret (NullCheckNode column is_not)
          else
            match token with
            | Some op_token =>
                match op_map (tok_type op_token) with
                | Some operator =>
                    advance ;;;
                    value <- parse_value depth' ;;
                    ret (ComparisonNode column operator value)
                | None =>
                    raise (PyExc SyntaxError
                             ("Expected comparison operator or keyword after column '"
                              ++ column ++ "', got " ++ opt_Token_repr token))
                end
            | None =>
                raise (PyExc SyntaxError
                         ("Expected comparison operator or keyword after column '"
                          ++ column ++ "', got " ++ opt_Token_repr token))
            end
  end.

(* ------------------------------------------------------------------- *)
(** ** Column lists and parameters *)
(* ------------------------------------------------------------------- *)

Definition column_keywords : list TokenType.t :=
  [TokenType.TARGET; TokenType.INDEX; TokenType.COLUMN; TokenType.VALUES;
   TokenType.N; TokenType.MIN; TokenType.MAX; TokenType.METHOD; TokenType.SUBSET].

(** [parse_identifier_or_keyword]; a missing token has no [type]. *)
Definition parse_identifier_or_keyword : M string :=
  token <- current_token ;;
  match token with
  | None => raise (PyExc AttributeError "'NoneType' object has no attribute 'type'")
  | Some token =>
      if TokenType.eqb (tok_type token) TokenType.IDENTIFIER then
        advance ;;; ret (tok_text token)
      else if TokenType.mem (tok_type token) column_keywords then
        advance ;;; ret (tok_text token)
      else
        raise (PyExc SyntaxError
                 ("Expected identifier or column name, got "
                  ++ TokenType_str (tok_type token)))
  end.

Definition more_columns (columns : list string) : M (list string) :=
  while_ (match_ [TokenType.COMMA])
    (fun columns =>
       advance ;;;
       c <- parse_identifier_or_keyword ;;
       ret (Continue (List.app columns [c])))
    columns.

Definition parse_column_list : M (list string) :=
  expect TokenType.LBRACE ;;;
  first <- parse_identifier_or_keyword ;;
  columns <- more_columns [first] ;;
  expect TokenType.RBRACE ;;;
  ret columns.

Definition parse_column_list_natural : M (list string) :=
  first <- parse_identifier_or_keyword ;;
  more_columns [first].

(** The keyword kinds [parse_params] accepts as parameter names. *)
Definition param_keywords : list TokenType.t :=
  [
    TokenType.DELIMITER; TokenType.ENCODING; TokenType.HEADER; TokenType.NAMES;
    TokenType.USECOLS; TokenType.DTYPE; TokenType.SKIPROWS; TokenType.NROWS;
    TokenType.NA_VALUES; TokenType.THOUSANDS; TokenType.DECIMAL; TokenType.COMMENT;
    TokenType.SKIP_BLANK_LINES; TokenType.PARSE_DATES; TokenType.DATE_FORMAT;
    TokenType.CHUNKSIZE; TokenType.COMPRESSION; TokenType.LOW_MEMORY;
    TokenType.MEMORY_MAP; TokenType.ORIENT; TokenType.TYP; TokenType.CONVERT_AXES;
    TokenType.CONVERT_DATES; TokenType.PRECISE_FLOAT; TokenType.DATE_UNIT;
    TokenType.LINES; TokenType.SHEET; TokenType.SHEET_NAME; TokenType.INDEX_COL;
    TokenType.ENGINE; TokenType.CONVERTERS; TokenType.SKIPFOOTER; TokenType.FILTERS;
    TokenType.USE_NULLABLE_DTYPES; TokenType.STORAGE_OPTIONS; TokenType.PARAMS;
    TokenType.COERCE_FLOAT; TokenType.INDEX; TokenType.INDEX_LABEL; TokenType.NA_REP;
    TokenType.MODE; TokenType.QUOTING; TokenType.QUOTECHAR; TokenType.ESCAPECHAR;
    TokenType.LINETERMINATOR; TokenType.FLOAT_FORMAT ].

(** [parse_params]: the loop runs while there is a token that is neither
    [AS] nor the end marker. *)
Definition parse_params : M (list (string * Value)) :=
  while_
    (token <- current_token ;;
     stop <- match_ [TokenType.AS; TokenType.EOF] ;;
     ret (match token with Some _ => negb stop | None => false end))
    (fun params =>
       param_token <- current_token ;;
       match param_token with
       | None => ret (Break params)
       | Some param_token =>
           if TokenType.eqb (tok_type param_token) TokenType.IDENTIFIER
              || TokenType.mem (tok_type param_token) param_keywords
           then
             let param_name := tok_text param_token in
             advance ;;;
             is_assign <- match_ [TokenType.ASSIGN] ;;
             if negb is_assign then
               raise (PyExc SyntaxError
                        ("Expected '=' after parameter '" ++ param_name ++ "'"))
             else
               advance ;;;
               value <- parse_value recursion_limit ;;
               ret (Continue (dict_set param_name value params))
           else ret (Break params)
       end)
    [].

(* ------------------------------------------------------------------- *)
(** ** Statement routines *)
(* ------------------------------------------------------------------- *)

Definition ident (ty : TokenType.t) : M string :=
  t <- expect ty ;; ret (tok_text t).

(** The routine shared, up to the node class, by [parse_load_csv],
    [parse_load_json], [parse_load_excel] and [parse_load_parquet]. *)
Definition parse_load_with
  (node : string -> list (string * Value) -> string -> Statement Unmodelled)
  : M (ASTNode Unmodelled) :=
  advance ;;;
  filepath <- ident TokenType.STRING_LITERAL ;;
  has_with <- match_ [TokenType.WITH] ;;
  params <- (if has_with then advance ;;; parse_params else ret []) ;;
  expect TokenType.AS ;;;
  alias <- ident TokenType.IDENTIFIER ;;
  ret (new_node (node filepath params alias)).

Definition parse_load_csv := parse_load_with LoadCSVNode.
Definition parse_load_json := parse_load_with LoadJSONNode.
Definition parse_load_excel := parse_load_with LoadExcelNode.
Definition parse_load_parquet := parse_load_with LoadParquetNode.

Definition parse_load_sql : M (ASTNode Unmodelled) :=
  advance ;;;
  query <- ident TokenType.STRING_LITERAL ;;
  expect TokenType.FROM ;;;
  connection <- ident TokenType.STRING_LITERAL ;;
  has_with <- match_ [TokenType.WITH] ;;
  params <- (if has_with then advance ;;; parse_params else ret []) ;;
  expect TokenType.AS ;;;
  alias <- ident TokenType.IDENTIFIER ;;
  ret (new_node (LoadSQLNode query connection params alias)).

(** [parse_load_enhanced], the routine [parse_statement] calls for [load].
    The routine [parse_load] of the source is not called from anywhere. *)
Definition parse_load_enhanced : M (ASTNode Unmodelled) :=
  expect TokenType.LOAD ;;;
  token <- current_token ;;
  let is_ (ty : TokenType.t) : bool :=
    match token with
    | Some t => TokenType.eqb (tok_type t) ty
    | None => false
    end in
  if is_ TokenType.CSV then parse_load_csv
  else if is_ TokenType.JSON then parse_load_json
  else if is_ TokenType.EXCEL then parse_load_excel
  else if is_ TokenType.PARQUET then parse_load_parquet
  else if is_ TokenType.SQL then parse_load_sql
  else if is_ TokenType.STRING_LITERAL then
    file_path <- ident TokenType.STRING_LITERAL ;;
    expect TokenType.AS ;;;
    alias <- ident TokenType.IDENTIFIER ;;
    ret (new_node (LoadNode file_path alias None None))
  else
    raise (PyExc SyntaxError
             ("Expected file format (csv, json, excel, parquet, sql) or file path "
              ++ "after 'load'")).

(** [filepath.lower().split('.')[-1]]. *)
Definition extension (filepath : string) : string :=
  last (split_on "."%char (lower filepath)) EmptyString.

Definition parse_save_enhanced : M (ASTNode Unmodelled) :=
  expect TokenType.SAVE ;;;
  source <- ident TokenType.IDENTIFIER ;;
  expect TokenType.TO ;;;
  filepath <- ident TokenType.STRING_LITERAL ;;
  has_with <- match_ [TokenType.WITH] ;;
  params <- (if has_with then advance ;;; parse_params else ret []) ;;
  let ext := extension filepath in
  if String.eqb ext "csv" || contains (lower filepath) "csv" then
    ret (new_node (SaveCSVNode source filepath params))
  else if String.eqb ext "json" then
    ret (new_node (SaveJSONNode source filepath params))
  else if String.eqb ext "xlsx" || String.eqb ext "xls" then
    ret (new_node (SaveExcelNode source filepath params))
  else if String.eqb ext "parquet" then
    ret (new_node (SaveParquetNode source filepath params))
  else ret (new_node (SaveCSVNode source filepath params)).

Definition parse_select : M (ASTNode Unmodelled) :=
  expect TokenType.SELECT ;;;
  source <- ident TokenType.IDENTIFIER ;;
  has_with <- match_ [TokenType.WITH] ;;
  has_brace <- match_ [TokenType.LBRACE] ;;
  columns <-
    (if has_with then advance ;;; parse_column_list_natural
     else if has_brace then parse_column_list
     else raise (PyExc SyntaxError "Expected 'with' or '{' after select source")) ;;
  new_alias <- optional_as ;;
  ret (new_node (SelectNode source columns new_alias)).

Definition parse_filter : M (ASTNode Unmodelled) :=
  expect TokenType.FILTER ;;;
  source <- ident TokenType.IDENTIFIER ;;
  expect TokenType.WHERE ;;;
  condition <- parse_where_clause recursion_limit ;;
  new_alias <- optional_as ;;
  ret (new_node (UpdatedFilterNode source condition new_alias)).

Definition parse_join : M (ASTNode Unmodelled) :=
  expect TokenType.JOIN ;;;
  alias1 <- ident TokenType.IDENTIFIER ;;
  expect TokenType.WITH ;;;
  alias2 <- ident TokenType.IDENTIFIER ;;
  expect TokenType.ON ;;;
  join_column <- ident TokenType.IDENTIFIER ;;
  new_alias <- optional_as ;;
  ret (new_node (JoinNode alias1 alias2 join_column new_alias)).

Definition parse_describe : M (ASTNode Unmodelled) :=
  expect TokenType.DESCRIBE ;;;
  source <- ident TokenType.IDENTIFIER ;;
  has_columns <- match_ [TokenType.COLUMNS] ;;
  columns <- (if has_columns
              then advance ;;; cs <- parse_column_list ;; ret (Some cs)
              else ret None) ;;
  ret (new_node (DescribeNode source columns)).

Definition parse_summary : M (ASTNode Unmodelled) :=
  expect TokenType.SUMMARY ;;;
  source <- ident TokenType.IDENTIFIER ;;
  ret (new_node (SummaryNode source)).

Definition parse_info : M (ASTNode Unmodelled) :=
  expect TokenType.INFO ;;;
  source <- ident TokenType.IDENTIFIER ;;
  ret (new_node (InfoNode source)).

Definition parse_count_na : M (ASTNode Unmodelled) :=
  advance ;;;
  source <- ident TokenType.IDENTIFIER ;;
  ret (new_node (CountNANode source)).

(** [parse_power]. The class body defines this name twice: first for the
    exponentiation level of the expression grammar, then for the [power]
    statement. A class keeps the last binding of a name, so every call of
    [self.parse_power()], also the ones in [parse_multiplicative], runs
    this routine. *)
Definition parse_power : M (ASTNode Unmodelled) :=
  advance ;;;
  source <- ident TokenType.IDENTIFIER ;;
  expect TokenType.COLUMN ;;;
  column <- ident TokenType.IDENTIFIER ;;
  expect TokenType.EXPONENT ;;;
  expect TokenType.ASSIGN ;;;
  number <- expect TokenType.NUMERIC_LITERAL ;;
  exponent <- lift (py_float (tok_value number)) ;;
  new_alias <- optional_as ;;
  ret (new_node (PowerNode source column new_alias exponent)).

(* ------------------------------------------------------------------- *)
(** ** The expression sub-parser *)
(* ------------------------------------------------------------------- *)

(** Evaluating an attribute the enumeration does not have. *)
Definition missing_member (A : Type) (name : string) : M A :=
  fun _ => Raise (PyExc AttributeError name).
Arguments missing_member {A} name.

(** [parse_multiplicative]: after [self.parse_power()] the loop condition
    names [TokenType.MULTIPLY], [TokenType.DIVIDE] and [TokenType.MODULO],
    none of which is a member of [TokenType]. *)
Definition parse_multiplicative : M ExpressionNode :=
  parse_power ;;;
  missing_member "MULTIPLY".

Definition parse_additive : M ExpressionNode :=
  left <- parse_multiplicative ;;
  while_ (match_ [TokenType.PLUS; TokenType.MINUS])
    (fun left =>
       op_token <- current_token ;;
       advance ;;;
       right <- parse_multiplicative ;;
       let is_plus :=
         match op_token with
         | Some t => TokenType.eqb (tok_type t) TokenType.PLUS
         | None => false
         end in
       ret (Continue (BinaryOpNode left (if is_plus then "+" else "-") right)))
    left.

Definition parse_comparison : M ExpressionNode :=
  left <- parse_additive ;;
  is_cmp <- match_ comparison_types ;;
  if is_cmp then
    op_token <- current_token ;;
    advance ;;;
    right <- parse_additive ;;
    let op :=
      match op_token with
      | Some t => match op_map (tok_type t) with Some o => o | None => "==" end
      | None => "=="
      end in
    ret (BinaryOpNode left op right)
  else ret left.

Definition parse_logical_and : M ExpressionNode :=
  left <- parse_comparison ;;
  while_ (match_ [TokenType.AND])
    (fun left =>
       advance ;;;
       right <- parse_comparison ;;
       ret (Continue (BinaryOpNode left "and" right)))
    left.

Definition parse_logical_or : M ExpressionNode :=
  left <- parse_logical_and ;;
  while_ (match_ [TokenType.OR])
    (fun left =>
       advance ;;;
       right <- parse_logical_and ;;
       ret (Continue (BinaryOpNode left "or" right)))
    left.

(** [parse_conditional]: the [where] branch names [TokenType.ELSE], which
    is not a member either. *)
Definition parse_conditional : M ExpressionNode :=
  expr <- parse_logical_or ;;
  has_where <- match_ [TokenType.WHERE] ;;
  if has_where then
    advance ;;;
    parse_logical_or ;;;
    missing_member "ELSE"
  else ret expr.

(** [parse_expression]: of the two definitions in the class body the
    second, the one returning an expression tree, is the binding. *)
Definition parse_expression : M ExpressionNode := parse_conditional.

(* ------------------------------------------------------------------- *)
(** ** [mutate] *)
(* ------------------------------------------------------------------- *)

Definition parse_mutations : M (list MutationNode) :=
  let one : M MutationNode :=
    new_column <- ident TokenType.IDENTIFIER ;;
    expect TokenType.COLON ;;;
    expression <- ident TokenType.STRING_LITERAL ;;
    ret (mkMutationNode new_column (MText expression)) in
  expect TokenType.LBRACE ;;;
  first <- one ;;
  mutations <- while_ (match_ [TokenType.COMMA])
                 (fun mutations =>
                    advance ;;;
                    m <- one ;;
                    ret (Continue (List.app mutations [m])))
                 [first] ;;
  expect TokenType.RBRACE ;;;
  ret mutations.

Definition parse_mutations_with_syntax : M (list MutationNode) :=
  let one : M MutationNode :=
    new_column <- ident TokenType.IDENTIFIER ;;
    expect TokenType.ASSIGN ;;;
    expression <- parse_expression ;;
    ret (mkMutationNode new_column (MTree expression)) in
  expect TokenType.WITH ;;;
  first <- one ;;
  while_ (match_ [TokenType.WITH])
    (fun mutations =>
       advance ;;;
       m <- one ;;
       ret (Continue (List.app mutations [m])))
    [first].

Definition parse_mutate : M (ASTNode Unmodelled) :=
  expect TokenType.MUTATE ;;;
  source <- ident TokenType.IDENTIFIER ;;
  has_with <- match_ [TokenType.WITH] ;;
  mutations <- (if has_with then parse_mutations_with_syntax else parse_mutations) ;;
  new_alias <- optional_as ;;
  ret (new_node (MutateNode source mutations new_alias)).

(* ------------------------------------------------------------------- *)
(** ** Dispatch and the statement loop *)
(* ------------------------------------------------------------------- *)

(** The token kinds tested by the [if]/[elif] chain of [parse_statement], in
    source order. *)
Definition statement_keywords : list TokenType.t :=
  [
    TokenType.LOAD; TokenType.SELECT; TokenType.FILTER; TokenType.SORT; TokenType.JOIN;
    TokenType.GROUPBY; TokenType.SAMPLE; TokenType.SELECT_BY_TYPE; TokenType.HEAD;
    TokenType.TAIL; TokenType.ILOC; TokenType.LOC; TokenType.RENAME; TokenType.REORDER;
    TokenType.FILTER_BETWEEN; TokenType.FILTER_ISIN; TokenType.FILTER_CONTAINS;
    TokenType.FILTER_STARTSWITH; TokenType.FILTER_ENDSWITH; TokenType.FILTER_REGEX;
    TokenType.FILTER_NULL; TokenType.FILTER_NOTNULL; TokenType.FILTER_DUPLICATES;
    TokenType.ROUND; TokenType.ABS; TokenType.SQRT; TokenType.POWER; TokenType.LOG;
    TokenType.CEIL; TokenType.FLOOR; TokenType.UPPER; TokenType.LOWER; TokenType.STRIP;
    TokenType.REPLACE; TokenType.SPLIT; TokenType.CONCAT; TokenType.SUBSTRING;
    TokenType.LENGTH; TokenType.PARSE_DATETIME; TokenType.EXTRACT;
    TokenType.EXTRACT_YEAR; TokenType.EXTRACT_MONTH; TokenType.EXTRACT_DAY;
    TokenType.DATE_DIFF; TokenType.ASTYPE; TokenType.TO_NUMERIC;
    TokenType.ONE_HOT_ENCODE; TokenType.LABEL_ENCODE; TokenType.STANDARD_SCALE;
    TokenType.MINMAX_SCALE; TokenType.ISNULL; TokenType.NOTNULL; TokenType.COUNT_NA;
    TokenType.FILL_FORWARD; TokenType.FILL_BACKWARD; TokenType.FILL_MEAN;
    TokenType.FILL_MEDIAN; TokenType.INTERPOLATE; TokenType.DUPLICATED;
    TokenType.COUNT_DUPLICATES; TokenType.DROP_DUPLICATES; TokenType.FILL_MODE;
    TokenType.QCUT; TokenType.SORT_INDEX; TokenType.RANK; TokenType.FILTER_GROUPS;
    TokenType.GROUP_TRANSFORM; TokenType.WINDOW_RANK; TokenType.WINDOW_LAG;
    TokenType.WINDOW_LEAD; TokenType.ROLLING_MEAN; TokenType.ROLLING_SUM;
    TokenType.ROLLING_STD; TokenType.ROLLING_MIN; TokenType.ROLLING_MAX;
    TokenType.EXPANDING_MEAN; TokenType.EXPANDING_SUM; TokenType.EXPANDING_MIN;
    TokenType.EXPANDING_MAX; TokenType.PIVOT; TokenType.PIVOT_TABLE; TokenType.MELT;
    TokenType.STACK; TokenType.UNSTACK; TokenType.TRANSPOSE; TokenType.CROSSTAB;
    TokenType.MERGE; TokenType.CONCAT_VERTICAL; TokenType.CONCAT_HORIZONTAL;
    TokenType.UNION; TokenType.INTERSECTION; TokenType.DIFFERENCE; TokenType.SET_INDEX;
    TokenType.RESET_INDEX; TokenType.APPLY_ROW; TokenType.APPLY_COLUMN;
    TokenType.RESAMPLE; TokenType.ASSIGN_CONST; TokenType.CUMSUM; TokenType.CUMMAX;
    TokenType.CUMMIN; TokenType.CUMPROD; TokenType.PCT_CHANGE; TokenType.DIFF;
    TokenType.SHIFT; TokenType.APPLYMAP; TokenType.MAP_VALUES; TokenType.EXTRACT_HOUR;
    TokenType.EXTRACT_MINUTE; TokenType.EXTRACT_SECOND; TokenType.EXTRACT_DAYOFWEEK;
    TokenType.EXTRACT_DAYOFYEAR; TokenType.EXTRACT_WEEKOFYEAR; TokenType.EXTRACT_QUARTER;
    TokenType.DATE_ADD; TokenType.DATE_SUBTRACT; TokenType.FORMAT_DATETIME;
    TokenType.EXTRACT_REGEX; TokenType.TITLE; TokenType.CAPITALIZE; TokenType.LSTRIP;
    TokenType.RSTRIP; TokenType.FIND; TokenType.CUT; TokenType.ROBUST_SCALE;
    TokenType.MAXABS_SCALE; TokenType.ORDINAL_ENCODE; TokenType.TARGET_ENCODE;
    TokenType.ASSERT_UNIQUE; TokenType.ASSERT_NO_NULLS; TokenType.ASSERT_RANGE;
    TokenType.REINDEX; TokenType.SET_MULTIINDEX; TokenType.ANY; TokenType.ALL;
    TokenType.COUNT_TRUE; TokenType.COMPARE; TokenType.DROPNA; TokenType.FILLNA;
    TokenType.MUTATE; TokenType.APPLY; TokenType.DESCRIBE; TokenType.SUMMARY;
    TokenType.INFO; TokenType.UNIQUE; TokenType.VALUE_COUNTS; TokenType.OUTLIERS;
    TokenType.QUANTILE; TokenType.NORMALIZE; TokenType.BINNING; TokenType.ROLLING;
    TokenType.HYPOTHESIS; TokenType.BOXPLOT; TokenType.HEATMAP; TokenType.PAIRPLOT;
    TokenType.TIMESERIES; TokenType.PIE; TokenType.SAVE; TokenType.EXPORT_PLOT;
    TokenType.SHOW ].

(** A routine of a statement kind that is not modelled: it consumes the
    keyword and then what [parse_unmodelled] reports. *)
Definition parse_other (keyword : TokenType.t) : M (ASTNode Unmodelled) :=
  fun pos =>
    match parse_unmodelled keyword tokens pos with
    | Ok (u, consumed) => Ok (new_node (UnmodelledNode u), S pos + consumed)
    | Raise e => Raise e
    end.

Definition some (m : M (ASTNode Unmodelled)) : M (option (ASTNode Unmodelled)) :=
  n <- m ;; ret (Some n).

(** [parse_statement]: the [if]/[elif] chain tests kinds that are pairwise
    different, so the modelled ones can be tested first. *)
Definition parse_statement : M (option (ASTNode Unmodelled)) :=
  token <- current_token ;;
  match token with
  | None => ret None
  | Some token =>
      let ty := tok_type token in
      if TokenType.eqb ty TokenType.LOAD then some parse_load_enhanced
      else if TokenType.eqb ty TokenType.SELECT then some parse_select
      else if TokenType.eqb ty TokenType.FILTER then some parse_filter
      else if TokenType.eqb ty TokenType.JOIN then some parse_join
      else if TokenType.eqb ty TokenType.POWER then some parse_power
      else if TokenType.eqb ty TokenType.COUNT_NA then some parse_count_na
      else if TokenType.eqb ty TokenType.MUTATE then some parse_mutate
      else if TokenType.eqb ty TokenType.DESCRIBE then some parse_describe
      else if TokenType.eqb ty TokenType.SUMMARY then some parse_summary
      else if TokenType.eqb ty TokenType.INFO then some parse_info
      else if TokenType.eqb ty TokenType.SAVE then some parse_save_enhanced
      else if TokenType.mem ty statement_keywords then some (parse_other ty)
      else raise (PyExc SyntaxError ("Unexpected token: " ++ TokenType_str ty))
  end.

(** [parse]: the loop runs while the current token exists and is not the
    end marker; a [None] statement is not appended. *)
Definition parse : outcome (ProgramNode Unmodelled) :=
  match
    while_
      (token <- current_token ;;
       ret (match token with
            | Some t => negb (TokenType.eqb (tok_type t) TokenType.EOF)
            | None => false
            end))
      (fun statements =>
         stmt <- parse_statement ;;
         ret (Continue (match stmt with
                        | Some s => List.app statements [s]
                        | None => statements
                        end)))
      [] 0
  with
  | Ok (statements, _) => Ok statements
  | Raise e => Raise e
  end.

End WithTokens.

End Parser.

(* ===================================================================== *)
(** * Symbol table and semantic analyzer ([noeta_semantic.py]) *)
(* ===================================================================== *)

Inductive DataType : Set := STRING | NUMERIC | DATETIME | BOOLEAN | UNKNOWN.

Record ColumnInfo : Set := mkColumnInfo {
  col_name : string;
  col_dtype : DataType;
  col_nullable : bool
}.

(** [DatasetInfo]: [columns] is a dict from column name to [ColumnInfo]; an
    empty dict means the schema is not known. *)
Record DatasetInfo : Set := mkDatasetInfo {
  ds_name : string;
  ds_columns : list (string * ColumnInfo);
  ds_source : option string
}.

Definition has_column (info : DatasetInfo) (col_name : string) : bool :=
  match assoc_get col_name (ds_columns info) with
  | Some _ => true
  | None => false
  end.

Module SymbolTable.

Record t : Set := mk {
  datasets : list (string * DatasetInfo);
  history : list string
}.

(** [SymbolTable()]. *)
Definition empty : t := mk [] [].

Definition define (name : string) (info : DatasetInfo) (st : t) : t :=
  mk (dict_set name info (datasets st)) (List.app (history st) [name]).

Definition lookup (name : string) (st : t) : option DatasetInfo :=
  assoc_get name (datasets st).

Definition exists_ (name : string) (st : t) : bool :=
  match lookup name st with
  | Some _ => true
  | None => false
  end.

Definition get_all_names (st : t) : list string := map fst (datasets st).

Definition clear (st : t) : t := empty.

End SymbolTable.

Module SemanticAnalyzer.

Section WithProgram.
  Variable Unmodelled : Type.

(** The file-schema probe behind [_introspect_file_schema] when type
    checking is on: the columns read from the file header, or the empty
    dict on any failure. *)
Variable file_schema_probe : string -> option Value -> list (string * ColumnInfo).

(** The visitors of the statement kinds that are not modelled (the generic
    visitor included): from [enable_type_check], the source text, the node
    and the symbol table to the symbol table afterwards and the exception
    raised, if any. *)
Variable visit_unmodelled :
  bool -> string -> ASTNode Unmodelled -> Unmodelled -> SymbolTable.t ->
    SymbolTable.t * option exn.

(** The fields [source_code] and [enable_type_check] of the analyzer. *)
Variable source_code : string.
Variable enable_type_check : bool.

Definition source_lines : list string := source_lines_of source_code.

Definition _get_source_line (line_num : nat) : string :=
  get_source_line source_lines line_num.

Definition _suggest_dataset (st : SymbolTable.t) (attempted : string) : option string :=
  let available := SymbolTable.get_all_names st in
  match available with
  | [] => None
  | _ =>
      match suggest_similar attempted available 1 3 with
      | first :: _ => Some ("Did you mean '" ++ first ++ "'?")
      | [] => None
      end
  end.

(** The error raised by [_check_dataset_exists] on a miss. *)
Definition dataset_error (st : SymbolTable.t) (name : string)
  (node : ASTNode Unmodelled) : NoetaError :=
  let available := SymbolTable.get_all_names st in
  let hint :=
    match available with
    | [] => "No datasets have been loaded yet"
    | _ => "Available datasets: " ++ join ", " available
    end in
  create_semantic_error
    ("Dataset '" ++ name ++ "' has not been loaded or created")
    (node_line node) (node_column node) (_get_source_line (node_line node))
    (String.length name) (Some hint) (_suggest_dataset st name).

Definition _check_dataset_exists (st : SymbolTable.t) (name : string)
  (node : ASTNode Unmodelled) : outcome DatasetInfo :=
  match SymbolTable.lookup name st with
  | Some info => Ok info
  | None => Raise (NoetaExc (dataset_error st name node))
  end.

Definition column_error (dataset_info : DatasetInfo) (column : string)
  (node : ASTNode Unmodelled) : NoetaError :=
  let available := map fst (ds_columns dataset_info) in
  let hint := "Available columns in '" ++ ds_name dataset_info ++ "': "
              ++ join ", " available in
  create_semantic_error
    ("Column '" ++ column ++ "' does not exist in dataset '"
     ++ ds_name dataset_info ++ "'")
    (node_line node) (node_column node) (_get_source_line (node_line node))
    (String.length column) (Some hint) None.

Definition _check_column_exists (dataset_info : DatasetInfo) (column : string)
  (node : ASTNode Unmodelled) : outcome unit :=
  match ds_columns dataset_info with
  | [] => Ok tt
  | _ =>
      if has_column dataset_info column then Ok tt
      else Raise (NoetaExc (column_error dataset_info column node))
  end.

(** [for col in columns: self._check_column_exists(info, col, node)]. *)
Fixpoint check_columns (dataset_info : DatasetInfo) (columns : list string)
  (node : ASTNode Unmodelled) : outcome unit :=
  match columns with
  | [] => Ok tt
  | col :: rest =>
      match _check_column_exists dataset_info col node with
      | Ok _ => check_columns dataset_info rest node
      | Raise e => Raise e
      end
  end.

Definition _introspect_file_schema (filepath : string) (format_type : option Value)
  : list (string * ColumnInfo) :=
  if negb enable_type_check then [] else file_schema_probe filepath format_type.

(** What a visitor does: the symbol table afterwards and the exception it
    ended with, if any. *)
Definition visited : Type := (SymbolTable.t * option exn)%type.

Definition done (st : SymbolTable.t) : visited := (st, None).
Definition failed (st : SymbolTable.t) (e : exn) : visited := (st, Some e).

(** [if node.new_alias: define(new_alias, DatasetInfo(...))]. *)
Definition register (st : SymbolTable.t) (new_alias : option string)
  (columns : list (string * ColumnInfo)) (source : string) : visited :=
  match truthy_str new_alias with
  | Some alias =>
      done (SymbolTable.define alias (mkDatasetInfo alias columns (Some source)) st)
  | None => done st
  end.

(** The five plain load visitors. *)
Definition visit_load (st : SymbolTable.t) (filepath alias : string)
  (format_type : option Value) : visited :=
  let columns := _introspect_file_schema filepath format_type in
  done (SymbolTable.define alias (mkDatasetInfo alias columns (Some filepath)) st).

(** The visitors that only check the source and copy its schema:
    [visit_UpdatedFilterNode], [visit_MutateNode], [visit_PowerNode]. *)
Definition visit_copy (st : SymbolTable.t) (node : ASTNode Unmodelled)
  (source_alias : string) (new_alias : option string) (operation : string) : visited :=
  match _check_dataset_exists st source_alias node with
  | Raise e => failed st e
  | Ok source_info =>
      register st new_alias (ds_columns source_info)
        (operation ++ " from " ++ source_alias)
  end.

(** The display visitors: [visit_DescribeNode], [visit_SummaryNode],
    [visit_InfoNode], and [visit_SaveNode]. *)
Definition visit_check (st : SymbolTable.t) (node : ASTNode Unmodelled)
  (source_alias : string) : visited :=
  match _check_dataset_exists st source_alias node with
  | Raise e => failed st e
  | Ok _ => done st
  end.

(** The dict [result_columns] of [visit_SelectNode]. *)
Fixpoint select_columns (source_columns : list (string * ColumnInfo))
  (columns : list string) (result : list (string * ColumnInfo))
  : list (string * ColumnInfo) :=
  match columns with
  | [] => result
  | col :: rest =>
      match assoc_get col source_columns with
      | Some info => select_columns source_columns rest (dict_set col info result)
      | None => select_columns source_columns rest result
      end
  end.

Definition visit_SelectNode (st : SymbolTable.t) (node : ASTNode Unmodelled)
  (source_alias : string) (columns : list string) (new_alias : option string)
  : visited :=
  match _check_dataset_exists st source_alias node with
  | Raise e => failed st e
  | Ok source_info =>
      match check_columns source_info
              (match ds_columns source_info with [] => [] | _ => columns end) node with
      | Raise e => failed st e
      | Ok _ =>
          let result_columns :=
            match ds_columns source_info with
            | [] => []
            | cs => select_columns cs columns []
            end in
          register st new_alias result_columns ("select from " ++ source_alias)
      end
  end.

Definition visit_JoinNode (st : SymbolTable.t) (node : ASTNode Unmodelled)
  (alias1 alias2 join_column : string) (new_alias : option string) : visited :=
  match _check_dataset_exists st alias1 node with
  | Raise e => failed st e
  | Ok left_info =>
      match _check_dataset_exists st alias2 node with
      | Raise e => failed st e
      | Ok right_info =>
          match _check_column_exists left_info join_column node with
          | Raise e => failed st e
          | Ok _ =>
              match _check_column_exists right_info join_column node with
              | Raise e => failed st e
              | Ok _ =>
                  register st new_alias []
                    ("join " ++ alias1 ++ " with " ++ alias2)
              end
          end
      end
  end.

(** [visit_LoadSQLNode] reads [node.sql_query] if the node has it and
    [node.filepath] otherwise; a [LoadSQLNode] has neither attribute. *)
Definition visit_LoadSQLNode (st : SymbolTable.t) : visited :=
  failed st (PyExc AttributeError "'LoadSQLNode' object has no attribute 'filepath'").

(** [generic_visit]: the fallback of [getattr] for a class without a
    visitor; it does nothing. *)
Definition generic_visit (st : SymbolTable.t) : visited := done st.

(** [visit]: dispatch on the class of the node. *)
Definition visit (st : SymbolTable.t) (node : ASTNode Unmodelled) : visited :=
  match node_stmt node with
  | LoadNode filepath alias format _ => visit_load st filepath alias format
  | LoadCSVNode filepath _ alias => visit_load st filepath alias (Some (PStr "csv"))
  | LoadJSONNode filepath _ alias => visit_load st filepath alias (Some (PStr "json"))
  | LoadExcelNode filepath _ alias => visit_load st filepath alias (Some (PStr "excel"))
  | LoadParquetNode filepath _ alias =>
      visit_load st filepath alias (Some (PStr "parquet"))
  | LoadSQLNode _ _ _ _ => visit_LoadSQLNode st
  | SaveNode source_alias _ _ _ => visit_check st node source_alias
  | SaveCSVNode _ _ _ => generic_visit st
  | SaveJSONNode _ _ _ => generic_visit st
  | SaveExcelNode _ _ _ => generic_visit st
  | SaveParquetNode _ _ _ => generic_visit st
  | SelectNode source_alias columns new_alias =>
      visit_SelectNode st node source_alias columns new_alias
  | UpdatedFilterNode source_alias _ new_alias =>
      visit_copy st node source_alias new_alias "filter"
  | JoinNode alias1 alias2 join_column new_alias =>
      visit_JoinNode st node alias1 alias2 join_column new_alias
  | MutateNode source_alias _ new_alias =>
      visit_copy st node source_alias new_alias "mutate"
  | DescribeNode source_alias _ => visit_check st node source_alias
  | SummaryNode source_alias => visit_check st node source_alias
  | InfoNode source_alias => visit_check st node source_alias
  | CountNANode _ => generic_visit st
  | PowerNode source_alias _ new_alias _ =>
      visit_copy st node source_alias new_alias "power"
  | UnmodelledNode u => visit_unmodelled enable_type_check source_code node u st
  end.

(** The loop of [analyze]: a [NoetaError] is collected and the loop goes on;
    any other exception leaves the loop and [analyze]. *)
Fixpoint analyze_loop (statements : list (ASTNode Unmodelled)) (st : SymbolTable.t)
  (errors : list NoetaError) : outcome (list NoetaError) * SymbolTable.t :=
  match statements with
  | [] => (Ok errors, st)
  | statement :: rest =>
      match visit st statement with
      | (st', None) => analyze_loop rest st' errors
      | (st', Some (NoetaExc e)) => analyze_loop rest st' (List.app errors [e])
      | (st', Some other) => (Raise other, st')
      end
  end.

(** [analyze(ast)] on an analyzer whose symbol table is [st]: the list of
    errors (or the exception that escaped) and the symbol table afterwards. *)
Definition analyze (ast : ProgramNode Unmodelled) (st : SymbolTable.t)
  : outcome (list NoetaError) * SymbolTable.t :=
  analyze_loop ast st [].

End WithProgram.

(** The visitors of the statement classes outside [Statement]. *)
Section OtherVisitors.

Variable source_code : string.

(** [if info and info.columns: self._check_column_exists(info, column, node)]
    ([info] is an object, so it is true). *)
Definition check_known_column (info : DatasetInfo) (column : string)
  (node : ASTNode OtherStatement) : outcome unit :=
  match ds_columns info with
  | [] => Ok tt
  | _ => _check_column_exists source_code info column node
  end.

(** [if info and info.columns: for col in columns: ...]. *)
Definition check_known_columns (info : DatasetInfo) (columns : list string)
  (node : ASTNode OtherStatement) : outcome unit :=
  match ds_columns info with
  | [] => Ok tt
  | _ => check_columns source_code info columns node
  end.

(** The visitors of [ReshapeClass]. *)
Definition visit_reshape (st : SymbolTable.t) (node : ASTNode OtherStatement)
  (source_alias : string) (new_alias : option string) (operation : string) : visited :=
  match _check_dataset_exists source_code st source_alias node with
  | Raise e => failed st e
  | Ok _ => register st new_alias [] (operation ++ " from " ++ source_alias)
  end.

(** The visitors of [ColumnClass]. *)
Definition visit_column (st : SymbolTable.t) (node : ASTNode OtherStatement)
  (source_alias column : string) (new_alias : option string) (operation : string)
  : visited :=
  match _check_dataset_exists source_code st source_alias node with
  | Raise e => failed st e
  | Ok source_info =>
      match check_known_column source_info column node with
      | Raise e => failed st e
      | Ok _ =>
          register st new_alias (ds_columns source_info)
            (operation ++ " from " ++ source_alias)
      end
  end.

Definition visit_GroupByNode (st : SymbolTable.t) (node : ASTNode OtherStatement)
  (source_alias : string) (group_columns : list string) (new_alias : option string)
  : visited :=
  match _check_dataset_exists source_code st source_alias node with
  | Raise e => failed st e
  | Ok source_info =>
      match check_known_columns source_info group_columns node with
      | Raise e => failed st e
      | Ok _ => register st new_alias [] ("groupby from " ++ source_alias)
      end
  end.

(** The column checks of [visit_MergeNode] on one column of each side. *)
Definition check_merge_columns (left_info right_info : DatasetInfo)
  (left_column right_column : string) (node : ASTNode OtherStatement) : outcome unit :=
  match check_known_column left_info left_column node with
  | Raise e => Raise e
  | Ok _ => check_known_column right_info right_column node
  end.

Definition visit_MergeNode (st : SymbolTable.t) (node : ASTNode OtherStatement)
  (left_alias right_alias : string) (new_alias on left_on right_on : option string)
  : visited :=
  match _check_dataset_exists source_code st left_alias node with
  | Raise e => failed st e
  | Ok left_info =>
      match _check_dataset_exists source_code st right_alias node with
      | Raise e => failed st e
      | Ok right_info =>
          let checked :=
            match truthy_str on, truthy_str left_on, truthy_str right_on with
            | Some column, _, _ =>
                check_merge_columns left_info right_info column column node
            | None, Some left_column, Some right_column =>
                check_merge_columns left_info right_info left_column right_column node
            | None, _, _ => Ok tt
            end in
          match checked with
          | Raise e => failed st e
          | Ok _ =>
              register st new_alias []
                ("merge " ++ left_alias ++ " with " ++ right_alias)
          end
      end
  end.

(** [visit_DropNANode] on its field [columns] and [visit_DropDuplicatesNode]
    on its field [subset]: [if columns and info and info.columns: for col in
    columns: ...], where [None] and the empty list are false. *)
Definition visit_subset (st : SymbolTable.t) (node : ASTNode OtherStatement)
  (source_alias : string) (columns : option (list string)) (new_alias : option string)
  (operation : string) : visited :=
  match _check_dataset_exists source_code st source_alias node with
  | Raise e => failed st e
  | Ok source_info =>
      match check_known_columns source_info
              (match columns with Some listed => listed | None => [] end) node with
      | Raise e => failed st e
      | Ok _ =>
          register st new_alias (ds_columns source_info)
            (operation ++ " from " ++ source_alias)
      end
  end.

Definition visit_FillForwardNode (st : SymbolTable.t) (node : ASTNode OtherStatement)
  (source_alias : string) (new_alias column : option string) : visited :=
  match _check_dataset_exists source_code st source_alias node with
  | Raise e => failed st e
  | Ok source_info =>
      match (match truthy_str column with
             | Some name => check_known_column source_info name node
             | None => Ok tt
             end) with
      | Raise e => failed st e
      | Ok _ =>
          register st new_alias (ds_columns source_info)
            ("fill_forward from " ++ source_alias)
      end
  end.

(** The visitors of [MisreadClass]: evaluating the argument [node.alias1]
    of their first call raises. *)
Definition visit_misread (st : SymbolTable.t) (cls : MisreadClass) : visited :=
  failed st (PyExc AttributeError
               ("'" ++ misread_class_name cls ++ "' object has no attribute 'alias1'")).

End OtherVisitors.

(** [visit] on a node of a class outside [Statement]; none of these visitors
    reads [enable_type_check]. *)
Definition visit_other (enable_type_check : bool) (source_code : string)
  (node : ASTNode OtherStatement) (statement : OtherStatement) (st : SymbolTable.t)
  : visited :=
  match statement with
  | CopyNode cls source_alias new_alias =>
      visit_copy source_code st node source_alias new_alias (copy_operation cls)
  | ReshapeNode cls source_alias new_alias =>
      visit_reshape source_code st node source_alias new_alias (reshape_operation cls)
  | InspectNode _ source_alias => visit_check source_code st node source_alias
  | ColumnNode cls source_alias column new_alias =>
      visit_column source_code st node source_alias column new_alias
        (column_operation cls)
  | GroupByNode source_alias group_columns new_alias =>
      visit_GroupByNode source_code st node source_alias group_columns new_alias
  | MergeNode left_alias right_alias new_alias on left_on right_on =>
      visit_MergeNode source_code st node left_alias right_alias new_alias on left_on
        right_on
  | DropNANode source_alias columns new_alias =>
      visit_subset source_code st node source_alias columns new_alias "dropna"
  | DropDuplicatesNode source_alias new_alias subset =>
      visit_subset source_code st node source_alias subset new_alias "drop_duplicates"
  | FillForwardNode source_alias new_alias column =>
      visit_FillForwardNode source_code st node source_alias new_alias column
  | ShowNode alias => visit_check source_code st node alias
  | MisreadNode cls => visit_misread st cls
  | UnvisitedNode _ => generic_visit st
  end.

End SemanticAnalyzer.

(* ===================================================================== *)
(** * Code generator ([noeta_codegen.py]) *)
(* ===================================================================== *)

(** [sorted(strings)] by code point. *)
Fixpoint insert_sorted (s : string) (l : list string) : list string :=
  match l with
  | [] => [s]
  | x :: rest => if String.leb s x then s :: x :: rest else x :: insert_sorted s rest
  end.

Fixpoint sorted (l : list string) : list string :=
  match l with
  | [] => []
  | s :: rest => insert_sorted s (sorted rest)
  end.

(** [set.add(s)] on a set kept as a list without repetitions. *)
Definition set_add (s : string) (set : list string) : list string :=
  if existsb (String.eqb s) set then set else List.app set [s].

(** [str(columns)] for a list of strings. *)
Definition repr_str_list (l : list string) : string :=
  "[" ++ join ", " (map repr_str l) ++ "]".

Module CodeGenerator.

Record t : Set := mk {
  symbol_table : list (string * bool);
  persistent_symbol_table : option SymbolTable.t;
  imports : list string;
  code_lines : list string;
  last_plot : bool
}.

(** [CodeGenerator(persistent_symbol_table=...)]. *)
Definition init (persistent : option SymbolTable.t) : t :=
  mk [] persistent [] [] false.

Definition add_import (s : string) (g : t) : t :=
  mk (symbol_table g) (persistent_symbol_table g) (set_add s (imports g))
     (code_lines g) (last_plot g).

Definition append_line (s : string) (g : t) : t :=
  mk (symbol_table g) (persistent_symbol_table g) (imports g)
     (List.app (code_lines g) [s]) (last_plot g).

Section WithProgram.
  Variable Unmodelled : Type.

(** The visitors and visitor branches that are not modelled (the generic
    visitor, which raises [NotImplementedError], included). *)
Variable codegen_other : ASTNode Unmodelled -> t -> outcome t.

Definition visit_DescribeNode (source_alias : string) (columns : option (list string))
  (g : t) : t :=
  let code :=
    match columns with
    | Some (c :: cs) =>
        let shown := repr_str_list (c :: cs) in
        "print(" ++ dq ++ "\nDescriptive Statistics for " ++ shown ++ ":" ++ dq ++ ")"
        ++ nl ++ "print(" ++ source_alias ++ "[" ++ shown ++ "].describe())"
    | _ =>
        "print('\nDescriptive Statistics for " ++ source_alias ++ ":')" ++ nl
        ++ "print(" ++ source_alias ++ ".describe())"
    end in
  append_line code g.

Definition visit_SummaryNode (source_alias : string) (g : t) : t :=
  let code :=
    "print('\nDataset Summary for " ++ source_alias ++ ":')" ++ nl
    ++ "print(f'Shape: {" ++ source_alias ++ ".shape}')" ++ nl
    ++ "print(f'Columns: {list(" ++ source_alias ++ ".columns)}')" ++ nl
    ++ "print('\nData types:')" ++ nl
    ++ "print(" ++ source_alias ++ ".dtypes)" ++ nl
    ++ "print('\nMissing values:')" ++ nl
    ++ "print(" ++ source_alias ++ ".isnull().sum())" in
  append_line code g.

Definition visit_InfoNode (source_alias : string) (g : t) : t :=
  let code :=
    "print('\nDataset Info for " ++ source_alias ++ ":')" ++ nl
    ++ source_alias ++ ".info()" in
  append_line code g.

(** [visit_LoadNode] for a node without parameters and with a format other
    than sql: every such branch reads with one pandas function of the
    file path alone. *)
Definition visit_LoadNode_plain (filepath alias : string) (format : option Value)
  (g : t) : t :=
  let reader :=
    match format with
    | Some (PStr "json") => "read_json"
    | Some (PStr "excel") => "read_excel"
    | Some (PStr "parquet") => "read_parquet"
    | _ => "read_csv"
    end in
  let code := alias ++ " = pd." ++ reader ++ "('" ++ filepath ++ "')" in
  append_line
    ("print(f'Loaded " ++ filepath ++ " as " ++ alias ++ ": {len(" ++ alias
     ++ ")} rows, {len(" ++ alias ++ ".columns)} columns')")
    (append_line code g).

Definition is_sql (format : option Value) : bool :=
  match format with
  | Some (PStr s) => String.eqb s "sql"
  | _ => false
  end.

Definition no_params (params : option (list (string * Value))) : bool :=
  match params with
  | None | Some [] => true
  | Some (_ :: _) => false
  end.

Definition visit (node : ASTNode Unmodelled) (g : t) : outcome t :=
  match node_stmt node with
  | DescribeNode source_alias columns => Ok (visit_DescribeNode source_alias columns g)
  | SummaryNode source_alias => Ok (visit_SummaryNode source_alias g)
  | InfoNode source_alias => Ok (visit_InfoNode source_alias g)
  | LoadNode filepath alias format params =>
      if no_params params && negb (is_sql format)
      then Ok (visit_LoadNode_plain filepath alias format g)
      else codegen_other node g
  | _ => codegen_other node g
  end.

Fixpoint visit_all (statements : list (ASTNode Unmodelled)) (g : t) : outcome t :=
  match statements with
  | [] => Ok g
  | stmt :: rest =>
      match visit stmt g with
      | Ok g' => visit_all rest g'
      | Raise e => Raise e
      end
  end.

Definition standard_imports : list string :=
  [ "import pandas as pd"; "import numpy as np"; "import matplotlib.pyplot as plt";
    "import seaborn as sns"; "from scipy import stats" ].

Definition display_code : string :=
  nl ++ nl ++ "# Display plots" ++ nl
  ++ "plt.tight_layout()" ++ nl
  ++ "try:" ++ nl
  ++ "    get_ipython()" ++ nl
  ++ "    # Running in Jupyter/IPython - don't show (kernel will display inline)" ++ nl
  ++ "except NameError:" ++ nl
  ++ "    # Running in VS Code/CLI - show plots in separate windows" ++ nl
  ++ "    plt.show()".

(** The text [generate] puts together at its end. [import_lines] is
    [self.imports] as the set hands out its members when [sorted] iterates
    over it; a set of strings has no fixed order of iteration. *)
Definition text_of (import_lines : list string) (g : t) : string :=
  let result :=
    join nl (sorted import_lines)
    ++ nl ++ nl ++ "# Configure visualization settings" ++ nl
    ++ "plt.style.use('seaborn-v0_8-darkgrid')" ++ nl
    ++ "sns.set_palette('husl')" ++ nl ++ nl
    ++ join nl (code_lines g) in
  if last_plot g then result ++ display_code else result.

(** [generate]; the set of imports is kept as the list of its members in
    the order they were added, one of the orders it can be iterated in. *)
Definition generate (ast : ProgramNode Unmodelled) (g : t) : outcome string :=
  let g1 := fold_left (fun g s => add_import s g) standard_imports g in
  match visit_all ast g1 with
  | Raise e => Raise e
  | Ok g2 => Ok (text_of (imports g2) g2)
  end.

End WithProgram.

End CodeGenerator.

(* ===================================================================== *)
(** * Runner ([noeta_runner.py]) *)
(* ===================================================================== *)

Section Compiler.
  (** Whether [sys.stderr] is a terminal. *)
  Variable supports_color : bool.

(** The statement kinds that are not modelled, with their parse routines,
    analyzer visitors and generator visitors, and the file-schema probe. *)
Variable Unmodelled : Type.
Variable parse_unmodelled :
  TokenType.t -> list Token -> nat -> outcome (Unmodelled * nat).
Variable visit_unmodelled :
  bool -> string -> ASTNode Unmodelled -> Unmodelled -> SymbolTable.t ->
    SymbolTable.t * option exn.
Variable file_schema_probe : string -> option Value -> list (string * ColumnInfo).
Variable codegen_other :
  ASTNode Unmodelled -> CodeGenerator.t -> outcome CodeGenerator.t.

(** The lexing and parsing steps of the [try] block. *)
Definition front_end (source_code : string) : outcome (ProgramNode Unmodelled) :=
  match Lexer.tokenize source_code with
  | Raise e => Raise e
  | Ok tokens => Parser.parse parse_unmodelled tokens source_code
  end.

(** [analyzer.analyze(ast)] of [compile_noeta]: the analyzer works on the
    carried symbol table when there is one and on a new one otherwise. *)
Definition analysis (source_code : string) (enable_type_check : bool)
  (symbol_table : option SymbolTable.t) (ast : ProgramNode Unmodelled)
  : outcome (list NoetaError) * SymbolTable.t :=
  let st := match symbol_table with Some st => st | None => SymbolTable.empty end in
  SemanticAnalyzer.analyze file_schema_probe visit_unmodelled source_code
    enable_type_check ast st.

(** The body of the [try] block of [compile_noeta]: what it returns or
    raises, and the carried symbol table afterwards. *)
Definition compile_body (source_code : string) (enable_type_check : bool)
  (symbol_table : option SymbolTable.t) : outcome string * option SymbolTable.t :=
  match front_end source_code with
  | Raise e => (Raise e, symbol_table)
  | Ok ast =>
      let '(result, st') := analysis source_code enable_type_check symbol_table ast in
      let carried := match symbol_table with Some _ => Some st' | None => None end in
      match result with
      | Raise e => (Raise e, carried)
      | Ok [] =>
          let generator := CodeGenerator.init carried in
          (CodeGenerator.generate codegen_other ast generator, carried)
      | Ok [error] => (Raise (NoetaExc error), carried)
      | Ok errors => (Raise (NoetaExc (create_multi_error supports_color errors)), carried)
      end
  end.

(** The two [except] clauses: a [NoetaError] is raised again as it is, any
    other exception becomes a [RuntimeError]. *)
Definition handle (A : Type) (result : outcome A) : outcome A :=
  match result with
  | Ok a => Ok a
  | Raise (NoetaExc e) => Raise (NoetaExc e)
  | Raise other =>
      Raise (PyExc RuntimeError
               ("Unexpected compilation error: " ++ exn_str supports_color other ++ nl
                ++ "Please report this as a bug"))
  end.

Definition compile_noeta (source_code : string) (enable_type_check : bool)
  (symbol_table : option SymbolTable.t) : outcome string * option SymbolTable.t :=
  let '(result, carried) := compile_body source_code enable_type_check symbol_table in
  (handle result, carried).

End Compiler.

(* ===================================================================== *)
(** * The modelled fragment on its own *)
(* ===================================================================== *)

(** The instance of the parameters in which no statement kind outside the
    modelled fragment exists: their routines are never entered with a node,
    the parse routine and the remaining generator visitors refuse, and no
    file is probed. *)
Definition no_unmodelled_parse
  : TokenType.t -> list Token -> nat -> outcome (Empty_set * nat) :=
  fun _ _ _ => Raise (PyExc NotImplementedError "statement kind not modelled").

Definition no_unmodelled_visit
  : bool -> string -> ASTNode Empty_set -> Empty_set -> SymbolTable.t ->
    SymbolTable.t * option exn :=
  fun _ _ _ u _ => match u with end.

Definition no_unmodelled_aliases : Empty_set -> list string :=
  fun u => match u with end.

Definition no_file_schema : string -> option Value -> list (string * ColumnInfo) :=
  fun _ _ => [].

Definition no_other_codegen
  : ASTNode Empty_set -> CodeGenerator.t -> outcome CodeGenerator.t :=
  fun _ _ => Raise (PyExc NotImplementedError "generator visitor not modelled").

(** A symbol table that holds [d] with a known schema. *)
Definition info_d : DatasetInfo :=
  mkDatasetInfo "d"
    [ ("price", mkColumnInfo "price" NUMERIC true);
      ("category", mkColumnInfo "category" STRING true) ]
    (Some "x.csv").

Definition table_with_d : SymbolTable.t :=
  SymbolTable.define "d" info_d SymbolTable.empty.

(** A symbol table that holds [sales] with an unknown schema. *)
Definition table_with_sales : SymbolTable.t :=
  SymbolTable.define "sales" (mkDatasetInfo "sales" [] (Some "x.csv")) SymbolTable.empty.

(* ===================================================================== *)
(** * Properties of the string helpers *)
(* ===================================================================== *)

Lemma startswith_app : forall p r : string, startswith (p ++ r) p = true.
Proof.
  induction p as [| c p IH]; intros r; [destruct r; reflexivity |].
  cbn. rewrite Ascii.eqb_refl. apply IH.
Qed.

Lemma startswith_refl : forall s : string, startswith s s = true.
Proof.
  induction s as [| c s IH]; [reflexivity |].
  cbn. rewrite Ascii.eqb_refl. exact IH.
Qed.

Lemma startswith_app_l :
  forall s p r : string, startswith s p = true -> startswith (s ++ r) p = true.
Proof.
  intros s p. revert s.
  induction p as [| c p IH]; intros s r H.
  - destruct (s ++ r); reflexivity.
  - destruct s as [| d s]; [discriminate |].
    cbn in *. apply andb_true_iff in H. destruct H as [Hc Hs].
    rewrite Hc. cbn. apply IH. exact Hs.
Qed.

Lemma contains_unfold :
  forall s p : string,
    contains s p
    = startswith s p
      || match s with
         | EmptyString => false
         | String _ s' => contains s' p
         end.
Proof. intros s p. destruct s; reflexivity. Qed.

Lemma contains_startswith :
  forall s p : string, startswith s p = true -> contains s p = true.
Proof. intros s p H. rewrite contains_unfold, H. reflexivity. Qed.

Lemma contains_app_l :
  forall s p r : string, contains s p = true -> contains (s ++ r) p = true.
Proof.
  induction s as [| c s IH]; intros p r H.
  - rewrite contains_unfold, orb_false_r in H.
    apply contains_startswith. apply (startswith_app_l EmptyString p r H).
  - rewrite contains_unfold in H. apply orb_true_iff in H. destruct H as [H | H].
    + apply contains_startswith.
      apply (startswith_app_l (String c s) p r H).
    + change (String c s ++ r) with (String c (s ++ r)).
      rewrite contains_unfold, (IH p r H). apply orb_true_r.
Qed.

Lemma contains_app_r :
  forall s p r : string, contains r p = true -> contains (s ++ r) p = true.
Proof.
  induction s as [| c s IH]; intros p r H; [exact H |].
  change (String c s ++ r) with (String c (s ++ r)).
  rewrite contains_unfold, (IH p r H). apply orb_true_r.
Qed.

Lemma contains_middle :
  forall a x b : string, contains (a ++ x ++ b) x = true.
Proof.
  intros a x b. apply contains_app_r. apply contains_startswith. apply startswith_app.
Qed.

Lemma contains_join :
  forall (sep : string) (parts : list string) (x p : string),
    In x parts -> contains x p = true -> contains (join sep parts) p = true.
Proof.
  induction parts as [| y parts IH]; intros x p Hin Hx; [contradiction |].
  destruct Hin as [Heq | Hin].
  - subst y. destruct parts as [| z parts]; [exact Hx |].
    cbn [join]. apply contains_app_l. exact Hx.
  - destruct parts as [| z parts]; [contradiction |].
    cbn [join]. apply contains_app_r. apply contains_app_r.
    apply (IH x p Hin Hx).
Qed.

(* ===================================================================== *)
(** * Properties of the suggestion engine *)
(* ===================================================================== *)

(** The distance [suggest_similar] computes between two names. *)
Definition name_distance (attempted name : string) : nat :=
  levenshtein_distance (lower attempted) (lower name).

Lemma insert_by_key_In :
  forall (A : Type) (key : A -> nat) (x y : A) (l : list A),
    In y (insert_by_key key x l) <-> y = x \/ In y l.
Proof.
  intros A key x y l. induction l as [| z l IH]; cbn.
  - intuition.
  - destruct (key x <=? key z)%nat; cbn; rewrite ?IH; intuition.
Qed.

Lemma sort_by_key_In :
  forall (A : Type) (key : A -> nat) (y : A) (l : list A),
    In y (sort_by_key key l) <-> In y l.
Proof.
  intros A key y l. induction l as [| x l IH]; cbn; [reflexivity |].
  rewrite insert_by_key_In, IH. intuition.
Qed.

(** The first entry of a list has the least key. *)
Definition least_first (A : Type) (key : A -> nat) (l : list A) : Prop :=
  match l with
  | [] => True
  | x :: _ => forall y, In y l -> key x <= key y
  end.

Lemma insert_by_key_least_first :
  forall (A : Type) (key : A -> nat) (x : A) (l : list A),
    least_first key l -> least_first key (insert_by_key key x l).
Proof.
  intros A key x l Hl. destruct l as [| z l]; cbn.
  - intros y [Hy | []]. subst y. lia.
  - destruct (key x <=? key z)%nat eqn:Hxz.
    + apply Nat.leb_le in Hxz. cbn. intros y [Hy | Hy].
      * subst y. lia.
      * specialize (Hl y Hy). lia.
    + apply Nat.leb_gt in Hxz. cbn. intros y [Hy | Hy].
      * subst y. lia.
      * apply insert_by_key_In in Hy. destruct Hy as [Hy | Hy].
        -- subst y. lia.
        -- apply Hl. right. exact Hy.
Qed.

Lemma sort_by_key_least_first :
  forall (A : Type) (key : A -> nat) (l : list A), least_first key (sort_by_key key l).
Proof.
  intros A key l. induction l as [| x l IH]; cbn; [exact I |].
  apply insert_by_key_least_first. exact IH.
Qed.

Lemma similar_distances_In :
  forall (attempted : string) (available : list string) (max_distance d : nat)
         (name : string),
    In (d, name) (similar_distances attempted available max_distance)
    <-> In name available /\ d = name_distance attempted name /\ d <= max_distance.
Proof.
  intros attempted available max_distance d name.
  induction available as [| n available IH]; cbn.
  - intuition.
  - fold (name_distance attempted n).
    destruct (name_distance attempted n <=? max_distance)%nat eqn:Hle.
    + apply Nat.leb_le in Hle. cbn. rewrite IH. split.
      * intros [Heq | H]; [inversion Heq; subst; intuition | intuition].
      * intros [[Hn | Hn] [Hd Hm]]; [left; subst; reflexivity | right; intuition].
    + apply Nat.leb_gt in Hle. rewrite IH. split.
      * intuition.
      * intros [[Hn | Hn] [Hd Hm]]; [subst; lia | intuition].
Qed.

(** With one suggestion asked for, [suggest_similar] returns a nearest name
    among those within the maximal distance, and nothing when there is none. *)
Lemma suggest_similar_nearest :
  forall (attempted : string) (available : list string) (max_distance : nat),
    match suggest_similar attempted available 1 max_distance with
    | [] => forall name, In name available -> max_distance < name_distance attempted name
    | best :: more =>
        more = [] /\ In best available
        /\ name_distance attempted best <= max_distance
        /\ forall name, In name available ->
                        name_distance attempted best <= name_distance attempted name
    end.
Proof.
  intros attempted available max_distance.
  unfold suggest_similar.
  destruct available as [| a available']; [intros name [] |].
  set (available := a :: available').
  pose proof (sort_by_key_least_first fst
                (similar_distances attempted available max_distance)) as Hleast.
  pose proof (fun y => sort_by_key_In fst y
                (similar_distances attempted available max_distance)) as Hin.
  destruct (sort_by_key fst (similar_distances attempted available max_distance))
    as [| [d best] sorted_rest].
  - cbn. intros name Hname.
    destruct (Nat.le_gt_cases (name_distance attempted name) max_distance) as [Hle | Hgt];
      [| exact Hgt].
    exfalso. apply (proj2 (Hin (name_distance attempted name, name))).
    apply similar_distances_In. auto.
  - cbn [firstn map snd]. cbn in Hleast.
    assert (Hbest : In (d, best) (similar_distances attempted available max_distance)).
    { apply Hin. left. reflexivity. }
    apply similar_distances_In in Hbest. destruct Hbest as [Hb [Hd Hm]].
    subst d. repeat split; try assumption.
    intros name Hname.
    destruct (Nat.le_gt_cases (name_distance attempted name) max_distance) as [Hle | Hgt];
      [| lia].
    assert (Hn : In (name_distance attempted name, name)
                   (similar_distances attempted available max_distance)).
    { apply similar_distances_In. auto. }
    apply Hin in Hn. apply Hleast in Hn. exact Hn.
Qed.

(* --------------------------------------------------------------------- *)
(** ** The distance is the Levenshtein distance *)
(* --------------------------------------------------------------------- *)

(** The Levenshtein distance by its recurrence, as the specification names
    it: [prefix_distance s t i j] is the distance between the first [i]
    characters of [s] and the first [j] characters of [t]. *)
Fixpoint prefix_distance (s t : list ascii) (i : nat) {struct i} : nat -> nat :=
  match i with
  | 0 => fun j => j
  | S i' =>
      fix row (j : nat) : nat :=
        match j with
        | 0 => S i'
        | S j' =>
            min3 (prefix_distance s t i' (S j') + 1)
                 (row j' + 1)
                 (prefix_distance s t i' j'
                  + (if Ascii.eqb (nth i' s Ascii.zero) (nth j' t Ascii.zero)
                     then 0 else 1))
        end
  end.

Definition edit_distance (s t : string) : nat :=
  let l1 := list_ascii_of_string s in
  let l2 := list_ascii_of_string t in
  prefix_distance l1 l2 (length l1) (length l2).

Lemma prefix_distance_step :
  forall (s t : list ascii) (i j : nat),
    prefix_distance s t (S i) (S j)
    = min3 (prefix_distance s t i (S j) + 1)
           (prefix_distance s t (S i) j + 1)
           (prefix_distance s t i j
            + (if Ascii.eqb (nth i s Ascii.zero) (nth j t Ascii.zero) then 0 else 1)).
Proof. reflexivity. Qed.

Lemma prefix_distance_zero_r :
  forall (s t : list ascii) (i : nat), prefix_distance s t i 0 = i.
Proof. intros s t [| i]; reflexivity. Qed.

Lemma prefix_distance_sym :
  forall (s t : list ascii) (i j : nat),
    prefix_distance s t i j = prefix_distance t s j i.
Proof.
  intros s t. induction i as [| i IHi]; intros j.
  - rewrite prefix_distance_zero_r. reflexivity.
  - induction j as [| j IHj]; [reflexivity |].
    rewrite !prefix_distance_step, IHj, (IHi (S j)), (IHi j), (Ascii.eqb_sym (nth j t _)).
    unfold min3. lia.
Qed.

(** The inner loop fills the row of [i + 1] from that of [i]: with [s2]
    cut as [pre ++ rest], the loop over [rest] turns the entries of the
    previous row from [length pre] on into the entries of the current row
    after [length pre]. *)
Lemma lev_inner_row :
  forall (s1 s2 : list ascii) (i : nat) (rest pre : list ascii),
    s2 = List.app pre rest ->
    lev_inner (nth i s1 Ascii.zero) rest
      (map (prefix_distance s1 s2 i) (seq (length pre) (length rest + 1)))
      (prefix_distance s1 s2 (S i) (length pre))
    = map (prefix_distance s1 s2 (S i)) (seq (S (length pre)) (length rest)).
Proof.
  intros s1 s2 i. induction rest as [| c2 rest IH]; intros pre Hcut.
  - reflexivity.
  - assert (Hnth : nth (length pre) s2 Ascii.zero = c2).
    { rewrite Hcut, app_nth2, Nat.sub_diag by lia. reflexivity. }
    assert (Hcut' : s2 = List.app (List.app pre [c2]) rest).
    { rewrite <- app_assoc. exact Hcut. }
    specialize (IH (List.app pre [c2]) Hcut').
    rewrite length_app in IH. cbn [length] in IH.
    replace (length pre + 1) with (S (length pre)) in IH by lia.
    cbn [length]. replace (S (length rest) + 1) with (S (S (length rest))) by lia.
    replace (length rest + 1) with (S (length rest)) in IH by lia.
    cbn [seq map lev_inner]. cbn [seq map] in IH.
    rewrite prefix_distance_step, Hnth in *.
    f_equal. exact IH.
Qed.

(** The outer loop, with [s1] cut as [pre ++ rest]: from the row of
    [length pre] it reaches the row of [length s1]. *)
Lemma lev_outer_rows :
  forall (s1 s2 rest pre : list ascii),
    s1 = List.app pre rest ->
    lev_outer rest s2 (length pre)
      (map (prefix_distance s1 s2 (length pre)) (seq 0 (length s2 + 1)))
    = map (prefix_distance s1 s2 (length s1)) (seq 0 (length s2 + 1)).
Proof.
  intros s1 s2. induction rest as [| c1 rest IH]; intros pre Hcut.
  - rewrite Hcut, app_nil_r. reflexivity.
  - assert (Hnth : nth (length pre) s1 Ascii.zero = c1).
    { rewrite Hcut, app_nth2, Nat.sub_diag by lia. reflexivity. }
    assert (Hcut' : s1 = List.app (List.app pre [c1]) rest).
    { rewrite <- app_assoc. exact Hcut. }
    specialize (IH (List.app pre [c1]) Hcut').
    rewrite length_app in IH. cbn [length] in IH.
    replace (length pre + 1) with (S (length pre)) in IH by lia.
    cbn [lev_outer]. rewrite <- IH. f_equal.
    pose proof (@lev_inner_row s1 s2 (length pre) s2 [] eq_refl) as Hrow.
    cbn [length] in Hrow. rewrite Hnth, prefix_distance_zero_r in Hrow.
    replace (length pre + 1) with (S (length pre)) by lia.
    rewrite Hrow.
    replace (length s2 + 1) with (S (length s2)) by lia.
    cbn [seq map]. rewrite prefix_distance_zero_r. reflexivity.
Qed.

Lemma last_map_seq :
  forall (f : nat -> nat) (n : nat), last (map f (seq 0 (n + 1))) 0 = f n.
Proof.
  intros f n. replace (n + 1) with (S n) by lia.
  rewrite seq_S, map_app. cbn [map]. apply last_last.
Qed.

Lemma levenshtein_rows_prefix_distance :
  forall s1 s2 : list ascii,
    levenshtein_rows s1 s2 = prefix_distance s1 s2 (length s1) (length s2).
Proof.
  intros s1 s2. unfold levenshtein_rows.
  destruct s2 as [| c2 s2'] eqn:Hs2.
  - cbn [length]. rewrite prefix_distance_zero_r. reflexivity.
  - rewrite <- Hs2.
    pose proof (@lev_outer_rows s1 s2 s1 [] eq_refl) as Hrows.
    cbn [length] in Hrows.
    assert (Hzero : map (prefix_distance s1 s2 0) (seq 0 (length s2 + 1))
                    = seq 0 (length s2 + 1)).
    { cbn [prefix_distance]. apply map_id. }
    rewrite Hzero in Hrows. rewrite Hrows. apply last_map_seq.
Qed.

(** [levenshtein_distance] computes the Levenshtein distance. *)
Lemma levenshtein_distance_edit_distance :
  forall s1 s2 : string, levenshtein_distance s1 s2 = edit_distance s1 s2.
Proof.
  intros s1 s2. unfold levenshtein_distance, edit_distance. cbv zeta.
  destruct (length (list_ascii_of_string s1) <? length (list_ascii_of_string s2))%nat.
  - rewrite levenshtein_rows_prefix_distance. apply prefix_distance_sym.
  - apply levenshtein_rows_prefix_distance.
Qed.

(** The distance [suggest_similar] ranks by is the Levenshtein distance of
    the two names in lower case. *)
Lemma name_distance_edit_distance :
  forall attempted name : string,
    name_distance attempted name = edit_distance (lower attempted) (lower name).
Proof. intros attempted name. apply levenshtein_distance_edit_distance. Qed.

(** The distance on three pairs of names. *)
Lemma edit_distance_examples :
  edit_distance "kitten" "sitting" = 3
  /\ edit_distance "sale" "sales" = 1
  /\ edit_distance "" "abc" = 3.
Proof. repeat split; reflexivity. Qed.

(* ===================================================================== *)
(** * Properties of [sorted] *)
(* ===================================================================== *)

Lemma compare_not_Gt_trans :
  forall a b c : string,
    String.compare a b <> Gt -> String.compare b c <> Gt -> String.compare a c <> Gt.
Proof.
  induction a as [| x a IH]; intros [| y b] [| z c]; cbn [String.compare];
    try congruence.
  unfold Ascii.compare.
  destruct (N.compare_spec (N_of_ascii x) (N_of_ascii y)) as [Hxy | Hxy | Hxy];
    destruct (N.compare_spec (N_of_ascii y) (N_of_ascii z)) as [Hyz | Hyz | Hyz];
    destruct (N.compare_spec (N_of_ascii x) (N_of_ascii z)) as [Hxz | Hxz | Hxz];
    try congruence; try lia.
  apply IH.
Qed.

Lemma leb_trans :
  forall a b c : string,
    String.leb a b = true -> String.leb b c = true -> String.leb a c = true.
Proof.
  intros a b c. unfold String.leb.
  pose proof (@compare_not_Gt_trans a b c) as H.
  destruct (String.compare a b), (String.compare b c), (String.compare a c);
    try reflexivity; try discriminate; intros _ _; exfalso; apply H; congruence.
Qed.

(** The order [sorted] sorts by. *)
Definition string_le (a b : string) : Prop := String.leb a b = true.

Lemma insert_sorted_Permutation :
  forall s l, Permutation (s :: l) (insert_sorted s l).
Proof.
  intros s. induction l as [| x l IH]; cbn [insert_sorted]; [reflexivity |].
  destruct (String.leb s x); [reflexivity |].
  rewrite perm_swap. constructor. exact IH.
Qed.

Lemma sorted_Permutation : forall l, Permutation l (sorted l).
Proof.
  induction l as [| s l IH]; cbn [sorted]; [constructor |].
  rewrite <- insert_sorted_Permutation. constructor. exact IH.
Qed.

Lemma insert_sorted_StronglySorted :
  forall s l, StronglySorted string_le l -> StronglySorted string_le (insert_sorted s l).
Proof.
  intros s. induction l as [| x l IH]; intros Hl; cbn [insert_sorted].
  - repeat constructor.
  - inversion Hl as [| ? ? Hl' Hx]; subst.
    destruct (String.leb s x) eqn:Hsx.
    + constructor; [exact Hl |]. constructor; [exact Hsx |].
      eapply Forall_impl; [| exact Hx]. intros y Hy. apply (@leb_trans s x y Hsx Hy).
    + constructor; [apply IH; exact Hl' |].
      assert (Hxs : string_le x s).
      { destruct (String.leb_total s x) as [H | H]; [congruence | exact H]. }
      eapply Permutation_Forall; [apply insert_sorted_Permutation |].
      constructor; assumption.
Qed.

Lemma sorted_StronglySorted : forall l, StronglySorted string_le (sorted l).
Proof.
  induction l as [| s l IH]; cbn [sorted]; [constructor |].
  apply insert_sorted_StronglySorted. exact IH.
Qed.

Lemma StronglySorted_unique :
  forall l l', StronglySorted string_le l -> StronglySorted string_le l' -> Permutation l l' -> l = l'.
Proof.
  induction l as [| a l IH]; intros l' Hl Hl' Hperm.
  - apply Permutation_nil in Hperm. subst. reflexivity.
  - destruct l' as [| b l'].
    + apply Permutation_sym, Permutation_nil in Hperm. discriminate Hperm.
    + inversion Hl as [| ? ? Hl1 Ha]; subst. inversion Hl' as [| ? ? Hl1' Hb]; subst.
      assert (Hab : a = b).
      { assert (Hain : In a (b :: l')) by (eapply Permutation_in; [exact Hperm | left; reflexivity]).
        assert (Hbin : In b (a :: l)) by (eapply Permutation_in; [apply Permutation_sym; exact Hperm | left; reflexivity]).
        destruct Hain as [Hba | Hain]; [auto |].
        destruct Hbin as [Hab | Hbin]; [auto |].
        apply String.leb_antisym.
        - rewrite Forall_forall in Ha. apply Ha. exact Hbin.
        - rewrite Forall_forall in Hb. apply Hb. exact Hain. }
      subst b. f_equal. apply IH; try assumption.
      apply (Permutation_cons_inv Hperm).
Qed.

(** [sorted] gives the same list whatever the order in which the set hands
    out its members, so the import lines of the generated text do not
    depend on the iteration order of [self.imports]. *)
Lemma sorted_any_order :
  forall l l', Permutation l l' -> sorted l = sorted l'.
Proof.
  intros l l' H. apply StronglySorted_unique; try apply sorted_StronglySorted.
  rewrite <- !sorted_Permutation. exact H.
Qed.

(* ===================================================================== *)
(** * Properties of the lexer *)
(* ===================================================================== *)

(** The four comparison operators of two characters are matched before the
    one-character operators: whenever the input starts with one of them,
    [next_token] returns the two-character token and moves two columns. *)
Lemma next_token_two_char_comparison :
  forall (source r : string) (line column : nat) (c : ascii) (ty : TokenType.t)
         (text : string),
    In (c, ty, text)
       [ ("="%char, TokenType.EQ, "=="); ("!"%char, TokenType.NEQ, "!=");
         ("<"%char, TokenType.LTE, "<="); (">"%char, TokenType.GTE, ">=") ] ->
    Lexer.next_token (Lexer.mk source (String c (String "="%char r)) line column)
    = Ok (mkToken ty (VStr text) line column, Lexer.mk source r line (column + 1 + 1)).
Proof.
  intros source r line column c ty text Hin.
  simpl in Hin.
  destruct Hin as [H | [H | [H | [H | []]]]]; inversion H; subst; reflexivity.
Qed.

(** The test for a single star comes before the test for two stars: an input
    that starts with two stars yields the one-character [STAR] token. *)
Lemma next_token_star_star :
  forall (source r : string) (line column : nat),
    Lexer.next_token (Lexer.mk source (String "*"%char (String "*"%char r)) line column)
    = Ok (mkToken TokenType.STAR (VStr "*") line column,
          Lexer.mk source (String "*"%char r) line (column + 1)).
Proof. intros. reflexivity. Qed.

(** The characters some branch of [next_token] accepts as the start of a
    token, of blank space or of a comment. *)
Definition starts_something (c : ascii) : bool :=
  char_in c Lexer.blanks || Ascii.eqb c LF || Ascii.eqb c "#"%char
  || Ascii.eqb c "034"%char || isdigit c || isalpha c || Ascii.eqb c "_"%char
  || char_in c "=!<>+-*/%.(){}[]:,".

(** No silent skipping: at a character that starts nothing, [next_token]
    raises a lexical error that names the character and its position. *)
Lemma next_token_unexpected_character :
  forall (lx : Lexer.state) (c : ascii),
    Lexer.current_char lx = Some c ->
    starts_something c = false ->
    Lexer.next_token lx
    = Raise (NoetaExc (mkNoetaError
        ("Unexpected character '" ++ String c EmptyString ++ "'") LEXER
        (Some (mkErrorContext (Lexer.line lx) (Lexer.column lx) 1
                 (Lexer._get_current_line lx)))
        (Some "This character is not valid in Noeta syntax") None)).
Proof.
  intros lx c Hc Hs.
  unfold starts_something in Hs.
  repeat rewrite orb_false_iff in Hs.
  destruct Hs as [[[[[[[Hb Hlf] Hhash] Hq] Hd] Ha] Hu] Hop].
  cbn [char_in] in Hop. repeat rewrite orb_false_iff in Hop.
  destruct lx as [source rest line column]. unfold Lexer.current_char in Hc.
  simpl in Hc. destruct rest as [| c' rest']; [discriminate |].
  inversion Hc; subst c'. clear Hc.
  unfold Lexer.next_token.
  cbn [String.length Lexer.rest Lexer.next_token_loop Lexer.current_char].
  rewrite Hb, Hlf, Hhash, Hq, Hd, Ha, Hu. cbn [orb].
  unfold Lexer.operator_token.
  repeat match goal with
         | Heq : _ /\ _ |- _ => destruct Heq
         end.
  repeat match goal with
         | Heq : Ascii.eqb c ?x = false |- context [Ascii.eqb c ?x] => rewrite Heq
         end.
  cbn [andb]. reflexivity.
Qed.

(** A bare exclamation mark starts nothing either. *)
Lemma next_token_bare_bang :
  Lexer.tokenize "a ! b"
  = Raise (NoetaExc (mkNoetaError "Unexpected character '!'" LEXER
             (Some (mkErrorContext 1 3 1 "a ! b"))
             (Some "This character is not valid in Noeta syntax") None)).
Proof. reflexivity. Qed.

(** Every token the lexer makes carries text, except numbers, booleans and
    the end marker; [tok_text] is read only on the former. *)
Definition carries_text (t : Token) : Prop :=
  (exists s, tok_value t = VStr s)
  \/ In (tok_type t)
        [TokenType.NUMERIC_LITERAL; TokenType.BOOLEAN_LITERAL; TokenType.EOF].

Lemma operator_token_text :
  forall (lx lx' : Lexer.state) (c : ascii) (tok : Token),
    Lexer.operator_token lx c = Ok (tok, lx') -> carries_text tok.
Proof.
  intros lx lx' c tok H. unfold Lexer.operator_token in H.
  repeat match type of H with
         | context [if ?b then _ else _] => destruct b
         end;
    inversion H; subst; left; eexists; reflexivity.
Qed.

Lemma next_token_loop_text :
  forall (fuel : nat) (lx lx' : Lexer.state) (tok : Token),
    Lexer.next_token_loop fuel lx = Ok (tok, lx') -> carries_text tok.
Proof.
  induction fuel as [| fuel IH]; intros lx lx' tok H;
    cbn [Lexer.next_token_loop] in H;
    (destruct (Lexer.current_char lx) as [c |];
     [| inversion H; subst; right; cbn; tauto]);
    (destruct (char_in c Lexer.blanks);
     [try (apply (IH _ _ _ H)); try (inversion H; subst; right; cbn; tauto) |]);
    (destruct (Ascii.eqb c LF);
     [inversion H; subst; left; eexists; reflexivity |]);
    (destruct (Ascii.eqb c "#"%char);
     [try (apply (IH _ _ _ H)); try (inversion H; subst; right; cbn; tauto) |]);
    (destruct (Ascii.eqb c "034"%char);
     [destruct (Lexer.read_string lx) as [value lx1]; inversion H; subst; left;
      eexists; reflexivity |]);
    (destruct (isdigit c);
     [destruct (Lexer.read_number lx) as [[value | e] lx1]; inversion H; subst; right;
      cbn; tauto |]);
    (destruct (isalpha c || Ascii.eqb c "_"%char);
     [destruct (Lexer.read_identifier lx) as [value lx1];
      destruct (String.eqb (lower value) "true");
      [inversion H; subst; right; cbn; tauto |];
      destruct (String.eqb (lower value) "false");
      [inversion H; subst; right; cbn; tauto |];
      inversion H; subst; left; eexists; reflexivity |]);
    apply (operator_token_text _ _ H).
Qed.

Lemma next_token_text :
  forall (lx lx' : Lexer.state) (tok : Token),
    Lexer.next_token lx = Ok (tok, lx') -> carries_text tok.
Proof. intros lx lx' tok H. apply (next_token_loop_text _ _ H). Qed.

Lemma tokenize_loop_text :
  forall (fuel : nat) (lx : Lexer.state) (acc tokens : list Token),
    Forall carries_text acc ->
    Lexer.tokenize_loop fuel acc lx = Ok tokens ->
    Forall carries_text tokens.
Proof.
  induction fuel as [| fuel IH]; intros lx acc tokens Hacc H;
    cbn [Lexer.tokenize_loop] in H;
    destruct (Lexer.next_token lx) as [[tok lx1] | e] eqn:Hnext; try discriminate H;
    pose proof (next_token_text _ Hnext) as Htok;
    assert (Hacc' : Forall carries_text
                      (if TokenType.eqb (tok_type tok) TokenType.NEWLINE then acc
                       else List.app acc [tok]))
      by (destruct (TokenType.eqb (tok_type tok) TokenType.NEWLINE);
          [exact Hacc | apply Forall_app; split; [exact Hacc | constructor; auto]]);
    destruct (TokenType.eqb (tok_type tok) TokenType.EOF).
  - inversion H; subst. exact Hacc'.
  - inversion H; subst. exact Hacc'.
  - inversion H; subst. exact Hacc'.
  - apply (IH _ _ _ Hacc' H).
Qed.

(** Every token of a token list made by [tokenize] carries text, except
    numbers, booleans and the end marker. *)
Lemma tokenize_text :
  forall (source : string) (tokens : list Token),
    Lexer.tokenize source = Ok tokens -> Forall carries_text tokens.
Proof.
  intros source tokens H. apply (tokenize_loop_text _ _ (Forall_nil _) H).
Qed.

(* --------------------------------------------------------------------- *)
(** ** The loops of the lexer never use up their budget *)
(* --------------------------------------------------------------------- *)

(** The number of characters left to read. *)
Definition remaining (lx : Lexer.state) : nat := String.length (Lexer.rest lx).

Lemma advance_remaining :
  forall lx, remaining (Lexer.advance lx) = remaining lx - 1.
Proof.
  intros [src [| c r] l col]; unfold Lexer.advance, remaining; cbn [Lexer.rest];
    [reflexivity |].
  destruct (Ascii.eqb c LF); cbn; lia.
Qed.

Lemma current_char_remaining :
  forall lx c, Lexer.current_char lx = Some c -> 0 < remaining lx.
Proof.
  intros [src [| c' r] l col] c H; unfold Lexer.current_char, remaining in *;
    cbn [Lexer.rest] in *; [discriminate H | cbn; lia].
Qed.

Lemma skip_whitespace_loop_budget :
  forall fuel fuel' lx,
    remaining lx <= fuel -> remaining lx <= fuel' ->
    Lexer.skip_whitespace_loop fuel lx = Lexer.skip_whitespace_loop fuel' lx.
Proof.
  induction fuel as [| fuel IH]; intros [| fuel'] lx H H'; try reflexivity;
    cbn [Lexer.skip_whitespace_loop];
    destruct (Lexer.current_char lx) as [c |] eqn:Hc; try reflexivity;
    pose proof (current_char_remaining lx Hc); try lia.
  destruct (char_in c Lexer.blanks); [| reflexivity].
  apply IH; rewrite advance_remaining; lia.
Qed.

Lemma skip_whitespace_loop_remaining :
  forall fuel lx,
    remaining (Lexer.skip_whitespace_loop fuel lx) <= remaining lx.
Proof.
  induction fuel as [| fuel IH]; intros lx; cbn [Lexer.skip_whitespace_loop];
    [lia |].
  destruct (Lexer.current_char lx) as [c |]; [| lia].
  destruct (char_in c Lexer.blanks); [| lia].
  specialize (IH (Lexer.advance lx)). rewrite advance_remaining in IH. lia.
Qed.

Lemma skip_whitespace_remaining :
  forall lx c,
    Lexer.current_char lx = Some c -> char_in c Lexer.blanks = true ->
    remaining (Lexer.skip_whitespace lx) < remaining lx.
Proof.
  intros lx c Hc Hblank. unfold Lexer.skip_whitespace.
  pose proof (current_char_remaining lx Hc) as Hpos.
  destruct (remaining lx) as [| n] eqn:Hn; [lia |].
  unfold remaining in Hn. rewrite Hn.
  cbn [Lexer.skip_whitespace_loop]. rewrite Hc, Hblank.
  pose proof (skip_whitespace_loop_remaining n (Lexer.advance lx)) as Hle.
  rewrite advance_remaining in Hle. unfold remaining in Hle at 2. rewrite Hn in Hle.
  cbn in Hle. lia.
Qed.

Lemma skip_comment_loop_budget :
  forall fuel fuel' lx,
    remaining lx <= fuel -> remaining lx <= fuel' ->
    Lexer.skip_comment_loop fuel lx = Lexer.skip_comment_loop fuel' lx.
Proof.
  induction fuel as [| fuel IH]; intros [| fuel'] lx H H'; try reflexivity;
    cbn [Lexer.skip_comment_loop];
    destruct (Lexer.current_char lx) as [c |] eqn:Hc; try reflexivity;
    pose proof (current_char_remaining lx Hc); try lia.
  destruct (Ascii.eqb c LF); [reflexivity |].
  apply IH; rewrite advance_remaining; lia.
Qed.

Lemma skip_comment_loop_remaining :
  forall fuel lx,
    remaining (Lexer.skip_comment_loop fuel lx) <= remaining lx.
Proof.
  induction fuel as [| fuel IH]; intros lx; cbn [Lexer.skip_comment_loop];
    [lia |].
  destruct (Lexer.current_char lx) as [c |]; [| lia].
  destruct (Ascii.eqb c LF); [lia |].
  specialize (IH (Lexer.advance lx)). rewrite advance_remaining in IH. lia.
Qed.

Lemma skip_comment_remaining :
  forall lx c,
    Lexer.current_char lx = Some c -> Ascii.eqb c LF = false ->
    Ascii.eqb c "#"%char = true ->
    remaining (Lexer.skip_comment lx) < remaining lx.
Proof.
  intros lx c Hc Hlf Hhash. unfold Lexer.skip_comment, Lexer.is_char.
  rewrite Hc, Hhash.
  pose proof (current_char_remaining lx Hc) as Hpos.
  destruct (remaining lx) as [| n] eqn:Hn; [lia |].
  unfold remaining in Hn. rewrite Hn.
  cbn [Lexer.skip_comment_loop]. rewrite Hc, Hlf.
  pose proof (skip_comment_loop_remaining n (Lexer.advance lx)) as Hle.
  rewrite advance_remaining in Hle. unfold remaining in Hle at 2. rewrite Hn in Hle.
  cbn in Hle. lia.
Qed.

Lemma read_string_loop_budget :
  forall fuel fuel' value lx,
    remaining lx <= fuel -> remaining lx <= fuel' ->
    Lexer.read_string_loop fuel value lx = Lexer.read_string_loop fuel' value lx.
Proof.
  induction fuel as [| fuel IH]; intros [| fuel'] value lx H H'; try reflexivity;
    cbn [Lexer.read_string_loop];
    destruct (Lexer.current_char lx) as [c |] eqn:Hc; try reflexivity;
    pose proof (current_char_remaining lx Hc); try lia.
  destruct (Ascii.eqb c "034"%char); [reflexivity |].
  destruct (Ascii.eqb c "\"%char && Lexer.is_char (Lexer.peek_char lx) "034"%char);
    apply IH; rewrite ?advance_remaining; lia.
Qed.

Lemma read_string_loop_remaining :
  forall fuel value lx,
    remaining (snd (Lexer.read_string_loop fuel value lx)) <= remaining lx.
Proof.
  induction fuel as [| fuel IH]; intros value lx; cbn [Lexer.read_string_loop];
    [cbn; lia |].
  destruct (Lexer.current_char lx) as [c |]; [| cbn; lia].
  destruct (Ascii.eqb c "034"%char); [cbn; lia |].
  destruct (Ascii.eqb c "\"%char && Lexer.is_char (Lexer.peek_char lx) "034"%char).
  - specialize (IH (value ++ dq) (Lexer.advance (Lexer.advance lx))).
    rewrite !advance_remaining in IH. lia.
  - specialize (IH (value ++ String c EmptyString) (Lexer.advance lx)).
    rewrite advance_remaining in IH. lia.
Qed.

Lemma read_string_remaining :
  forall lx c,
    Lexer.current_char lx = Some c ->
    remaining (snd (Lexer.read_string lx)) < remaining lx.
Proof.
  intros lx c Hc. unfold Lexer.read_string.
  pose proof (current_char_remaining lx Hc) as Hpos.
  pose proof (read_string_loop_remaining
                (String.length (Lexer.rest (Lexer.advance lx))) EmptyString
                (Lexer.advance lx)) as Hle.
  rewrite advance_remaining in Hle.
  destruct (Lexer.read_string_loop (String.length (Lexer.rest (Lexer.advance lx)))
              EmptyString (Lexer.advance lx)) as [value lx2].
  cbn [snd] in Hle.
  destruct (Lexer.is_char (Lexer.current_char lx2) "034"%char); cbn [snd];
    rewrite ?advance_remaining; lia.
Qed.

Lemma read_number_loop_budget :
  forall fuel fuel' value lx,
    remaining lx <= fuel -> remaining lx <= fuel' ->
    Lexer.read_number_loop fuel value lx = Lexer.read_number_loop fuel' value lx.
Proof.
  induction fuel as [| fuel IH]; intros [| fuel'] value lx H H'; try reflexivity;
    cbn [Lexer.read_number_loop];
    destruct (Lexer.current_char lx) as [c |] eqn:Hc; try reflexivity;
    pose proof (current_char_remaining lx Hc); try lia.
  destruct (isdigit c || Ascii.eqb c "."%char); [| reflexivity].
  apply IH; rewrite advance_remaining; lia.
Qed.

Lemma read_number_loop_remaining :
  forall fuel value lx,
    remaining (snd (Lexer.read_number_loop fuel value lx)) <= remaining lx.
Proof.
  induction fuel as [| fuel IH]; intros value lx; cbn [Lexer.read_number_loop];
    [cbn; lia |].
  destruct (Lexer.current_char lx) as [c |]; [| cbn; lia].
  destruct (isdigit c || Ascii.eqb c "."%char); [| cbn; lia].
  specialize (IH (value ++ String c EmptyString) (Lexer.advance lx)).
  rewrite advance_remaining in IH. lia.
Qed.

(** [read_number] ends where its loop ends, whatever the conversion gives. *)
Lemma read_number_state :
  forall lx,
    snd (Lexer.read_number lx)
    = snd (Lexer.read_number_loop (String.length (Lexer.rest lx)) EmptyString lx).
Proof.
  intros lx. unfold Lexer.read_number.
  destruct (Lexer.read_number_loop _ EmptyString lx) as [value lx'].
  destruct (char_in "."%char value);
    [destruct (float_literal value) | destruct (py_int value)]; reflexivity.
Qed.

Lemma read_number_remaining :
  forall lx c,
    Lexer.current_char lx = Some c -> isdigit c = true ->
    remaining (snd (Lexer.read_number lx)) < remaining lx.
Proof.
  intros lx c Hc Hdigit. rewrite read_number_state.
  pose proof (current_char_remaining lx Hc) as Hpos.
  destruct (remaining lx) as [| n] eqn:Hn; [lia |].
  unfold remaining in Hn. rewrite Hn.
  cbn [Lexer.read_number_loop]. rewrite Hc, Hdigit. cbn [orb].
  pose proof (read_number_loop_remaining n (EmptyString ++ String c EmptyString)
                (Lexer.advance lx)) as Hle.
  rewrite advance_remaining in Hle. unfold remaining in Hle at 2. rewrite Hn in Hle.
  lia.
Qed.

Lemma read_identifier_loop_budget :
  forall fuel fuel' value lx,
    remaining lx <= fuel -> remaining lx <= fuel' ->
    Lexer.read_identifier_loop fuel value lx
    = Lexer.read_identifier_loop fuel' value lx.
Proof.
  induction fuel as [| fuel IH]; intros [| fuel'] value lx H H'; try reflexivity;
    cbn [Lexer.read_identifier_loop];
    destruct (Lexer.current_char lx) as [c |] eqn:Hc; try reflexivity;
    pose proof (current_char_remaining lx Hc); try lia.
  destruct (isalnum c || Ascii.eqb c "_"%char); [| reflexivity].
  apply IH; rewrite advance_remaining; lia.
Qed.

Lemma read_identifier_loop_remaining :
  forall fuel value lx,
    remaining (snd (Lexer.read_identifier_loop fuel value lx)) <= remaining lx.
Proof.
  induction fuel as [| fuel IH]; intros value lx; cbn [Lexer.read_identifier_loop];
    [cbn; lia |].
  destruct (Lexer.current_char lx) as [c |]; [| cbn; lia].
  destruct (isalnum c || Ascii.eqb c "_"%char); [| cbn; lia].
  specialize (IH (value ++ String c EmptyString) (Lexer.advance lx)).
  rewrite advance_remaining in IH. lia.
Qed.

Lemma isalpha_isalnum : forall c, isalpha c = true -> isalnum c = true.
Proof. intros c H. unfold isalnum. rewrite H. reflexivity. Qed.

Lemma read_identifier_remaining :
  forall lx c,
    Lexer.current_char lx = Some c ->
    isalpha c || Ascii.eqb c "_"%char = true ->
    remaining (snd (Lexer.read_identifier lx)) < remaining lx.
Proof.
  intros lx c Hc Hstart. unfold Lexer.read_identifier.
  pose proof (current_char_remaining lx Hc) as Hpos.
  assert (Hgo : isalnum c || Ascii.eqb c "_"%char = true).
  { apply orb_true_iff in Hstart. apply orb_true_iff.
    destruct Hstart as [H | H]; [left; apply isalpha_isalnum; exact H | right; exact H]. }
  destruct (remaining lx) as [| n] eqn:Hn; [lia |].
  unfold remaining in Hn. rewrite Hn.
  cbn [Lexer.read_identifier_loop]. rewrite Hc, Hgo.
  pose proof (read_identifier_loop_remaining n (EmptyString ++ String c EmptyString)
                (Lexer.advance lx)) as Hle.
  rewrite advance_remaining in Hle. unfold remaining in Hle at 2. rewrite Hn in Hle.
  lia.
Qed.

Lemma operator_token_remaining :
  forall lx c tok lx',
    Lexer.current_char lx = Some c ->
    Lexer.operator_token lx c = Ok (tok, lx') ->
    remaining lx' < remaining lx.
Proof.
  intros lx c tok lx' Hc H.
  pose proof (current_char_remaining lx Hc) as Hpos.
  unfold Lexer.operator_token in H.
  repeat match type of H with
         | context [if ?b then _ else _] => destruct b
         end;
    inversion H; subst; rewrite ?advance_remaining; lia.
Qed.

(** [next_token] gives the same result on every budget that is at least
    the number of characters left. *)
Lemma next_token_loop_budget :
  forall fuel fuel' lx,
    remaining lx <= fuel -> remaining lx <= fuel' ->
    Lexer.next_token_loop fuel lx = Lexer.next_token_loop fuel' lx.
Proof.
  induction fuel as [| fuel IH]; intros [| fuel'] lx H H'; try reflexivity;
    cbn [Lexer.next_token_loop];
    destruct (Lexer.current_char lx) as [c |] eqn:Hc; try reflexivity;
    pose proof (current_char_remaining lx Hc); try lia.
  destruct (char_in c Lexer.blanks) eqn:Hblank.
  { pose proof (skip_whitespace_remaining lx Hc Hblank). apply IH; lia. }
  destruct (Ascii.eqb c LF) eqn:Hlf; [reflexivity |].
  destruct (Ascii.eqb c "#"%char) eqn:Hhash; [| reflexivity].
  pose proof (skip_comment_remaining lx Hc Hlf Hhash). apply IH; lia.
Qed.

(** A token other than the end marker consumes at least one character. *)
Lemma next_token_loop_remaining :
  forall fuel lx tok lx',
    Lexer.next_token_loop fuel lx = Ok (tok, lx') ->
    tok_type tok = TokenType.EOF \/ remaining lx' < remaining lx.
Proof.
  induction fuel as [| fuel IH]; intros lx tok lx' H;
    cbn [Lexer.next_token_loop] in H;
    (destruct (Lexer.current_char lx) as [c |] eqn:Hc;
     [pose proof (current_char_remaining lx Hc) as Hpos
     | inversion H; subst; left; reflexivity]);
    (destruct (char_in c Lexer.blanks) eqn:Hblank;
     [first
        [ inversion H; subst; left; reflexivity
        | pose proof (skip_whitespace_remaining lx Hc Hblank);
          destruct (IH _ _ _ H); [left; assumption | right; lia] ] |]);
    (destruct (Ascii.eqb c LF) eqn:Hlf;
     [inversion H; subst; right; rewrite advance_remaining; lia |]);
    (destruct (Ascii.eqb c "#"%char) eqn:Hhash;
     [first
        [ inversion H; subst; left; reflexivity
        | pose proof (skip_comment_remaining lx Hc Hlf Hhash);
          destruct (IH _ _ _ H); [left; assumption | right; lia] ] |]);
    (destruct (Ascii.eqb c "034"%char);
     [pose proof (read_string_remaining lx Hc);
      destruct (Lexer.read_string lx) as [value lx1]; inversion H; subst; right;
      assumption |]);
    (destruct (isdigit c) eqn:Hdigit;
     [pose proof (read_number_remaining lx Hc Hdigit);
      destruct (Lexer.read_number lx) as [[value | e] lx1]; inversion H; subst; right;
      assumption |]);
    (destruct (isalpha c || Ascii.eqb c "_"%char) eqn:Hstart;
     [pose proof (read_identifier_remaining lx Hc Hstart);
      destruct (Lexer.read_identifier lx) as [value lx1];
      destruct (String.eqb (lower value) "true");
      [inversion H; subst; right; assumption |];
      destruct (String.eqb (lower value) "false");
      [inversion H; subst; right; assumption |];
      inversion H; subst; right; assumption |]);
    right; apply (operator_token_remaining lx Hc H).
Qed.

Lemma tokenize_loop_budget :
  forall fuel fuel' acc lx,
    remaining lx <= fuel -> remaining lx <= fuel' ->
    Lexer.tokenize_loop fuel acc lx = Lexer.tokenize_loop fuel' acc lx.
Proof.
  induction fuel as [| fuel IH]; intros [| fuel'] acc lx H H'; try reflexivity;
    cbn [Lexer.tokenize_loop];
    destruct (Lexer.next_token lx) as [[tok lx1] | e] eqn:Hnext; try reflexivity;
    destruct (TokenType.eqb (tok_type tok) TokenType.EOF) eqn:Heof; try reflexivity;
    destruct (next_token_loop_remaining _ _ Hnext) as [Htype | Hless];
    try (rewrite Htype in Heof; discriminate Heof); try lia.
  apply IH; lia.
Qed.

(** The budgets of the lexer are enough: [next_token] and [tokenize] give
    the same result on every larger budget, so the branches that end a loop
    on a used-up budget never decide a result. *)
Lemma tokenize_budget :
  forall (source : string) (extra : nat),
    Lexer.tokenize_loop (String.length source + extra) [] (Lexer.init source)
    = Lexer.tokenize source.
Proof.
  intros source extra. unfold Lexer.tokenize.
  apply tokenize_loop_budget; unfold remaining, Lexer.init; cbn [Lexer.rest]; lia.
Qed.

Lemma next_token_budget :
  forall (lx : Lexer.state) (extra : nat),
    Lexer.next_token_loop (remaining lx + extra) lx = Lexer.next_token lx.
Proof.
  intros lx extra. unfold Lexer.next_token.
  apply next_token_loop_budget; unfold remaining; lia.
Qed.

(** Claim C4. The lexer is to emit the single token [**] wherever the two
    stars start an operator. On the text [2 ** 3] it emits two [STAR] tokens
    instead: the branch for [**] in [next_token] stands after the branch for
    a single star and is never reached. *)
Theorem tokenize_double_star :
  Lexer.tokenize "2 ** 3"
  = Ok [ mkToken TokenType.NUMERIC_LITERAL (VInt 2) 1 1;
         mkToken TokenType.STAR (VStr "*") 1 3;
         mkToken TokenType.STAR (VStr "*") 1 4;
         mkToken TokenType.NUMERIC_LITERAL (VInt 3) 1 6;
         mkToken TokenType.EOF VNone 1 7 ].
Proof. reflexivity. Qed.

(** The sample text of the unit test [test_unclosed_string_double_quote]:
    [load], a quote, and text with no closing quote. *)
Definition unterminated_source : string := "load " ++ dq ++ "data.csv as sales".

(** Claim C6. Tokenizing a text with an unterminated string literal is to
    fail with one lexical diagnostic. On the text of the unit test the lexer
    returns normally: [read_string] stops at the end of the input and the
    rest of the line becomes the string token. *)
Theorem tokenize_unterminated_string :
  Lexer.tokenize unterminated_source
  = Ok [ mkToken TokenType.LOAD (VStr "load") 1 1;
         mkToken TokenType.STRING_LITERAL (VStr "data.csv as sales") 1 6;
         mkToken TokenType.EOF VNone 1 24 ].
Proof. reflexivity. Qed.

(* ===================================================================== *)
(** * Properties of the parser, the analyzer and the runner *)
(* ===================================================================== *)

Section Claims.
  Variable supports_color : bool.
  Variable Unmodelled : Type.
  Variable parse_unmodelled :
    TokenType.t -> list Token -> nat -> outcome (Unmodelled * nat).
  Variable visit_unmodelled :
    bool -> string -> ASTNode Unmodelled -> Unmodelled -> SymbolTable.t ->
    SymbolTable.t * option exn.
  Variable file_schema_probe : string -> option Value -> list (string * ColumnInfo).
  Variable codegen_other :
    ASTNode Unmodelled -> CodeGenerator.t -> outcome CodeGenerator.t.

(** Running the expression sub-parser on the tokens of a text. *)
Definition expression_of (source : string) : outcome (ExpressionNode * nat) :=
  match Lexer.tokenize source with
  | Raise e => Raise e
  | Ok tokens => @Parser.parse_expression Unmodelled tokens source 0
  end.

(** Lexing and parsing a text. *)
Definition parse_source (source : string) : outcome (ProgramNode Unmodelled) :=
  front_end parse_unmodelled source.

(** Analysis without type checking, on a given symbol table. *)
Definition analyze_with (source : string) (st : SymbolTable.t)
  (ast : ProgramNode Unmodelled) : outcome (list NoetaError) * SymbolTable.t :=
  SemanticAnalyzer.analyze file_schema_probe visit_unmodelled source false ast st.

(* ------------------------------------------------------------------- *)
(** ** The expression sub-parser *)
(* ------------------------------------------------------------------- *)

(** A routine that raises at every position. *)
Definition always_raises (A : Type) (m : nat -> outcome (A * nat)) : Prop :=
  forall pos, exists e, m pos = Raise e.

Lemma bind_always_raises :
  forall (A B : Type) (m : Parser.M A) (k : A -> Parser.M B),
    always_raises m -> always_raises (Parser.bind m k).
Proof.
  intros A B m k Hm pos. destruct (Hm pos) as [e He].
  exists e. unfold Parser.bind. rewrite He. reflexivity.
Qed.

Lemma parse_multiplicative_raises :
  forall tokens source,
    always_raises (@Parser.parse_multiplicative Unmodelled tokens source).
Proof.
  intros tokens source pos. unfold Parser.parse_multiplicative, Parser.bind.
  destruct (@Parser.parse_power Unmodelled tokens source pos) as [[node pos'] | e].
  - eexists. reflexivity.
  - exists e. reflexivity.
Qed.

(** The expression sub-parser returns no tree on any token list: every
    path runs [parse_multiplicative], which calls the statement routine
    [parse_power] and then names a missing member of [TokenType]. *)
Lemma parse_expression_never_returns :
  forall tokens source,
    always_raises (@Parser.parse_expression Unmodelled tokens source).
Proof.
  intros tokens source.
  unfold Parser.parse_expression, Parser.parse_conditional.
  apply bind_always_raises.
  unfold Parser.parse_logical_or. apply bind_always_raises.
  unfold Parser.parse_logical_and. apply bind_always_raises.
  unfold Parser.parse_comparison. apply bind_always_raises.
  unfold Parser.parse_additive. apply bind_always_raises.
  apply parse_multiplicative_raises.
Qed.

(** Claim C3. The text [1 + 2 * 3 ** 2] is to parse to the tree of
    [1 + (2 * (3 ** 2))]. The expression sub-parser returns no tree for it:
    the call [self.parse_power()] of [parse_multiplicative] reaches the
    routine of the [power] statement, which skips the first token and then
    asks for a dataset name where the plus sign stands. *)
Theorem parse_expression_precedence_input :
  expression_of "1 + 2 * 3 ** 2"
  = Raise (NoetaExc (mkNoetaError "Expected dataset or column name, got plus" SYNTAX
             (Some (mkErrorContext 1 3 1 "1 + 2 * 3 ** 2"))
             (Some "Check the syntax for this operation") None)).
Proof. reflexivity. Qed.

(** The parenthesized text fares the same, one column further on. *)
Lemma parse_expression_parenthesized_input :
  expression_of "1 + (2 * (3 ** 2))"
  = Raise (NoetaExc (mkNoetaError "Expected dataset or column name, got plus" SYNTAX
             (Some (mkErrorContext 1 3 1 "1 + (2 * (3 ** 2))"))
             (Some "Check the syntax for this operation") None)).
Proof. reflexivity. Qed.

(** The same failure seen from a statement: [mutate] with the [with]
    syntax. *)
Lemma parse_mutate_expression :
  parse_source "mutate d with total = 1 + 2 * 3 ** 2 as r"
  = Raise (NoetaExc (mkNoetaError "Expected dataset or column name, got plus" SYNTAX
             (Some (mkErrorContext 1 25 1 "mutate d with total = 1 + 2 * 3 ** 2 as r"))
             (Some "Check the syntax for this operation") None)).
Proof. reflexivity. Qed.

(* ------------------------------------------------------------------- *)
(** ** Positions of statement nodes *)
(* ------------------------------------------------------------------- *)

(** What a routine returns, wherever it starts, satisfies [P]. *)
Definition returns_only (A : Type) (P : A -> Prop) (m : Parser.M A) : Prop :=
  forall (pos : nat) (a : A) (pos' : nat), m pos = Ok (a, pos') -> P a.

(** A node without a position: line 0 and column 0, what [__post_init__]
    sets when the constructor is given neither. *)
Definition unset (n : ASTNode Unmodelled) : Prop :=
  node_line n = 0 /\ node_column n = 0.

Definition unset_if_any (o : option (ASTNode Unmodelled)) : Prop :=
  match o with
  | Some n => unset n
  | None => True
  end.

Lemma returns_only_ret :
  forall (A : Type) (P : A -> Prop) (a : A), P a -> returns_only P (Parser.ret a).
Proof. intros A P a Ha pos a' pos' H. inversion H; subst. exact Ha. Qed.

Lemma returns_only_raise :
  forall (A : Type) (P : A -> Prop) (e : exn), returns_only P (@Parser.raise A e).
Proof. intros A P e pos a pos' H. discriminate H. Qed.

Lemma returns_only_bind_with :
  forall (A B : Type) (Q : A -> Prop) (P : B -> Prop)
         (m : Parser.M A) (k : A -> Parser.M B),
    returns_only Q m ->
    (forall a, Q a -> returns_only P (k a)) ->
    returns_only P (Parser.bind m k).
Proof.
  intros A B Q P m k Hm Hk pos b pos' H. unfold Parser.bind in H.
  destruct (m pos) as [[a pos1] | e] eqn:Hmp; [| discriminate H].
  apply (Hk a (Hm _ _ _ Hmp) _ _ _ H).
Qed.

Lemma returns_only_bind :
  forall (A B : Type) (P : B -> Prop) (m : Parser.M A) (k : A -> Parser.M B),
    (forall a, returns_only P (k a)) ->
    returns_only P (Parser.bind m k).
Proof.
  intros A B P m k Hk.
  apply returns_only_bind_with with (Q := fun _ => True).
  - intros pos a pos' _. exact I.
  - intros a _. apply Hk.
Qed.

(** A loop keeps what its body keeps. *)
Lemma returns_only_while_loop :
  forall (A : Type) (Inv : A -> Prop) (cond : Parser.M bool)
         (body : A -> Parser.M (Parser.loop_step A)),
    (forall acc, Inv acc ->
       returns_only (fun step => match step with
                                 | Parser.Continue a => Inv a
                                 | Parser.Break a => Inv a
                                 end) (body acc)) ->
    forall (budget : nat) (acc : A),
      Inv acc -> returns_only Inv (Parser.while_loop budget cond body acc).
Proof.
  intros A Inv cond body Hbody.
  induction budget as [| budget IH]; intros acc Hacc pos a pos' H;
    cbn [Parser.while_loop] in H;
    destruct (cond pos) as [[[|] pos1] | e]; try discriminate H;
    try (inversion H; subst; exact Hacc).
  destruct (body acc pos1) as [[[acc' | acc'] pos2] | e] eqn:Hb; try discriminate H.
  - apply (IH acc' (Hbody _ Hacc _ _ _ Hb) _ _ _ H).
  - inversion H; subst. apply (Hbody _ Hacc _ _ _ Hb).
Qed.

Section Positions.
Variable tokens : list Token.
Variable source : string.

(** Peels the statements of a routine down to the node it builds. *)
Ltac builds_new_node :=
  repeat first
    [ apply returns_only_bind; intros
    | match goal with
      | |- returns_only _ (if ?b then _ else _) => destruct b
      end ];
  apply returns_only_ret; split; reflexivity.

Lemma parse_load_with_unset :
  forall node,
    returns_only unset (@Parser.parse_load_with Unmodelled tokens source node).
Proof. intros node. unfold Parser.parse_load_with. builds_new_node. Qed.

Lemma parse_load_sql_unset :
  returns_only unset (@Parser.parse_load_sql Unmodelled tokens source).
Proof. unfold Parser.parse_load_sql. builds_new_node. Qed.

Lemma parse_load_enhanced_unset :
  returns_only unset (@Parser.parse_load_enhanced Unmodelled tokens source).
Proof.
  unfold Parser.parse_load_enhanced.
  apply returns_only_bind; intros _.
  apply returns_only_bind; intros token. cbv zeta.
  repeat match goal with
         | |- returns_only _ (if ?b then _ else _) => destruct b
         end;
    first [ apply parse_load_with_unset | apply parse_load_sql_unset
          | apply returns_only_raise | builds_new_node ].
Qed.

Lemma parse_save_enhanced_unset :
  returns_only unset (@Parser.parse_save_enhanced Unmodelled tokens source).
Proof. unfold Parser.parse_save_enhanced. builds_new_node. Qed.

Lemma parse_select_unset :
  returns_only unset (@Parser.parse_select Unmodelled tokens source).
Proof. unfold Parser.parse_select. builds_new_node. Qed.

Lemma parse_filter_unset :
  returns_only unset (@Parser.parse_filter Unmodelled tokens source).
Proof. unfold Parser.parse_filter. builds_new_node. Qed.

Lemma parse_join_unset :
  returns_only unset (@Parser.parse_join Unmodelled tokens source).
Proof. unfold Parser.parse_join. builds_new_node. Qed.

Lemma parse_describe_unset :
  returns_only unset (@Parser.parse_describe Unmodelled tokens source).
Proof. unfold Parser.parse_describe. builds_new_node. Qed.

Lemma parse_summary_unset :
  returns_only unset (@Parser.parse_summary Unmodelled tokens source).
Proof. unfold Parser.parse_summary. builds_new_node. Qed.

Lemma parse_info_unset :
  returns_only unset (@Parser.parse_info Unmodelled tokens source).
Proof. unfold Parser.parse_info. builds_new_node. Qed.

Lemma parse_count_na_unset :
  returns_only unset (@Parser.parse_count_na Unmodelled tokens source).
Proof. unfold Parser.parse_count_na. builds_new_node. Qed.

Lemma parse_power_unset :
  returns_only unset (@Parser.parse_power Unmodelled tokens source).
Proof. unfold Parser.parse_power. builds_new_node. Qed.

Lemma parse_mutate_unset :
  returns_only unset (@Parser.parse_mutate Unmodelled tokens source).
Proof. unfold Parser.parse_mutate. builds_new_node. Qed.

Lemma parse_other_unset :
  forall keyword,
    returns_only unset (Parser.parse_other parse_unmodelled tokens keyword).
Proof.
  intros keyword pos n pos' H. unfold Parser.parse_other in H.
  destruct (parse_unmodelled keyword tokens pos) as [[u consumed] | e];
    [| discriminate H].
  inversion H; subst. split; reflexivity.
Qed.

Lemma some_unset :
  forall m, returns_only unset m -> returns_only unset_if_any (Parser.some m).
Proof.
  intros m Hm. unfold Parser.some.
  apply returns_only_bind_with with (Q := unset); [exact Hm |].
  intros n Hn. apply returns_only_ret. exact Hn.
Qed.

Lemma parse_statement_unset :
  returns_only unset_if_any (Parser.parse_statement parse_unmodelled tokens source).
Proof.
  unfold Parser.parse_statement.
  apply returns_only_bind; intros [token |]; [| apply returns_only_ret; exact I].
  cbv zeta.
  repeat match goal with
         | |- returns_only _ (if ?b then _ else _) => destruct b
         end;
    first
      [ apply returns_only_raise
      | apply some_unset;
        first [ apply parse_load_enhanced_unset
              | apply parse_select_unset | apply parse_filter_unset
              | apply parse_join_unset | apply parse_power_unset
              | apply parse_count_na_unset | apply parse_mutate_unset
              | apply parse_describe_unset | apply parse_summary_unset
              | apply parse_info_unset | apply parse_save_enhanced_unset
              | apply parse_other_unset ] ].
Qed.

(** No node of a parsed program has a position, whatever the token list:
    every routine builds its node without [line] and [column], and nothing
    calls [set_position] afterwards. *)
Lemma parse_positions_unset :
  forall prog,
    Parser.parse parse_unmodelled tokens source = Ok prog ->
    Forall unset prog.
Proof.
  intros prog H. unfold Parser.parse, Parser.while_ in H.
  match type of H with
  | match ?m 0 with _ => _ end = _ => destruct (m 0) as [[statements pos] | e] eqn:Hloop
  end; [| discriminate H].
  inversion H; subst.
  revert Hloop. apply returns_only_while_loop with (Inv := Forall unset).
  - intros acc Hacc.
    apply returns_only_bind_with with (Q := unset_if_any);
      [apply parse_statement_unset |].
    intros [s |] Hs; apply returns_only_ret.
    + apply Forall_app. split; [exact Hacc | constructor; [exact Hs | constructor]].
    + exact Hacc.
  - constructor.
Qed.

End Positions.

(** The same for a text: a program parsed from it has no node with a
    position, while [next_token] numbers lines from 1. *)
Lemma parse_source_positions_unset :
  forall source prog,
    parse_source source = Ok prog -> Forall unset prog.
Proof.
  intros source prog H. unfold parse_source, front_end in H.
  destruct (Lexer.tokenize source) as [tokens | e]; [| discriminate H].
  apply (parse_positions_unset _ _ H).
Qed.

(** Claim C5. A single-line statement is to parse to one node whose line
    and column are those of its leading keyword. The text [describe d]
    parses to one node, but the node is at line 0, column 0 while the
    keyword token is at line 1, column 1: no parse routine calls
    [set_position]. *)
Theorem parse_describe_position :
  Lexer.tokenize "describe d"
  = Ok [ mkToken TokenType.DESCRIBE (VStr "describe") 1 1;
         mkToken TokenType.IDENTIFIER (VStr "d") 1 10;
         mkToken TokenType.EOF VNone 1 11 ]
  /\ parse_source "describe d" = Ok [ mkASTNode 0 0 (DescribeNode "d" None) ].
Proof. split; reflexivity. Qed.

(* ------------------------------------------------------------------- *)
(** ** The loops of the parser never use up their budget *)
(* ------------------------------------------------------------------- *)

(** A routine that never moves [self.pos] back, and one that moves it on
    whenever it returns. *)
Definition monotone (A : Type) (m : Parser.M A) : Prop :=
  forall (pos : nat) (a : A) (pos' : nat), m pos = Ok (a, pos') -> pos <= pos'.

Definition advances (A : Type) (m : Parser.M A) : Prop :=
  forall (pos : nat) (a : A) (pos' : nat), m pos = Ok (a, pos') -> pos < pos'.

Lemma advances_monotone :
  forall (A : Type) (m : Parser.M A), advances m -> monotone m.
Proof. intros A m H pos a pos' Hm. specialize (H pos a pos' Hm). lia. Qed.

Lemma monotone_ret : forall (A : Type) (a : A), monotone (Parser.ret a).
Proof. intros A a pos a' pos' H. inversion H; subst. lia. Qed.

Lemma monotone_raise : forall (A : Type) (e : exn), monotone (@Parser.raise A e).
Proof. intros A e pos a pos' H. discriminate H. Qed.

Lemma advances_raise : forall (A : Type) (e : exn), advances (@Parser.raise A e).
Proof. intros A e pos a pos' H. discriminate H. Qed.

Lemma monotone_missing_member :
  forall (A : Type) (name : string), monotone (@Parser.missing_member A name).
Proof. intros A name pos a pos' H. discriminate H. Qed.

Lemma monotone_lift : forall (A : Type) (o : outcome A), monotone (Parser.lift o).
Proof.
  intros A o pos a pos' H. unfold Parser.lift in H.
  destruct o; inversion H; subst. lia.
Qed.

Lemma advances_advance : advances Parser.advance.
Proof. intros pos a pos' H. inversion H; subst. lia. Qed.

Lemma monotone_bind :
  forall (A B : Type) (m : Parser.M A) (k : A -> Parser.M B),
    monotone m -> (forall a, monotone (k a)) -> monotone (Parser.bind m k).
Proof.
  intros A B m k Hm Hk pos b pos' H. unfold Parser.bind in H.
  destruct (m pos) as [[a pos1] | e] eqn:Hmp; [| discriminate H].
  specialize (Hm _ _ _ Hmp). specialize (Hk a _ _ _ H). lia.
Qed.

Lemma advances_bind_l :
  forall (A B : Type) (m : Parser.M A) (k : A -> Parser.M B),
    advances m -> (forall a, monotone (k a)) -> advances (Parser.bind m k).
Proof.
  intros A B m k Hm Hk pos b pos' H. unfold Parser.bind in H.
  destruct (m pos) as [[a pos1] | e] eqn:Hmp; [| discriminate H].
  specialize (Hm _ _ _ Hmp). specialize (Hk a _ _ _ H). lia.
Qed.

Lemma advances_bind_r :
  forall (A B : Type) (m : Parser.M A) (k : A -> Parser.M B),
    monotone m -> (forall a, advances (k a)) -> advances (Parser.bind m k).
Proof.
  intros A B m k Hm Hk pos b pos' H. unfold Parser.bind in H.
  destruct (m pos) as [[a pos1] | e] eqn:Hmp; [| discriminate H].
  specialize (Hm _ _ _ Hmp). specialize (Hk a _ _ _ H). lia.
Qed.

Lemma monotone_while_loop :
  forall (A : Type) (cond : Parser.M bool) (body : A -> Parser.M (Parser.loop_step A)),
    monotone cond -> (forall acc, monotone (body acc)) ->
    forall (budget : nat) (acc : A), monotone (Parser.while_loop budget cond body acc).
Proof.
  intros A cond body Hcond Hbody.
  induction budget as [| budget IH]; intros acc pos a pos' H;
    cbn [Parser.while_loop] in H;
    destruct (cond pos) as [[[|] pos1] | e] eqn:Hc; try discriminate H;
    specialize (Hcond _ _ _ Hc);
    try (inversion H; subst; lia).
  destruct (body acc pos1) as [[[acc' | acc'] pos2] | e] eqn:Hb; try discriminate H;
    specialize (Hbody _ _ _ _ Hb).
  - specialize (IH _ _ _ _ H). lia.
  - inversion H; subst. lia.
Qed.

Section Budget.
Variable tokens : list Token.
Variable source : string.

(** A loop condition leaves the position alone and holds only at a
    token. *)
Definition at_a_token (cond : Parser.M bool) : Prop :=
  forall (pos : nat) (b : bool) (pos' : nat),
    cond pos = Ok (b, pos') -> pos' = pos /\ (b = true -> pos < length tokens).

(** A loop none of whose iterations stands still gives the same result on
    every budget that is at least the number of tokens left. *)
Lemma while_loop_budget :
  forall (A : Type) (cond : Parser.M bool) (body : A -> Parser.M (Parser.loop_step A)),
    at_a_token cond ->
    (forall acc pos a pos',
       cond pos = Ok (true, pos) ->
       body acc pos = Ok (Parser.Continue a, pos') -> pos < pos') ->
    forall (budget budget' : nat) (acc : A) (pos : nat),
      length tokens - pos <= budget -> length tokens - pos <= budget' ->
      Parser.while_loop budget cond body acc pos
      = Parser.while_loop budget' cond body acc pos.
Proof.
  intros A cond body Hcond Hbody.
  induction budget as [| budget IH]; intros [| budget'] acc pos H H'; try reflexivity;
    cbn [Parser.while_loop];
    destruct (cond pos) as [[[|] pos1] | e] eqn:Hc; try reflexivity;
    destruct (Hcond _ _ _ Hc) as [Hpos Hin]; subst pos1; specialize (Hin eq_refl);
    try lia.
  destruct (body acc pos) as [[[acc' | acc'] pos2] | e] eqn:Hb; try reflexivity.
  specialize (Hbody _ _ _ _ Hc Hb). apply IH; lia.
Qed.

(** The same for [while_], whose budget is the number of tokens. *)
Lemma while_budget :
  forall (A : Type) (cond : Parser.M bool) (body : A -> Parser.M (Parser.loop_step A)),
    at_a_token cond ->
    (forall acc pos a pos',
       cond pos = Ok (true, pos) ->
       body acc pos = Ok (Parser.Continue a, pos') -> pos < pos') ->
    forall (extra : nat) (acc : A) (pos : nat),
      Parser.while_loop (length tokens + extra) cond body acc pos
      = Parser.while_ tokens cond body acc pos.
Proof.
  intros A cond body Hcond Hbody extra acc pos. unfold Parser.while_.
  apply while_loop_budget; try assumption; lia.
Qed.

Lemma monotone_current_token : monotone (Parser.current_token tokens).
Proof. intros pos a pos' H. inversion H; subst. lia. Qed.

Lemma match_at_a_token :
  forall token_types, at_a_token (Parser.match_ tokens token_types).
Proof.
  intros token_types pos b pos' H.
  unfold Parser.match_, Parser.bind, Parser.current_token, Parser.ret in H.
  inversion H; subst. split; [reflexivity |].
  destruct (nth_error tokens pos') eqn:Hnth; [| discriminate].
  intros _. apply nth_error_Some. congruence.
Qed.

Lemma monotone_match :
  forall token_types, monotone (Parser.match_ tokens token_types).
Proof.
  intros token_types pos b pos' H.
  destruct (@match_at_a_token token_types pos b pos' H) as [Hpos _]. lia.
Qed.

Lemma advances_expect :
  forall token_type, advances (Parser.expect tokens source token_type).
Proof.
  intros token_type pos t pos' H. unfold Parser.expect in H.
  destruct (nth_error tokens pos) as [token |].
  - destruct (TokenType.eqb (tok_type token) TokenType.EOF).
    + repeat match type of H with
             | context [match ?x with _ => _ end] => destruct x
             end; discriminate H.
    + destruct (negb (TokenType.eqb (tok_type token) token_type)).
      * destruct (Parser._create_error_context source token); discriminate H.
      * inversion H; subst. lia.
  - repeat match type of H with
           | context [match ?x with _ => _ end] => destruct x
           end; discriminate H.
Qed.

(** Solves a goal that a routine never moves back, statement by statement. *)
Ltac moves_on :=
  repeat first
    [ assumption
    | match goal with
      | H : context [monotone] |- monotone _ => apply H
      end
    | apply monotone_ret
    | apply monotone_raise
    | apply monotone_missing_member
    | apply monotone_lift
    | apply monotone_current_token
    | apply monotone_match
    | apply advances_monotone; first [ apply advances_advance | apply advances_expect ]
    | apply monotone_bind; [| intros ]
    | apply monotone_while_loop; [| intros ]
    | match goal with
      | |- monotone (if ?b then _ else _) => destruct b
      | |- monotone (match ?x with _ => _ end) => destruct x
      end
    | progress cbv zeta ].

(** Solves a goal that a routine moves on when its first statement does. *)
Ltac starts_moving :=
  apply advances_bind_l;
  [ first [ apply advances_advance | apply advances_expect ] | intros; moves_on ].

Lemma monotone_optional_as : monotone (Parser.optional_as tokens source).
Proof. unfold Parser.optional_as. moves_on. Qed.

Lemma monotone_dict_key : monotone (Parser.dict_key tokens source).
Proof. unfold Parser.dict_key. moves_on. Qed.

Lemma monotone_ident : forall ty, monotone (Parser.ident tokens source ty).
Proof. intros ty. unfold Parser.ident. moves_on. Qed.

Lemma monotone_parse_value :
  forall depth,
    monotone (Parser.parse_value tokens source depth)
    /\ monotone (Parser.parse_list_value tokens source depth)
    /\ monotone (Parser.parse_dict_value tokens source depth).
Proof.
  induction depth as [| depth [IHv [IHl IHd]]].
  - repeat split; apply monotone_raise.
  - pose proof monotone_dict_key.
    repeat split;
      cbn [Parser.parse_value Parser.parse_list_value Parser.parse_dict_value];
      unfold Parser.while_; moves_on.
Qed.

Lemma monotone_string_match :
  forall column match_type,
    monotone (Parser.string_match tokens source column match_type).
Proof. intros column match_type. unfold Parser.string_match. moves_on. Qed.

Lemma monotone_parse_where_clause :
  forall depth,
    monotone (Parser.parse_where_clause tokens source depth)
    /\ monotone (Parser.parse_or_condition tokens source depth)
    /\ monotone (Parser.parse_and_condition tokens source depth)
    /\ monotone (Parser.parse_not_condition tokens source depth)
    /\ monotone (Parser.parse_primary_condition tokens source depth).
Proof.
  induction depth as [| depth [IHw [IHo [IHa [IHn IHp]]]]].
  - repeat split; apply monotone_raise.
  - pose proof (proj1 (monotone_parse_value depth)).
    pose proof (proj1 (proj2 (monotone_parse_value depth))).
    pose proof monotone_string_match.
    repeat split;
      cbn [Parser.parse_where_clause Parser.parse_or_condition
             Parser.parse_and_condition Parser.parse_not_condition
             Parser.parse_primary_condition];
      unfold Parser.while_; moves_on.
Qed.

(** A loop whose body moves on gives the same result on every larger
    budget. *)
Lemma while_budget_advances :
  forall (A : Type) (cond : Parser.M bool) (body : A -> Parser.M (Parser.loop_step A)),
    at_a_token cond -> (forall acc, advances (body acc)) ->
    forall (extra : nat) (acc : A) (pos : nat),
      Parser.while_loop (length tokens + extra) cond body acc pos
      = Parser.while_ tokens cond body acc pos.
Proof.
  intros A cond body Hcond Hbody. apply while_budget; [exact Hcond |].
  intros acc pos a pos' _ Hb. apply (Hbody acc _ _ _ Hb).
Qed.

(** The loops of the value, [where] clause, column list, mutation and
    expression routines all have a body that starts with [advance]. *)
Lemma while_budget_after_advance :
  forall (A : Type) (cond : Parser.M bool) (k : A -> Parser.M (Parser.loop_step A)),
    at_a_token cond -> (forall acc, monotone (k acc)) ->
    forall (extra : nat) (acc : A) (pos : nat),
      Parser.while_loop (length tokens + extra) cond
        (fun acc => Parser.bind Parser.advance (fun _ => k acc)) acc pos
      = Parser.while_ tokens cond
          (fun acc => Parser.bind Parser.advance (fun _ => k acc)) acc pos.
Proof.
  intros A cond k Hcond Hk. apply while_budget_advances; [exact Hcond |].
  intros acc. apply advances_bind_l; [apply advances_advance | intros _; apply Hk].
Qed.

Lemma monotone_parse_identifier_or_keyword :
  monotone (Parser.parse_identifier_or_keyword tokens).
Proof. unfold Parser.parse_identifier_or_keyword. moves_on. Qed.

Lemma monotone_more_columns :
  forall columns, monotone (Parser.more_columns tokens columns).
Proof.
  intros columns. pose proof monotone_parse_identifier_or_keyword.
  unfold Parser.more_columns, Parser.while_. moves_on.
Qed.

Lemma monotone_parse_column_list : monotone (Parser.parse_column_list tokens source).
Proof.
  pose proof monotone_parse_identifier_or_keyword. pose proof monotone_more_columns.
  unfold Parser.parse_column_list. moves_on.
Qed.

Lemma monotone_parse_column_list_natural :
  monotone (Parser.parse_column_list_natural tokens).
Proof.
  pose proof monotone_parse_identifier_or_keyword. pose proof monotone_more_columns.
  unfold Parser.parse_column_list_natural. moves_on.
Qed.

Lemma monotone_parse_params : monotone (Parser.parse_params tokens source).
Proof.
  pose proof (proj1 (monotone_parse_value recursion_limit)).
  unfold Parser.parse_params, Parser.while_. moves_on.
Qed.

(** The loop of [parse_params]: an iteration that goes on has consumed the
    parameter name. *)
Lemma parse_params_budget :
  forall (extra : nat) (pos : nat),
    Parser.while_loop (length tokens + extra)
      (Parser.bind (Parser.current_token tokens) (fun token =>
       Parser.bind (Parser.match_ tokens [TokenType.AS; TokenType.EOF]) (fun stop =>
       Parser.ret (match token with Some _ => negb stop | None => false end))))
      (fun params =>
         Parser.bind (Parser.current_token tokens) (fun param_token =>
         match param_token with
         | None => Parser.ret (Parser.Break params)
         | Some param_token =>
             if TokenType.eqb (tok_type param_token) TokenType.IDENTIFIER
                || TokenType.mem (tok_type param_token) Parser.param_keywords
             then
               let param_name := tok_text param_token in
               Parser.bind Parser.advance (fun _ =>
               Parser.bind (Parser.match_ tokens [TokenType.ASSIGN]) (fun is_assign =>
               if negb is_assign then
                 @Parser.raise _ (PyExc SyntaxError
                          ("Expected '=' after parameter '" ++ param_name ++ "'"))
               else
                 Parser.bind Parser.advance (fun _ =>
                 Parser.bind (Parser.parse_value tokens source recursion_limit)
                   (fun value =>
                 Parser.ret (Parser.Continue (dict_set param_name value params))))))
             else Parser.ret (Parser.Break params)
         end))
      [] pos
    = Parser.parse_params tokens source pos.
Proof.
  intros extra pos. unfold Parser.parse_params.
  apply while_budget.
  - intros p b p' H.
    unfold Parser.match_, Parser.bind, Parser.current_token, Parser.ret in H.
    inversion H; subst. split; [reflexivity |].
    destruct (nth_error tokens p') eqn:Hnth; [| discriminate].
    intros _. apply nth_error_Some. congruence.
  - intros acc p a p' _ H.
    unfold Parser.bind at 1 in H. unfold Parser.current_token at 1 in H.
    destruct (nth_error tokens p) as [param_token |]; [| discriminate H].
    destruct (TokenType.eqb (tok_type param_token) TokenType.IDENTIFIER
              || TokenType.mem (tok_type param_token) Parser.param_keywords);
      [| discriminate H].
    cbv zeta in H.
    match type of H with
    | ?m p = _ => assert (Hadv : advances m)
    end.
    { pose proof (proj1 (monotone_parse_value recursion_limit)). starts_moving. }
    apply (Hadv _ _ _ H).
Qed.

Lemma monotone_parse_load_with :
  forall node, monotone (@Parser.parse_load_with Unmodelled tokens source node).
Proof.
  intros node. pose proof monotone_ident. pose proof monotone_parse_params.
  unfold Parser.parse_load_with. moves_on.
Qed.

Lemma monotone_parse_load_sql :
  monotone (@Parser.parse_load_sql Unmodelled tokens source).
Proof.
  pose proof monotone_ident. pose proof monotone_parse_params.
  unfold Parser.parse_load_sql. moves_on.
Qed.

Lemma advances_parse_load_enhanced :
  advances (@Parser.parse_load_enhanced Unmodelled tokens source).
Proof.
  pose proof monotone_ident. pose proof monotone_parse_load_with.
  pose proof monotone_parse_load_sql.
  unfold Parser.parse_load_enhanced, Parser.parse_load_csv, Parser.parse_load_json,
    Parser.parse_load_excel, Parser.parse_load_parquet.
  starts_moving.
Qed.

Lemma advances_parse_save_enhanced :
  advances (@Parser.parse_save_enhanced Unmodelled tokens source).
Proof.
  pose proof monotone_ident. pose proof monotone_parse_params.
  unfold Parser.parse_save_enhanced. starts_moving.
Qed.

Lemma advances_parse_select :
  advances (@Parser.parse_select Unmodelled tokens source).
Proof.
  pose proof monotone_ident. pose proof monotone_parse_column_list.
  pose proof monotone_parse_column_list_natural. pose proof monotone_optional_as.
  unfold Parser.parse_select. starts_moving.
Qed.

Lemma advances_parse_filter :
  advances (@Parser.parse_filter Unmodelled tokens source).
Proof.
  pose proof monotone_ident. pose proof monotone_optional_as.
  pose proof (proj1 (monotone_parse_where_clause recursion_limit)).
  unfold Parser.parse_filter. starts_moving.
Qed.

Lemma advances_parse_join :
  advances (@Parser.parse_join Unmodelled tokens source).
Proof.
  pose proof monotone_ident. pose proof monotone_optional_as.
  unfold Parser.parse_join. starts_moving.
Qed.

Lemma advances_parse_describe :
  advances (@Parser.parse_describe Unmodelled tokens source).
Proof.
  pose proof monotone_ident. pose proof monotone_parse_column_list.
  unfold Parser.parse_describe. starts_moving.
Qed.

Lemma advances_parse_summary :
  advances (@Parser.parse_summary Unmodelled tokens source).
Proof. pose proof monotone_ident. unfold Parser.parse_summary. starts_moving. Qed.

Lemma advances_parse_info :
  advances (@Parser.parse_info Unmodelled tokens source).
Proof. pose proof monotone_ident. unfold Parser.parse_info. starts_moving. Qed.

Lemma advances_parse_count_na :
  advances (@Parser.parse_count_na Unmodelled tokens source).
Proof. pose proof monotone_ident. unfold Parser.parse_count_na. starts_moving. Qed.

Lemma advances_parse_power :
  advances (@Parser.parse_power Unmodelled tokens source).
Proof.
  pose proof monotone_ident. pose proof monotone_optional_as.
  unfold Parser.parse_power. starts_moving.
Qed.

Lemma monotone_parse_expression :
  monotone (@Parser.parse_expression Unmodelled tokens source).
Proof.
  pose proof (advances_monotone advances_parse_power).
  unfold Parser.parse_expression, Parser.parse_conditional, Parser.parse_logical_or,
    Parser.parse_logical_and, Parser.parse_comparison, Parser.parse_additive,
    Parser.parse_multiplicative, Parser.while_.
  moves_on.
Qed.

Lemma monotone_parse_mutations : monotone (Parser.parse_mutations tokens source).
Proof.
  pose proof monotone_ident.
  unfold Parser.parse_mutations, Parser.while_. moves_on.
Qed.

Lemma monotone_parse_mutations_with_syntax :
  monotone (@Parser.parse_mutations_with_syntax Unmodelled tokens source).
Proof.
  pose proof monotone_ident. pose proof monotone_parse_expression.
  unfold Parser.parse_mutations_with_syntax, Parser.while_. moves_on.
Qed.

Lemma advances_parse_mutate :
  advances (@Parser.parse_mutate Unmodelled tokens source).
Proof.
  pose proof monotone_ident. pose proof monotone_optional_as.
  pose proof monotone_parse_mutations. pose proof monotone_parse_mutations_with_syntax.
  unfold Parser.parse_mutate. starts_moving.
Qed.

Lemma advances_parse_other :
  forall keyword, advances (Parser.parse_other parse_unmodelled tokens keyword).
Proof.
  intros keyword pos n pos' H. unfold Parser.parse_other in H.
  destruct (parse_unmodelled keyword tokens pos) as [[u consumed] | e];
    inversion H; subst. lia.
Qed.

Lemma advances_some :
  forall m, advances m -> advances (@Parser.some Unmodelled m).
Proof.
  intros m Hm. unfold Parser.some.
  apply advances_bind_l; [exact Hm | intros n; apply monotone_ret].
Qed.

(** At a token, [parse_statement] consumes at least that token when it
    returns. *)
Lemma parse_statement_advances :
  forall (pos : nat) (stmt : option (ASTNode Unmodelled)) (pos' : nat),
    pos < length tokens ->
    Parser.parse_statement parse_unmodelled tokens source pos = Ok (stmt, pos') ->
    pos < pos'.
Proof.
  intros pos stmt pos' Hpos H.
  unfold Parser.parse_statement in H.
  unfold Parser.bind at 1 in H. unfold Parser.current_token at 1 in H.
  destruct (nth_error tokens pos) as [token |] eqn:Hnth;
    [| apply nth_error_None in Hnth; lia].
  cbv zeta in H.
  repeat match type of H with
         | (if ?b then _ else _) _ = _ => destruct b
         end;
    revert H;
    first
      [ apply advances_raise
      | apply advances_some;
        first [ apply advances_parse_load_enhanced
              | apply advances_parse_select | apply advances_parse_filter
              | apply advances_parse_join | apply advances_parse_power
              | apply advances_parse_count_na | apply advances_parse_mutate
              | apply advances_parse_describe | apply advances_parse_summary
              | apply advances_parse_info | apply advances_parse_save_enhanced
              | apply advances_parse_other ] ].
Qed.

(** The statement loop of [parse] on a budget of [budget] iterations. *)
Definition parse_on_budget (budget : nat) : outcome (ProgramNode Unmodelled) :=
  match
    Parser.while_loop budget
      (Parser.bind (Parser.current_token tokens) (fun token =>
       Parser.ret (match token with
                   | Some t => negb (TokenType.eqb (tok_type t) TokenType.EOF)
                   | None => false
                   end)))
      (fun statements =>
         Parser.bind (Parser.parse_statement parse_unmodelled tokens source)
           (fun stmt =>
         Parser.ret (Parser.Continue (match stmt with
                                      | Some s => List.app statements [s]
                                      | None => statements
                                      end))))
      [] 0
  with
  | Ok (statements, _) => Ok statements
  | Raise e => Raise e
  end.

(** The budget of the statement loop is enough: [parse] gives the same
    result on every larger budget, so the branch that ends the loop on a
    used-up budget never decides a result. *)
Lemma parse_budget :
  forall extra : nat,
    parse_on_budget (length tokens + extra)
    = Parser.parse parse_unmodelled tokens source.
Proof.
  intros extra. unfold parse_on_budget, Parser.parse.
  rewrite while_budget; [reflexivity | |].
  - intros p b p' H.
    unfold Parser.bind, Parser.current_token, Parser.ret in H.
    inversion H; subst. split; [reflexivity |].
    destruct (nth_error tokens p') eqn:Hnth; [| discriminate].
    intros _. apply nth_error_Some. congruence.
  - intros acc p a p' Hcond H.
    assert (Hp : p < length tokens).
    { unfold Parser.bind, Parser.current_token, Parser.ret in Hcond.
      destruct (nth_error tokens p) eqn:Hnth; [| discriminate Hcond].
      apply nth_error_Some. congruence. }
    unfold Parser.bind in H.
    destruct (Parser.parse_statement parse_unmodelled tokens source p)
      as [[stmt p1] | e] eqn:Hstmt; [| discriminate H].
    pose proof (@parse_statement_advances p stmt p1 Hp Hstmt).
    inversion H; subst. assumption.
Qed.

End Budget.

(* ------------------------------------------------------------------- *)
(** ** Statements the analyzer does not validate *)
(* ------------------------------------------------------------------- *)

(** The text of the unit test [test_undefined_dataset_in_save]. *)
Definition save_source : string :=
  "save nonexistent to " ++ dq ++ "output.csv" ++ dq.

(** Claim C1. Analysis is to return no diagnostics only if every source
    alias was defined earlier. The text of the unit test
    [test_undefined_dataset_in_save] names the dataset [nonexistent], which
    nothing defines, and analysis on a new symbol table returns the empty
    list: the parser builds a [SaveCSVNode], the analyzer has a visitor
    for [SaveNode] only, and the generic visitor does nothing. *)
Theorem analyze_save_undefined :
  parse_source save_source = Ok [ mkASTNode 0 0 (SaveCSVNode "nonexistent" "output.csv" []) ]
  /\ analyze_with save_source SymbolTable.empty
       [ mkASTNode 0 0 (SaveCSVNode "nonexistent" "output.csv" []) ]
     = (Ok [], SymbolTable.empty).
Proof. split; reflexivity. Qed.

(** The visitor [visit_SaveNode] reports the same dataset on a [SaveNode]. *)
Lemma analyze_SaveNode_undefined :
  analyze_with save_source SymbolTable.empty
    [ mkASTNode 0 0 (SaveNode "nonexistent" "output.csv" None None) ]
  = (Ok [ mkNoetaError "Dataset 'nonexistent' has not been loaded or created" SEMANTIC
            None (Some "No datasets have been loaded yet") None ],
     SymbolTable.empty).
Proof. reflexivity. Qed.

(* ------------------------------------------------------------------- *)
(** ** The [filter] scenario *)
(* ------------------------------------------------------------------- *)

Definition filter_source : string :=
  "filter d where price between 10 and 100 and category in ["
  ++ dq ++ "A" ++ dq ++ "," ++ dq ++ "B" ++ dq ++ "] as f".

Definition filter_condition : CompoundConditionNode :=
  BinaryConditionNode (BetweenNode "price" (PInt 10) (PInt 100)) "and"
    (InNode "category" [PStr "A"; PStr "B"]).

Definition filter_node : ASTNode Unmodelled :=
  new_node (UpdatedFilterNode "d" filter_condition (Some "f")).

(** Claim C7. The text parses to exactly one statement node, a filter on [d]
    whose condition is an [and] node with the [between] test on [price] on
    the left and the membership test on [category] on the right. Whenever
    [d] is in the symbol table, with any schema, known or not, analysis gives
    no diagnostics (and registers [f] with the schema of [d]). *)
Theorem filter_between_and_in :
  parse_source filter_source = Ok [filter_node]
  /\ forall (enable_type_check : bool) (st : SymbolTable.t) (info : DatasetInfo),
       SymbolTable.lookup "d" st = Some info ->
       analysis visit_unmodelled file_schema_probe filter_source enable_type_check
         (Some st) [filter_node]
       = (Ok [],
          SymbolTable.define "f"
            (mkDatasetInfo "f" (ds_columns info) (Some "filter from d")) st).
Proof.
  split.
  - reflexivity.
  - intros enable_type_check st info Hd.
    unfold analysis, SemanticAnalyzer.analyze, filter_node, new_node.
    cbn [SemanticAnalyzer.analyze_loop SemanticAnalyzer.visit node_stmt].
    unfold SemanticAnalyzer.visit_copy, SemanticAnalyzer._check_dataset_exists.
    rewrite Hd. reflexivity.
Qed.

(* ------------------------------------------------------------------- *)
(** ** What [compile_noeta] raises *)
(* ------------------------------------------------------------------- *)

(** The message of the [RuntimeError] that wraps an exception. *)
Definition wrapped_message (e : exn) : string :=
  "Unexpected compilation error: " ++ exn_str supports_color e ++ nl
  ++ "Please report this as a bug".

Definition compile (source : string) (enable_type_check : bool)
  (symbol_table : option SymbolTable.t) : outcome string :=
  fst (compile_noeta supports_color parse_unmodelled visit_unmodelled
         file_schema_probe codegen_other source enable_type_check symbol_table).

Definition compile_try_block (source : string) (enable_type_check : bool)
  (symbol_table : option SymbolTable.t) : outcome string :=
  fst (compile_body supports_color parse_unmodelled visit_unmodelled
         file_schema_probe codegen_other source enable_type_check symbol_table).

Lemma compile_is_handle :
  forall source enable_type_check symbol_table,
    compile source enable_type_check symbol_table
    = handle supports_color (compile_try_block source enable_type_check symbol_table).
Proof.
  intros. unfold compile, compile_try_block, compile_noeta.
  destruct (compile_body _ _ _ _ _ _ _ _) as [result carried]. reflexivity.
Qed.

(** Claim C10. For every source text (and either setting of type checking,
    with or without a carried symbol table) [compile_noeta] returns the
    generated text, or raises a [NoetaError], or raises a [RuntimeError]
    whose message starts with [Unexpected compilation error]: a [NoetaError]
    raised in the [try] block is raised again unchanged, every other
    exception is replaced by the [RuntimeError] that quotes it, and a
    returned text is returned. *)
Theorem compile_noeta_raises_two_kinds :
  forall (source : string) (enable_type_check : bool)
         (symbol_table : option SymbolTable.t),
    match compile_try_block source enable_type_check symbol_table with
    | Ok text => compile source enable_type_check symbol_table = Ok text
    | Raise (NoetaExc e) =>
        compile source enable_type_check symbol_table = Raise (NoetaExc e)
    | Raise (PyExc cls msg) =>
        compile source enable_type_check symbol_table
        = Raise (PyExc RuntimeError (wrapped_message (PyExc cls msg)))
    end
    /\ match compile source enable_type_check symbol_table with
       | Ok _ => True
       | Raise (NoetaExc _) => True
       | Raise (PyExc cls msg) =>
           cls = RuntimeError /\ startswith msg "Unexpected compilation error" = true
       end.
Proof.
  intros source enable_type_check symbol_table.
  rewrite compile_is_handle.
  destruct (compile_try_block source enable_type_check symbol_table) as [text | [e | cls msg]];
    cbn [handle]; split; try reflexivity; try exact I.
  split; reflexivity.
Qed.

(* ------------------------------------------------------------------- *)
(** ** One raised error for any number of diagnostics *)
(* ------------------------------------------------------------------- *)

Lemma ErrorCategory_eqb_eq :
  forall a b : ErrorCategory, ErrorCategory_eqb a b = true <-> a = b.
Proof. intros a b. destruct a, b; cbn; split; intro H; congruence. Qed.

Lemma ErrorCategory_eqb_refl : forall a : ErrorCategory, ErrorCategory_eqb a a = true.
Proof. destruct a; reflexivity. Qed.

(** [group_add] appends the error to the list of its category and leaves
    the other lists alone. *)
Lemma grouped_get_group_add :
  forall (error : NoetaError) (c : ErrorCategory)
         (grouped : list (ErrorCategory * list NoetaError)),
    MultiErrorFormatter.grouped_get c (MultiErrorFormatter.group_add error grouped)
    = if ErrorCategory_eqb c (category error)
      then Some (List.app
                   (match MultiErrorFormatter.grouped_get c grouped with
                    | Some es => es
                    | None => []
                    end) [error])
      else MultiErrorFormatter.grouped_get c grouped.
Proof.
  intros error c grouped.
  induction grouped as [| [c' es] grouped IH].
  - cbn. destruct (ErrorCategory_eqb c (category error)); reflexivity.
  - cbn [MultiErrorFormatter.group_add].
    destruct (ErrorCategory_eqb c' (category error)) eqn:Hc'.
    + apply ErrorCategory_eqb_eq in Hc'. subst c'.
      cbn [MultiErrorFormatter.grouped_get].
      destruct (ErrorCategory_eqb c (category error)); reflexivity.
    + cbn [MultiErrorFormatter.grouped_get].
      destruct (ErrorCategory_eqb c c') eqn:Hcc'.
      * apply ErrorCategory_eqb_eq in Hcc'. subst c'. rewrite Hc'. reflexivity.
      * exact IH.
Qed.

(** Grouping by category: under each category stand exactly the collected
    errors of that category, in the order they were collected; a category
    without errors has no entry. *)
Lemma group_errors_by_category_filter :
  forall (errors : list NoetaError) (c : ErrorCategory),
    MultiErrorFormatter.grouped_get c (MultiErrorFormatter.group_errors_by_category errors)
    = match filter (fun e => ErrorCategory_eqb c (category e)) errors with
      | [] => None
      | es => Some es
      end.
Proof.
  intros errors c. unfold MultiErrorFormatter.group_errors_by_category.
  assert (Hgen : forall (grouped : list (ErrorCategory * list NoetaError)),
             MultiErrorFormatter.grouped_get c
               (fold_left (fun g e => MultiErrorFormatter.group_add e g) errors grouped)
             = match List.app
                       (match MultiErrorFormatter.grouped_get c grouped with
                        | Some es => es
                        | None => []
                        end)
                       (filter (fun e => ErrorCategory_eqb c (category e)) errors) with
               | [] => MultiErrorFormatter.grouped_get c grouped
               | es => Some es
               end).
  { induction errors as [| e errors IH]; intros grouped.
    - cbn. rewrite app_nil_r.
      destruct (MultiErrorFormatter.grouped_get c grouped) as [[| x xs] |]; reflexivity.
    - cbn [fold_left filter]. rewrite IH, grouped_get_group_add.
      destruct (ErrorCategory_eqb c (category e)).
      + rewrite <- app_assoc. cbn [List.app].
        destruct (MultiErrorFormatter.grouped_get c grouped) as [[| x xs] |];
          reflexivity.
      + reflexivity. }
  rewrite Hgen. reflexivity.
Qed.

Lemma paint_contains :
  forall (color text p : string),
    contains text p = true ->
    contains (MultiErrorFormatter.paint supports_color color text) p = true.
Proof.
  intros color text p H. unfold MultiErrorFormatter.paint.
  destruct supports_color; [| exact H].
  apply contains_app_r. apply contains_app_l. exact H.
Qed.

(** Some line of the block of an error shows its message. *)
Lemma error_lines_message :
  forall (error_num : nat) (e : NoetaError),
    exists l, In l (MultiErrorFormatter.error_lines supports_color error_num e)
              /\ contains l (message e) = true.
Proof.
  intros error_num e.
  exists (MultiErrorFormatter.paint supports_color ErrorFormatter.RED ("    " ++ message e)).
  split.
  - unfold MultiErrorFormatter.error_lines.
    repeat match goal with
           | |- context [match ?x with _ => _ end] => destruct x
           end;
      cbn [List.app In]; tauto.
  - apply paint_contains. apply contains_app_r.
    apply contains_startswith. apply startswith_refl.
Qed.

Lemma category_error_lines_message :
  forall (errors : list NoetaError) (error_num : nat) (e : NoetaError),
    In e errors ->
    exists l,
      In l (fst (MultiErrorFormatter.category_error_lines supports_color error_num errors))
      /\ contains l (message e) = true.
Proof.
  induction errors as [| x errors IH]; intros error_num e Hin; [contradiction |].
  cbn [MultiErrorFormatter.category_error_lines].
  destruct (MultiErrorFormatter.category_error_lines supports_color (S error_num) errors)
    as [ls n] eqn:Hrest.
  cbn [fst]. destruct Hin as [Heq | Hin].
  - subst x. destruct (error_lines_message error_num e) as [l [Hl Hc]].
    exists l. split; [apply in_or_app; left; exact Hl | exact Hc].
  - destruct (IH (S error_num) e Hin) as [l [Hl Hc]].
    rewrite Hrest in Hl. cbn [fst] in Hl.
    exists l. split; [apply in_or_app; right; exact Hl | exact Hc].
Qed.

Lemma category_blocks_message :
  forall (cats : list ErrorCategory) (grouped : list (ErrorCategory * list NoetaError))
         (error_num : nat) (c : ErrorCategory) (es : list NoetaError) (e : NoetaError),
    In c cats ->
    MultiErrorFormatter.grouped_get c grouped = Some es ->
    In e es ->
    exists l,
      In l (MultiErrorFormatter.category_blocks supports_color cats grouped error_num)
      /\ contains l (message e) = true.
Proof.
  induction cats as [| c' cats IH]; intros grouped error_num c es e Hc Hget He;
    [contradiction |].
  cbn [MultiErrorFormatter.category_blocks].
  destruct Hc as [Heq | Hc].
  - subst c'. rewrite Hget.
    destruct (category_error_lines_message es error_num e He) as [l [Hl Hcont]].
    destruct (MultiErrorFormatter.category_error_lines supports_color error_num es)
      as [ls n].
    cbn [fst] in Hl. exists l. split; [| exact Hcont].
    apply in_or_app. left. right. right. exact Hl.
  - destruct (MultiErrorFormatter.grouped_get c' grouped) as [es' |].
    + destruct (MultiErrorFormatter.category_error_lines supports_color error_num es')
        as [ls n].
      destruct (IH grouped n c es e Hc Hget He) as [l [Hl Hcont]].
      exists l. split; [| exact Hcont]. apply in_or_app. right. exact Hl.
    + apply (IH grouped error_num c es e Hc Hget He).
Qed.

(** The report over two or more diagnostics shows the message of each. *)
Lemma format_multiple_shows_all :
  forall (errors : list NoetaError) (e : NoetaError),
    2 <= length errors ->
    In e errors ->
    contains (MultiErrorFormatter.format_multiple supports_color errors) (message e) = true.
Proof.
  intros errors e Hlen Hin.
  destruct errors as [| e1 [| e2 rest]]; cbn in Hlen; try lia.
  set (errors := e1 :: e2 :: rest) in *.
  assert (Hget : exists es,
             MultiErrorFormatter.grouped_get (category e)
               (MultiErrorFormatter.group_errors_by_category errors) = Some es
             /\ In e es).
  { rewrite group_errors_by_category_filter.
    assert (Hf : In e (filter (fun x => ErrorCategory_eqb (category e) (category x)) errors)).
    { apply filter_In. split; [exact Hin | apply ErrorCategory_eqb_refl]. }
    destruct (filter _ errors) as [| x xs]; [contradiction |].
    eexists. split; [reflexivity | exact Hf]. }
  destruct Hget as [es [Hget He]].
  assert (Hcat : In (category e) [LEXER; SYNTAX; SEMANTIC; TYPE; RUNTIME]).
  { destruct (category e); cbn; tauto. }
  destruct (@category_blocks_message _ _ 1 _ _ _ Hcat Hget He) as [l [Hl Hcont]].
  unfold MultiErrorFormatter.format_multiple. fold errors.
  change (match errors with
          | [] => _ | [e0] => _ | _ :: _ :: _ => ?X end) with X.
  apply contains_join with (x := l); [| exact Hcont].
  apply in_or_app. right. apply in_or_app. left. exact Hl.
Qed.

(** The report the specification describes, written with [filter]: the
    collected diagnostics grouped by category. For every category of the
    fixed order that has diagnostics there is a header with their number,
    a rule, and the blocks of exactly these diagnostics in the order they
    were collected; the blocks are numbered on through the report. *)
Fixpoint report_by_category (cats : list ErrorCategory) (errors : list NoetaError)
  (error_num : nat) : list string :=
  match cats with
  | [] => []
  | c :: cats' =>
      let of_category := filter (fun e => ErrorCategory_eqb c (category e)) errors in
      match of_category with
      | [] => report_by_category cats' errors error_num
      | _ =>
          MultiErrorFormatter.paint supports_color ErrorFormatter.BOLD
            (nl ++ ErrorCategory_value c ++ "s (" ++ str_nat (length of_category) ++ "):")
          :: repeat_str "-" 60
          :: List.app
               (concat
                  (map (fun numbered : nat * NoetaError =>
                          MultiErrorFormatter.error_lines supports_color
                            (fst numbered) (snd numbered))
                       (combine (seq error_num (length of_category)) of_category)))
               (report_by_category cats' errors (error_num + length of_category))
      end
  end.

Lemma category_error_lines_numbered :
  forall (errors : list NoetaError) (error_num : nat),
    MultiErrorFormatter.category_error_lines supports_color error_num errors
    = (concat
         (map (fun numbered : nat * NoetaError =>
                 MultiErrorFormatter.error_lines supports_color
                   (fst numbered) (snd numbered))
              (combine (seq error_num (length errors)) errors)),
       error_num + length errors).
Proof.
  induction errors as [| e errors IH]; intros error_num.
  - cbn. rewrite Nat.add_0_r. reflexivity.
  - cbn [MultiErrorFormatter.category_error_lines length seq combine map concat fst snd].
    rewrite IH. f_equal. lia.
Qed.

(** The blocks [format_multiple] writes are those of the report grouped by
    category. *)
Lemma category_blocks_report :
  forall (cats : list ErrorCategory) (errors : list NoetaError) (error_num : nat),
    MultiErrorFormatter.category_blocks supports_color cats
      (MultiErrorFormatter.group_errors_by_category errors) error_num
    = report_by_category cats errors error_num.
Proof.
  induction cats as [| c cats IH]; intros errors error_num; [reflexivity |].
  cbn [MultiErrorFormatter.category_blocks report_by_category].
  rewrite group_errors_by_category_filter. cbv zeta.
  destruct (filter (fun e => ErrorCategory_eqb c (category e)) errors) as [| x xs];
    [apply IH |].
  rewrite category_error_lines_numbered, IH. reflexivity.
Qed.

Lemma compile_with_diagnostics :
  forall (source : string) (enable_type_check : bool)
         (symbol_table : option SymbolTable.t) (ast : ProgramNode Unmodelled)
         (errors : list NoetaError) (st' : SymbolTable.t),
    front_end parse_unmodelled source = Ok ast ->
    analysis visit_unmodelled file_schema_probe source enable_type_check symbol_table ast
    = (Ok errors, st') ->
    errors <> [] ->
    compile source enable_type_check symbol_table
    = Raise (NoetaExc (create_multi_error supports_color errors)).
Proof.
  intros source enable_type_check symbol_table ast errors st' Hfront Han Hne.
  unfold compile, compile_noeta, compile_body. rewrite Hfront, Han.
  destruct errors as [| e1 [| e2 rest]]; [contradiction | reflexivity | reflexivity].
Qed.

(** Claim C8. When analysis has collected diagnostics, [compile_noeta]
    raises one [NoetaError]: the diagnostic itself when there is one, and
    otherwise an error whose message is the report of [format_multiple] over
    all of them, with the category of the first diagnostic and no context,
    hint or suggestion. The report is the one grouped by category: between
    its head and its foot stand, category by category, the header, the
    rule and the numbered blocks of exactly the diagnostics of that
    category ([report_by_category]); so it shows the message of every
    collected diagnostic. *)
Theorem compile_noeta_raises_one_error :
  forall (source : string) (enable_type_check : bool)
         (symbol_table : option SymbolTable.t) (ast : ProgramNode Unmodelled)
         (errors : list NoetaError) (st' : SymbolTable.t),
    front_end parse_unmodelled source = Ok ast ->
    analysis visit_unmodelled file_schema_probe source enable_type_check symbol_table ast
    = (Ok errors, st') ->
    errors <> [] ->
    exists raised : NoetaError,
      compile source enable_type_check symbol_table = Raise (NoetaExc raised)
      /\ (forall e, errors = [e] -> raised = e)
      /\ (2 <= length errors ->
          message raised = MultiErrorFormatter.format_multiple supports_color errors
          /\ message raised
             = join nl
                 (List.app
                    [ MultiErrorFormatter.paint supports_color
                        (ErrorFormatter.RED ++ ErrorFormatter.BOLD)
                        ("Found " ++ str_nat (length errors)
                         ++ " errors in compilation:");
                      EmptyString ]
                    (List.app
                       (report_by_category [LEXER; SYNTAX; SEMANTIC; TYPE; RUNTIME]
                          errors 1)
                       [ EmptyString; repeat_str "=" 60;
                         MultiErrorFormatter.paint supports_color
                           (ErrorFormatter.RED ++ ErrorFormatter.BOLD)
                           ("Total: " ++ str_nat (length errors) ++ " errors found") ]))
          /\ Some (category raised) = option_map category (hd_error errors)
          /\ context raised = None /\ hint raised = None /\ suggestion raised = None
          /\ forall e, In e errors -> contains (message raised) (message e) = true).
Proof.
  intros source enable_type_check symbol_table ast errors st' Hfront Han Hne.
  exists (create_multi_error supports_color errors).
  split; [apply (compile_with_diagnostics _ _ _ Hfront Han Hne) |].
  split.
  - intros e He. subst errors. reflexivity.
  - intros Hlen.
    destruct errors as [| e1 [| e2 rest]]; cbn in Hlen; try lia.
    cbn [create_multi_error message category context hint suggestion hd_error option_map].
    split; [reflexivity |]. split.
    + unfold MultiErrorFormatter.format_multiple.
      rewrite category_blocks_report. reflexivity.
    + repeat split.
      intros e He. apply format_multiple_shows_all; [cbn; lia | exact He].
Qed.

(* ------------------------------------------------------------------- *)
(** ** Compiling the same text twice *)
(* ------------------------------------------------------------------- *)

(** Two calls of [compile_noeta] on the same text, one after the other, with
    type checking off, where the second call gets the table the first call
    worked on. *)
Definition compile_twice_carried (source : string) : outcome string * outcome string :=
  let '(first, carried) :=
    compile_noeta supports_color parse_unmodelled visit_unmodelled file_schema_probe
      codegen_other source false (Some SymbolTable.empty) in
  let '(second, _) :=
    compile_noeta supports_color parse_unmodelled visit_unmodelled file_schema_probe
      codegen_other source false carried in
  (first, second).

(** A program that reads [d] before it loads it. *)
Definition describe_then_load : string :=
  "describe d" ++ nl ++ "load " ++ dq ++ "x.csv" ++ dq ++ " as d".

(** With type checking off the visitors read no file. *)
Lemma analyze_reads_no_file :
  forall (probe probe' : string -> option Value -> list (string * ColumnInfo))
         (source : string) (prog : ProgramNode Unmodelled) (st : SymbolTable.t),
    SemanticAnalyzer.analyze probe visit_unmodelled source false prog st
    = SemanticAnalyzer.analyze probe' visit_unmodelled source false prog st.
Proof.
  intros probe probe' source prog st. unfold SemanticAnalyzer.analyze.
  generalize (@nil NoetaError). revert st.
  induction prog as [| node prog IH]; intros st errors; [reflexivity |].
  cbn [SemanticAnalyzer.analyze_loop].
  assert (Hvisit : SemanticAnalyzer.visit probe visit_unmodelled source false st node
                   = SemanticAnalyzer.visit probe' visit_unmodelled source false st node).
  { unfold SemanticAnalyzer.visit. destruct (node_stmt node); reflexivity. }
  rewrite Hvisit.
  destruct (SemanticAnalyzer.visit probe' visit_unmodelled source false st node)
    as [st1 [[err | cls msg] |]]; try apply IH; reflexivity.
Qed.

(** The text that [generate] returns is put together from the last state
    of the generator, and it is the same in whatever order the set of
    imports is iterated. *)
Lemma generate_any_order :
  forall (ast : ProgramNode Unmodelled) (g : CodeGenerator.t) (text : string),
    CodeGenerator.generate codegen_other ast g = Ok text ->
    exists g2 : CodeGenerator.t,
      text = CodeGenerator.text_of (CodeGenerator.imports g2) g2
      /\ forall iteration : list string,
           Permutation iteration (CodeGenerator.imports g2) ->
           CodeGenerator.text_of iteration g2 = text.
Proof.
  intros ast g text H. unfold CodeGenerator.generate in H.
  destruct (CodeGenerator.visit_all codegen_other ast _) as [g2 | e]; [| discriminate H].
  inversion H; subst. exists g2. split; [reflexivity |].
  intros iteration Hperm. unfold CodeGenerator.text_of.
  rewrite (sorted_any_order Hperm). reflexivity.
Qed.

(** Claim C9. Two compilations of the same text, each with a symbol table
    of the same content (a new one each time, or none) and type checking
    off, give the same generated text, whatever differs around the two
    calls: whether [sys.stderr] is a terminal, what the files on disk hold,
    and the order in which the set of import lines is iterated. Lexer,
    parser, analyzer and generator are made anew in every call; the statement
    kinds outside the modelled fragment take part through their routines,
    which are the same functions in both calls. *)
Theorem compile_twice_same_text :
  forall (supports_color' : bool)
         (file_schema_probe' : string -> option Value -> list (string * ColumnInfo))
         (source : string) (table : option SymbolTable.t) (text : string),
    fst (compile_noeta supports_color parse_unmodelled visit_unmodelled
           file_schema_probe codegen_other source false table) = Ok text ->
    fst (compile_noeta supports_color' parse_unmodelled visit_unmodelled
           file_schema_probe' codegen_other source false table) = Ok text
    /\ exists g : CodeGenerator.t,
         text = CodeGenerator.text_of (CodeGenerator.imports g) g
         /\ forall iteration : list string,
              Permutation iteration (CodeGenerator.imports g) ->
              CodeGenerator.text_of iteration g = text.
Proof.
  intros supports_color' file_schema_probe' source table text H.
  unfold compile_noeta, compile_body in *.
  destruct (front_end parse_unmodelled source) as [ast | e];
    [| destruct e; discriminate H].
  unfold analysis in *.
  rewrite (analyze_reads_no_file file_schema_probe' file_schema_probe).
  destruct (SemanticAnalyzer.analyze file_schema_probe visit_unmodelled source false ast
              (match table with Some st => st | None => SymbolTable.empty end))
    as [[[| e1 [| e2 errors]] | e] st'];
    unfold handle in *; cbn [fst] in H |- *;
    try discriminate H; try (destruct e; discriminate H).
  destruct (CodeGenerator.generate codegen_other ast _) as [generated | e] eqn:Hgen;
    [| destruct e; discriminate H].
  inversion H; subst generated.
  split; [reflexivity | apply (generate_any_order _ _ Hgen)].
Qed.

(** The new table matters: when the table of the first call is carried into
    the second, the two calls can differ. The first call reports that [d] is
    not defined, and still registers [d] when it reaches the [load]; the
    second call finds [d] and generates text. *)
Lemma compile_twice_carried_differs :
  compile_twice_carried describe_then_load
  = (Raise (NoetaExc (mkNoetaError "Dataset 'd' has not been loaded or created" SEMANTIC
                        None (Some "No datasets have been loaded yet") None)),
     Ok (join nl
           [ "from scipy import stats"; "import matplotlib.pyplot as plt";
             "import numpy as np"; "import pandas as pd"; "import seaborn as sns";
             EmptyString; "# Configure visualization settings";
             "plt.style.use('seaborn-v0_8-darkgrid')"; "sns.set_palette('husl')";
             EmptyString; "print('\nDescriptive Statistics for d:')";
             "print(d.describe())"; "d = pd.read_csv('x.csv')";
             "print(f'Loaded x.csv as d: {len(d)} rows, {len(d.columns)} columns')" ])).
Proof. reflexivity. Qed.

(** Scenario 1 of the specification: the generated text binds [d] and then
    prints its descriptive statistics. *)
Lemma compile_load_describe :
  compile ("load " ++ dq ++ "x.csv" ++ dq ++ " as d" ++ nl ++ "describe d") false None
  = Ok (join nl
          [ "from scipy import stats"; "import matplotlib.pyplot as plt";
            "import numpy as np"; "import pandas as pd"; "import seaborn as sns";
            EmptyString; "# Configure visualization settings";
            "plt.style.use('seaborn-v0_8-darkgrid')"; "sns.set_palette('husl')";
            EmptyString; "d = pd.read_csv('x.csv')";
            "print(f'Loaded x.csv as d: {len(d)} rows, {len(d.columns)} columns')";
            "print('\nDescriptive Statistics for d:')"; "print(d.describe())" ]).
Proof. reflexivity. Qed.

(** The three outcomes of [compile_noeta] all occur: text (above), a
    [NoetaError], and a [RuntimeError] around a built-in exception. *)
Lemma compile_undefined_dataset :
  compile "select unknown with price as r" false None
  = Raise (NoetaExc (mkNoetaError "Dataset 'unknown' has not been loaded or created"
                       SEMANTIC None (Some "No datasets have been loaded yet") None)).
Proof. reflexivity. Qed.

Lemma compile_unexpected_token :
  compile "price" false None
  = Raise (PyExc RuntimeError
             ("Unexpected compilation error: Unexpected token: TokenType.IDENTIFIER"
              ++ nl ++ "Please report this as a bug")).
Proof. reflexivity. Qed.

(* ------------------------------------------------------------------- *)
(** ** Diagnostics for undefined datasets *)
(* ------------------------------------------------------------------- *)

(** The source aliases the visitors of the statement kinds that are not
    modelled look up, in the order they look them up. *)
Variable aliases_unmodelled : Unmodelled -> list string.

(** The source aliases the visitor of a statement looks up, in the order it
    looks them up; empty for the statements whose visitor looks up none. *)
Definition checked_aliases (s : Statement Unmodelled) : list string :=
  match s with
  | SaveNode a _ _ _ | SelectNode a _ _ | UpdatedFilterNode a _ _ | MutateNode a _ _
  | DescribeNode a _ | SummaryNode a | InfoNode a | PowerNode a _ _ _ => [a]
  | JoinNode a1 a2 _ _ => [a1; a2]
  | UnmodelledNode u => aliases_unmodelled u
  | LoadNode _ _ _ _ | LoadCSVNode _ _ _ | LoadJSONNode _ _ _ | LoadExcelNode _ _ _
  | LoadParquetNode _ _ _ | LoadSQLNode _ _ _ _ | SaveCSVNode _ _ _ | SaveJSONNode _ _ _
  | SaveExcelNode _ _ _ | SaveParquetNode _ _ _ | CountNANode _ => []
  end.

(** The first of the given aliases that the symbol table does not hold. *)
Fixpoint first_missing (st : SymbolTable.t) (aliases : list string) : option string :=
  match aliases with
  | [] => None
  | a :: rest =>
      match SymbolTable.lookup a st with
      | None => Some a
      | Some _ => first_missing st rest
      end
  end.

(** The hint of the diagnostic for an undefined dataset. *)
Definition known_aliases_hint (st : SymbolTable.t) : string :=
  match SymbolTable.get_all_names st with
  | [] => "No datasets have been loaded yet"
  | names => "Available datasets: " ++ join ", " names
  end.

Definition analyze_from (source : string) (enable_type_check : bool)
  (ast : ProgramNode Unmodelled) (st : SymbolTable.t)
  : outcome (list NoetaError) * SymbolTable.t :=
  SemanticAnalyzer.analyze file_schema_probe visit_unmodelled source enable_type_check
    ast st.

Definition join_source : string := "join aa with zz on k".

(** A statement with two undefined sources: in [join aa with zz on k] on a
    new symbol table the alias [zz] is undefined, and the only diagnostic is
    the one for [aa]. *)
Lemma join_second_alias_unreported :
  parse_source join_source = Ok [ new_node (JoinNode "aa" "zz" "k" None) ]
  /\ SymbolTable.lookup "zz" SymbolTable.empty = None
  /\ exists errors,
       analyze_from join_source false [ new_node (JoinNode "aa" "zz" "k" None) ]
         SymbolTable.empty
       = (Ok errors, SymbolTable.empty)
       /\ length errors = 1
       /\ forall d, In d errors -> contains (message d) "zz" = false.
Proof.
  split; [reflexivity |]. split; [reflexivity |].
  eexists. split; [reflexivity |]. split; [reflexivity |].
  intros d [Hd | []]. subst d. reflexivity.
Qed.

(** A visitor that misses an alias raises the diagnostic for the first one
    it misses and leaves the symbol table as it was; shown here for the
    visitors of [SemanticAnalyzer.visit] itself. *)
Lemma visit_first_missing :
  forall (source : string) (enable_type_check : bool) (st : SymbolTable.t)
         (node : ASTNode Unmodelled) (X : string),
    (forall u, node_stmt node <> UnmodelledNode u) ->
    first_missing st (checked_aliases (node_stmt node)) = Some X ->
    SemanticAnalyzer.visit file_schema_probe visit_unmodelled source enable_type_check
      st node
    = (st, Some (NoetaExc (SemanticAnalyzer.dataset_error source st X node))).
Proof.
  intros source enable_type_check st node X Hkind H. revert Hkind H.
  unfold SemanticAnalyzer.visit.
  destruct (node_stmt node); intros Hkind H;
    try (destruct (Hkind u eq_refl));
    cbn [checked_aliases first_missing] in H;
    try discriminate H;
    unfold SemanticAnalyzer.visit_check, SemanticAnalyzer.visit_copy,
      SemanticAnalyzer.visit_SelectNode, SemanticAnalyzer.visit_JoinNode,
      SemanticAnalyzer._check_dataset_exists.
  all: try (destruct (SymbolTable.lookup source_alias st);
            [discriminate H | inversion H; subst; reflexivity]).
  destruct (SymbolTable.lookup alias1 st); [| inversion H; subst; reflexivity].
  destruct (SymbolTable.lookup alias2 st); [discriminate H |].
  inversion H; subst; reflexivity.
Qed.

(** The loop of [analyze] over a program cut in two. *)
Lemma analyze_loop_app :
  forall (source : string) (enable_type_check : bool)
         (before after : list (ASTNode Unmodelled)) (st : SymbolTable.t)
         (errors : list NoetaError),
    SemanticAnalyzer.analyze_loop file_schema_probe visit_unmodelled source
      enable_type_check (List.app before after) st errors
    = match SemanticAnalyzer.analyze_loop file_schema_probe visit_unmodelled source
              enable_type_check before st errors with
      | (Ok errors', st') =>
          SemanticAnalyzer.analyze_loop file_schema_probe visit_unmodelled source
            enable_type_check after st' errors'
      | (Raise e, st') => (Raise e, st')
      end.
Proof.
  intros source enable_type_check before after.
  induction before as [| node before IH]; intros st errors; [reflexivity |].
  cbn [List.app SemanticAnalyzer.analyze_loop].
  destruct (SemanticAnalyzer.visit file_schema_probe visit_unmodelled source
              enable_type_check st node) as [st' [[e | cls msg] |]];
    try apply IH; reflexivity.
Qed.

(** The loop only ever appends to the list of errors. *)
Lemma analyze_loop_keeps :
  forall (source : string) (enable_type_check : bool)
         (ast : list (ASTNode Unmodelled)) (st st' : SymbolTable.t)
         (errors result : list NoetaError) (d : NoetaError),
    SemanticAnalyzer.analyze_loop file_schema_probe visit_unmodelled source
      enable_type_check ast st errors = (Ok result, st') ->
    In d errors -> In d result.
Proof.
  intros source enable_type_check ast.
  induction ast as [| node ast IH]; intros st st' errors result d H Hd.
  - cbn in H. inversion H; subst. exact Hd.
  - cbn [SemanticAnalyzer.analyze_loop] in H.
    destruct (SemanticAnalyzer.visit file_schema_probe visit_unmodelled source
                enable_type_check st node) as [st1 [[e | cls msg] |]].
    + apply (IH _ _ _ _ d H). apply in_or_app. left. exact Hd.
    + discriminate H.
    + apply (IH _ _ _ _ d H Hd).
Qed.

(** What the diagnostic for an undefined dataset [X] says. *)
Lemma dataset_error_says :
  forall (source : string) (st : SymbolTable.t) (X : string) (node : ASTNode Unmodelled),
    let d := SemanticAnalyzer.dataset_error source st X node in
    let names := SymbolTable.get_all_names st in
    category d = SEMANTIC
    /\ message d = "Dataset '" ++ X ++ "' has not been loaded or created"
    /\ contains (message d) X = true
    /\ hint d = Some (known_aliases_hint st)
    /\ (forall name,
          In name names -> name_distance X name <= 3 ->
          exists best,
            suggestion d = Some ("Did you mean '" ++ best ++ "'?")
            /\ In best names
            /\ name_distance X best <= 3
            /\ forall other, In other names ->
                             name_distance X best <= name_distance X other)
    /\ ((forall name, In name names -> 3 < name_distance X name) -> suggestion d = None).
Proof.
  intros source st X node d names.
  assert (Hsug : suggestion d = SemanticAnalyzer._suggest_dataset st X) by reflexivity.
  split; [reflexivity |]. split; [reflexivity |].
  split; [apply (contains_middle "Dataset '" X "' has not been loaded or created") |].
  split.
  { unfold d, SemanticAnalyzer.dataset_error, create_semantic_error, known_aliases_hint.
    cbn [hint]. destruct (SymbolTable.get_all_names st); reflexivity. }
  rewrite Hsug. unfold SemanticAnalyzer._suggest_dataset. fold names.
  pose proof (suggest_similar_nearest X names 3) as Hnear.
  split.
  - intros name Hname Hdist.
    destruct names as [| n0 names']; [contradiction |].
    destruct (suggest_similar X (n0 :: names') 1 3) as [| best more].
    + specialize (Hnear name Hname). lia.
    + destruct Hnear as [_ [Hin [Hle Hmin]]].
      exists best. repeat split; assumption.
  - intros Hfar.
    destruct names as [| n0 names']; [reflexivity |].
    destruct (suggest_similar X (n0 :: names') 1 3) as [| best more]; [reflexivity |].
    destruct Hnear as [_ [Hin [Hle _]]]. specialize (Hfar best Hin). lia.
Qed.

(** A diagnostic raised where the loop of [analyze] stands is in the list
    [analyze] returns. *)
Lemma raised_diagnostic_returned :
  forall (source : string) (enable_type_check : bool)
         (before after : list (ASTNode Unmodelled)) (node : ASTNode Unmodelled)
         (st0 st st_end : SymbolTable.t) (errors_before errors : list NoetaError)
         (d : NoetaError),
    analyze_from source enable_type_check before st0 = (Ok errors_before, st) ->
    SemanticAnalyzer.visit file_schema_probe visit_unmodelled source enable_type_check
      st node
    = (st, Some (NoetaExc d)) ->
    analyze_from source enable_type_check (List.app before (node :: after)) st0
    = (Ok errors, st_end) ->
    In d errors.
Proof.
  intros source enable_type_check before after node st0 st st_end errors_before errors d
    Hbefore Hvisit Hall.
  unfold analyze_from, SemanticAnalyzer.analyze in *.
  rewrite analyze_loop_app, Hbefore in Hall.
  cbn [SemanticAnalyzer.analyze_loop] in Hall.
  rewrite Hvisit in Hall.
  apply (analyze_loop_keeps _ _ _ _ _ _ Hall).
  apply in_or_app. right. left. reflexivity.
Qed.

(* ------------------------------------------------------------------- *)
(** ** The statements the analyzer does validate *)
(* ------------------------------------------------------------------- *)

(** The statement kinds, of those modelled, whose visitor registers a
    dataset or looks its sources up: the plain loads and the kinds of
    [checked_aliases]. *)
Definition validated (s : Statement Unmodelled) : bool :=
  match s with
  | LoadNode _ _ _ _ | LoadCSVNode _ _ _ | LoadJSONNode _ _ _ | LoadExcelNode _ _ _
  | LoadParquetNode _ _ _ => true
  | SaveNode _ _ _ _ | SelectNode _ _ _ | UpdatedFilterNode _ _ _ | MutateNode _ _ _
  | DescribeNode _ _ | SummaryNode _ | InfoNode _ | PowerNode _ _ _ _
  | JoinNode _ _ _ _ => true
  | _ => false
  end.

Lemma validated_modelled :
  forall s : Statement Unmodelled,
    validated s = true -> forall u, s <> UnmodelledNode u.
Proof. intros s H u Hs. subst s. discriminate H. Qed.

(** The alias a statement defines, if any; an empty [as] name defines
    none. *)
Definition defined_alias (s : Statement Unmodelled) : option string :=
  match s with
  | LoadNode _ a _ _ | LoadCSVNode _ _ a | LoadJSONNode _ _ a | LoadExcelNode _ _ a
  | LoadParquetNode _ _ a => Some a
  | SelectNode _ _ n | UpdatedFilterNode _ _ n | MutateNode _ _ n | PowerNode _ _ n _
  | JoinNode _ _ _ n => truthy_str n
  | _ => None
  end.

Definition known_in (names : list string) (a : string) : bool :=
  existsb (String.eqb a) names.

(** The condition of the specification on a program: the source aliases of
    every statement are among the names supplied beforehand and the aliases
    defined by the statements before it. *)
Fixpoint sources_defined (known : list string) (prog : list (ASTNode Unmodelled))
  : bool :=
  match prog with
  | [] => true
  | n :: rest =>
      forallb (known_in known) (checked_aliases (node_stmt n))
      && sources_defined
           (match defined_alias (node_stmt n) with
            | Some d => d :: known
            | None => known
            end) rest
  end.

(** No dataset of the symbol table has a known schema. *)
Definition unknown_schemas (st : SymbolTable.t) : Prop :=
  Forall (fun entry : string * DatasetInfo => ds_columns (snd entry) = [])
         (SymbolTable.datasets st).

Lemma forallb_pointwise :
  forall (A : Type) (f g : A -> bool) (l : list A),
    (forall a, f a = g a) -> forallb f l = forallb g l.
Proof.
  intros A f g l H. induction l as [| a l IH]; [reflexivity |].
  cbn [forallb]. rewrite H, IH. reflexivity.
Qed.

Lemma sources_defined_ext :
  forall (prog : list (ASTNode Unmodelled)) (known known' : list string),
    (forall a, known_in known a = known_in known' a) ->
    sources_defined known prog = sources_defined known' prog.
Proof.
  induction prog as [| n rest IH]; intros known known' Hext; [reflexivity |].
  cbn [sources_defined]. f_equal.
  - apply forallb_pointwise. exact Hext.
  - apply IH. intros a.
    destruct (defined_alias (node_stmt n)) as [d |]; [| apply Hext].
    unfold known_in. cbn [existsb]. f_equal. apply Hext.
Qed.

Lemma lookup_known_in :
  forall (st : SymbolTable.t) (a : string),
    known_in (SymbolTable.get_all_names st) a
    = match SymbolTable.lookup a st with Some _ => true | None => false end.
Proof.
  intros [datasets history] a.
  unfold SymbolTable.get_all_names, SymbolTable.lookup, known_in.
  cbn [SymbolTable.datasets].
  induction datasets as [| [k v] rest IH]; [reflexivity |].
  cbn [map fst existsb assoc_get]. destruct (String.eqb a k); [reflexivity | exact IH].
Qed.

Lemma known_in_define :
  forall (st : SymbolTable.t) (d : string) (info : DatasetInfo) (a : string),
    known_in (SymbolTable.get_all_names (SymbolTable.define d info st)) a
    = known_in (d :: SymbolTable.get_all_names st) a.
Proof.
  intros [datasets history] d info a.
  unfold SymbolTable.get_all_names, SymbolTable.define, known_in.
  cbn [SymbolTable.datasets].
  induction datasets as [| [k v] rest IH]; [reflexivity |].
  cbn [dict_set]. destruct (String.eqb d k) eqn:Hdk.
  - apply String.eqb_eq in Hdk. subst k.
    cbn [map fst existsb]. destruct (String.eqb a d); reflexivity.
  - cbn [map fst existsb] in *. rewrite IH.
    destruct (String.eqb a k), (String.eqb a d); reflexivity.
Qed.

Lemma unknown_schemas_define :
  forall (st : SymbolTable.t) (d : string) (source : option string),
    unknown_schemas st ->
    unknown_schemas (SymbolTable.define d (mkDatasetInfo d [] source) st).
Proof.
  intros [datasets history] d source H.
  unfold unknown_schemas, SymbolTable.define in *. cbn [SymbolTable.datasets] in *.
  induction datasets as [| [k v] rest IH]; cbn [dict_set].
  - constructor; [reflexivity | constructor].
  - inversion H; subst.
    destruct (String.eqb d k); constructor; auto.
Qed.

Lemma unknown_schemas_lookup :
  forall (st : SymbolTable.t) (a : string) (info : DatasetInfo),
    unknown_schemas st -> SymbolTable.lookup a st = Some info -> ds_columns info = [].
Proof.
  intros [datasets history] a info H Hlook.
  unfold unknown_schemas, SymbolTable.lookup in *. cbn [SymbolTable.datasets] in *.
  induction datasets as [| [k v] rest IH]; [discriminate Hlook |].
  inversion H; subst. cbn [assoc_get] in Hlook.
  destruct (String.eqb a k); [inversion Hlook; subst; assumption | auto].
Qed.

Lemma first_missing_known_in :
  forall (st : SymbolTable.t) (aliases : list string),
    forallb (known_in (SymbolTable.get_all_names st)) aliases
    = match first_missing st aliases with None => true | Some _ => false end.
Proof.
  intros st aliases. induction aliases as [| a rest IH]; [reflexivity |].
  cbn [forallb first_missing]. rewrite lookup_known_in.
  destruct (SymbolTable.lookup a st); [exact IH | reflexivity].
Qed.

(** What [register] leaves behind when the schema it registers is unknown. *)
Lemma register_unknown :
  forall (st : SymbolTable.t) (new_alias : option string) (source : string),
    unknown_schemas st ->
    exists st',
      SemanticAnalyzer.register st new_alias [] source = (st', None)
      /\ unknown_schemas st'
      /\ forall a,
           known_in (SymbolTable.get_all_names st') a
           = known_in (match truthy_str new_alias with
                       | Some d => d :: SymbolTable.get_all_names st
                       | None => SymbolTable.get_all_names st
                       end) a.
Proof.
  intros st new_alias source H. unfold SemanticAnalyzer.register.
  destruct (truthy_str new_alias) as [d |]; eexists; split; try reflexivity; split.
  - apply unknown_schemas_define. exact H.
  - intros a. apply known_in_define.
  - exact H.
  - reflexivity.
Qed.

(** Without type checking, on a symbol table without schemas, the visitor
    of a validated statement whose sources are all known raises nothing and
    registers the alias the statement defines, again without a schema. *)
Lemma visit_validated :
  forall (source : string) (st : SymbolTable.t) (node : ASTNode Unmodelled),
    validated (node_stmt node) = true ->
    unknown_schemas st ->
    first_missing st (checked_aliases (node_stmt node)) = None ->
    exists st',
      SemanticAnalyzer.visit file_schema_probe visit_unmodelled source false st node
      = (st', None)
      /\ unknown_schemas st'
      /\ forall a,
           known_in (SymbolTable.get_all_names st') a
           = known_in (match defined_alias (node_stmt node) with
                       | Some d => d :: SymbolTable.get_all_names st
                       | None => SymbolTable.get_all_names st
                       end) a.
Proof.
  intros source st node Hkind Hst Hmiss.
  unfold SemanticAnalyzer.visit.
  destruct (node_stmt node); try discriminate Hkind;
    cbn [checked_aliases first_missing defined_alias] in *;
    unfold SemanticAnalyzer.visit_load, SemanticAnalyzer.visit_check,
      SemanticAnalyzer.visit_copy, SemanticAnalyzer.visit_SelectNode,
      SemanticAnalyzer.visit_JoinNode, SemanticAnalyzer._check_dataset_exists,
      SemanticAnalyzer._introspect_file_schema, SemanticAnalyzer.done;
    cbn [negb].
  (* the five loads *)
  1-5: eexists; split; [reflexivity |]; split;
       [apply unknown_schemas_define; exact Hst | intros a; apply known_in_define].
  (* save *)
  - destruct (SymbolTable.lookup source_alias st); [| discriminate Hmiss].
    exists st. repeat split; auto.
  (* select *)
  - destruct (SymbolTable.lookup source_alias st) as [info |] eqn:Hlook;
      [| discriminate Hmiss].
    rewrite (unknown_schemas_lookup _ Hst Hlook). cbn [SemanticAnalyzer.check_columns].
    apply register_unknown. exact Hst.
  (* filter *)
  - destruct (SymbolTable.lookup source_alias st) as [info |] eqn:Hlook;
      [| discriminate Hmiss].
    rewrite (unknown_schemas_lookup _ Hst Hlook).
    apply register_unknown. exact Hst.
  (* join *)
  - destruct (SymbolTable.lookup alias1 st) as [info1 |] eqn:Hlook1;
      [| discriminate Hmiss].
    destruct (SymbolTable.lookup alias2 st) as [info2 |] eqn:Hlook2;
      [| discriminate Hmiss].
    unfold SemanticAnalyzer._check_column_exists.
    rewrite (unknown_schemas_lookup _ Hst Hlook1), (unknown_schemas_lookup _ Hst Hlook2).
    apply register_unknown. exact Hst.
  (* mutate *)
  - destruct (SymbolTable.lookup source_alias st) as [info |] eqn:Hlook;
      [| discriminate Hmiss].
    rewrite (unknown_schemas_lookup _ Hst Hlook).
    apply register_unknown. exact Hst.
  (* describe, summary, info *)
  - destruct (SymbolTable.lookup source_alias st); [| discriminate Hmiss].
    exists st. repeat split; auto.
  - destruct (SymbolTable.lookup source_alias st); [| discriminate Hmiss].
    exists st. repeat split; auto.
  - destruct (SymbolTable.lookup source_alias st); [| discriminate Hmiss].
    exists st. repeat split; auto.
  (* power *)
  - destruct (SymbolTable.lookup source_alias st) as [info |] eqn:Hlook;
      [| discriminate Hmiss].
    rewrite (unknown_schemas_lookup _ Hst Hlook).
    apply register_unknown. exact Hst.
Qed.

(** The loop of [analyze] on validated statements: it returns, and what it
    appends to the list of errors is empty exactly when the sources of
    every statement are defined. *)
Lemma analyze_loop_validated :
  forall (source : string) (prog : list (ASTNode Unmodelled)) (st : SymbolTable.t)
         (errors : list NoetaError),
    Forall (fun n => validated (node_stmt n) = true) prog ->
    unknown_schemas st ->
    exists (found : list NoetaError) (st' : SymbolTable.t),
      SemanticAnalyzer.analyze_loop file_schema_probe visit_unmodelled source false
        prog st errors
      = (Ok (List.app errors found), st')
      /\ (found = [] <-> sources_defined (SymbolTable.get_all_names st) prog = true).
Proof.
  intros source prog.
  induction prog as [| node rest IH]; intros st errors Hkinds Hst.
  - exists [], st. cbn. rewrite app_nil_r. split; [reflexivity | tauto].
  - inversion Hkinds as [| ? ? Hkind Hrest]; subst.
    cbn [SemanticAnalyzer.analyze_loop sources_defined].
    rewrite first_missing_known_in.
    destruct (first_missing st (checked_aliases (node_stmt node))) as [X |] eqn:Hmiss.
    + rewrite (visit_first_missing source false st node (validated_modelled Hkind)
                 Hmiss).
      destruct (IH st (List.app errors
                         [SemanticAnalyzer.dataset_error source st X node]) Hrest Hst)
        as [found [st' [Hloop _]]].
      exists (SemanticAnalyzer.dataset_error source st X node :: found), st'.
      split.
      * rewrite Hloop, <- app_assoc. reflexivity.
      * cbn [andb]. split; intros H; discriminate H.
    + destruct (@visit_validated source st node Hkind Hst Hmiss) as [st1 [Hvisit [Hst1 Hnames]]].
      rewrite Hvisit.
      destruct (IH st1 errors Hrest Hst1) as [found [st' [Hloop Hiff]]].
      exists found, st'. split; [exact Hloop |].
      cbn [andb]. rewrite <- (sources_defined_ext rest _ _ Hnames). exact Hiff.
Qed.

(** Claim C1 on the validated statement kinds. With type checking off and
    a symbol table without schemas (a new one, for instance), analysis of
    a program of validated statements returns a list of diagnostics, and
    the list is empty if and only if the sources of every statement are
    supplied by the table or defined by a statement before it. *)
Lemma analyze_validated_iff :
  forall (source : string) (prog : list (ASTNode Unmodelled)) (st : SymbolTable.t),
    Forall (fun n => validated (node_stmt n) = true) prog ->
    unknown_schemas st ->
    exists (errors : list NoetaError) (st' : SymbolTable.t),
      analyze_with source st prog = (Ok errors, st')
      /\ (errors = [] <-> sources_defined (SymbolTable.get_all_names st) prog = true).
Proof.
  intros source prog st Hkinds Hst.
  destruct (analyze_loop_validated source [] Hkinds Hst) as [found [st' [Hloop Hiff]]].
  exists found, st'. split; [exact Hloop | exact Hiff].
Qed.

End Claims.

(* ===================================================================== *)
(** * Undefined datasets, for every visitor of the analyzer *)
(* ===================================================================== *)

(** The source aliases the visitor of a statement outside [Statement] looks
    up, in the order it looks them up. The visitors of [MisreadClass] raise
    before they look anything up. *)
Definition other_aliases (s : OtherStatement) : list string :=
  match s with
  | CopyNode _ a _ | ReshapeNode _ a _ | InspectNode _ a | ColumnNode _ a _ _
  | GroupByNode a _ _ | DropNANode a _ _ | DropDuplicatesNode a _ _
  | FillForwardNode a _ _ | ShowNode a => [a]
  | MergeNode a1 a2 _ _ _ _ => [a1; a2]
  | MisreadNode _ | UnvisitedNode _ => []
  end.

(** The source aliases the visitor of a statement of any class looks up. *)
Definition source_aliases (s : Statement OtherStatement) : list string :=
  checked_aliases other_aliases s.

Lemma visit_other_first_missing :
  forall (enable_type_check : bool) (source : string) (node : ASTNode OtherStatement)
         (u : OtherStatement) (st : SymbolTable.t) (X : string),
    first_missing st (other_aliases u) = Some X ->
    SemanticAnalyzer.visit_other enable_type_check source node u st
    = (st, Some (NoetaExc (SemanticAnalyzer.dataset_error source st X node))).
Proof.
  intros enable_type_check source node u st X H.
  destruct u; cbn [other_aliases first_missing] in H; try discriminate H;
    unfold SemanticAnalyzer.visit_other, SemanticAnalyzer.visit_copy,
      SemanticAnalyzer.visit_reshape, SemanticAnalyzer.visit_check,
      SemanticAnalyzer.visit_column, SemanticAnalyzer.visit_GroupByNode,
      SemanticAnalyzer.visit_MergeNode, SemanticAnalyzer.visit_subset,
      SemanticAnalyzer.visit_FillForwardNode, SemanticAnalyzer._check_dataset_exists.
  all: try match type of H with
           | context [SymbolTable.lookup ?a ?table] =>
               destruct (SymbolTable.lookup a table);
               [| inversion H; subst; reflexivity]
           end.
  all: try discriminate H.
  destruct (SymbolTable.lookup right_alias st); [discriminate H |].
  inversion H; subst; reflexivity.
Qed.

(** Every visitor that misses an alias raises the diagnostic for the first
    one it misses and leaves the symbol table as it was. *)
Lemma visit_any_first_missing :
  forall (file_schema_probe : string -> option Value -> list (string * ColumnInfo))
         (source : string) (enable_type_check : bool) (st : SymbolTable.t)
         (node : ASTNode OtherStatement) (X : string),
    first_missing st (source_aliases (node_stmt node)) = Some X ->
    SemanticAnalyzer.visit file_schema_probe SemanticAnalyzer.visit_other source
      enable_type_check st node
    = (st, Some (NoetaExc (SemanticAnalyzer.dataset_error source st X node))).
Proof.
  intros file_schema_probe source enable_type_check st node X H.
  destruct (node_stmt node) as [| | | | | | | | | | | | | | | | | | | | u] eqn:Hkind.
  21: { unfold SemanticAnalyzer.visit. rewrite Hkind.
        apply visit_other_first_missing. exact H. }
  all: apply (@visit_first_missing OtherStatement SemanticAnalyzer.visit_other
                file_schema_probe other_aliases source enable_type_check st node X);
    [ intros u Hu; rewrite Hkind in Hu; discriminate Hu | rewrite Hkind; exact H ].
Qed.

(** A failed column check raises the diagnostic for a column. *)
Lemma check_columns_column_error :
  forall (Unmodelled : Type) (source : string) (info : DatasetInfo)
         (columns : list string) (node : ASTNode Unmodelled) (e : exn),
    SemanticAnalyzer.check_columns source info columns node = Raise e ->
    exists d, e = NoetaExc d /\ startswith (message d) "Column '" = true.
Proof.
  intros Unmodelled source info columns node e.
  induction columns as [| c columns IH]; intros H; [discriminate H |].
  cbn [SemanticAnalyzer.check_columns] in H.
  unfold SemanticAnalyzer._check_column_exists in H.
  destruct (ds_columns info) as [| x xs]; [apply IH; exact H |].
  destruct (has_column info c); [apply IH; exact H |].
  inversion H; subst. eexists. split; [reflexivity |].
  apply (startswith_app "Column '").
Qed.

(** When none of these aliases is missing, the only diagnostic a visitor
    can still raise is the one for a column. *)
Lemma visit_any_none_missing :
  forall (file_schema_probe : string -> option Value -> list (string * ColumnInfo))
         (source : string) (enable_type_check : bool) (st st' : SymbolTable.t)
         (node : ASTNode OtherStatement) (d : NoetaError),
    first_missing st (source_aliases (node_stmt node)) = None ->
    SemanticAnalyzer.visit file_schema_probe SemanticAnalyzer.visit_other source
      enable_type_check st node
    = (st', Some (NoetaExc d)) ->
    startswith (message d) "Column '" = true.
Proof.
  intros file_schema_probe source enable_type_check st st' node d Hmiss Hvisit.
  unfold SemanticAnalyzer.visit in Hvisit. unfold source_aliases in Hmiss.
  destruct (node_stmt node) as [| | | | | | | | | | | | | | | | | | | | u];
    [ | | | | | | | | | | | | | | | | | | | | destruct u ];
    cbn [checked_aliases other_aliases first_missing] in Hmiss;
    unfold SemanticAnalyzer.visit_other, SemanticAnalyzer.visit_load,
      SemanticAnalyzer.visit_LoadSQLNode, SemanticAnalyzer.visit_SelectNode,
      SemanticAnalyzer.visit_JoinNode, SemanticAnalyzer.visit_copy,
      SemanticAnalyzer.visit_reshape, SemanticAnalyzer.visit_check,
      SemanticAnalyzer.visit_column, SemanticAnalyzer.visit_GroupByNode,
      SemanticAnalyzer.visit_MergeNode, SemanticAnalyzer.check_merge_columns,
      SemanticAnalyzer.visit_subset, SemanticAnalyzer.visit_FillForwardNode,
      SemanticAnalyzer.visit_misread, SemanticAnalyzer.check_known_column,
      SemanticAnalyzer.check_known_columns,
      SemanticAnalyzer.generic_visit, SemanticAnalyzer.register,
      SemanticAnalyzer._check_dataset_exists, SemanticAnalyzer._check_column_exists,
      SemanticAnalyzer.done, SemanticAnalyzer.failed in Hvisit;
    repeat match type of Hmiss with
           | context [SymbolTable.lookup ?a ?table] =>
               destruct (SymbolTable.lookup a table); [| discriminate Hmiss]
           end;
    repeat match type of Hvisit with
           | context [SemanticAnalyzer.check_columns ?s ?i ?c ?n] =>
               let H := fresh "Hcheck" in
               destruct (SemanticAnalyzer.check_columns s i c n) as [[] | e] eqn:H;
               [| destruct (check_columns_column_error _ _ _ _ H) as [err [He Hmsg]];
                  subst e ]
           | context [match ds_columns ?i with _ => _ end] => destruct (ds_columns i)
           | context [if has_column ?i ?c then _ else _] => destruct (has_column i c)
           | context [truthy_str ?a] => destruct (truthy_str a)
           | context [match ?x with _ => _ end] => is_var x; destruct x
           end;
    try discriminate Hvisit;
    inversion Hvisit; subst;
    solve [ assumption | apply (startswith_app "Column '") ].
Qed.

(** Claim C2, amended. Take a statement of any class, and let [X] be the
    first of the source aliases its visitor looks up that is not in the
    symbol table when analysis reaches the statement. Then, whenever
    analysis of the program returns its list of diagnostics, the list holds
    a diagnostic of category semantic whose message names [X], whose hint
    lists the aliases known at that point in the order they were defined
    (or says that there are none), and whose suggestion is an alias at the
    least distance from [X], case ignored, when some alias is within
    distance 3, and is absent otherwise. *)
Theorem undefined_alias_diagnostic :
  forall (file_schema_probe : string -> option Value -> list (string * ColumnInfo))
         (source : string) (enable_type_check : bool)
         (before after : list (ASTNode OtherStatement)) (node : ASTNode OtherStatement)
         (st0 st st_end : SymbolTable.t) (errors_before errors : list NoetaError)
         (X : string),
    SemanticAnalyzer.analyze file_schema_probe SemanticAnalyzer.visit_other source
      enable_type_check before st0
    = (Ok errors_before, st) ->
    first_missing st (source_aliases (node_stmt node)) = Some X ->
    SemanticAnalyzer.analyze file_schema_probe SemanticAnalyzer.visit_other source
      enable_type_check (List.app before (node :: after)) st0
    = (Ok errors, st_end) ->
    exists d,
      In d errors
      /\ category d = SEMANTIC
      /\ message d = "Dataset '" ++ X ++ "' has not been loaded or created"
      /\ contains (message d) X = true
      /\ hint d = Some (known_aliases_hint st)
      /\ (forall name,
            In name (SymbolTable.get_all_names st) -> name_distance X name <= 3 ->
            exists best,
              suggestion d = Some ("Did you mean '" ++ best ++ "'?")
              /\ In best (SymbolTable.get_all_names st)
              /\ name_distance X best <= 3
              /\ forall other, In other (SymbolTable.get_all_names st) ->
                               name_distance X best <= name_distance X other)
      /\ ((forall name, In name (SymbolTable.get_all_names st) ->
                        3 < name_distance X name) ->
          suggestion d = None).
Proof.
  intros file_schema_probe source enable_type_check before after node st0 st st_end
    errors_before errors X Hbefore Hmiss Hall.
  exists (SemanticAnalyzer.dataset_error source st X node).
  split; [| apply dataset_error_says].
  apply (@raised_diagnostic_returned OtherStatement SemanticAnalyzer.visit_other
           file_schema_probe source enable_type_check before after node st0 st st_end
           errors_before errors _ Hbefore
           (visit_any_first_missing file_schema_probe source enable_type_check st node
              Hmiss)
           Hall).
Qed.

(* ===================================================================== *)
(** * Instances of the theorems with hypotheses *)
(* ===================================================================== *)

(** Claim C7 at a symbol table that holds [d] with the columns [price] and
    [category]. *)
Lemma filter_between_and_in_witness :
  SymbolTable.lookup "d" table_with_d = Some info_d
  /\ analysis no_unmodelled_visit no_file_schema filter_source true (Some table_with_d)
       [filter_node Empty_set]
     = (Ok [],
        SymbolTable.define "f"
          (mkDatasetInfo "f" (ds_columns info_d) (Some "filter from d")) table_with_d).
Proof.
  split; [reflexivity |].
  apply (proj2 (filter_between_and_in no_unmodelled_parse no_unmodelled_visit
                  no_file_schema) true table_with_d info_d).
  reflexivity.
Defined.

(** Claim C8 at a program with two undefined datasets. *)
Lemma compile_noeta_raises_one_error_witness :
  exists raised : NoetaError,
    compile false no_unmodelled_parse no_unmodelled_visit no_file_schema no_other_codegen
      ("describe aa" ++ nl ++ "info bb") false None
    = Raise (NoetaExc raised)
    /\ category raised = SEMANTIC
    /\ contains (message raised) "Dataset 'bb' has not been loaded or created" = true.
Proof.
  destruct (@compile_noeta_raises_one_error false Empty_set no_unmodelled_parse
              no_unmodelled_visit no_file_schema no_other_codegen
              ("describe aa" ++ nl ++ "info bb") false None
              [ new_node (DescribeNode "aa" None); new_node (InfoNode "bb") ]
              [ mkNoetaError "Dataset 'aa' has not been loaded or created" SEMANTIC None
                  (Some "No datasets have been loaded yet") None;
                mkNoetaError "Dataset 'bb' has not been loaded or created" SEMANTIC None
                  (Some "No datasets have been loaded yet") None ]
              SymbolTable.empty)
    as [raised [Hraise [_ Hmany]]].
  - reflexivity.
  - reflexivity.
  - discriminate.
  - exists raised. split; [exact Hraise |].
    destruct (Hmany (le_n 2)) as [_ [_ [Hcat [_ [_ [_ Hshown]]]]]].
    split.
    + cbn in Hcat. inversion Hcat. reflexivity.
    + apply (Hshown (mkNoetaError "Dataset 'bb' has not been loaded or created" SEMANTIC
                       None (Some "No datasets have been loaded yet") None)).
      right. left. reflexivity.
Defined.

(** Claim C9 at a load followed by a describe: the first call without a
    terminal and without files to read, the second with a terminal and with
    files that have the columns of [info_d]. *)
Definition load_describe_source : string :=
  "load " ++ dq ++ "x.csv" ++ dq ++ " as d" ++ nl ++ "describe d".

Definition load_describe_text : string :=
  join nl
    [ "from scipy import stats"; "import matplotlib.pyplot as plt";
      "import numpy as np"; "import pandas as pd"; "import seaborn as sns";
      EmptyString; "# Configure visualization settings";
      "plt.style.use('seaborn-v0_8-darkgrid')"; "sns.set_palette('husl')";
      EmptyString; "d = pd.read_csv('x.csv')";
      "print(f'Loaded x.csv as d: {len(d)} rows, {len(d.columns)} columns')";
      "print('\nDescriptive Statistics for d:')"; "print(d.describe())" ].

Lemma compile_twice_same_text_witness :
  fst (compile_noeta true no_unmodelled_parse no_unmodelled_visit
         (fun _ _ => ds_columns info_d) no_other_codegen load_describe_source false None)
  = Ok load_describe_text
  /\ exists g : CodeGenerator.t,
       load_describe_text = CodeGenerator.text_of (CodeGenerator.imports g) g
       /\ forall iteration : list string,
            Permutation iteration (CodeGenerator.imports g) ->
            CodeGenerator.text_of iteration g = load_describe_text.
Proof.
  apply (@compile_twice_same_text false Empty_set no_unmodelled_parse no_unmodelled_visit
           no_file_schema no_other_codegen true (fun _ _ => ds_columns info_d)
           load_describe_source None load_describe_text).
  reflexivity.
Defined.

(** Claim C2, amended, at a statement of a class outside [Statement]:
    [sales] is loaded, [sale] is grouped. *)
Lemma undefined_alias_diagnostic_witness :
  exists d : NoetaError,
    In d [ mkNoetaError "Dataset 'sale' has not been loaded or created" SEMANTIC None
             (Some "Available datasets: sales") (Some "Did you mean 'sales'?") ]
    /\ category d = SEMANTIC
    /\ contains (message d) "sale" = true
    /\ hint d = Some "Available datasets: sales".
Proof.
  destruct (@undefined_alias_diagnostic no_file_schema
              "groupby sale by region as g" false
              [ new_node (LoadNode "x.csv" "sales" None None) ] []
              (new_node (UnmodelledNode (GroupByNode "sale" ["region"] (Some "g"))))
              SymbolTable.empty table_with_sales table_with_sales []
              [ mkNoetaError "Dataset 'sale' has not been loaded or created" SEMANTIC None
                  (Some "Available datasets: sales") (Some "Did you mean 'sales'?") ]
              "sale")
    as [d [Hin [Hcat [_ [Hcont [Hhint _]]]]]].
  - reflexivity.
  - reflexivity.
  - reflexivity.
  - exists d. repeat split; assumption.
Defined.

(** Claim C2, as stated, fails on a statement with two undefined sources.
    The text [join aa with zz on k] parses to a join of [aa] and [zz]; on a
    new symbol table both are undefined, analysis returns exactly one
    diagnostic, and no diagnostic has a message that contains [zz]: the
    visitor raises at the first alias it misses. *)
Lemma undefined_second_alias_unreported :
  front_end no_unmodelled_parse join_source
  = Ok [ new_node (JoinNode "aa" "zz" "k" None) ]
  /\ SymbolTable.lookup "zz" SymbolTable.empty = None
  /\ exists errors,
       SemanticAnalyzer.analyze no_file_schema no_unmodelled_visit join_source false
         [ new_node (JoinNode "aa" "zz" "k" None) ] SymbolTable.empty
       = (Ok errors, SymbolTable.empty)
       /\ length errors = 1
       /\ forall d, In d errors -> contains (message d) "zz" = false.
Proof.
  split; [reflexivity |]. split; [reflexivity |].
  eexists. split; [reflexivity |]. split; [reflexivity |].
  intros d [Hd | []]. subst d. reflexivity.
Qed.

(* ===================================================================== *)
(** * Further properties of the code *)
(* ===================================================================== *)

From Stdlib Require Import DecimalNat.

(* ===================================================================== *)
(** * The edit distance as a metric *)
(* ===================================================================== *)

Lemma length_list_ascii_of_string :
  forall s : string, length (list_ascii_of_string s) = String.length s.
Proof. induction s as [| c s IH]; cbn; [reflexivity | rewrite IH; reflexivity]. Qed.

Lemma list_ascii_of_string_app :
  forall s t : string,
    list_ascii_of_string (s ++ t)
    = List.app (list_ascii_of_string s) (list_ascii_of_string t).
Proof. induction s as [| c s IH]; intros t; cbn; [reflexivity | rewrite IH; reflexivity]. Qed.

(** [prefix_distance s t i j] reads only the first [i] characters of [s]
    and the first [j] characters of [t]. *)
Lemma prefix_distance_prefixes :
  forall (s t s' t' : list ascii) (i j : nat),
    (forall k, k < i -> nth k s Ascii.zero = nth k s' Ascii.zero) ->
    (forall k, k < j -> nth k t Ascii.zero = nth k t' Ascii.zero) ->
    prefix_distance s t i j = prefix_distance s' t' i j.
Proof.
  intros s t s' t'. induction i as [| i IHi]; intros j Hs Ht.
  - reflexivity.
  - induction j as [| j IHj]; [reflexivity |].
    rewrite !prefix_distance_step.
    rewrite (IHi (S j)), (IHi j), IHj, (Hs i), (Ht j); auto.
Qed.

Lemma prefix_distance_snoc_l :
  forall (s t : list ascii) (a : ascii) (i j : nat),
    i <= length s ->
    prefix_distance (List.app s [a]) t i j = prefix_distance s t i j.
Proof.
  intros s t a i j Hi. apply prefix_distance_prefixes; [| reflexivity].
  intros k Hk. apply app_nth1. lia.
Qed.

Lemma prefix_distance_snoc_r :
  forall (s t : list ascii) (b : ascii) (i j : nat),
    j <= length t ->
    prefix_distance s (List.app t [b]) i j = prefix_distance s t i j.
Proof.
  intros s t b i j Hj. apply prefix_distance_prefixes; [reflexivity |].
  intros k Hk. apply app_nth1. lia.
Qed.

Lemma nth_snoc :
  forall (s : list ascii) (a : ascii), nth (length s) (List.app s [a]) Ascii.zero = a.
Proof. intros s a. rewrite app_nth2, Nat.sub_diag by lia. reflexivity. Qed.

(** Property X1. [levenshtein_distance] satisfies the recurrence that
    defines the Levenshtein distance: the distance from or to the empty
    string is the length of the other string, and the distance between two
    strings that end in [a] and [b] is the least of the three costs of
    dropping [a], dropping [b], and matching [a] with [b]. *)
Theorem levenshtein_distance_recurrence :
  (forall t : string, levenshtein_distance EmptyString t = String.length t)
  /\ (forall s : string, levenshtein_distance s EmptyString = String.length s)
  /\ (forall (s t : string) (a b : ascii),
        levenshtein_distance (s ++ String a EmptyString) (t ++ String b EmptyString)
        = min3 (levenshtein_distance s (t ++ String b EmptyString) + 1)
               (levenshtein_distance (s ++ String a EmptyString) t + 1)
               (levenshtein_distance s t + (if Ascii.eqb a b then 0 else 1))).
Proof.
  split; [| split].
  - intros t. rewrite levenshtein_distance_edit_distance. unfold edit_distance.
    cbn [list_ascii_of_string length prefix_distance].
    apply length_list_ascii_of_string.
  - intros s. rewrite levenshtein_distance_edit_distance. unfold edit_distance.
    cbn [list_ascii_of_string length]. rewrite prefix_distance_zero_r.
    apply length_list_ascii_of_string.
  - intros s t a b. rewrite !levenshtein_distance_edit_distance. unfold edit_distance.
    cbv zeta. rewrite !list_ascii_of_string_app. cbn [list_ascii_of_string].
    set (ls := list_ascii_of_string s). set (lt := list_ascii_of_string t).
    rewrite !length_app. cbn [length].
    replace (length ls + 1) with (S (length ls)) by lia.
    replace (length lt + 1) with (S (length lt)) by lia.
    rewrite prefix_distance_step, !nth_snoc.
    rewrite (@prefix_distance_snoc_l ls (List.app lt [b]) a (length ls) (S (length lt)))
      by lia.
    rewrite (@prefix_distance_snoc_r (List.app ls [a]) lt b (S (length ls)) (length lt))
      by lia.
    rewrite (@prefix_distance_snoc_l ls (List.app lt [b]) a (length ls) (length lt))
      by lia.
    rewrite (@prefix_distance_snoc_r ls lt b (length ls) (length lt)) by lia.
    reflexivity.
Qed.

Lemma prefix_distance_bounds :
  forall (s t : list ascii) (i j : nat),
    i - j <= prefix_distance s t i j
    /\ j - i <= prefix_distance s t i j
    /\ prefix_distance s t i j <= Nat.max i j.
Proof.
  intros s t. induction i as [| i IHi]; intros j.
  - cbn [prefix_distance]. lia.
  - induction j as [| j IHj].
    + rewrite prefix_distance_zero_r. lia.
    + rewrite prefix_distance_step.
      pose proof (IHi (S j)). pose proof (IHi j).
      destruct (Ascii.eqb (nth i s Ascii.zero) (nth j t Ascii.zero));
        unfold min3; lia.
Qed.

Lemma prefix_distance_refl :
  forall (s : list ascii) (i : nat), prefix_distance s s i i = 0.
Proof.
  intros s. induction i as [| i IH]; [reflexivity |].
  rewrite prefix_distance_step, IH, Ascii.eqb_refl. unfold min3. lia.
Qed.

Lemma firstn_S_nth :
  forall (s : list ascii) (i : nat),
    i < length s -> firstn (S i) s = List.app (firstn i s) [nth i s Ascii.zero].
Proof.
  induction s as [| c s IH]; intros i Hi; [cbn in Hi; lia |].
  destruct i as [| i]; [reflexivity |].
  change (c :: firstn (S i) s = c :: List.app (firstn i s) [nth i s Ascii.zero]).
  f_equal. apply IH. cbn in Hi. lia.
Qed.

Lemma prefix_distance_zero :
  forall (s t : list ascii) (i j : nat),
    i <= length s -> j <= length t ->
    prefix_distance s t i j = 0 -> i = j /\ firstn i s = firstn j t.
Proof.
  intros s t. induction i as [| i IHi]; intros j Hi Hj H.
  - cbn [prefix_distance] in H. subst j. split; reflexivity.
  - destruct j as [| j]; [rewrite prefix_distance_zero_r in H; discriminate H |].
    rewrite prefix_distance_step in H.
    destruct (Ascii.eqb (nth i s Ascii.zero) (nth j t Ascii.zero)) eqn:Hc;
      [| unfold min3 in H; lia].
    assert (H0 : prefix_distance s t i j = 0) by (unfold min3 in H; lia).
    destruct (IHi j ltac:(lia) ltac:(lia) H0) as [Hij Hfirst].
    apply Ascii.eqb_eq in Hc.
    split; [lia |].
    rewrite !firstn_S_nth by lia. rewrite Hfirst, Hc. reflexivity.
Qed.

Lemma eqb_cost_triangle :
  forall a b c : ascii,
    (if Ascii.eqb a c then 0 else 1)
    <= (if Ascii.eqb a b then 0 else 1) + (if Ascii.eqb b c then 0 else 1).
Proof.
  intros a b c.
  destruct (Ascii.eqb a b) eqn:Hab; destruct (Ascii.eqb b c) eqn:Hbc;
    destruct (Ascii.eqb a c) eqn:Hac; try lia.
  apply Ascii.eqb_eq in Hab. apply Ascii.eqb_eq in Hbc. subst.
  rewrite Ascii.eqb_refl in Hac. discriminate Hac.
Qed.

Lemma prefix_distance_triangle :
  forall (s t u : list ascii) (n i j k : nat),
    i + j + k <= n ->
    prefix_distance s u i k <= prefix_distance s t i j + prefix_distance t u j k.
Proof.
  intros s t u. induction n as [| n IH]; intros i j k Hn.
  - assert (i = 0) by lia. assert (j = 0) by lia. assert (k = 0) by lia. subst.
    cbn. lia.
  - destruct i as [| i].
    { change (prefix_distance s u 0 k) with k.
      change (prefix_distance s t 0 j) with j.
      pose proof (prefix_distance_bounds t u j k). lia. }
    destruct k as [| k].
    { rewrite !prefix_distance_zero_r.
      pose proof (prefix_distance_bounds s t (S i) j). lia. }
    destruct j as [| j].
    { rewrite prefix_distance_zero_r.
      change (prefix_distance t u 0 (S k)) with (S k).
      pose proof (prefix_distance_bounds s u (S i) (S k)). lia. }
    rewrite !prefix_distance_step.
    pose proof (IH i (S j) (S k) ltac:(lia)) as H1.
    pose proof (IH (S i) (S j) k ltac:(lia)) as H2.
    pose proof (IH (S i) j (S k) ltac:(lia)) as H3.
    pose proof (IH (S i) j k ltac:(lia)) as H4.
    pose proof (IH i j (S k) ltac:(lia)) as H5.
    pose proof (IH i j k ltac:(lia)) as H6.
    rewrite !prefix_distance_step in *.
    pose proof (eqb_cost_triangle (nth i s Ascii.zero) (nth j t Ascii.zero)
                  (nth k u Ascii.zero)) as Hcost.
    unfold min3 in *. lia.
Qed.

(** Property X2. [levenshtein_distance] is a metric on strings: it is
    symmetric, it is zero exactly on equal strings, and it obeys the
    triangle inequality. *)
Theorem levenshtein_distance_metric :
  forall s t u : string,
    levenshtein_distance s t = levenshtein_distance t s
    /\ (levenshtein_distance s t = 0 <-> s = t)
    /\ levenshtein_distance s u <= levenshtein_distance s t + levenshtein_distance t u.
Proof.
  intros s t u. rewrite !levenshtein_distance_edit_distance. unfold edit_distance.
  cbv zeta. split; [apply prefix_distance_sym |]. split.
  - split.
    + intros H. apply prefix_distance_zero in H; try lia.
      destruct H as [_ H]. rewrite !firstn_all in H.
      rewrite <- (string_of_list_ascii_of_string s), <- (string_of_list_ascii_of_string t).
      rewrite H. reflexivity.
    + intros H. subst t. apply prefix_distance_refl.
  - apply prefix_distance_triangle with
      (n := length (list_ascii_of_string s) + length (list_ascii_of_string t)
            + length (list_ascii_of_string u)).
    lia.
Qed.

(** Property X3. The distance lies between the difference of the two
    lengths and the greater of them. *)
Theorem levenshtein_distance_bounds :
  forall s t : string,
    String.length s - String.length t <= levenshtein_distance s t
    /\ String.length t - String.length s <= levenshtein_distance s t
    /\ levenshtein_distance s t <= Nat.max (String.length s) (String.length t).
Proof.
  intros s t. rewrite levenshtein_distance_edit_distance. unfold edit_distance.
  cbv zeta. rewrite <- !length_list_ascii_of_string.
  apply prefix_distance_bounds.
Qed.

(* ===================================================================== *)
(** * Suggestions *)
(* ===================================================================== *)

(** Sorted by key, least first. *)
Definition sorted_by_key (A : Type) (key : A -> nat) (l : list A) : Prop :=
  StronglySorted (fun x y => key x <= key y) l.

Lemma insert_by_key_sorted :
  forall (A : Type) (key : A -> nat) (x : A) (l : list A),
    sorted_by_key key l -> sorted_by_key key (insert_by_key key x l).
Proof.
  intros A key x. unfold sorted_by_key.
  induction l as [| z l IH]; intros Hl; cbn [insert_by_key].
  - repeat constructor.
  - inversion Hl as [| ? ? Hl' Hz]; subst.
    destruct (key x <=? key z)%nat eqn:Hxz.
    + apply Nat.leb_le in Hxz. constructor; [exact Hl |].
      constructor; [exact Hxz |].
      eapply Forall_impl; [| exact Hz]. intros y Hy. cbn in Hy |- *. lia.
    + apply Nat.leb_gt in Hxz. constructor; [apply IH; exact Hl' |].
      apply Forall_forall. intros y Hy. apply insert_by_key_In in Hy.
      destruct Hy as [Hy | Hy]; [subst y; lia |].
      rewrite Forall_forall in Hz. apply Hz. exact Hy.
Qed.

Lemma sort_by_key_sorted :
  forall (A : Type) (key : A -> nat) (l : list A), sorted_by_key key (sort_by_key key l).
Proof.
  intros A key. induction l as [| x l IH]; cbn [sort_by_key]; [constructor |].
  apply insert_by_key_sorted. exact IH.
Qed.

Lemma sorted_by_key_app :
  forall (A : Type) (key : A -> nat) (l1 l2 : list A),
    sorted_by_key key (List.app l1 l2) ->
    sorted_by_key key l1
    /\ forall x y, In x l1 -> In y l2 -> key x <= key y.
Proof.
  intros A key. unfold sorted_by_key.
  induction l1 as [| z l1 IH]; intros l2 H.
  - split; [constructor | intros x y []].
  - cbn [List.app] in H. inversion H as [| ? ? H' Hz]; subst.
    destruct (IH l2 H') as [Hs Hle]. split.
    + constructor; [exact Hs |].
      apply Forall_forall. intros y Hy. rewrite Forall_forall in Hz.
      apply Hz. apply in_or_app. left. exact Hy.
    + intros x y [Hx | Hx] Hy.
      * subst x. rewrite Forall_forall in Hz. apply Hz. apply in_or_app. right. exact Hy.
      * apply Hle; assumption.
Qed.

Lemma sorted_by_key_map :
  forall (A B : Type) (key : A -> nat) (key' : B -> nat) (f : A -> B) (l : list A),
    (forall x, In x l -> key' (f x) = key x) ->
    sorted_by_key key l -> sorted_by_key key' (map f l).
Proof.
  intros A B key key' f. unfold sorted_by_key.
  induction l as [| z l IH]; intros Hkey Hl; cbn [map]; [constructor |].
  inversion Hl as [| ? ? Hl' Hz]; subst. constructor.
  - apply IH; [| exact Hl']. intros x Hx. apply Hkey. right. exact Hx.
  - apply Forall_forall. intros y Hy. apply in_map_iff in Hy.
    destruct Hy as [x [Hfx Hx]]. subst y.
    rewrite Forall_forall in Hz. specialize (Hz x Hx). cbn in Hz.
    rewrite (Hkey z (or_introl eq_refl)), (Hkey x (or_intror Hx)). exact Hz.
Qed.

Lemma suggest_similar_unfold :
  forall (attempted : string) (available : list string) (k d : nat),
    suggest_similar attempted available k d
    = map snd (firstn k (sort_by_key fst (similar_distances attempted available d))).
Proof.
  intros attempted [| a available] k d; [| reflexivity].
  cbn. destruct k; reflexivity.
Qed.

(** Property X4. [suggest_similar] returns at most [max_suggestions]
    names, each an available name within [max_distance] of the attempted
    one (case ignored), nearest first; and an available name within the
    distance is left out only when the list is full and holds no name
    farther away than it. *)
Theorem suggest_similar_nearest_first :
  forall (attempted : string) (available : list string)
         (max_suggestions max_distance : nat),
    let result := suggest_similar attempted available max_suggestions max_distance in
    length result <= max_suggestions
    /\ (forall name, In name result ->
          In name available /\ name_distance attempted name <= max_distance)
    /\ sorted_by_key (name_distance attempted) result
    /\ (forall name,
          In name available -> name_distance attempted name <= max_distance ->
          ~ In name result ->
          length result = max_suggestions
          /\ forall r, In r result ->
                       name_distance attempted r <= name_distance attempted name).
Proof.
  intros attempted available k d result. unfold result.
  rewrite suggest_similar_unfold.
  set (D := similar_distances attempted available d).
  set (S := sort_by_key fst D).
  assert (HD : forall p, In p S ->
                 In (snd p) available /\ fst p = name_distance attempted (snd p)
                 /\ fst p <= d).
  { intros [dist name] Hp. apply sort_by_key_In in Hp.
    apply similar_distances_In in Hp. exact Hp. }
  assert (Hfirst : forall p, In p (firstn k S) -> In p S).
  { intros p Hp. rewrite <- (firstn_skipn k S). apply in_or_app. left. exact Hp. }
  pose proof (sort_by_key_sorted fst D) as Hsorted. fold S in Hsorted.
  rewrite <- (firstn_skipn k S) in Hsorted.
  apply sorted_by_key_app in Hsorted. destruct Hsorted as [Hsorted Hle].
  split; [rewrite length_map; apply firstn_le_length |].
  split.
  { intros name Hname. apply in_map_iff in Hname. destruct Hname as [p [Hp Hin]].
    subst name. destruct (HD p (Hfirst p Hin)) as [Ha [Hd Hm]]. split; [exact Ha | lia]. }
  split.
  { apply sorted_by_key_map with (key := fst); [| exact Hsorted].
    intros p Hp. destruct (HD p (Hfirst p Hp)) as [_ [Hd _]]. symmetry. exact Hd. }
  intros name Hname Hdist Hout.
  assert (Hin : In (name_distance attempted name, name) S).
  { apply sort_by_key_In. apply similar_distances_In. auto. }
  rewrite <- (firstn_skipn k S) in Hin. apply in_app_or in Hin.
  destruct Hin as [Hin | Hin].
  { exfalso. apply Hout. apply in_map_iff.
    exists (name_distance attempted name, name). split; [reflexivity | exact Hin]. }
  split.
  - rewrite length_map. apply firstn_length_le.
    destruct (Nat.le_gt_cases k (length S)) as [Hk | Hk]; [exact Hk |].
    rewrite skipn_all2 in Hin by lia. contradiction.
  - intros r Hr. apply in_map_iff in Hr. destruct Hr as [p [Hp Hpin]]. subst r.
    destruct (HD p (Hfirst p Hpin)) as [_ [Hd _]]. rewrite <- Hd.
    apply (Hle p (name_distance attempted name, name) Hpin Hin).
Qed.

(* ===================================================================== *)
(** * Grouping and formatting of diagnostics *)
(* ===================================================================== *)

(** Property X5. [group_errors_by_category] files every error under its
    own category and nowhere else: the list under a category is the list of
    the collected errors of that category, in the order they were
    collected, and a category without errors has no entry. *)
Theorem group_errors_by_category_partition :
  forall (errors : list NoetaError) (c : ErrorCategory),
    match MultiErrorFormatter.grouped_get c
            (MultiErrorFormatter.group_errors_by_category errors) with
    | Some es =>
        es = filter (fun e => ErrorCategory_eqb c (category e)) errors /\ es <> []
    | None => forall e, In e errors -> category e <> c
    end.
Proof.
  intros errors c. rewrite group_errors_by_category_filter.
  destruct (filter (fun e => ErrorCategory_eqb c (category e)) errors) as [| x xs] eqn:Hf.
  - intros e He Hc.
    assert (Hin : In e (filter (fun e => ErrorCategory_eqb c (category e)) errors)).
    { apply filter_In. split; [exact He |]. subst c. apply ErrorCategory_eqb_refl. }
    rewrite Hf in Hin. contradiction.
  - split; [reflexivity | discriminate].
Qed.

Lemma contains_join_at :
  forall (sep x p : string) (l1 l2 : list string),
    contains x p = true -> contains (join sep (List.app l1 (x :: l2))) p = true.
Proof.
  intros sep x p l1 l2 H. apply contains_join with (x := x); [| exact H].
  apply in_or_app. right. left. reflexivity.
Qed.

(** Property X6. The text of a [NoetaError], with or without colours,
    shows the name of its category, its message, its hint after [Hint: ]
    and its suggestion after [Did you mean: ], when it has them. *)
Theorem format_shows_every_field :
  forall (supports_color : bool) (e : NoetaError),
    let text := ErrorFormatter.format supports_color e in
    contains text (ErrorCategory_value (category e)) = true
    /\ contains text (message e) = true
    /\ (forall h, hint e = Some h -> h <> EmptyString ->
                  contains text ("Hint: " ++ h) = true)
    /\ (forall s, suggestion e = Some s -> s <> EmptyString ->
                  contains text ("Did you mean: " ++ s) = true).
Proof.
  intros supports_color e text.
  assert (Hcolor : forall t color p,
             contains t p = true ->
             contains (ErrorFormatter.colorize supports_color t color) p = true).
  { intros t color p H. unfold ErrorFormatter.colorize.
    destruct supports_color; [| exact H].
    apply contains_app_r. apply contains_app_l. exact H. }
  assert (Hself : forall t, contains t t = true).
  { intros t. apply contains_startswith. apply startswith_refl. }
  unfold text, ErrorFormatter.format. cbv zeta.
  repeat split.
  - apply contains_join with
      (x := ErrorFormatter.colorize supports_color
              (match context e with
               | Some c =>
                   ErrorCategory_value (category e) ++ " at line " ++ str_nat (ctx_line c)
                   ++ ", column " ++ str_nat (ctx_column c) ++ ":"
               | None => ErrorCategory_value (category e) ++ ":"
               end) (ErrorFormatter.RED ++ ErrorFormatter.BOLD)).
    + repeat match goal with
             | |- context [match ?x with _ => _ end] => destruct x
             end; cbn [List.app In]; tauto.
    + apply Hcolor. destruct (context e); apply contains_app_l; apply Hself.
  - apply contains_join with
      (x := "    " ++ ErrorFormatter.colorize supports_color (message e) ErrorFormatter.RED).
    + repeat match goal with
             | |- context [match ?x with _ => _ end] => destruct x
             end; cbn [List.app In]; tauto.
    + apply contains_app_r. apply Hcolor. apply Hself.
  - intros h Hh Hne. rewrite Hh.
    assert (Ht : truthy_str (Some h) = Some h) by (destruct h; [contradiction | reflexivity]).
    rewrite Ht.
    apply contains_join with
      (x := ErrorFormatter.colorize supports_color ("Hint: " ++ h) ErrorFormatter.YELLOW).
    + repeat match goal with
             | |- context [match ?x with _ => _ end] => destruct x
             end; cbn [List.app In];
        repeat (rewrite in_app_iff; cbn [In]); tauto.
    + apply Hcolor. apply Hself.
  - intros s Hs Hne. rewrite Hs.
    assert (Ht : truthy_str (Some s) = Some s) by (destruct s; [contradiction | reflexivity]).
    rewrite Ht.
    apply contains_join with
      (x := ErrorFormatter.colorize supports_color ("Did you mean: " ++ s)
              ErrorFormatter.GREEN).
    + apply in_or_app. right. left. reflexivity.
    + apply Hcolor. apply Hself.
Qed.

(* ===================================================================== *)
(** * Token kinds *)
(* ===================================================================== *)

(** [TokenType(value)]: the member with a given value. *)
Definition TokenType_of_value (v : positive) : option TokenType.t :=
  match v with
  | 1 => Some TokenType.LOAD | 2 => Some TokenType.SELECT | 3 => Some TokenType.FILTER
  | 4 => Some TokenType.SORT | 5 => Some TokenType.JOIN | 6 => Some TokenType.GROUPBY
  | 7 => Some TokenType.SAMPLE | 8 => Some TokenType.DROPNA
  | 9 => Some TokenType.FILLNA | 10 => Some TokenType.MUTATE
  | 11 => Some TokenType.APPLY | 12 => Some TokenType.DESCRIBE
  | 13 => Some TokenType.SUMMARY | 14 => Some TokenType.OUTLIERS
  | 15 => Some TokenType.QUANTILE | 16 => Some TokenType.NORMALIZE
  | 17 => Some TokenType.BINNING | 18 => Some TokenType.ROLLING
  | 19 => Some TokenType.HYPOTHESIS | 20 => Some TokenType.BOXPLOT
  | 21 => Some TokenType.HEATMAP | 22 => Some TokenType.PAIRPLOT
  | 23 => Some TokenType.TIMESERIES | 24 => Some TokenType.PIE
  | 25 => Some TokenType.SAVE | 26 => Some TokenType.EXPORT_PLOT
  | 27 => Some TokenType.INFO | 28 => Some TokenType.UNIQUE
  | 29 => Some TokenType.VALUE_COUNTS | 30 => Some TokenType.SHOW
  | 31 => Some TokenType.SELECT_BY_TYPE | 32 => Some TokenType.HEAD
  | 33 => Some TokenType.TAIL | 34 => Some TokenType.ILOC | 35 => Some TokenType.LOC
  | 36 => Some TokenType.RENAME | 37 => Some TokenType.REORDER
  | 38 => Some TokenType.FILTER_BETWEEN | 39 => Some TokenType.FILTER_ISIN
  | 40 => Some TokenType.FILTER_CONTAINS | 41 => Some TokenType.FILTER_STARTSWITH
  | 42 => Some TokenType.FILTER_ENDSWITH | 43 => Some TokenType.FILTER_REGEX
  | 44 => Some TokenType.FILTER_NULL | 45 => Some TokenType.FILTER_NOTNULL
  | 46 => Some TokenType.FILTER_DUPLICATES | 47 => Some TokenType.ROUND
  | 48 => Some TokenType.ABS | 49 => Some TokenType.SQRT | 50 => Some TokenType.POWER
  | 51 => Some TokenType.LOG | 52 => Some TokenType.CEIL | 53 => Some TokenType.FLOOR
  | 54 => Some TokenType.UPPER | 55 => Some TokenType.LOWER
  | 56 => Some TokenType.STRIP | 57 => Some TokenType.LSTRIP
  | 58 => Some TokenType.RSTRIP | 59 => Some TokenType.TITLE
  | 60 => Some TokenType.CAPITALIZE | 61 => Some TokenType.REPLACE
  | 62 => Some TokenType.SPLIT | 63 => Some TokenType.CONCAT
  | 64 => Some TokenType.SUBSTRING | 65 => Some TokenType.LENGTH
  | 66 => Some TokenType.EXTRACT_REGEX | 67 => Some TokenType.FIND
  | 68 => Some TokenType.PARSE_DATETIME | 69 => Some TokenType.EXTRACT
  | 70 => Some TokenType.EXTRACT_YEAR | 71 => Some TokenType.EXTRACT_MONTH
  | 72 => Some TokenType.EXTRACT_DAY | 73 => Some TokenType.EXTRACT_HOUR
  | 74 => Some TokenType.EXTRACT_MINUTE | 75 => Some TokenType.EXTRACT_SECOND
  | 76 => Some TokenType.EXTRACT_DAYOFWEEK | 77 => Some TokenType.EXTRACT_DAYOFYEAR
  | 78 => Some TokenType.EXTRACT_WEEKOFYEAR | 79 => Some TokenType.EXTRACT_QUARTER
  | 80 => Some TokenType.DATE_DIFF | 81 => Some TokenType.DATE_ADD
  | 82 => Some TokenType.DATE_SUBTRACT | 83 => Some TokenType.FORMAT_DATETIME
  | 84 => Some TokenType.ASTYPE | 85 => Some TokenType.TO_NUMERIC
  | 86 => Some TokenType.ONE_HOT_ENCODE | 87 => Some TokenType.LABEL_ENCODE
  | 88 => Some TokenType.STANDARD_SCALE | 89 => Some TokenType.MINMAX_SCALE
  | 90 => Some TokenType.ISNULL | 91 => Some TokenType.NOTNULL
  | 92 => Some TokenType.COUNT_NA | 93 => Some TokenType.FILL_FORWARD
  | 94 => Some TokenType.FILL_BACKWARD | 95 => Some TokenType.FILL_MEAN
  | 96 => Some TokenType.FILL_MEDIAN | 97 => Some TokenType.FILL_MODE
  | 98 => Some TokenType.INTERPOLATE | 99 => Some TokenType.DUPLICATED
  | 100 => Some TokenType.COUNT_DUPLICATES | 101 => Some TokenType.DROP_DUPLICATES
  | 102 => Some TokenType.QCUT | 103 => Some TokenType.CUT
  | 104 => Some TokenType.SORT_INDEX | 105 => Some TokenType.RANK
  | 106 => Some TokenType.FILTER_GROUPS | 107 => Some TokenType.GROUP_TRANSFORM
  | 108 => Some TokenType.WINDOW_RANK | 109 => Some TokenType.WINDOW_LAG
  | 110 => Some TokenType.WINDOW_LEAD | 111 => Some TokenType.ROLLING_MEAN
  | 112 => Some TokenType.ROLLING_SUM | 113 => Some TokenType.ROLLING_STD
  | 114 => Some TokenType.ROLLING_MIN | 115 => Some TokenType.ROLLING_MAX
  | 116 => Some TokenType.EXPANDING_MEAN | 117 => Some TokenType.EXPANDING_SUM
  | 118 => Some TokenType.EXPANDING_MIN | 119 => Some TokenType.EXPANDING_MAX
  | 120 => Some TokenType.CUMSUM | 121 => Some TokenType.CUMMAX
  | 122 => Some TokenType.CUMMIN | 123 => Some TokenType.CUMPROD
  | 124 => Some TokenType.PCT_CHANGE | 125 => Some TokenType.DIFF
  | 126 => Some TokenType.SHIFT | 127 => Some TokenType.PIVOT
  | 128 => Some TokenType.PIVOT_TABLE | 129 => Some TokenType.MELT
  | 130 => Some TokenType.STACK | 131 => Some TokenType.UNSTACK
  | 132 => Some TokenType.TRANSPOSE | 133 => Some TokenType.CROSSTAB
  | 134 => Some TokenType.MERGE | 135 => Some TokenType.CONCAT_VERTICAL
  | 136 => Some TokenType.CONCAT_HORIZONTAL | 137 => Some TokenType.UNION
  | 138 => Some TokenType.INTERSECTION | 139 => Some TokenType.DIFFERENCE
  | 140 => Some TokenType.SET_INDEX | 141 => Some TokenType.RESET_INDEX
  | 142 => Some TokenType.APPLY_ROW | 143 => Some TokenType.APPLY_COLUMN
  | 144 => Some TokenType.APPLYMAP | 145 => Some TokenType.MAP
  | 146 => Some TokenType.MAP_VALUES | 147 => Some TokenType.RESAMPLE
  | 148 => Some TokenType.ASSIGN_CONST | 149 => Some TokenType.ROBUST_SCALE
  | 150 => Some TokenType.MAXABS_SCALE | 151 => Some TokenType.ORDINAL_ENCODE
  | 152 => Some TokenType.TARGET_ENCODE | 153 => Some TokenType.ASSERT_UNIQUE
  | 154 => Some TokenType.ASSERT_NO_NULLS | 155 => Some TokenType.ASSERT_RANGE
  | 156 => Some TokenType.REINDEX | 157 => Some TokenType.SET_MULTIINDEX
  | 158 => Some TokenType.ANY | 159 => Some TokenType.ALL
  | 160 => Some TokenType.COUNT_TRUE | 161 => Some TokenType.COMPARE
  | 162 => Some TokenType.CSV | 163 => Some TokenType.JSON
  | 164 => Some TokenType.EXCEL | 165 => Some TokenType.PARQUET
  | 166 => Some TokenType.SQL | 167 => Some TokenType.AS | 168 => Some TokenType.BY
  | 169 => Some TokenType.WITH | 170 => Some TokenType.ON | 171 => Some TokenType.FROM
  | 172 => Some TokenType.AGG | 173 => Some TokenType.COMPUTE
  | 174 => Some TokenType.COLUMN | 175 => Some TokenType.COLUMNS
  | 176 => Some TokenType.VALUE | 177 => Some TokenType.VALUES
  | 178 => Some TokenType.N | 179 => Some TokenType.RANDOM
  | 180 => Some TokenType.METHOD | 181 => Some TokenType.Q | 182 => Some TokenType.BINS
  | 183 => Some TokenType.WINDOW | 184 => Some TokenType.FUNCTION
  | 185 => Some TokenType.TRANSFORM | 186 => Some TokenType.VS
  | 187 => Some TokenType.TEST | 188 => Some TokenType.X | 189 => Some TokenType.Y
  | 190 => Some TokenType.LABELS | 191 => Some TokenType.TO
  | 192 => Some TokenType.FORMAT | 193 => Some TokenType.FILENAME
  | 194 => Some TokenType.WIDTH | 195 => Some TokenType.HEIGHT
  | 196 => Some TokenType.DESC | 197 => Some TokenType.WHERE
  | 198 => Some TokenType.ASC | 199 => Some TokenType.TYPE | 200 => Some TokenType.ROWS
  | 201 => Some TokenType.MAPPING | 202 => Some TokenType.ORDER
  | 203 => Some TokenType.LIMIT | 204 => Some TokenType.OFFSET
  | 205 => Some TokenType.FIRST | 206 => Some TokenType.LAST
  | 207 => Some TokenType.MIN | 208 => Some TokenType.MAX
  | 209 => Some TokenType.PATTERN | 210 => Some TokenType.KEEP
  | 211 => Some TokenType.SUBSET | 212 => Some TokenType.AND | 213 => Some TokenType.OR
  | 214 => Some TokenType.NOT | 215 => Some TokenType.IN
  | 216 => Some TokenType.BETWEEN | 217 => Some TokenType.CONTAINS
  | 218 => Some TokenType.STARTS_WITH | 219 => Some TokenType.ENDS_WITH
  | 220 => Some TokenType.MATCHES | 221 => Some TokenType.IS
  | 222 => Some TokenType.NULL | 223 => Some TokenType.PART
  | 224 => Some TokenType.DECIMALS | 225 => Some TokenType.EXPONENT
  | 226 => Some TokenType.BASE | 227 => Some TokenType.SEPARATOR
  | 228 => Some TokenType.UNIT | 229 => Some TokenType.OLD | 230 => Some TokenType.NEW
  | 231 => Some TokenType.DELIMITER_STR | 232 => Some TokenType.START
  | 233 => Some TokenType.END | 234 => Some TokenType.DTYPE_STR
  | 235 => Some TokenType.ERRORS | 236 => Some TokenType.STRATEGY
  | 237 => Some TokenType.AXIS | 238 => Some TokenType.ASCENDING
  | 239 => Some TokenType.PERIODS | 240 => Some TokenType.ID_VARS
  | 241 => Some TokenType.VALUE_VARS | 242 => Some TokenType.VAR_NAME
  | 243 => Some TokenType.VALUE_NAME | 244 => Some TokenType.LEFT
  | 245 => Some TokenType.RIGHT | 246 => Some TokenType.LEFT_ON
  | 247 => Some TokenType.RIGHT_ON | 248 => Some TokenType.SUFFIXES
  | 249 => Some TokenType.HOW | 250 => Some TokenType.AGGFUNC
  | 251 => Some TokenType.FILL_VALUE | 252 => Some TokenType.LEVEL
  | 253 => Some TokenType.RULE | 254 => Some TokenType.CONDITION
  | 255 => Some TokenType.PCT | 256 => Some TokenType.DROP
  | 257 => Some TokenType.IGNORE_INDEX | 258 => Some TokenType.DELIMITER
  | 259 => Some TokenType.ENCODING | 260 => Some TokenType.HEADER
  | 261 => Some TokenType.NAMES | 262 => Some TokenType.USECOLS
  | 263 => Some TokenType.DTYPE | 264 => Some TokenType.SKIPROWS
  | 265 => Some TokenType.NROWS | 266 => Some TokenType.NA_VALUES
  | 267 => Some TokenType.THOUSANDS | 268 => Some TokenType.DECIMAL
  | 269 => Some TokenType.COMMENT_CHAR | 270 => Some TokenType.SKIP_BLANK_LINES
  | 271 => Some TokenType.PARSE_DATES | 272 => Some TokenType.DATE_FORMAT
  | 273 => Some TokenType.CHUNKSIZE | 274 => Some TokenType.COMPRESSION
  | 275 => Some TokenType.LOW_MEMORY | 276 => Some TokenType.MEMORY_MAP
  | 277 => Some TokenType.ORIENT | 278 => Some TokenType.TYP
  | 279 => Some TokenType.CONVERT_AXES | 280 => Some TokenType.CONVERT_DATES
  | 281 => Some TokenType.PRECISE_FLOAT | 282 => Some TokenType.DATE_UNIT
  | 283 => Some TokenType.LINES | 284 => Some TokenType.SHEET
  | 285 => Some TokenType.SHEET_NAME | 286 => Some TokenType.INDEX_COL
  | 287 => Some TokenType.ENGINE | 288 => Some TokenType.CONVERTERS
  | 289 => Some TokenType.SKIPFOOTER | 290 => Some TokenType.FILTERS
  | 291 => Some TokenType.USE_NULLABLE_DTYPES | 292 => Some TokenType.STORAGE_OPTIONS
  | 293 => Some TokenType.PARAMS | 294 => Some TokenType.COERCE_FLOAT
  | 295 => Some TokenType.INDEX | 296 => Some TokenType.INDEX_LABEL
  | 297 => Some TokenType.NA_REP | 298 => Some TokenType.MODE
  | 299 => Some TokenType.QUOTING | 300 => Some TokenType.QUOTECHAR
  | 301 => Some TokenType.ESCAPECHAR | 302 => Some TokenType.LINETERMINATOR
  | 303 => Some TokenType.FLOAT_FORMAT | 304 => Some TokenType.TARGET
  | 305 => Some TokenType.CHARS | 306 => Some TokenType.GROUP
  | 307 => Some TokenType.STRING_LITERAL | 308 => Some TokenType.NUMERIC_LITERAL
  | 309 => Some TokenType.BOOLEAN_LITERAL | 310 => Some TokenType.IDENTIFIER
  | 311 => Some TokenType.EQ | 312 => Some TokenType.NEQ | 313 => Some TokenType.LT
  | 314 => Some TokenType.GT | 315 => Some TokenType.LTE | 316 => Some TokenType.GTE
  | 317 => Some TokenType.ASSIGN | 318 => Some TokenType.PLUS
  | 319 => Some TokenType.MINUS | 320 => Some TokenType.STAR
  | 321 => Some TokenType.SLASH | 322 => Some TokenType.PERCENT
  | 323 => Some TokenType.DOT | 324 => Some TokenType.LPAREN
  | 325 => Some TokenType.RPAREN | 326 => Some TokenType.LBRACE
  | 327 => Some TokenType.RBRACE | 328 => Some TokenType.LBRACKET
  | 329 => Some TokenType.RBRACKET | 330 => Some TokenType.COLON
  | 331 => Some TokenType.COMMA | 332 => Some TokenType.NEWLINE
  | 333 => Some TokenType.EOF | 334 => Some TokenType.COMMENT
  | _ => None
  end%positive.

Lemma TokenType_of_value_value :
  forall a : TokenType.t, TokenType_of_value (TokenType.value a) = Some a.
Proof. destruct a; reflexivity. Qed.

Lemma TokenType_eqb_eq :
  forall a b : TokenType.t, TokenType.eqb a b = true <-> a = b.
Proof.
  intros a b. unfold TokenType.eqb. rewrite Pos.eqb_eq. split.
  - intros H. apply (f_equal TokenType_of_value) in H.
    rewrite !TokenType_of_value_value in H. inversion H. reflexivity.
  - intros H. subst b. reflexivity.
Qed.

Lemma TokenType_eqb_neq :
  forall a b : TokenType.t, TokenType.eqb a b = false <-> a <> b.
Proof.
  intros a b. rewrite <- TokenType_eqb_eq.
  destruct (TokenType.eqb a b); split; intros H; congruence.
Qed.

(* ===================================================================== *)
(** * The token list of [tokenize] *)
(* ===================================================================== *)

(** A token that is neither the end marker nor a newline. *)
Definition inner_token (t : Token) : Prop :=
  tok_type t <> TokenType.EOF /\ tok_type t <> TokenType.NEWLINE.

Lemma tokenize_loop_shape :
  forall (fuel : nat) (acc : list Token) (lx : Lexer.state) (tokens : list Token),
    remaining lx <= fuel ->
    Forall inner_token acc ->
    Lexer.tokenize_loop fuel acc lx = Ok tokens ->
    exists (body : list Token) (eof : Token),
      tokens = List.app body [eof]
      /\ tok_type eof = TokenType.EOF
      /\ Forall inner_token body.
Proof.
  induction fuel as [| fuel IH]; intros acc lx tokens Hfuel Hacc H;
    cbn [Lexer.tokenize_loop] in H;
    destruct (Lexer.next_token lx) as [[tok lx1] | e] eqn:Hnext; try discriminate H;
    destruct (TokenType.eqb (tok_type tok) TokenType.EOF) eqn:Heof.
  - apply TokenType_eqb_eq in Heof. rewrite Heof in H. cbn in H.
    inversion H; subst. exists acc, tok. auto.
  - apply TokenType_eqb_neq in Heof.
    destruct (next_token_loop_remaining _ _ Hnext) as [Htype | Hless];
      [contradiction | lia].
  - apply TokenType_eqb_eq in Heof. rewrite Heof in H. cbn in H.
    inversion H; subst. exists acc, tok. auto.
  - apply TokenType_eqb_neq in Heof.
    destruct (next_token_loop_remaining _ _ Hnext) as [Htype | Hless];
      [contradiction |].
    refine (IH _ lx1 tokens _ _ H); [lia |].
    destruct (TokenType.eqb (tok_type tok) TokenType.NEWLINE) eqn:Hnl; [exact Hacc |].
    apply TokenType_eqb_neq in Hnl.
    apply Forall_app. split; [exact Hacc |]. constructor; [split; assumption | constructor].
Qed.

(** Property X7. Whenever [tokenize] returns, the list ends with the end
    marker, and no token before it is an end marker or a newline token. *)
Theorem tokenize_ends_with_eof :
  forall (source : string) (tokens : list Token),
    Lexer.tokenize source = Ok tokens ->
    exists (body : list Token) (eof : Token),
      tokens = List.app body [eof]
      /\ tok_type eof = TokenType.EOF
      /\ Forall inner_token body.
Proof.
  intros source tokens H. unfold Lexer.tokenize in H.
  refine (@tokenize_loop_shape _ _ _ tokens _ (Forall_nil _) H).
  unfold remaining, Lexer.init. cbn [Lexer.rest]. lia.
Qed.

(* ------------------------------------------------------------------- *)
(** ** Positions *)
(* ------------------------------------------------------------------- *)

(** The lexer state [lx'] is at a position from [lx] on: lines and columns
    count from one and the line does not go back. *)
Definition from_on (lx lx' : Lexer.state) : Prop :=
  1 <= Lexer.line lx -> 1 <= Lexer.column lx ->
  Lexer.line lx <= Lexer.line lx' /\ 1 <= Lexer.line lx' /\ 1 <= Lexer.column lx'.

Lemma from_on_refl : forall lx, from_on lx lx.
Proof. intros lx Hl Hc. lia. Qed.

Lemma from_on_trans :
  forall lx1 lx2 lx3, from_on lx1 lx2 -> from_on lx2 lx3 -> from_on lx1 lx3.
Proof.
  intros lx1 lx2 lx3 H12 H23 Hl Hc.
  destruct (H12 Hl Hc) as [Ha [Hb Hd]]. destruct (H23 Hb Hd) as [He [Hf Hg]]. lia.
Qed.

Lemma from_on_advance : forall lx, from_on lx (Lexer.advance lx).
Proof.
  intros [src [| c r] l col] Hl Hc; unfold Lexer.advance; cbn in *; [lia |].
  destruct (Ascii.eqb c LF); cbn; lia.
Qed.

Lemma from_on_skip_whitespace_loop :
  forall fuel lx, from_on lx (Lexer.skip_whitespace_loop fuel lx).
Proof.
  induction fuel as [| fuel IH]; intros lx; cbn [Lexer.skip_whitespace_loop];
    [apply from_on_refl |].
  destruct (Lexer.current_char lx) as [c |]; [| apply from_on_refl].
  destruct (char_in c Lexer.blanks); [| apply from_on_refl].
  eapply from_on_trans; [apply from_on_advance | apply IH].
Qed.

Lemma from_on_skip_comment_loop :
  forall fuel lx, from_on lx (Lexer.skip_comment_loop fuel lx).
Proof.
  induction fuel as [| fuel IH]; intros lx; cbn [Lexer.skip_comment_loop];
    [apply from_on_refl |].
  destruct (Lexer.current_char lx) as [c |]; [| apply from_on_refl].
  destruct (Ascii.eqb c LF); [apply from_on_refl |].
  eapply from_on_trans; [apply from_on_advance | apply IH].
Qed.

Lemma from_on_read_string_loop :
  forall fuel value lx, from_on lx (snd (Lexer.read_string_loop fuel value lx)).
Proof.
  induction fuel as [| fuel IH]; intros value lx; cbn [Lexer.read_string_loop];
    [apply from_on_refl |].
  destruct (Lexer.current_char lx) as [c |]; [| apply from_on_refl].
  destruct (Ascii.eqb c "034"%char); [apply from_on_refl |].
  destruct (Ascii.eqb c "\"%char && Lexer.is_char (Lexer.peek_char lx) "034"%char).
  - eapply from_on_trans; [apply from_on_advance |].
    eapply from_on_trans; [apply from_on_advance | apply IH].
  - eapply from_on_trans; [apply from_on_advance | apply IH].
Qed.

Lemma from_on_read_string : forall lx, from_on lx (snd (Lexer.read_string lx)).
Proof.
  intros lx. unfold Lexer.read_string.
  pose proof (from_on_read_string_loop
                (String.length (Lexer.rest (Lexer.advance lx))) EmptyString
                (Lexer.advance lx)) as Hloop.
  destruct (Lexer.read_string_loop (String.length (Lexer.rest (Lexer.advance lx)))
              EmptyString (Lexer.advance lx)) as [value lx2].
  cbn [snd] in Hloop.
  assert (H2 : from_on lx lx2)
    by (eapply from_on_trans; [apply from_on_advance | exact Hloop]).
  destruct (Lexer.is_char (Lexer.current_char lx2) "034"%char); cbn [snd];
    [eapply from_on_trans; [exact H2 | apply from_on_advance] | exact H2].
Qed.

Lemma from_on_read_number_loop :
  forall fuel value lx, from_on lx (snd (Lexer.read_number_loop fuel value lx)).
Proof.
  induction fuel as [| fuel IH]; intros value lx; cbn [Lexer.read_number_loop];
    [apply from_on_refl |].
  destruct (Lexer.current_char lx) as [c |]; [| apply from_on_refl].
  destruct (isdigit c || Ascii.eqb c "."%char); [| apply from_on_refl].
  eapply from_on_trans; [apply from_on_advance | apply IH].
Qed.

Lemma from_on_read_number : forall lx, from_on lx (snd (Lexer.read_number lx)).
Proof. intros lx. rewrite read_number_state. apply from_on_read_number_loop. Qed.

Lemma from_on_read_identifier_loop :
  forall fuel value lx, from_on lx (snd (Lexer.read_identifier_loop fuel value lx)).
Proof.
  induction fuel as [| fuel IH]; intros value lx; cbn [Lexer.read_identifier_loop];
    [apply from_on_refl |].
  destruct (Lexer.current_char lx) as [c |]; [| apply from_on_refl].
  destruct (isalnum c || Ascii.eqb c "_"%char); [| apply from_on_refl].
  eapply from_on_trans; [apply from_on_advance | apply IH].
Qed.

Lemma from_on_operator_token :
  forall lx c tok lx',
    Lexer.operator_token lx c = Ok (tok, lx') ->
    from_on lx lx'
    /\ tok_line tok = Lexer.line lx /\ tok_column tok = Lexer.column lx.
Proof.
  intros lx c tok lx' H. unfold Lexer.operator_token in H.
  repeat match type of H with
         | context [if ?b then _ else _] => destruct b
         end;
    inversion H; subst; cbn [tok_line tok_column];
    (split; [| split; reflexivity]);
    first [ apply from_on_advance
          | eapply from_on_trans; [apply from_on_advance | apply from_on_advance] ].
Qed.

(** The token [next_token] returns stands at a position from the start
    state on, and the state afterwards is at a position from the token's
    on. *)
Lemma next_token_loop_position :
  forall fuel lx tok lx',
    Lexer.next_token_loop fuel lx = Ok (tok, lx') ->
    exists at_token,
      from_on lx at_token /\ from_on at_token lx'
      /\ tok_line tok = Lexer.line at_token /\ tok_column tok = Lexer.column at_token.
Proof.
  assert (Hhere : forall lx tok lx',
             from_on lx lx' ->
             tok_line tok = Lexer.line lx -> tok_column tok = Lexer.column lx ->
             exists at_token,
               from_on lx at_token /\ from_on at_token lx'
               /\ tok_line tok = Lexer.line at_token
               /\ tok_column tok = Lexer.column at_token).
  { intros lx tok lx' H Hl Hc. exists lx. auto using from_on_refl. }
  assert (Hlater : forall lx lx1 tok lx',
             from_on lx lx1 ->
             (exists at_token,
                from_on lx1 at_token /\ from_on at_token lx'
                /\ tok_line tok = Lexer.line at_token
                /\ tok_column tok = Lexer.column at_token) ->
             exists at_token,
               from_on lx at_token /\ from_on at_token lx'
               /\ tok_line tok = Lexer.line at_token
               /\ tok_column tok = Lexer.column at_token).
  { intros lx lx1 tok lx' H [at_token [H1 H2]]. exists at_token.
    split; [eapply from_on_trans; eassumption | exact H2]. }
  induction fuel as [| fuel IH]; intros lx tok lx' H;
    cbn [Lexer.next_token_loop] in H;
    (destruct (Lexer.current_char lx) as [c |];
     [| inversion H; subst; apply Hhere; [apply from_on_refl | reflexivity | reflexivity]]);
    (destruct (char_in c Lexer.blanks);
     [first
        [ inversion H; subst; apply Hhere;
          [apply from_on_refl | reflexivity | reflexivity]
        | apply (Hlater lx (Lexer.skip_whitespace lx));
          [apply from_on_skip_whitespace_loop | apply (IH _ _ _ H)] ] |]);
    (destruct (Ascii.eqb c LF);
     [inversion H; subst; apply Hhere; [apply from_on_advance | reflexivity | reflexivity] |]);
    (destruct (Ascii.eqb c "#"%char);
     [first
        [ inversion H; subst; apply Hhere;
          [apply from_on_refl | reflexivity | reflexivity]
        | apply (Hlater lx (Lexer.skip_comment lx));
          [unfold Lexer.skip_comment;
           destruct (Lexer.is_char (Lexer.current_char lx) "#"%char);
           [apply from_on_skip_comment_loop | apply from_on_refl]
          | apply (IH _ _ _ H)] ] |]);
    (destruct (Ascii.eqb c "034"%char);
     [pose proof (from_on_read_string lx);
      destruct (Lexer.read_string lx) as [value lx1]; inversion H; subst;
      apply Hhere; [assumption | reflexivity | reflexivity] |]);
    (destruct (isdigit c);
     [pose proof (from_on_read_number lx);
      destruct (Lexer.read_number lx) as [[value | e] lx1]; inversion H; subst;
      apply Hhere; [assumption | reflexivity | reflexivity] |]);
    (destruct (isalpha c || Ascii.eqb c "_"%char);
     [pose proof (from_on_read_identifier_loop (String.length (Lexer.rest lx))
                    EmptyString lx);
      unfold Lexer.read_identifier in H;
      destruct (Lexer.read_identifier_loop (String.length (Lexer.rest lx))
                  EmptyString lx) as [value lx1];
      destruct (String.eqb (lower value) "true");
      [inversion H; subst; apply Hhere; [assumption | reflexivity | reflexivity] |];
      destruct (String.eqb (lower value) "false");
      [inversion H; subst; apply Hhere; [assumption | reflexivity | reflexivity] |];
      inversion H; subst; apply Hhere; [assumption | reflexivity | reflexivity] |]);
    destruct (from_on_operator_token _ _ H) as [Hf [Hl Hc]];
    apply Hhere; assumption.
Qed.

(** Lines count from one and never go back along the list. *)
Definition in_source_order (tokens : list Token) : Prop :=
  Forall (fun t => 1 <= tok_line t /\ 1 <= tok_column t) tokens
  /\ StronglySorted (fun t t' => tok_line t <= tok_line t') tokens.

Lemma tokenize_loop_positions :
  forall (fuel : nat) (acc : list Token) (lx : Lexer.state) (tokens : list Token),
    1 <= Lexer.line lx -> 1 <= Lexer.column lx ->
    in_source_order acc ->
    Forall (fun t => tok_line t <= Lexer.line lx) acc ->
    Lexer.tokenize_loop fuel acc lx = Ok tokens ->
    in_source_order tokens.
Proof.
  induction fuel as [| fuel IH]; intros acc lx tokens Hl Hc [Hpos Hsorted] Hbefore H;
    cbn [Lexer.tokenize_loop] in H;
    destruct (Lexer.next_token lx) as [[tok lx1] | e] eqn:Hnext; try discriminate H;
    destruct (next_token_loop_position _ _ Hnext) as [at_token [H1 [H2 [Htl Htc]]]];
    destruct (H1 Hl Hc) as [Hle [Hl1 Hc1]];
    destruct (H2 Hl1 Hc1) as [Hle2 [Hl2 Hc2]];
    assert (Hacc' : in_source_order
                      (if TokenType.eqb (tok_type tok) TokenType.NEWLINE then acc
                       else List.app acc [tok])
                    /\ Forall (fun t => tok_line t <= Lexer.line lx1)
                         (if TokenType.eqb (tok_type tok) TokenType.NEWLINE then acc
                          else List.app acc [tok]))
      by (destruct (TokenType.eqb (tok_type tok) TokenType.NEWLINE);
          [ split; [split; assumption |];
            eapply Forall_impl; [| exact Hbefore]; cbn; intros t Ht; lia
          | split; [split |];
            [ apply Forall_app; split; [exact Hpos |];
              constructor; [lia | constructor]
            | clear - Hsorted Hbefore Htl Hle;
              induction acc as [| a acc IHacc]; cbn [List.app];
              [ repeat constructor
              | inversion Hsorted; subst; inversion Hbefore; subst;
                constructor; [apply IHacc; assumption |];
                apply Forall_app; split; [assumption |];
                constructor; [lia | constructor] ]
            | apply Forall_app; split;
              [ eapply Forall_impl; [| exact Hbefore]; cbn; intros t Ht; lia
              | constructor; [lia | constructor] ] ] ]);
    destruct Hacc' as [Hacc' Hbefore'];
    destruct (TokenType.eqb (tok_type tok) TokenType.EOF);
    try (inversion H; subst; exact Hacc').
  apply (IH _ lx1 tokens Hl2 Hc2 Hacc' Hbefore' H).
Qed.

(** Property X8. Every token of [tokenize] carries a line and a column
    that count from one, and along the list the lines never go back. *)
Theorem tokenize_positions :
  forall (source : string) (tokens : list Token),
    Lexer.tokenize source = Ok tokens -> in_source_order tokens.
Proof.
  intros source tokens H. unfold Lexer.tokenize in H.
  refine (@tokenize_loop_positions (String.length source) [] (Lexer.init source) tokens
            (le_n 1) (le_n 1) _ _ H).
  - split; constructor.
  - constructor.
Qed.

(* ------------------------------------------------------------------- *)
(** ** What [tokenize] raises *)
(* ------------------------------------------------------------------- *)








(* ------------------------------------------------------------------- *)
(** ** Words, numbers and string literals *)
(* ------------------------------------------------------------------- *)

Definition ident_char (c : ascii) : bool := isalnum c || Ascii.eqb c "_"%char.

Definition ident_start (c : ascii) : bool := isalpha c || Ascii.eqb c "_"%char.

(** A word: a letter or underscore followed by letters, digits and
    underscores. *)
Definition is_word (w : string) : bool :=
  match w with
  | EmptyString => false
  | String c w' => ident_start c && all_chars ident_char w'
  end.

(** The token [next_token] makes of a word at a position. *)
Definition word_token (w : string) (line column : nat) : Token :=
  if String.eqb (lower w) "true" then
    mkToken TokenType.BOOLEAN_LITERAL (VBool true) line column
  else if String.eqb (lower w) "false" then
    mkToken TokenType.BOOLEAN_LITERAL (VBool false) line column
  else
    mkToken (match assoc_get (lower w) TokenType.keywords with
             | Some ty => ty
             | None => TokenType.IDENTIFIER
             end) (VStr w) line column.

Lemma append_empty_r : forall s : string, s ++ EmptyString = s.
Proof. induction s as [| c s IH]; cbn; [reflexivity | rewrite IH; reflexivity]. Qed.

Lemma append_snoc :
  forall (s t : string) (c : ascii),
    (s ++ String c EmptyString) ++ t = s ++ String c t.
Proof. induction s as [| d s IH]; intros t c; cbn; [reflexivity | rewrite IH; reflexivity]. Qed.

Lemma length_append :
  forall s t : string, String.length (s ++ t) = String.length s + String.length t.
Proof. induction s as [| c s IH]; intros t; cbn; [reflexivity | rewrite IH; reflexivity]. Qed.

(** What ends a run of characters of a class: the end of the input or a
    character outside the class. *)
Definition stops (p : ascii -> bool) (r : string) : bool :=
  match r with
  | EmptyString => true
  | String d _ => negb (p d)
  end.

Lemma read_identifier_loop_run :
  forall (w : string) (fuel : nat) (value source r : string) (line column : nat),
    all_chars ident_char w = true ->
    stops ident_char r = true ->
    String.length (w ++ r) <= fuel ->
    Lexer.read_identifier_loop fuel value (Lexer.mk source (w ++ r) line column)
    = (value ++ w, Lexer.mk source r line (column + String.length w)).
Proof.
  induction w as [| c w IH]; intros fuel value source r line column Hw Hr Hfuel.
  - cbn [append String.length]. rewrite append_empty_r, Nat.add_0_r.
    destruct fuel as [| fuel]; [reflexivity |].
    destruct r as [| d r]; [reflexivity |].
    cbn [Lexer.read_identifier_loop Lexer.current_char Lexer.rest].
    cbn [stops] in Hr. fold (ident_char d).
    destruct (ident_char d); [discriminate Hr | reflexivity].
  - cbn [all_chars] in Hw. apply andb_true_iff in Hw. destruct Hw as [Hc Hw].
    cbn [append String.length] in Hfuel |- *.
    destruct fuel as [| fuel]; [lia |].
    cbn [Lexer.read_identifier_loop Lexer.current_char Lexer.rest].
    fold (ident_char c). rewrite Hc.
    assert (Hlf : Ascii.eqb c LF = false).
    { destruct (Ascii.eqb c LF) eqn:E; [| reflexivity].
      apply Ascii.eqb_eq in E. subst c. discriminate Hc. }
    unfold Lexer.advance. cbn [Lexer.rest Lexer.source Lexer.line Lexer.column].
    rewrite Hlf.
    rewrite (IH fuel (value ++ String c EmptyString) source r line (column + 1) Hw Hr)
      by lia.
    rewrite append_snoc. f_equal. f_equal. lia.
Qed.

Lemma ident_start_class :
  forall c : ascii,
    ident_start c = true ->
    char_in c Lexer.blanks = false /\ Ascii.eqb c LF = false
    /\ Ascii.eqb c "#"%char = false /\ Ascii.eqb c "034"%char = false
    /\ isdigit c = false /\ ident_char c = true.
Proof.
  intros [[] [] [] [] [] [] [] []] H; vm_compute in H; try discriminate H;
    vm_compute; repeat split; reflexivity.
Qed.

Lemma keywords_inner :
  forallb (fun entry : string * TokenType.t =>
             negb (TokenType.eqb (snd entry) TokenType.EOF)
             && negb (TokenType.eqb (snd entry) TokenType.NEWLINE))
          TokenType.keywords = true.
Proof. vm_compute. reflexivity. Qed.

Lemma assoc_get_In :
  forall (V : Type) (k : string) (d : list (string * V)) (v : V),
    assoc_get k d = Some v -> In (k, v) d.
Proof.
  induction d as [| [k' v'] d IH]; intros v H; [discriminate H |].
  cbn [assoc_get] in H. destruct (String.eqb k k') eqn:E.
  - apply String.eqb_eq in E. inversion H; subst. left. reflexivity.
  - right. apply IH. exact H.
Qed.

Lemma word_token_inner :
  forall (w : string) (line column : nat),
    TokenType.eqb (tok_type (word_token w line column)) TokenType.EOF = false
    /\ TokenType.eqb (tok_type (word_token w line column)) TokenType.NEWLINE = false.
Proof.
  intros w line column. unfold word_token.
  destruct (String.eqb (lower w) "true"); [split; reflexivity |].
  destruct (String.eqb (lower w) "false"); [split; reflexivity |].
  cbn [tok_type].
  destruct (assoc_get (lower w) TokenType.keywords) as [ty |] eqn:Hk;
    [| split; reflexivity].
  apply assoc_get_In in Hk.
  pose proof keywords_inner as Hall. rewrite forallb_forall in Hall.
  specialize (Hall _ Hk). cbn [snd] in Hall.
  apply andb_true_iff in Hall. destruct Hall as [H1 H2].
  apply negb_true_iff in H1. apply negb_true_iff in H2. auto.
Qed.

(** At the end of the input the loop of [tokenize] appends the end marker
    and stops, on any budget. *)
Lemma tokenize_loop_at_end :
  forall (fuel : nat) (acc : list Token) (source : string) (line column : nat),
    Lexer.tokenize_loop fuel acc (Lexer.mk source EmptyString line column)
    = Ok (List.app acc [mkToken TokenType.EOF VNone line column]).
Proof. intros [| fuel] acc source line column; reflexivity. Qed.

(** Property X10. A word is lexed as a single token whose kind is looked
    up under the word in lower case: [true] and [false], in any case, are
    boolean literals whose value is the boolean; a keyword has its kind and
    anything else is an identifier, both with the word as written as value.
    The end marker follows at the column after the word. *)
Theorem tokenize_word :
  forall w : string,
    is_word w = true ->
    Lexer.tokenize w
    = Ok [ word_token w 1 1;
           mkToken TokenType.EOF VNone 1 (1 + String.length w) ].
Proof.
  intros w Hw. destruct w as [| c w]; [discriminate Hw |].
  cbn [is_word] in Hw. apply andb_true_iff in Hw. destruct Hw as [Hc Hw].
  destruct (ident_start_class c Hc) as [Hb [Hlf [Hhash [Hq [Hd Hi]]]]].
  assert (Hrun : Lexer.read_identifier (Lexer.mk (String c w) (String c w) 1 1)
                 = (String c w,
                    Lexer.mk (String c w) EmptyString 1 (1 + String.length (String c w)))).
  { unfold Lexer.read_identifier. cbn [Lexer.rest].
    pose proof (@read_identifier_loop_run (String c w) (String.length (String c w))
                  EmptyString (String c w) EmptyString 1 1) as H.
    rewrite append_empty_r in H. apply H; [| reflexivity | lia].
    cbn [all_chars]. rewrite Hi, Hw. reflexivity. }
  assert (Hnext : Lexer.next_token (Lexer.init (String c w))
                  = Ok (word_token (String c w) 1 1,
                        Lexer.mk (String c w) EmptyString 1
                          (1 + String.length (String c w)))).
  { unfold Lexer.next_token, Lexer.init. cbn [Lexer.rest String.length].
    cbn [Lexer.next_token_loop Lexer.current_char Lexer.rest].
    rewrite Hb, Hlf, Hhash, Hq, Hd. fold (ident_start c). rewrite Hc.
    rewrite Hrun. unfold word_token. cbn [Lexer.line Lexer.column].
    destruct (String.eqb (lower (String c w)) "true"); [reflexivity |].
    destruct (String.eqb (lower (String c w)) "false"); reflexivity. }
  unfold Lexer.tokenize.
  change (String.length (String c w)) with (S (String.length w)) at 1.
  cbn [Lexer.tokenize_loop].
  rewrite Hnext.
  destruct (word_token_inner (String c w) 1 1) as [Heof Hnl].
  rewrite Heof, Hnl. apply tokenize_loop_at_end.
Qed.

(** [read_number_loop] over a run of digits. *)
Lemma read_number_loop_run :
  forall (w : string) (fuel : nat) (value source r : string) (line column : nat),
    all_chars isdigit w = true ->
    stops (fun c => isdigit c || Ascii.eqb c "."%char) r = true ->
    String.length (w ++ r) <= fuel ->
    Lexer.read_number_loop fuel value (Lexer.mk source (w ++ r) line column)
    = (value ++ w, Lexer.mk source r line (column + String.length w)).
Proof.
  induction w as [| c w IH]; intros fuel value source r line column Hw Hr Hfuel.
  - cbn [append String.length]. rewrite append_empty_r, Nat.add_0_r.
    destruct fuel as [| fuel]; [reflexivity |].
    destruct r as [| d r]; [reflexivity |].
    cbn [Lexer.read_number_loop Lexer.current_char Lexer.rest].
    cbn [stops] in Hr.
    destruct (isdigit d || Ascii.eqb d "."%char); [discriminate Hr | reflexivity].
  - cbn [all_chars] in Hw. apply andb_true_iff in Hw. destruct Hw as [Hc Hw].
    cbn [append String.length] in Hfuel |- *.
    destruct fuel as [| fuel]; [lia |].
    cbn [Lexer.read_number_loop Lexer.current_char Lexer.rest].
    rewrite Hc. cbn [orb].
    assert (Hlf : Ascii.eqb c LF = false).
    { destruct (Ascii.eqb c LF) eqn:E; [| reflexivity].
      apply Ascii.eqb_eq in E. subst c. discriminate Hc. }
    unfold Lexer.advance. cbn [Lexer.rest Lexer.source Lexer.line Lexer.column].
    rewrite Hlf.
    rewrite (IH fuel (value ++ String c EmptyString) source r line (column + 1) Hw Hr)
      by lia.
    rewrite append_snoc. f_equal. f_equal. lia.
Qed.

Lemma digits_no_dot :
  forall w : string, all_chars isdigit w = true -> char_in "."%char w = false.
Proof.
  induction w as [| c w IH]; intros H; [reflexivity |].
  cbn [all_chars] in H. apply andb_true_iff in H. destruct H as [Hc Hw].
  cbn [char_in]. rewrite (IH Hw), orb_false_r.
  destruct (Ascii.eqb "."%char c) eqn:E; [| reflexivity].
  apply Ascii.eqb_eq in E. subst c. discriminate Hc.
Qed.

Lemma string_of_uint_digits :
  forall d : Decimal.uint, all_chars isdecimal (NilEmpty.string_of_uint d) = true.
Proof. induction d; cbn [NilEmpty.string_of_uint all_chars]; try rewrite IHd; reflexivity. Qed.

Lemma decimal_digits :
  forall w : string, all_chars isdecimal w = true -> all_chars isdigit w = true.
Proof.
  induction w as [| c w IH]; intros H; [reflexivity |].
  cbn [all_chars] in *. apply andb_true_iff in H. destruct H as [Hc Hw].
  rewrite (IH Hw). unfold isdigit. rewrite Hc. reflexivity.
Qed.

Lemma leading_digits_all :
  forall w : string, all_chars isdecimal w = true -> leading_digits w = String.length w.
Proof.
  induction w as [| c w IH]; intros H; [reflexivity |].
  cbn [all_chars] in H. apply andb_true_iff in H. destruct H as [Hc Hw].
  cbn [leading_digits String.length]. rewrite Hc, (IH Hw). reflexivity.
Qed.

(** [int] of at most [int_max_str_digits] decimal digits is their value. *)
Lemma py_int_digits :
  forall w : string,
    w <> EmptyString -> all_chars isdecimal w = true ->
    String.length w <= int_max_str_digits ->
    py_int w = Ok (int_of_digits 0 w).
Proof.
  intros w Hne Hall Hlen. unfold py_int. cbv zeta.
  rewrite (leading_digits_all _ Hall), Hall.
  destruct (int_max_str_digits <? String.length w)%nat eqn:Hlimit;
    [apply Nat.ltb_lt in Hlimit; lia |].
  destruct w as [| c w]; [contradiction | reflexivity].
Qed.

Lemma int_of_digits_of_uint :
  forall (d : Decimal.uint) (acc : nat),
    int_of_digits (Z.of_nat acc) (NilEmpty.string_of_uint d)
    = Z.of_nat (Nat.of_uint_acc d acc).
Proof.
  induction d; intros acc; cbn [NilEmpty.string_of_uint int_of_digits Nat.of_uint_acc];
    try reflexivity;
    rewrite <- IHd; f_equal; rewrite Nat.tail_mul_spec;
    match goal with
    | |- context [nat_of_ascii ?c - 48] =>
        let v := eval vm_compute in (nat_of_ascii c - 48) in
        change (nat_of_ascii c - 48) with v
    end; lia.
Qed.

Lemma str_nat_digits :
  forall n : nat,
    all_chars isdecimal (str_nat n) = true
    /\ str_nat n <> EmptyString
    /\ int_of_digits 0 (str_nat n) = Z.of_nat n.
Proof.
  intros n. unfold str_nat, NilZero.string_of_uint.
  pose proof (DecimalNat.Unsigned.of_to n) as Hn. unfold Nat.of_uint in Hn.
  destruct (Nat.to_uint n) as [| d | d | d | d | d | d | d | d | d | d] eqn:Hd;
    try (split; [apply string_of_uint_digits |];
         split; [cbn; discriminate |];
         rewrite <- Hn; apply (int_of_digits_of_uint _ 0)).
  cbn in Hn. subst n. split; [reflexivity | split; [discriminate | reflexivity]].
Qed.

(** Property X11. The decimal text of a natural number of at most
    [int_max_str_digits] digits (as many as [int] converts) is lexed as one
    numeric token whose value is that number, followed by the end marker. *)
Theorem tokenize_decimal :
  forall n : nat,
    String.length (str_nat n) <= int_max_str_digits ->
    Lexer.tokenize (str_nat n)
    = Ok [ mkToken TokenType.NUMERIC_LITERAL (VInt (Z.of_nat n)) 1 1;
           mkToken TokenType.EOF VNone 1 (1 + String.length (str_nat n)) ].
Proof.
  intros n Hlen. destruct (str_nat_digits n) as [Hdecimal [Hne Hvalue]].
  pose proof (decimal_digits _ Hdecimal) as Hdigits.
  pose proof (py_int_digits Hne Hdecimal Hlen) as Hint. rewrite Hvalue in Hint.
  destruct (str_nat n) as [| c w] eqn:Hs; [contradiction |].
  pose proof Hdigits as Hall.
  cbn [all_chars] in Hdigits. apply andb_true_iff in Hdigits.
  destruct Hdigits as [Hc Hw].
  assert (Hne' : forall d, isdigit d = false -> Ascii.eqb c d = false).
  { intros d Hd. destruct (Ascii.eqb c d) eqn:E; [| reflexivity].
    apply Ascii.eqb_eq in E. subst d. congruence. }
  assert (Hrun : Lexer.read_number (Lexer.mk (String c w) (String c w) 1 1)
                 = (Ok (VInt (Z.of_nat n)),
                    Lexer.mk (String c w) EmptyString 1 (1 + String.length (String c w)))).
  { unfold Lexer.read_number. cbn [Lexer.rest].
    pose proof (@read_number_loop_run (String c w) (String.length (String c w))
                  EmptyString (String c w) EmptyString 1 1) as H.
    rewrite append_empty_r in H. rewrite H; [| exact Hall | reflexivity | lia].
    cbn [append]. rewrite (digits_no_dot _ Hall), Hint. reflexivity. }
  assert (Hnext : Lexer.next_token (Lexer.init (String c w))
                  = Ok (mkToken TokenType.NUMERIC_LITERAL (VInt (Z.of_nat n)) 1 1,
                        Lexer.mk (String c w) EmptyString 1
                          (1 + String.length (String c w)))).
  { unfold Lexer.next_token, Lexer.init. cbn [Lexer.rest String.length].
    cbn [Lexer.next_token_loop Lexer.current_char Lexer.rest].
    cbn [char_in Lexer.blanks]. rewrite !Hne' by reflexivity. cbn [orb].
    rewrite Hc, Hrun. reflexivity. }
  unfold Lexer.tokenize.
  change (String.length (String c w)) with (S (String.length w)) at 1.
  cbn [Lexer.tokenize_loop]. rewrite Hnext.
  cbn [tok_type]. change (TokenType.eqb TokenType.NUMERIC_LITERAL TokenType.EOF) with false.
  change (TokenType.eqb TokenType.NUMERIC_LITERAL TokenType.NEWLINE) with false.
  cbn iota. apply tokenize_loop_at_end.
Qed.

(** Property X11 at a number of four digits. *)
Lemma tokenize_decimal_witness :
  String.length (str_nat 2024) <= int_max_str_digits
  /\ Lexer.tokenize (str_nat 2024)
     = Ok [ mkToken TokenType.NUMERIC_LITERAL (VInt 2024) 1 1;
            mkToken TokenType.EOF VNone 1 5 ].
Proof.
  assert (H : String.length (str_nat 2024) <= int_max_str_digits)
    by (vm_compute; repeat constructor).
  split; [exact H | exact (tokenize_decimal 2024 H)].
Defined.

(* ------------------------------------------------------------------- *)

(** Writing a quote character inside a string literal: a backslash goes
    before it. *)
Fixpoint escape_quotes (v : string) : string :=
  match v with
  | EmptyString => EmptyString
  | String c v' =>
      if Ascii.eqb c "034"%char then String "\"%char (String c (escape_quotes v'))
      else String c (escape_quotes v')
  end.

Fixpoint ends_with_backslash (v : string) : bool :=
  match v with
  | EmptyString => false
  | String c EmptyString => Ascii.eqb c "\"%char
  | String _ v' => ends_with_backslash v'
  end.

Lemma advance_char :
  forall (source r : string) (c : ascii) (line column : nat),
    exists line' column',
      Lexer.advance (Lexer.mk source (String c r) line column)
      = Lexer.mk source r line' column'.
Proof.
  intros source r c line column. unfold Lexer.advance. cbn [Lexer.rest].
  destruct (Ascii.eqb c LF); eexists; eexists; reflexivity.
Qed.

Lemma read_string_loop_escaped :
  forall (v : string) (fuel : nat) (value source r : string) (line column : nat),
    ends_with_backslash v = false ->
    String.length (escape_quotes v ++ dq ++ r) <= fuel ->
    exists line' column',
      Lexer.read_string_loop fuel value
        (Lexer.mk source (escape_quotes v ++ dq ++ r) line column)
      = (value ++ v, Lexer.mk source (dq ++ r) line' column').
Proof.
  induction v as [| c v IH]; intros fuel value source r line column Hv Hfuel.
  - cbn [escape_quotes append dq] in *. rewrite append_empty_r.
    destruct fuel as [| fuel]; [cbn in Hfuel; lia |].
    exists line, column. reflexivity.
  - assert (Hv' : ends_with_backslash v = false).
    { destruct v as [| d v]; [reflexivity | exact Hv]. }
    cbn [escape_quotes] in *.
    destruct (Ascii.eqb c "034"%char) eqn:Hq.
    + apply Ascii.eqb_eq in Hq. subst c.
      cbn [append String.length] in Hfuel |- *.
      destruct fuel as [| fuel]; [lia |].
      cbn [Lexer.read_string_loop Lexer.current_char Lexer.rest Lexer.peek_char
             Lexer.is_char].
      change (Ascii.eqb "\"%char "034"%char) with false.
      change (Ascii.eqb "\"%char "\"%char) with true.
      change (Ascii.eqb "034"%char "034"%char) with true. cbn [andb].
      destruct (advance_char source (String "034"%char (escape_quotes v ++ dq ++ r))
                  "\"%char line column) as [l1 [c1 H1]].
      rewrite H1.
      destruct (advance_char source (escape_quotes v ++ dq ++ r) "034"%char l1 c1)
        as [l2 [c2 H2]].
      rewrite H2.
      destruct (IH fuel (value ++ dq) source r l2 c2 Hv' ltac:(lia)) as [l3 [c3 H3]].
      exists l3, c3. rewrite H3. unfold dq. rewrite append_snoc. reflexivity.
    + cbn [append String.length] in Hfuel |- *.
      destruct fuel as [| fuel]; [lia |].
      cbn [Lexer.read_string_loop Lexer.current_char Lexer.rest]. rewrite Hq.
      assert (Hplain : Ascii.eqb c "\"%char
                       && Lexer.is_char
                            (Lexer.peek_char
                               (Lexer.mk source
                                  (String c (escape_quotes v ++ dq ++ r)) line column))
                            "034"%char = false).
      { destruct (Ascii.eqb c "\"%char) eqn:Hb; [| reflexivity]. cbn [andb].
        destruct v as [| d v].
        - cbn [ends_with_backslash] in Hv. congruence.
        - cbn [escape_quotes]. destruct (Ascii.eqb d "034"%char) eqn:Hd; [reflexivity |].
          cbn [append Lexer.peek_char Lexer.rest Lexer.is_char]. exact Hd. }
      rewrite Hplain.
      destruct (advance_char source (escape_quotes v ++ dq ++ r) c line column)
        as [l1 [c1 H1]].
      rewrite H1.
      destruct (IH fuel (value ++ String c EmptyString) source r l1 c1 Hv' ltac:(lia))
        as [l3 [c3 H3]].
      exists l3, c3. rewrite H3. rewrite append_snoc. reflexivity.
Qed.

(** [read_string] at a literal written with [escape_quotes]. *)
Lemma read_string_escaped :
  forall (v source r : string) (line column : nat),
    ends_with_backslash v = false ->
    exists line' column',
      Lexer.read_string
        (Lexer.mk source (String "034"%char (escape_quotes v ++ dq ++ r)) line column)
      = (v, Lexer.mk source r line' column').
Proof.
  intros v source r line column Hv. unfold Lexer.read_string.
  destruct (advance_char source (escape_quotes v ++ dq ++ r) "034"%char line column)
    as [l1 [c1 H1]].
  rewrite H1. cbn [Lexer.rest].
  destruct (@read_string_loop_escaped v (String.length (escape_quotes v ++ dq ++ r))
              EmptyString source r l1 c1 Hv (le_n _)) as [l2 [c2 H2]].
  rewrite H2.
  cbn [append dq Lexer.current_char Lexer.rest Lexer.is_char].
  change (Ascii.eqb "034"%char "034"%char) with true. cbn iota.
  destruct (advance_char source r "034"%char l2 c2) as [l3 [c3 H3]].
  exists l3, c3. rewrite H3. reflexivity.
Qed.

(** Property X12. A string literal gives its text back: for a text [v]
    that does not end in a backslash, the literal made of a quote, [v] with
    a backslash before each of its quotes, and a quote is lexed as one
    string token whose value is [v], followed by the end marker. *)
Theorem tokenize_string_literal :
  forall v : string,
    ends_with_backslash v = false ->
    exists line column,
      Lexer.tokenize (dq ++ escape_quotes v ++ dq)
      = Ok [ mkToken TokenType.STRING_LITERAL (VStr v) 1 1;
             mkToken TokenType.EOF VNone line column ].
Proof.
  intros v Hv.
  assert (Hsrc : dq ++ escape_quotes v ++ dq
                 = String "034"%char (escape_quotes v ++ dq ++ EmptyString)).
  { rewrite append_empty_r. reflexivity. }
  rewrite Hsrc.
  set (body := escape_quotes v ++ dq ++ EmptyString).
  destruct (read_string_escaped v (String "034"%char body) EmptyString 1 1 Hv)
    as [line [column Hread]].
  fold body in Hread.
  exists line, column.
  unfold Lexer.tokenize, Lexer.init.
  cbn [String.length Lexer.tokenize_loop].
  unfold Lexer.next_token at 1. cbn [Lexer.rest String.length Lexer.next_token_loop].
  cbn [Lexer.current_char Lexer.rest].
  change (char_in "034"%char Lexer.blanks) with false.
  change (Ascii.eqb "034"%char LF) with false.
  change (Ascii.eqb "034"%char "#"%char) with false.
  change (Ascii.eqb "034"%char "034"%char) with true.
  cbn iota. rewrite Hread. cbn [tok_type Lexer.line Lexer.column].
  change (TokenType.eqb TokenType.STRING_LITERAL TokenType.EOF) with false.
  change (TokenType.eqb TokenType.STRING_LITERAL TokenType.NEWLINE) with false.
  cbn iota. apply tokenize_loop_at_end.
Qed.

(* ===================================================================== *)
(** * The parser *)
(* ===================================================================== *)

Section ParserProperties.
Variable Unmodelled : Type.
Variable parse_unmodelled :
  TokenType.t -> list Token -> nat -> outcome (Unmodelled * nat).
Variable tokens : list Token.
Variable source : string.

(** Property X13. [expect] returns exactly when the current token exists,
    is not the end marker and has the kind asked for; it then returns that
    token and moves one token on. So asking for the end marker never
    succeeds. When it raises, it raises a syntax diagnostic, or the
    [TypeError] of [len] on a token value that is not text. *)
Theorem expect_returns_the_token :
  forall (token_type : TokenType.t) (pos : nat),
    (forall (t : Token) (pos' : nat),
       Parser.expect tokens source token_type pos = Ok (t, pos')
       <-> nth_error tokens pos = Some t /\ tok_type t = token_type
           /\ token_type <> TokenType.EOF /\ pos' = S pos)
    /\ (forall e : exn,
          Parser.expect tokens source token_type pos = Raise e ->
          (exists err, e = NoetaExc err /\ category err = SYNTAX)
          \/ (exists msg, e = PyExc TypeError msg)).
Proof.
  intros token_type pos.
  assert (Hend : forall (last : option Token) (r : outcome (Token * nat)),
             r = match last with
                 | Some last_token =>
                     match len_value (tok_value last_token) with
                     | Ok n =>
                         Raise (NoetaExc (mkNoetaError
                           ("Unexpected end of file. Expected "
                            ++ Parser._friendly_token_name token_type) SYNTAX
                           (Some (ErrorContext_new (tok_line last_token)
                                    (tok_column last_token + n) 1
                                    (Parser._get_source_line source (tok_line last_token))))
                           (Some "The file ended before the statement was complete")
                           None))
                     | Raise e => Raise e
                     end
                 | None =>
                     Raise (NoetaExc (mkNoetaError
                       ("Unexpected end of file. Expected "
                        ++ Parser._friendly_token_name token_type) SYNTAX None
                       (Some "The file ended before the statement was complete") None))
                 end ->
             (forall t pos', r <> Ok (t, pos'))
             /\ (forall e, r = Raise e ->
                   (exists err, e = NoetaExc err /\ category err = SYNTAX)
                   \/ (exists msg, e = PyExc TypeError msg))).
  { intros last r Hr. subst r. destruct last as [last_token |].
    - destruct (tok_value last_token); cbn [len_value];
        (split; [intros t pos'; discriminate |]);
        intros e He; inversion He; subst;
        first [ left; eexists; split; reflexivity | right; eexists; reflexivity ].
    - split; [intros t pos'; discriminate |].
      intros e He. inversion He; subst. left. eexists. split; reflexivity. }
  unfold Parser.expect.
  destruct (nth_error tokens pos) as [token |] eqn:Hnth.
  - destruct (TokenType.eqb (tok_type token) TokenType.EOF) eqn:Heof.
    + apply TokenType_eqb_eq in Heof.
      match goal with
      | |- (forall t pos', ?r = _ <-> _) /\ _ =>
          destruct (Hend _ r eq_refl) as [Hno Hraise]
      end.
      split; [| exact Hraise].
      intros t pos'. split; [intros H; exfalso; apply (Hno _ _ H) |].
      intros [Ht [Hty [Hne _]]]. inversion Ht; subst. congruence.
    + apply TokenType_eqb_neq in Heof.
      destruct (TokenType.eqb (tok_type token) token_type) eqn:Hty; cbn [negb].
      * apply TokenType_eqb_eq in Hty. split.
        -- intros t pos'. split.
           ++ intros H. inversion H; subst. repeat split; congruence.
           ++ intros [Ht [_ [_ Hpos]]]. inversion Ht; subst. reflexivity.
        -- intros e He. discriminate He.
      * apply TokenType_eqb_neq in Hty. split.
        -- intros t pos'. split.
           ++ intros H. destruct (Parser._create_error_context source token); discriminate H.
           ++ intros [Ht [Hty' _]]. inversion Ht; subst. contradiction.
        -- intros e He. unfold Parser._create_error_context in He.
           destruct (truthy_value (tok_value token)).
           ++ destruct (tok_value token); cbn [len_value] in He; inversion He; subst;
                first [ left; eexists; split; reflexivity | right; eexists; reflexivity ].
           ++ inversion He; subst. left. eexists. split; reflexivity.
  - match goal with
    | |- (forall t pos', ?r = _ <-> _) /\ _ =>
        destruct (Hend _ r eq_refl) as [Hno Hraise]
    end.
    split; [| exact Hraise].
    intros t pos'. split; [intros H; exfalso; apply (Hno _ _ H) |].
    intros [Ht _]. discriminate Ht.
Qed.

(** A loop keeps a relation between what it has collected and where it
    stands, if every iteration started at a token keeps it. *)
Lemma while_loop_keeps :
  forall (A : Type) (Inv : A -> nat -> Prop) (cond : Parser.M bool)
         (body : A -> Parser.M (Parser.loop_step A)),
    at_a_token tokens cond ->
    (forall acc pos step pos',
       Inv acc pos -> pos < length tokens ->
       body acc pos = Ok (step, pos') ->
       match step with
       | Parser.Continue a => Inv a pos'
       | Parser.Break a => Inv a pos'
       end) ->
    forall (budget : nat) (acc : A) (pos : nat) (a : A) (pos' : nat),
      Inv acc pos ->
      Parser.while_loop budget cond body acc pos = Ok (a, pos') ->
      Inv a pos'.
Proof.
  intros A Inv cond body Hcond Hbody.
  induction budget as [| budget IH]; intros acc pos a pos' Hinv H;
    cbn [Parser.while_loop] in H;
    destruct (cond pos) as [[[|] pos1] | e] eqn:Hc; try discriminate H;
    destruct (Hcond _ _ _ Hc) as [Hpos Hin]; subst pos1;
    try (inversion H; subst; exact Hinv).
  specialize (Hin eq_refl).
  destruct (body acc pos) as [[[acc' | acc'] pos2] | e] eqn:Hb; try discriminate H.
  - apply (IH acc' pos2 a pos' (Hbody _ _ _ _ Hinv Hin Hb) H).
  - inversion H; subst. apply (Hbody _ _ _ _ Hinv Hin Hb).
Qed.

(** Property X14. [parse_statement] never stands still: when it returns
    at a token, it has consumed at least that token. So the statement loop
    of [parse] ends, and a program has at most as many statements as the
    list has tokens. *)
Theorem parse_makes_progress :
  (forall (pos : nat) (stmt : option (ASTNode Unmodelled)) (pos' : nat),
     pos < length tokens ->
     Parser.parse_statement parse_unmodelled tokens source pos = Ok (stmt, pos') ->
     pos < pos')
  /\ (forall prog : ProgramNode Unmodelled,
        Parser.parse parse_unmodelled tokens source = Ok prog ->
        length prog <= length tokens).
Proof.
  split.
  - intros pos stmt pos' Hpos H.
    apply (@parse_statement_advances Unmodelled parse_unmodelled tokens source
             pos stmt pos' Hpos H).
  - intros prog H. unfold Parser.parse, Parser.while_ in H.
    match type of H with
    | match ?m 0 with _ => _ end = _ =>
        destruct (m 0) as [[statements pos] | e] eqn:Hloop
    end; [| discriminate H].
    inversion H; subst.
    assert (Hinv : length prog <= Nat.min pos (length tokens)); [| lia].
    revert Hloop.
    apply while_loop_keeps
      with (Inv := fun (acc : list (ASTNode Unmodelled)) p =>
                     length acc <= Nat.min p (length tokens)).
    + intros p b p' Hc.
      unfold Parser.bind, Parser.current_token, Parser.ret in Hc.
      inversion Hc; subst. split; [reflexivity |].
      destruct (nth_error tokens p') eqn:Hnth; [| discriminate].
      intros _. apply nth_error_Some. congruence.
    + intros acc p step p' Hacc Hp Hb. unfold Parser.bind in Hb.
      destruct (Parser.parse_statement parse_unmodelled tokens source p)
        as [[stmt p1] | e] eqn:Hstmt; [| discriminate Hb].
      pose proof (@parse_statement_advances Unmodelled parse_unmodelled tokens source
                    p stmt p1 Hp Hstmt) as Hadv.
      inversion Hb; subst.
      destruct stmt as [s |]; rewrite ?length_app; cbn [length]; lia.
    + cbn. lia.
Qed.

(** The kinds with which a statement starts. *)
Definition starts_statement (ty : TokenType.t) : bool :=
  TokenType.mem ty
    [ TokenType.LOAD; TokenType.SELECT; TokenType.FILTER; TokenType.JOIN;
      TokenType.POWER; TokenType.COUNT_NA; TokenType.MUTATE; TokenType.DESCRIBE;
      TokenType.SUMMARY; TokenType.INFO; TokenType.SAVE ]
  || TokenType.mem ty Parser.statement_keywords.

(** Property X15. A token list that starts with a token of a kind that
    starts no statement (an identifier, a literal, an operator, a word
    such as [with] or [as]) is refused with the built-in [SyntaxError],
    not with a [NoetaError]. *)
Theorem parse_unexpected_token :
  forall (first : Token) (rest : list Token),
    tokens = first :: rest ->
    starts_statement (tok_type first) = false ->
    tok_type first <> TokenType.EOF ->
    Parser.parse parse_unmodelled tokens source
    = Raise (PyExc SyntaxError
               ("Unexpected token: " ++ TokenType_str (tok_type first))).
Proof.
  intros first rest Htokens Hstart Hne. subst tokens.
  apply TokenType_eqb_neq in Hne.
  unfold starts_statement in Hstart. apply orb_false_iff in Hstart.
  destruct Hstart as [Hmodelled Hother].
  cbn [TokenType.mem existsb] in Hmodelled.
  repeat rewrite orb_false_iff in Hmodelled.
  repeat match goal with
         | H : _ /\ _ |- _ => destruct H
         end.
  unfold Parser.parse, Parser.while_. cbn [length Parser.while_loop].
  unfold Parser.bind at 1. unfold Parser.current_token at 1. cbn [nth_error].
  unfold Parser.ret at 1. rewrite Hne. cbn [negb].
  unfold Parser.bind at 1. unfold Parser.parse_statement.
  unfold Parser.bind at 1. unfold Parser.current_token at 1. cbn [nth_error].
  repeat match goal with
         | H : TokenType.eqb (tok_type first) ?k = false
           |- context [TokenType.eqb (tok_type first) ?k] => rewrite H
         end.
  rewrite Hother. reflexivity.
Qed.

End ParserProperties.

Section SaveFormat.
Variable Unmodelled : Type.
Variable parse_unmodelled :
  TokenType.t -> list Token -> nat -> outcome (Unmodelled * nat).

(** The tokens of [save <alias> to "<filepath>"], wherever they stand. *)
Definition save_tokens (alias filepath : string) (p1 p2 p3 p4 p5 : nat * nat)
  : list Token :=
  [ mkToken TokenType.SAVE (VStr "save") (fst p1) (snd p1);
    mkToken TokenType.IDENTIFIER (VStr alias) (fst p2) (snd p2);
    mkToken TokenType.TO (VStr "to") (fst p3) (snd p3);
    mkToken TokenType.STRING_LITERAL (VStr filepath) (fst p4) (snd p4);
    mkToken TokenType.EOF VNone (fst p5) (snd p5) ].

(** Property X16. A [save] whose file path has [csv] anywhere in it,
    in any case, is parsed as a CSV save, whatever the extension of the
    path is. *)
Theorem parse_save_csv_anywhere :
  forall (source alias filepath : string) (p1 p2 p3 p4 p5 : nat * nat),
    contains (lower filepath) "csv" = true ->
    Parser.parse parse_unmodelled (save_tokens alias filepath p1 p2 p3 p4 p5) source
    = Ok [ new_node (SaveCSVNode alias filepath []) ].
Proof.
  intros source alias filepath p1 p2 p3 p4 p5 Hcsv.
  cbv beta iota zeta delta
    [ Parser.parse Parser.while_ Parser.while_loop Parser.bind Parser.ret
      Parser.current_token Parser.parse_statement Parser.some
      Parser.parse_save_enhanced Parser.ident Parser.expect Parser.match_
      Parser.advance save_tokens nth_error length tok_type tok_value tok_text
      TokenType.eqb TokenType.value TokenType.mem existsb Pos.eqb negb andb orb
      Nat.ltb Nat.leb Nat.sub List.app ].
  rewrite Hcsv. destruct (String.eqb (Parser.extension filepath) "csv"); reflexivity.
Qed.

End SaveFormat.

(** Property X16 at a path whose extension is [json]. *)
Lemma parse_save_csv_anywhere_witness :
  contains (lower "csv_backup.json") "csv" = true
  /\ Parser.parse no_unmodelled_parse
       (save_tokens "d" "csv_backup.json" (1, 1) (1, 6) (1, 8) (1, 11) (1, 28))
       "save d to csv_backup.json"
     = Ok [ new_node (SaveCSVNode "d" "csv_backup.json" []) ].
Proof.
  split; [reflexivity |].
  apply (parse_save_csv_anywhere no_unmodelled_parse); reflexivity.
Defined.

(* ===================================================================== *)
(** * The symbol table and the analyzer *)
(* ===================================================================== *)

Lemma assoc_get_dict_set :
  forall (V : Type) (k : string) (v : V) (d : list (string * V)) (m : string),
    assoc_get m (dict_set k v d) = if String.eqb m k then Some v else assoc_get m d.
Proof.
  intros V k v d m. induction d as [| [k' v'] d IH]; cbn [dict_set assoc_get].
  - reflexivity.
  - destruct (String.eqb k k') eqn:Hk.
    + apply String.eqb_eq in Hk. subst k'. cbn [assoc_get].
      destruct (String.eqb m k); reflexivity.
    + cbn [assoc_get]. rewrite IH.
      destruct (String.eqb m k') eqn:Hm; [| reflexivity].
      apply String.eqb_eq in Hm. subst k'.
      destruct (String.eqb m k) eqn:Hmk; [| reflexivity].
      apply String.eqb_eq in Hmk. subst k. rewrite String.eqb_refl in Hk. discriminate Hk.
Qed.

Lemma map_fst_dict_set :
  forall (V : Type) (k : string) (v : V) (d : list (string * V)),
    map fst (dict_set k v d)
    = match assoc_get k d with
      | Some _ => map fst d
      | None => List.app (map fst d) [k]
      end.
Proof.
  intros V k v d. induction d as [| [k' v'] d IH]; cbn [dict_set assoc_get map fst List.app].
  - reflexivity.
  - destruct (String.eqb k k') eqn:Hk.
    + apply String.eqb_eq in Hk. subst k'. reflexivity.
    + cbn [map fst]. rewrite IH. destruct (assoc_get k d); reflexivity.
Qed.

(** Property X17. [SymbolTable.define] followed by [lookup]: the name just
    defined is found with the information given, every other name is found
    as before. The list of names keeps its order: a new name goes to the
    end, a name defined again keeps its place; the history grows by the
    name in either case. *)
Theorem define_then_lookup :
  forall (st : SymbolTable.t) (name : string) (info : DatasetInfo),
    (forall other,
       SymbolTable.lookup other (SymbolTable.define name info st)
       = if String.eqb other name then Some info else SymbolTable.lookup other st)
    /\ SymbolTable.get_all_names (SymbolTable.define name info st)
       = (if SymbolTable.exists_ name st then SymbolTable.get_all_names st
          else List.app (SymbolTable.get_all_names st) [name])
    /\ SymbolTable.history (SymbolTable.define name info st)
       = List.app (SymbolTable.history st) [name].
Proof.
  intros st name info. split; [| split].
  - intros other. unfold SymbolTable.lookup, SymbolTable.define.
    cbn [SymbolTable.datasets]. apply assoc_get_dict_set.
  - unfold SymbolTable.get_all_names, SymbolTable.define, SymbolTable.exists_,
      SymbolTable.lookup.
    cbn [SymbolTable.datasets]. rewrite map_fst_dict_set.
    destruct (assoc_get name (SymbolTable.datasets st)); reflexivity.
  - reflexivity.
Qed.

Section AnalyzerProperties.
Variable Unmodelled : Type.
Variable file_schema_probe : string -> option Value -> list (string * ColumnInfo).
Variable visit_unmodelled :
  bool -> string -> ASTNode Unmodelled -> Unmodelled -> SymbolTable.t ->
    SymbolTable.t * option exn.
Variable source : string.
Variable enable_type_check : bool.

(** A statement of one of the modelled kinds. *)
Definition modelled (n : ASTNode Unmodelled) : bool :=
  match node_stmt n with
  | UnmodelledNode _ => false
  | _ => true
  end.

Lemma check_columns_raises :
  forall (info : DatasetInfo) (columns : list string) (node : ASTNode Unmodelled)
         (e : exn),
    SemanticAnalyzer.check_columns source info columns node = Raise e ->
    exists err, e = NoetaExc err /\ category err = SEMANTIC.
Proof.
  intros info columns node e. induction columns as [| c columns IH]; intros H.
  - discriminate H.
  - cbn [SemanticAnalyzer.check_columns] in H.
    unfold SemanticAnalyzer._check_column_exists in H.
    destruct (ds_columns info) as [| x xs]; [apply IH; exact H |].
    destruct (has_column info c); [apply IH; exact H |].
    inversion H; subst. eexists. split; reflexivity.
Qed.

(** What the visitor of a modelled statement can do: leave the symbol
    table alone, or define one dataset in it; and when it raises, the table
    is as before and the exception is a semantic diagnostic, or the
    [AttributeError] of [visit_LoadSQLNode]. *)
Lemma visit_modelled :
  forall (st : SymbolTable.t) (node : ASTNode Unmodelled),
    modelled node = true ->
    match SemanticAnalyzer.visit file_schema_probe visit_unmodelled source
            enable_type_check st node with
    | (st', None) => st' = st \/ exists a info, st' = SymbolTable.define a info st
    | (st', Some (NoetaExc err)) => st' = st /\ category err = SEMANTIC
    | (st', Some (PyExc cls msg)) => st' = st /\ cls = AttributeError
    end.
Proof.
  intros st node Hm. unfold modelled in Hm. unfold SemanticAnalyzer.visit.
  destruct (node_stmt node); try discriminate Hm;
    unfold SemanticAnalyzer.visit_load, SemanticAnalyzer.visit_check,
      SemanticAnalyzer.visit_copy, SemanticAnalyzer.visit_SelectNode,
      SemanticAnalyzer.visit_JoinNode, SemanticAnalyzer.visit_LoadSQLNode,
      SemanticAnalyzer.generic_visit, SemanticAnalyzer._check_dataset_exists,
      SemanticAnalyzer._check_column_exists, SemanticAnalyzer.register,
      SemanticAnalyzer.done, SemanticAnalyzer.failed;
    repeat match goal with
           | |- context [SymbolTable.lookup ?a st] =>
               destruct (SymbolTable.lookup a st)
           | |- context [SemanticAnalyzer.check_columns ?s ?i ?c ?n] =>
               let H := fresh "Hcheck" in
               destruct (SemanticAnalyzer.check_columns s i c n) as [[] | e] eqn:H;
               [| destruct (check_columns_raises _ _ _ H) as [err [He Hcat]]; subst e]
           | |- context [truthy_str ?a] => destruct (truthy_str a)
           | |- context [match ds_columns ?i with _ => _ end] =>
               destruct (ds_columns i)
           | |- context [if has_column ?i ?c then _ else _] =>
               destruct (has_column i c)
           end;
    cbn; eauto.
Qed.

Lemma exists_define :
  forall (st : SymbolTable.t) (a : string) (info : DatasetInfo) (name : string),
    SymbolTable.exists_ name st = true ->
    SymbolTable.exists_ name (SymbolTable.define a info st) = true.
Proof.
  intros st a info name H. unfold SymbolTable.exists_, SymbolTable.lookup in *.
  unfold SymbolTable.define. cbn [SymbolTable.datasets]. rewrite assoc_get_dict_set.
  destruct (String.eqb name a); [reflexivity | exact H].
Qed.

Lemma analyze_loop_modelled :
  forall (prog : list (ASTNode Unmodelled)) (st : SymbolTable.t)
         (errors result : list NoetaError) (st' : SymbolTable.t),
    Forall (fun n => modelled n = true) prog ->
    SemanticAnalyzer.analyze_loop file_schema_probe visit_unmodelled source
      enable_type_check prog st errors = (Ok result, st') ->
    exists found,
      result = List.app errors found
      /\ length found <= length prog
      /\ Forall (fun e => category e = SEMANTIC) found.
Proof.
  induction prog as [| node prog IH]; intros st errors result st' Hkinds H.
  - inversion H; subst.
    exists []. rewrite app_nil_r. repeat split; [cbn; lia | constructor].
  - inversion Hkinds as [| ? ? Hkind Hrest]; subst.
    cbn [SemanticAnalyzer.analyze_loop] in H.
    pose proof (visit_modelled st node Hkind) as Hvisit.
    destruct (SemanticAnalyzer.visit file_schema_probe visit_unmodelled source
                enable_type_check st node) as [st1 [[err | cls msg] |]].
    + destruct Hvisit as [Hst Hcat]. subst st1.
      destruct (IH _ _ _ _ Hrest H) as [found [Hr [Hlen Hsem]]].
      exists (err :: found). rewrite Hr, <- app_assoc. cbn [List.app length].
      repeat split; [lia | constructor; assumption].
    + discriminate H.
    + destruct (IH _ _ _ _ Hrest H) as [found [Hr [Hlen Hsem]]].
      exists found. cbn [length]. repeat split; [exact Hr | lia | exact Hsem].
Qed.

(** Property X18. On a program of modelled statements, [analyze] collects
    at most one diagnostic per statement, and every diagnostic it returns is
    of category semantic. *)
Theorem analyze_one_diagnostic_per_statement :
  forall (prog : list (ASTNode Unmodelled)) (st st' : SymbolTable.t)
         (errors : list NoetaError),
    Forall (fun n => modelled n = true) prog ->
    SemanticAnalyzer.analyze file_schema_probe visit_unmodelled source
      enable_type_check prog st = (Ok errors, st') ->
    length errors <= length prog
    /\ Forall (fun e => category e = SEMANTIC) errors.
Proof.
  intros prog st st' errors Hkinds H. unfold SemanticAnalyzer.analyze in H.
  destruct (analyze_loop_modelled _ _ Hkinds H) as [found [Hr [Hlen Hsem]]].
  cbn [List.app] in Hr. subst found. split; assumption.
Qed.

Lemma select_columns_lookup :
  forall (source_columns : list (string * ColumnInfo)) (columns : list string)
         (result : list (string * ColumnInfo)) (c : string),
    assoc_get c (SemanticAnalyzer.select_columns source_columns columns result)
    = if existsb (String.eqb c) columns
      then match assoc_get c source_columns with
           | Some info => Some info
           | None => assoc_get c result
           end
      else assoc_get c result.
Proof.
  intros source_columns. induction columns as [| col columns IH]; intros result c.
  - reflexivity.
  - cbn [SemanticAnalyzer.select_columns existsb].
    destruct (assoc_get col source_columns) as [info |] eqn:Hcol.
    + rewrite IH, assoc_get_dict_set.
      destruct (String.eqb c col) eqn:Hc.
      * apply String.eqb_eq in Hc. subst col. rewrite Hcol. cbn [orb].
        destruct (existsb (String.eqb c) columns); reflexivity.
      * cbn [orb]. reflexivity.
    + rewrite IH.
      destruct (String.eqb c col) eqn:Hc; [| reflexivity].
      apply String.eqb_eq in Hc. subst col. rewrite Hcol. cbn [orb].
      destruct (existsb (String.eqb c) columns); reflexivity.
Qed.

Lemma check_columns_find :
  forall (info : DatasetInfo) (columns : list string) (node : ASTNode Unmodelled),
    ds_columns info <> [] ->
    SemanticAnalyzer.check_columns source info columns node
    = match find (fun c => negb (has_column info c)) columns with
      | Some c => Raise (NoetaExc (SemanticAnalyzer.column_error source info c node))
      | None => Ok tt
      end.
Proof.
  intros info columns node Hknown. induction columns as [| c columns IH].
  - reflexivity.
  - cbn [SemanticAnalyzer.check_columns find].
    unfold SemanticAnalyzer._check_column_exists.
    destruct (ds_columns info) as [| x xs] eqn:Hcols; [contradiction |].
    destruct (has_column info c); cbn [negb]; [exact IH | reflexivity].
Qed.

(** Property X19. [select] on a dataset whose schema is known: if some
    requested column is not in the schema, the diagnostic is the one for
    the first such column and nothing is registered; otherwise the new
    alias is registered with a schema that holds exactly the requested
    columns, each with the information the source has for it. *)
Theorem select_tracks_columns :
  forall (st : SymbolTable.t) (node : ASTNode Unmodelled)
         (source_alias : string) (columns : list string) (new_alias : option string)
         (info : DatasetInfo) (alias : string),
    node_stmt node = SelectNode source_alias columns new_alias ->
    SymbolTable.lookup source_alias st = Some info ->
    ds_columns info <> [] ->
    truthy_str new_alias = Some alias ->
    match find (fun c => negb (has_column info c)) columns with
    | Some missing =>
        SemanticAnalyzer.visit file_schema_probe visit_unmodelled source
          enable_type_check st node
        = (st, Some (NoetaExc (SemanticAnalyzer.column_error source info missing node)))
    | None =>
        exists result,
          SemanticAnalyzer.visit file_schema_probe visit_unmodelled source
            enable_type_check st node
          = (SymbolTable.define alias
               (mkDatasetInfo alias result (Some ("select from " ++ source_alias))) st,
             None)
          /\ forall c,
               assoc_get c result
               = if existsb (String.eqb c) columns
                 then assoc_get c (ds_columns info) else None
    end.
Proof.
  intros st node source_alias columns new_alias info alias Hnode Hlook Hknown Halias.
  unfold SemanticAnalyzer.visit. rewrite Hnode.
  unfold SemanticAnalyzer.visit_SelectNode, SemanticAnalyzer._check_dataset_exists.
  rewrite Hlook.
  destruct (ds_columns info) as [| x xs] eqn:Hcols; [contradiction |].
  rewrite check_columns_find by (rewrite Hcols; discriminate).
  destruct (find (fun c => negb (has_column info c)) columns) as [missing |];
    [reflexivity |].
  unfold SemanticAnalyzer.register. rewrite Halias.
  eexists. split; [reflexivity |].
  intros c. rewrite select_columns_lookup.
  destruct (existsb (String.eqb c) columns); [| reflexivity].
  destruct (assoc_get c (x :: xs)); reflexivity.
Qed.

End AnalyzerProperties.

Section ProbeIndependence.
Variable Unmodelled : Type.
Variable visit_unmodelled :
  bool -> string -> ASTNode Unmodelled -> Unmodelled -> SymbolTable.t ->
    SymbolTable.t * option exn.

(** Property X20. With type checking off, analysis reads no file: it gives
    the same diagnostics and the same symbol table whatever the files hold. *)
Theorem analyze_without_type_check_reads_no_file :
  forall (probe probe' : string -> option Value -> list (string * ColumnInfo))
         (source : string) (prog : list (ASTNode Unmodelled)) (st : SymbolTable.t),
    SemanticAnalyzer.analyze probe visit_unmodelled source false prog st
    = SemanticAnalyzer.analyze probe' visit_unmodelled source false prog st.
Proof.
  intros probe probe' source prog st. unfold SemanticAnalyzer.analyze.
  generalize (@nil NoetaError). revert st.
  induction prog as [| node prog IH]; intros st errors; [reflexivity |].
  cbn [SemanticAnalyzer.analyze_loop].
  assert (Hvisit : SemanticAnalyzer.visit probe visit_unmodelled source false st node
                   = SemanticAnalyzer.visit probe' visit_unmodelled source false st node).
  { unfold SemanticAnalyzer.visit. destruct (node_stmt node); reflexivity. }
  rewrite Hvisit.
  destruct (SemanticAnalyzer.visit probe' visit_unmodelled source false st node)
    as [st1 [[err | cls msg] |]]; try apply IH; reflexivity.
Qed.

End ProbeIndependence.

(* ===================================================================== *)
(** * A symbol table carried from one compilation to the next *)
(* ===================================================================== *)

Section CarriedTable.
Variable supports_color : bool.
Variable Unmodelled : Type.
Variable parse_unmodelled :
  TokenType.t -> list Token -> nat -> outcome (Unmodelled * nat).
Variable visit_unmodelled :
  bool -> string -> ASTNode Unmodelled -> Unmodelled -> SymbolTable.t ->
    SymbolTable.t * option exn.
Variable file_schema_probe : string -> option Value -> list (string * ColumnInfo).
Variable codegen_other :
  ASTNode Unmodelled -> CodeGenerator.t -> outcome CodeGenerator.t.

(** The visitors outside the modelled fragment never take a name out of
    the symbol table (the analyzer calls only [define] on it). *)
Definition keeps_names : Prop :=
  forall (flag : bool) (source : string) (node : ASTNode Unmodelled) (u : Unmodelled)
         (st : SymbolTable.t) (name : string),
    SymbolTable.exists_ name st = true ->
    SymbolTable.exists_ name (fst (visit_unmodelled flag source node u st)) = true.

Lemma visit_keeps_names :
  keeps_names ->
  forall (source : string) (flag : bool) (st : SymbolTable.t)
         (node : ASTNode Unmodelled) (name : string),
    SymbolTable.exists_ name st = true ->
    SymbolTable.exists_ name
      (fst (SemanticAnalyzer.visit file_schema_probe visit_unmodelled source flag
              st node)) = true.
Proof.
  intros Hkeep source flag st node name H.
  destruct (modelled node) eqn:Hkind.
  - pose proof (@visit_modelled Unmodelled file_schema_probe visit_unmodelled source
                  flag st node Hkind) as Hvisit.
    destruct (SemanticAnalyzer.visit file_schema_probe visit_unmodelled source flag
                st node) as [st1 [[err | cls msg] |]]; cbn [fst].
    + destruct Hvisit as [Hst _]. subst st1. exact H.
    + destruct Hvisit as [Hst _]. subst st1. exact H.
    + destruct Hvisit as [Hst | [a [info Hst]]]; subst st1;
        [exact H | apply exists_define; exact H].
  - unfold modelled in Hkind. unfold SemanticAnalyzer.visit.
    destruct (node_stmt node); try discriminate Hkind.
    apply Hkeep. exact H.
Qed.

Lemma analyze_loop_keeps_names :
  keeps_names ->
  forall (source : string) (flag : bool) (prog : list (ASTNode Unmodelled))
         (st : SymbolTable.t) (errors : list NoetaError) (name : string),
    SymbolTable.exists_ name st = true ->
    SymbolTable.exists_ name
      (snd (SemanticAnalyzer.analyze_loop file_schema_probe visit_unmodelled source
              flag prog st errors)) = true.
Proof.
  intros Hkeep source flag. induction prog as [| node prog IH]; intros st errors name H.
  - exact H.
  - cbn [SemanticAnalyzer.analyze_loop].
    pose proof (visit_keeps_names Hkeep source flag st node name H) as Hvisit.
    destruct (SemanticAnalyzer.visit file_schema_probe visit_unmodelled source flag
                st node) as [st1 [[err | cls msg] |]]; cbn [fst] in Hvisit.
    + apply IH. exact Hvisit.
    + exact Hvisit.
    + apply IH. exact Hvisit.
Qed.

(** Property X21. A dataset known to the symbol table handed to
    [compile_noeta] is still known to the table afterwards, whatever the
    text compiled and whether the call returned code or raised: across the
    cells of a session a name, once defined, stays defined. *)
Theorem compile_noeta_keeps_datasets :
  keeps_names ->
  forall (source : string) (enable_type_check : bool) (st : SymbolTable.t)
         (name : string),
    SymbolTable.exists_ name st = true ->
    exists st',
      snd (compile_noeta supports_color parse_unmodelled visit_unmodelled
             file_schema_probe codegen_other source enable_type_check (Some st))
      = Some st'
      /\ SymbolTable.exists_ name st' = true.
Proof.
  intros Hkeep source enable_type_check st name H.
  unfold compile_noeta, compile_body.
  destruct (front_end parse_unmodelled source) as [ast | e].
  - unfold analysis, SemanticAnalyzer.analyze.
    pose proof (analyze_loop_keeps_names Hkeep source enable_type_check ast st [] name H)
      as Hloop.
    destruct (SemanticAnalyzer.analyze_loop file_schema_probe visit_unmodelled source
                enable_type_check ast st []) as [result st1].
    cbn [snd] in Hloop. exists st1.
    destruct result as [[| e1 [| e2 errors]] | e]; cbn [snd]; split;
      solve [reflexivity | exact Hloop].
  - exists st. split; [reflexivity | exact H].
Qed.

End CarriedTable.

(** The visitors of the classes outside [Statement] never take a name out
    of the symbol table. *)
Lemma visit_other_keeps_names : keeps_names SemanticAnalyzer.visit_other.
Proof.
  intros flag source node u st name H.
  destruct u;
    unfold SemanticAnalyzer.visit_other, SemanticAnalyzer.visit_copy,
      SemanticAnalyzer.visit_reshape, SemanticAnalyzer.visit_check,
      SemanticAnalyzer.visit_column, SemanticAnalyzer.visit_GroupByNode,
      SemanticAnalyzer.visit_MergeNode, SemanticAnalyzer.visit_subset,
      SemanticAnalyzer.visit_FillForwardNode, SemanticAnalyzer.visit_misread,
      SemanticAnalyzer.generic_visit, SemanticAnalyzer.register,
      SemanticAnalyzer.done, SemanticAnalyzer.failed;
    repeat match goal with
           | |- context [match ?x with _ => _ end] => destruct x
           end;
    cbn [fst]; try exact H; apply exists_define; exact H.
Qed.

(* ===================================================================== *)
(** * The text the generator writes *)
(* ===================================================================== *)

Section GeneratedText.
Variable Unmodelled : Type.
Variable codegen_other :
  ASTNode Unmodelled -> CodeGenerator.t -> outcome CodeGenerator.t.

(** The statements the modelled visitors of the generator handle: the
    three display statements and [load] of a format other than sql without
    parameters. *)
Definition plain (node : ASTNode Unmodelled) : bool :=
  match node_stmt node with
  | DescribeNode _ _ | SummaryNode _ | InfoNode _ => true
  | LoadNode _ _ format params =>
      CodeGenerator.no_params params && negb (CodeGenerator.is_sql format)
  | _ => false
  end.

(** The lines a statement gives when it is the only one of its program. *)
Definition statement_lines (node : ASTNode Unmodelled) : list string :=
  match CodeGenerator.visit codegen_other node (CodeGenerator.init None) with
  | Ok g => CodeGenerator.code_lines g
  | Raise _ => []
  end.

(** The head of every generated text. *)
Definition preamble : string :=
  "from scipy import stats" ++ nl
  ++ "import matplotlib.pyplot as plt" ++ nl
  ++ "import numpy as np" ++ nl
  ++ "import pandas as pd" ++ nl
  ++ "import seaborn as sns" ++ nl ++ nl
  ++ "# Configure visualization settings" ++ nl
  ++ "plt.style.use('seaborn-v0_8-darkgrid')" ++ nl
  ++ "sns.set_palette('husl')" ++ nl ++ nl.

Lemma visit_plain :
  forall (node : ASTNode Unmodelled) (g : CodeGenerator.t),
    plain node = true ->
    CodeGenerator.visit codegen_other node g
    = Ok (CodeGenerator.mk (CodeGenerator.symbol_table g)
            (CodeGenerator.persistent_symbol_table g) (CodeGenerator.imports g)
            (List.app (CodeGenerator.code_lines g) (statement_lines node))
            (CodeGenerator.last_plot g)).
Proof.
  intros node g Hplain. unfold plain in Hplain.
  unfold statement_lines, CodeGenerator.visit.
  destruct (node_stmt node); try discriminate Hplain;
    try rewrite Hplain; try reflexivity.
  unfold CodeGenerator.visit_LoadNode_plain, CodeGenerator.append_line.
  cbn [CodeGenerator.code_lines CodeGenerator.symbol_table
       CodeGenerator.persistent_symbol_table CodeGenerator.imports
       CodeGenerator.last_plot CodeGenerator.init List.app].
  rewrite <- app_assoc. reflexivity.
Qed.

Lemma visit_all_plain :
  forall (prog : list (ASTNode Unmodelled)) (g : CodeGenerator.t),
    forallb plain prog = true ->
    CodeGenerator.visit_all codegen_other prog g
    = Ok (CodeGenerator.mk (CodeGenerator.symbol_table g)
            (CodeGenerator.persistent_symbol_table g) (CodeGenerator.imports g)
            (List.app (CodeGenerator.code_lines g) (flat_map statement_lines prog))
            (CodeGenerator.last_plot g)).
Proof.
  induction prog as [| node prog IH]; intros g Hplain.
  - cbn [CodeGenerator.visit_all flat_map]. rewrite app_nil_r. destruct g; reflexivity.
  - cbn [forallb] in Hplain. apply andb_true_iff in Hplain. destruct Hplain as [Hn Hrest].
    cbn [CodeGenerator.visit_all flat_map]. rewrite (visit_plain node g Hn).
    rewrite (IH _ Hrest).
    cbn [CodeGenerator.code_lines CodeGenerator.symbol_table
         CodeGenerator.persistent_symbol_table CodeGenerator.imports
         CodeGenerator.last_plot].
    rewrite <- app_assoc. reflexivity.
Qed.

(** Property X22. For a program of display statements and plain loads
    [generate] always returns, and its text is the fixed head (the five
    imports in sorted order and the plot settings) followed by the lines of
    each statement in program order, joined by newlines: the lines of a
    statement do not depend on the statements around it, no import is
    added and the code that shows plots is left out. *)
Theorem generate_statement_by_statement :
  forall (prog : list (ASTNode Unmodelled)) (persistent : option SymbolTable.t),
    forallb plain prog = true ->
    CodeGenerator.generate codegen_other prog (CodeGenerator.init persistent)
    = Ok (preamble ++ join nl (flat_map statement_lines prog)).
Proof.
  intros prog persistent Hplain. unfold CodeGenerator.generate.
  rewrite (visit_all_plain prog _ Hplain).
  cbn [CodeGenerator.last_plot CodeGenerator.imports CodeGenerator.code_lines
       CodeGenerator.init fold_left CodeGenerator.standard_imports
       CodeGenerator.add_import List.app].
  reflexivity.
Qed.

End GeneratedText.

(* ===================================================================== *)
(** * The diagnostics of a program with undefined sources *)
(* ===================================================================== *)

Section UndefinedSources.
Variable Unmodelled : Type.
Variable visit_unmodelled :
  bool -> string -> ASTNode Unmodelled -> Unmodelled -> SymbolTable.t ->
    SymbolTable.t * option exn.
Variable file_schema_probe : string -> option Value -> list (string * ColumnInfo).
Variable aliases_unmodelled : Unmodelled -> list string.

(** The undefined sources of a program, statement by statement: for every
    statement that reads a name that is not known where the statement
    stands, the first such name. A statement that reads an unknown name
    defines nothing; every other statement makes its alias known to the
    statements after it. *)
Fixpoint undefined_sources (known : list string) (prog : list (ASTNode Unmodelled))
  : list string :=
  match prog with
  | [] => []
  | n :: rest =>
      match find (fun a => negb (known_in known a))
              (checked_aliases aliases_unmodelled (node_stmt n)) with
      | Some a => a :: undefined_sources known rest
      | None =>
          undefined_sources
            (match defined_alias (node_stmt n) with
             | Some d => d :: known
             | None => known
             end) rest
      end
  end.

Lemma undefined_sources_ext :
  forall (prog : list (ASTNode Unmodelled)) (known known' : list string),
    (forall a, known_in known a = known_in known' a) ->
    undefined_sources known prog = undefined_sources known' prog.
Proof.
  induction prog as [| n rest IH]; intros known known' H; [reflexivity |].
  cbn [undefined_sources].
  assert (Hfind : forall l,
             find (fun a => negb (known_in known a)) l
             = find (fun a => negb (known_in known' a)) l).
  { induction l as [| a l IHl]; [reflexivity |]. cbn [find]. rewrite H, IHl. reflexivity. }
  rewrite Hfind.
  destruct (find (fun a => negb (known_in known' a))
              (checked_aliases aliases_unmodelled (node_stmt n))).
  - f_equal. apply IH. exact H.
  - apply IH. intros a. destruct (defined_alias (node_stmt n)) as [d |]; [| apply H].
    unfold known_in in *. cbn [existsb]. rewrite H. reflexivity.
Qed.

Lemma first_missing_find :
  forall (st : SymbolTable.t) (aliases : list string),
    first_missing st aliases
    = find (fun a => negb (known_in (SymbolTable.get_all_names st) a)) aliases.
Proof.
  intros st aliases. induction aliases as [| a rest IH]; [reflexivity |].
  cbn [first_missing find]. rewrite lookup_known_in.
  destruct (SymbolTable.lookup a st); [exact IH | reflexivity].
Qed.

Lemma analyze_loop_undefined_sources :
  forall (source : string) (prog : list (ASTNode Unmodelled)) (st : SymbolTable.t)
         (errors : list NoetaError),
    Forall (fun n => validated (node_stmt n) = true) prog ->
    unknown_schemas st ->
    exists (found : list NoetaError) (st' : SymbolTable.t),
      SemanticAnalyzer.analyze_loop file_schema_probe visit_unmodelled source false
        prog st errors
      = (Ok (List.app errors found), st')
      /\ map message found
         = map (fun a => "Dataset '" ++ a ++ "' has not been loaded or created")
               (undefined_sources (SymbolTable.get_all_names st) prog).
Proof.
  intros source prog.
  induction prog as [| node rest IH]; intros st errors Hkinds Hst.
  - exists [], st. cbn. rewrite app_nil_r. split; reflexivity.
  - inversion Hkinds as [| ? ? Hkind Hrest]; subst.
    cbn [SemanticAnalyzer.analyze_loop undefined_sources].
    rewrite <- first_missing_find.
    destruct (first_missing st (checked_aliases aliases_unmodelled (node_stmt node)))
      as [X |] eqn:Hmiss.
    + rewrite (@visit_first_missing Unmodelled visit_unmodelled file_schema_probe
                 aliases_unmodelled source false st node X (validated_modelled Hkind)
                 Hmiss).
      destruct (IH st (List.app errors
                         [SemanticAnalyzer.dataset_error source st X node]) Hrest Hst)
        as [found [st' [Hloop Hmsg]]].
      exists (SemanticAnalyzer.dataset_error source st X node :: found), st'.
      split.
      * rewrite Hloop, <- app_assoc. reflexivity.
      * cbn [map]. rewrite Hmsg. reflexivity.
    + destruct (@visit_validated Unmodelled visit_unmodelled file_schema_probe
                  aliases_unmodelled source st node Hkind Hst Hmiss)
        as [st1 [Hvisit [Hst1 Hnames]]].
      rewrite Hvisit.
      destruct (IH st1 errors Hrest Hst1) as [found [st' [Hloop Hmsg]]].
      exists found, st'. split; [exact Hloop |].
      rewrite Hmsg. rewrite (undefined_sources_ext rest _ _ Hnames). reflexivity.
Qed.

(** Property X23. With type checking off and a symbol table without
    schemas (a new one, for instance), analysis of a program of validated
    statements returns one diagnostic for every statement that reads a name
    not known where the statement stands, in program order, each naming
    the first such name of its statement. A statement with a diagnostic
    defines nothing, so a later statement that reads its alias gets a
    diagnostic of its own. *)
Theorem analyze_reports_undefined_sources :
  forall (source : string) (prog : list (ASTNode Unmodelled)) (st : SymbolTable.t),
    Forall (fun n => validated (node_stmt n) = true) prog ->
    unknown_schemas st ->
    exists (errors : list NoetaError) (st' : SymbolTable.t),
      SemanticAnalyzer.analyze file_schema_probe visit_unmodelled source false prog st
      = (Ok errors, st')
      /\ map message errors
         = map (fun a => "Dataset '" ++ a ++ "' has not been loaded or created")
               (undefined_sources (SymbolTable.get_all_names st) prog).
Proof.
  intros source prog st Hkinds Hst. unfold SemanticAnalyzer.analyze.
  destruct (analyze_loop_undefined_sources source [] Hkinds Hst)
    as [found [st' [Hloop Hmsg]]].
  exists found, st'. split; [exact Hloop | exact Hmsg].
Qed.

End UndefinedSources.

(* ===================================================================== *)
(** * The properties at concrete inputs *)
(* ===================================================================== *)

(** The tokens of [describe sales]. *)
Definition describe_sales_tokens : list Token :=
  [ mkToken TokenType.DESCRIBE (VStr "describe") 1 1;
    mkToken TokenType.IDENTIFIER (VStr "sales") 1 10;
    mkToken TokenType.EOF VNone 1 15 ].

(** Property X7 at the text [describe sales]. *)
Lemma tokenize_ends_with_eof_witness :
  Lexer.tokenize "describe sales" = Ok describe_sales_tokens
  /\ exists (body : list Token) (eof : Token),
       describe_sales_tokens = List.app body [eof]
       /\ tok_type eof = TokenType.EOF
       /\ Forall inner_token body.
Proof.
  split; [reflexivity |].
  apply (@tokenize_ends_with_eof "describe sales"). reflexivity.
Defined.

(** The tokens of a text of two lines. *)
Definition two_line_tokens : list Token :=
  [ mkToken TokenType.INFO (VStr "info") 1 1;
    mkToken TokenType.IDENTIFIER (VStr "d") 1 6;
    mkToken TokenType.SUMMARY (VStr "summary") 2 1;
    mkToken TokenType.IDENTIFIER (VStr "d") 2 9;
    mkToken TokenType.EOF VNone 2 10 ].

(** Property X8 at a text of two lines. *)
Lemma tokenize_positions_witness :
  Lexer.tokenize ("info d" ++ nl ++ "summary d") = Ok two_line_tokens
  /\ in_source_order two_line_tokens.
Proof.
  split; [reflexivity |].
  apply (@tokenize_positions ("info d" ++ nl ++ "summary d")). reflexivity.
Defined.


(** Property X10 at a keyword written with a capital. *)
Lemma tokenize_word_witness :
  is_word "Describe" = true
  /\ Lexer.tokenize "Describe"
     = Ok [ mkToken TokenType.DESCRIBE (VStr "Describe") 1 1;
            mkToken TokenType.EOF VNone 1 9 ].
Proof.
  split; [reflexivity |].
  apply (tokenize_word "Describe"). reflexivity.
Defined.

(** Property X12 at a text with quotes inside. *)
Lemma tokenize_string_literal_witness :
  ends_with_backslash ("say " ++ dq ++ "hi" ++ dq) = false
  /\ exists line column,
       Lexer.tokenize (dq ++ escape_quotes ("say " ++ dq ++ "hi" ++ dq) ++ dq)
       = Ok [ mkToken TokenType.STRING_LITERAL (VStr ("say " ++ dq ++ "hi" ++ dq)) 1 1;
              mkToken TokenType.EOF VNone line column ].
Proof.
  split; [reflexivity |].
  apply (tokenize_string_literal ("say " ++ dq ++ "hi" ++ dq)). reflexivity.
Defined.

(** Property X15 at the tokens of [as d]. *)
Lemma parse_unexpected_token_witness :
  starts_statement TokenType.AS = false
  /\ Parser.parse no_unmodelled_parse
       [ mkToken TokenType.AS (VStr "as") 1 1;
         mkToken TokenType.IDENTIFIER (VStr "d") 1 4;
         mkToken TokenType.EOF VNone 1 5 ] "as d"
     = Raise (PyExc SyntaxError ("Unexpected token: " ++ TokenType_str TokenType.AS)).
Proof.
  split; [reflexivity |].
  apply (@parse_unexpected_token Empty_set no_unmodelled_parse _ "as d"
           (mkToken TokenType.AS (VStr "as") 1 1)
           [ mkToken TokenType.IDENTIFIER (VStr "d") 1 4;
             mkToken TokenType.EOF VNone 1 5 ]).
  - reflexivity.
  - reflexivity.
  - discriminate.
Defined.

(** A program that describes an unknown dataset, loads it, and describes
    it again. *)
Definition describe_load_describe : list (ASTNode Empty_set) :=
  [ new_node (DescribeNode "d" None);
    new_node (LoadNode "x.csv" "d" None None);
    new_node (DescribeNode "d" None) ].

(** The diagnostic for [d] on a table that holds nothing. *)
Definition d_not_loaded : NoetaError :=
  mkNoetaError "Dataset 'd' has not been loaded or created" SEMANTIC None
    (Some "No datasets have been loaded yet") None.

(** Property X18 at a program of three statements, the first of them with
    an undefined source. *)
Lemma analyze_one_diagnostic_per_statement_witness :
  SemanticAnalyzer.analyze no_file_schema no_unmodelled_visit "describe d" false
    describe_load_describe SymbolTable.empty
  = (Ok [d_not_loaded],
     SymbolTable.define "d" (mkDatasetInfo "d" [] (Some "x.csv")) SymbolTable.empty)
  /\ length [d_not_loaded] <= length describe_load_describe
  /\ Forall (fun e => category e = SEMANTIC) [d_not_loaded].
Proof.
  split; [reflexivity |].
  apply (@analyze_one_diagnostic_per_statement Empty_set no_file_schema
           no_unmodelled_visit "describe d" false describe_load_describe
           SymbolTable.empty
           (SymbolTable.define "d" (mkDatasetInfo "d" [] (Some "x.csv"))
              SymbolTable.empty)
           [d_not_loaded]).
  - repeat constructor.
  - reflexivity.
Defined.

(** [select d with price, cost as r]. *)
Definition select_price_cost : ASTNode Empty_set :=
  new_node (SelectNode "d" ["price"; "cost"] (Some "r")).

(** Property X19 at the table that holds [d] with the columns [price] and
    [category]: selecting [price] and the unknown [cost]. *)
Lemma select_tracks_columns_witness :
  SemanticAnalyzer.visit no_file_schema no_unmodelled_visit
    "select d with price, cost as r" true table_with_d select_price_cost
  = (table_with_d,
     Some (NoetaExc (SemanticAnalyzer.column_error "select d with price, cost as r"
                       info_d "cost" select_price_cost))).
Proof.
  apply (@select_tracks_columns Empty_set no_file_schema no_unmodelled_visit
           "select d with price, cost as r" true table_with_d select_price_cost
           "d" ["price"; "cost"] (Some "r") info_d "r").
  - reflexivity.
  - reflexivity.
  - discriminate.
  - reflexivity.
Defined.

(** Property X21 in the modelled fragment: [sales] is still known after a
    text that does not lex. *)
Lemma compile_noeta_keeps_datasets_witness :
  exists st',
    snd (compile_noeta false no_unmodelled_parse no_unmodelled_visit no_file_schema
           no_other_codegen "info d @" false (Some table_with_sales))
    = Some st'
    /\ SymbolTable.exists_ "sales" st' = true.
Proof.
  apply (@compile_noeta_keeps_datasets false Empty_set no_unmodelled_parse
           no_unmodelled_visit no_file_schema no_other_codegen).
  - intros flag source node u. destruct u.
  - reflexivity.
Defined.

(** Property X22 at a load followed by a summary. *)
Lemma generate_statement_by_statement_witness :
  CodeGenerator.generate no_other_codegen
    [ new_node (LoadNode "x.csv" "d" None None); new_node (SummaryNode "d") ]
    (CodeGenerator.init None)
  = Ok (preamble
        ++ join nl
             (List.app
                (statement_lines no_other_codegen
                   (new_node (LoadNode "x.csv" "d" None None)))
                (statement_lines no_other_codegen (new_node (SummaryNode "d"))))).
Proof.
  rewrite <- (app_nil_r (statement_lines no_other_codegen (new_node (SummaryNode "d")))).
  apply (@generate_statement_by_statement Empty_set no_other_codegen
           [ new_node (LoadNode "x.csv" "d" None None); new_node (SummaryNode "d") ] None).
  reflexivity.
Defined.

(** Property X23 at the program that describes [d], loads it, and
    describes it again, on a new symbol table: one diagnostic, for the
    first statement. *)
Lemma analyze_reports_undefined_sources_witness :
  exists (errors : list NoetaError) (st' : SymbolTable.t),
    SemanticAnalyzer.analyze no_file_schema no_unmodelled_visit "describe d" false
      describe_load_describe SymbolTable.empty
    = (Ok errors, st')
    /\ map message errors = [ "Dataset 'd' has not been loaded or created" ].
Proof.
  apply (@analyze_reports_undefined_sources Empty_set no_unmodelled_visit no_file_schema
           no_unmodelled_aliases "describe d" describe_load_describe SymbolTable.empty).
  - repeat constructor.
  - constructor.
Defined.
(* ===================================================================== *)
(** * Layout before the first token *)
(* ===================================================================== *)

(** What the parser reads of a token: its kind and its value. *)
Definition content (t : Token) : TokenType.t * TokenValue := (tok_type t, tok_value t).

(** Two runs of [next_token] that give tokens of the same content and stop
    at the same place of the text, or both raise. *)
Definition same_token (r r' : outcome (Token * Lexer.state)) : Prop :=
  match r, r' with
  | Ok (t, lx), Ok (t', lx') => content t = content t' /\ Lexer.rest lx = Lexer.rest lx'
  | Raise _, Raise _ => True
  | _, _ => False
  end.

(** Two runs of [tokenize] that give tokens of the same content, one by
    one, or both raise. *)
Definition same_content (r r' : outcome (list Token)) : Prop :=
  match r, r' with
  | Ok ts, Ok ts' => map content ts = map content ts'
  | Raise _, Raise _ => True
  | _, _ => False
  end.

(** Layout: blanks, newlines, and comments that run up to a newline.
    [in_comment] tells whether the text starts inside a comment. *)
Fixpoint is_layout (in_comment : bool) (s : string) : bool :=
  match s with
  | EmptyString => negb in_comment
  | String c r =>
      if in_comment then is_layout (negb (Ascii.eqb c LF)) r
      else if Ascii.eqb c LF || char_in c Lexer.blanks then is_layout false r
      else if Ascii.eqb c "#"%char then is_layout true r
      else false
  end.

Lemma same_content_trans :
  forall a b c, same_content a b -> same_content b c -> same_content a c.
Proof.
  intros [ta | ea] [tb | eb] [tc | ec]; cbn; intros H1 H2;
    try contradiction; try exact I.
  rewrite H1. exact H2.
Qed.

Lemma rest_advance :
  forall lx lx',
    Lexer.rest lx = Lexer.rest lx' ->
    Lexer.rest (Lexer.advance lx) = Lexer.rest (Lexer.advance lx').
Proof.
  intros [src r l c] [src' r' l' c'] H. cbn in H. subst r'.
  unfold Lexer.advance. cbn [Lexer.rest].
  destruct r as [| a r]; [reflexivity |].
  destruct (Ascii.eqb a LF); reflexivity.
Qed.

Lemma current_char_rest :
  forall lx lx',
    Lexer.rest lx = Lexer.rest lx' -> Lexer.current_char lx = Lexer.current_char lx'.
Proof. intros lx lx' H. unfold Lexer.current_char. rewrite H. reflexivity. Qed.

Lemma peek_char_rest :
  forall lx lx',
    Lexer.rest lx = Lexer.rest lx' -> Lexer.peek_char lx = Lexer.peek_char lx'.
Proof. intros lx lx' H. unfold Lexer.peek_char. rewrite H. reflexivity. Qed.

Lemma skip_whitespace_loop_rest :
  forall fuel lx lx',
    Lexer.rest lx = Lexer.rest lx' ->
    Lexer.rest (Lexer.skip_whitespace_loop fuel lx)
    = Lexer.rest (Lexer.skip_whitespace_loop fuel lx').
Proof.
  induction fuel as [| fuel IH]; intros lx lx' H; [exact H |].
  cbn [Lexer.skip_whitespace_loop]. rewrite (current_char_rest _ _ H).
  destruct (Lexer.current_char lx') as [c |]; [| exact H].
  destruct (char_in c Lexer.blanks); [| exact H].
  apply IH, rest_advance, H.
Qed.

Lemma skip_comment_loop_rest :
  forall fuel lx lx',
    Lexer.rest lx = Lexer.rest lx' ->
    Lexer.rest (Lexer.skip_comment_loop fuel lx)
    = Lexer.rest (Lexer.skip_comment_loop fuel lx').
Proof.
  induction fuel as [| fuel IH]; intros lx lx' H; [exact H |].
  cbn [Lexer.skip_comment_loop]. rewrite (current_char_rest _ _ H).
  destruct (Lexer.current_char lx') as [c |]; [| exact H].
  destruct (Ascii.eqb c LF); [exact H |].
  apply IH, rest_advance, H.
Qed.

Lemma read_string_loop_rest :
  forall fuel value lx lx',
    Lexer.rest lx = Lexer.rest lx' ->
    fst (Lexer.read_string_loop fuel value lx) = fst (Lexer.read_string_loop fuel value lx')
    /\ Lexer.rest (snd (Lexer.read_string_loop fuel value lx))
       = Lexer.rest (snd (Lexer.read_string_loop fuel value lx')).
Proof.
  induction fuel as [| fuel IH]; intros value lx lx' H; [split; [reflexivity | exact H] |].
  cbn [Lexer.read_string_loop].
  rewrite (current_char_rest _ _ H), (peek_char_rest _ _ H).
  destruct (Lexer.current_char lx') as [c |]; [| split; [reflexivity | exact H]].
  destruct (Ascii.eqb c "034"%char); [split; [reflexivity | exact H] |].
  destruct (Ascii.eqb c "\"%char && Lexer.is_char (Lexer.peek_char lx') "034"%char).
  - apply IH, rest_advance, rest_advance, H.
  - apply IH, rest_advance, H.
Qed.

Lemma read_string_rest :
  forall lx lx',
    Lexer.rest lx = Lexer.rest lx' ->
    fst (Lexer.read_string lx) = fst (Lexer.read_string lx')
    /\ Lexer.rest (snd (Lexer.read_string lx)) = Lexer.rest (snd (Lexer.read_string lx')).
Proof.
  intros lx lx' H. unfold Lexer.read_string.
  pose proof (rest_advance _ _ H) as Hadv. rewrite Hadv.
  destruct (read_string_loop_rest (String.length (Lexer.rest (Lexer.advance lx')))
              EmptyString _ _ Hadv) as [Hv Hr].
  destruct (Lexer.read_string_loop _ EmptyString (Lexer.advance lx)) as [v l2].
  destruct (Lexer.read_string_loop _ EmptyString (Lexer.advance lx')) as [v' l2'].
  cbn [fst snd] in Hv, Hr. subst v'.
  rewrite (current_char_rest _ _ Hr).
  destruct (Lexer.is_char (Lexer.current_char l2') "034"%char); cbn [fst snd];
    split; try reflexivity; [apply rest_advance |]; exact Hr.
Qed.

Lemma read_number_loop_rest :
  forall fuel value lx lx',
    Lexer.rest lx = Lexer.rest lx' ->
    fst (Lexer.read_number_loop fuel value lx) = fst (Lexer.read_number_loop fuel value lx')
    /\ Lexer.rest (snd (Lexer.read_number_loop fuel value lx))
       = Lexer.rest (snd (Lexer.read_number_loop fuel value lx')).
Proof.
  induction fuel as [| fuel IH]; intros value lx lx' H; [split; [reflexivity | exact H] |].
  cbn [Lexer.read_number_loop]. rewrite (current_char_rest _ _ H).
  destruct (Lexer.current_char lx') as [c |]; [| split; [reflexivity | exact H]].
  destruct (isdigit c || Ascii.eqb c "."%char); [| split; [reflexivity | exact H]].
  apply IH, rest_advance, H.
Qed.

Lemma read_number_rest :
  forall lx lx',
    Lexer.rest lx = Lexer.rest lx' ->
    fst (Lexer.read_number lx) = fst (Lexer.read_number lx')
    /\ Lexer.rest (snd (Lexer.read_number lx)) = Lexer.rest (snd (Lexer.read_number lx')).
Proof.
  intros lx lx' H. unfold Lexer.read_number. rewrite H.
  destruct (read_number_loop_rest (String.length (Lexer.rest lx')) EmptyString _ _ H)
    as [Hv Hr].
  destruct (Lexer.read_number_loop _ EmptyString lx) as [v l2].
  destruct (Lexer.read_number_loop _ EmptyString lx') as [v' l2'].
  cbn [fst snd] in Hv, Hr. subst v'.
  destruct (char_in "."%char v); [destruct (float_literal v) | destruct (py_int v)];
    cbn [fst snd]; split; try reflexivity; exact Hr.
Qed.

Lemma read_identifier_loop_rest :
  forall fuel value lx lx',
    Lexer.rest lx = Lexer.rest lx' ->
    fst (Lexer.read_identifier_loop fuel value lx)
    = fst (Lexer.read_identifier_loop fuel value lx')
    /\ Lexer.rest (snd (Lexer.read_identifier_loop fuel value lx))
       = Lexer.rest (snd (Lexer.read_identifier_loop fuel value lx')).
Proof.
  induction fuel as [| fuel IH]; intros value lx lx' H; [split; [reflexivity | exact H] |].
  cbn [Lexer.read_identifier_loop]. rewrite (current_char_rest _ _ H).
  destruct (Lexer.current_char lx') as [c |]; [| split; [reflexivity | exact H]].
  destruct (isalnum c || Ascii.eqb c "_"%char); [| split; [reflexivity | exact H]].
  apply IH, rest_advance, H.
Qed.

Lemma operator_token_rest :
  forall lx lx' c,
    Lexer.rest lx = Lexer.rest lx' ->
    same_token (Lexer.operator_token lx c) (Lexer.operator_token lx' c).
Proof.
  intros lx lx' c H. unfold Lexer.operator_token. cbv zeta.
  rewrite (peek_char_rest _ _ H).
  pose proof (rest_advance _ _ H) as H1. pose proof (rest_advance _ _ H1) as H2.
  repeat match goal with
         | |- context [if ?b then _ else _] => destruct b
         end;
    cbn [same_token content tok_type tok_value]; auto.
Qed.

Ltac token_here_rest lx lx' H :=
  match goal with
  | |- context [Ascii.eqb ?c "034"%char] =>
      destruct (Ascii.eqb c "034"%char);
      [ let Hv := fresh "Hv" in
        let Hr := fresh "Hr" in
        destruct (read_string_rest _ _ H) as [Hv Hr];
        destruct (Lexer.read_string _) as [? ?];
        destruct (Lexer.read_string _) as [? ?];
        cbn [fst snd] in Hv, Hr; subst; cbn; split; [reflexivity | exact Hr]
      | destruct (isdigit c);
        [ let Hv := fresh "Hv" in
          let Hr := fresh "Hr" in
          destruct (read_number_rest _ _ H) as [Hv Hr];
          destruct (Lexer.read_number _) as [[? | ?] ?];
          destruct (Lexer.read_number _) as [[? | ?] ?];
          cbn [fst snd] in Hv, Hr; try discriminate Hv;
          inversion Hv; subst; cbn;
          first [exact I | split; [reflexivity | exact Hr]]
        | destruct (isalpha c || Ascii.eqb c "_"%char);
          [ let Hv := fresh "Hv" in
            let Hr := fresh "Hr" in
            unfold Lexer.read_identifier; rewrite H;
            destruct (read_identifier_loop_rest
                        (String.length (Lexer.rest lx')) EmptyString lx lx' H)
              as [Hv Hr];
            destruct (Lexer.read_identifier_loop _ EmptyString _) as [? ?];
            destruct (Lexer.read_identifier_loop _ EmptyString _) as [? ?];
            cbn [fst snd] in Hv, Hr; subst;
            repeat match goal with
                   | |- context [if ?b then _ else _] => destruct b
                   end;
            cbn; split; try reflexivity; exact Hr
          | apply operator_token_rest; exact H ] ] ]
  end.

Lemma next_token_loop_rest :
  forall fuel lx lx',
    Lexer.rest lx = Lexer.rest lx' ->
    same_token (Lexer.next_token_loop fuel lx) (Lexer.next_token_loop fuel lx').
Proof.
  induction fuel as [| fuel IH]; intros lx lx' H;
    cbn [Lexer.next_token_loop]; rewrite (current_char_rest _ _ H);
    (destruct (Lexer.current_char lx') as [c |] eqn:Hc;
     [| cbn; split; [reflexivity | exact H]]).
  - destruct (char_in c Lexer.blanks); [cbn; split; [reflexivity | exact H] |].
    destruct (Ascii.eqb c LF); [cbn; split; [reflexivity | apply rest_advance; exact H] |].
    destruct (Ascii.eqb c "#"%char); [cbn; split; [reflexivity | exact H] |].
    token_here_rest lx lx' H.
  - destruct (char_in c Lexer.blanks).
    { apply IH. unfold Lexer.skip_whitespace. rewrite H.
      apply skip_whitespace_loop_rest. exact H. }
    destruct (Ascii.eqb c LF); [cbn; split; [reflexivity | apply rest_advance; exact H] |].
    destruct (Ascii.eqb c "#"%char).
    { apply IH. unfold Lexer.skip_comment. rewrite (current_char_rest _ _ H), H.
      destruct (Lexer.is_char (Lexer.current_char lx') "#"%char);
        [apply skip_comment_loop_rest |]; exact H. }
    token_here_rest lx lx' H.
Qed.

Lemma content_snoc :
  forall (acc acc' : list Token) (t t' : Token),
    map content acc = map content acc' -> content t = content t' ->
    map content (List.app acc [t]) = map content (List.app acc' [t']).
Proof. intros acc acc' t t' H Ht. rewrite !map_app, H. cbn [map]. rewrite Ht. reflexivity. Qed.

Lemma tokenize_loop_step_rest :
  forall (acc acc' : list Token) (t t' : Token),
    map content acc = map content acc' -> content t = content t' ->
    map content (if TokenType.eqb (tok_type t) TokenType.NEWLINE then acc
                 else List.app acc [t])
    = map content (if TokenType.eqb (tok_type t') TokenType.NEWLINE then acc'
                   else List.app acc' [t']).
Proof.
  intros acc acc' t t' H Ht.
  assert (Hty : tok_type t = tok_type t') by (unfold content in Ht; congruence).
  rewrite Hty. destruct (TokenType.eqb (tok_type t') TokenType.NEWLINE);
    [exact H | apply content_snoc; assumption].
Qed.

Lemma tokenize_loop_rest :
  forall fuel acc acc' lx lx',
    Lexer.rest lx = Lexer.rest lx' ->
    map content acc = map content acc' ->
    same_content (Lexer.tokenize_loop fuel acc lx) (Lexer.tokenize_loop fuel acc' lx').
Proof.
  induction fuel as [| fuel IH]; intros acc acc' lx lx' H Hacc;
    cbn [Lexer.tokenize_loop];
    pose proof (next_token_loop_rest (String.length (Lexer.rest lx')) _ _ H) as Hnext;
    unfold Lexer.next_token; rewrite H;
    destruct (Lexer.next_token_loop _ lx) as [[t l1] | e];
    destruct (Lexer.next_token_loop _ lx') as [[t' l1'] | e'];
    cbn [same_token] in Hnext; try contradiction; try exact I;
    destruct Hnext as [Ht Hr];
    pose proof (tokenize_loop_step_rest _ _ Hacc Ht) as Hstep;
    assert (Hty : tok_type t = tok_type t') by (unfold content in Ht; congruence);
    rewrite Hty in *;
    destruct (TokenType.eqb (tok_type t') TokenType.EOF); try exact Hstep.
  apply IH; assumption.
Qed.

(** The same with the budgets of the two runs apart. *)
Lemma tokenize_loop_same_token :
  forall fuel fuel' acc acc' lx lx',
    remaining lx <= fuel -> remaining lx' <= fuel' ->
    map content acc = map content acc' ->
    same_token (Lexer.next_token lx) (Lexer.next_token lx') ->
    same_content (Lexer.tokenize_loop fuel acc lx) (Lexer.tokenize_loop fuel' acc' lx').
Proof.
  intros fuel fuel' acc acc' lx lx' Hfuel Hfuel' Hacc Hnext.
  rewrite (@tokenize_loop_budget fuel (S (remaining lx)) acc lx) by lia.
  rewrite (@tokenize_loop_budget fuel' (S (remaining lx')) acc' lx') by lia.
  cbn [Lexer.tokenize_loop].
  destruct (Lexer.next_token lx) as [[t l1] | e] eqn:Hn;
    destruct (Lexer.next_token lx') as [[t' l1'] | e'] eqn:Hn';
    cbn [same_token] in Hnext; try contradiction; try exact I.
  destruct Hnext as [Ht Hr].
  pose proof (tokenize_loop_step_rest _ _ Hacc Ht) as Hstep.
  assert (Hty : tok_type t = tok_type t') by (unfold content in Ht; congruence).
  rewrite Hty in *.
  destruct (TokenType.eqb (tok_type t') TokenType.EOF) eqn:Heof; [exact Hstep |].
  destruct (next_token_loop_remaining _ _ Hn) as [Htype | Hless];
    [rewrite Hty in Htype; rewrite Htype in Heof; discriminate Heof |].
  destruct (next_token_loop_remaining _ _ Hn') as [Htype | Hless'];
    [rewrite Htype in Heof; discriminate Heof |].
  assert (Hrem : remaining l1 = remaining l1') by (unfold remaining; rewrite Hr; reflexivity).
  rewrite (@tokenize_loop_budget (remaining lx) (remaining l1) _ l1) by lia.
  rewrite (@tokenize_loop_budget (remaining lx') (remaining l1) _ l1') by lia.
  apply tokenize_loop_rest; assumption.
Qed.

Lemma next_token_rest :
  forall lx lx',
    Lexer.rest lx = Lexer.rest lx' ->
    same_token (Lexer.next_token lx) (Lexer.next_token lx').
Proof.
  intros lx lx' H. unfold Lexer.next_token. rewrite H.
  apply next_token_loop_rest. exact H.
Qed.

(** [next_token] starts by skipping blanks and comments. *)
Lemma next_token_skip_whitespace :
  forall lx c,
    Lexer.current_char lx = Some c -> char_in c Lexer.blanks = true ->
    Lexer.next_token lx = Lexer.next_token (Lexer.skip_whitespace lx).
Proof.
  intros lx c Hc Hblank.
  pose proof (skip_whitespace_remaining lx Hc Hblank) as Hless.
  unfold Lexer.next_token. fold (remaining lx). fold (remaining (Lexer.skip_whitespace lx)).
  destruct (remaining lx) as [| m] eqn:Hrem; [lia |].
  cbn [Lexer.next_token_loop]. rewrite Hc, Hblank.
  apply next_token_loop_budget; lia.
Qed.

Lemma next_token_skip_comment :
  forall lx,
    Lexer.current_char lx = Some "#"%char ->
    Lexer.next_token lx = Lexer.next_token (Lexer.skip_comment lx).
Proof.
  intros lx Hc.
  pose proof (skip_comment_remaining lx Hc eq_refl eq_refl) as Hless.
  unfold Lexer.next_token. fold (remaining lx). fold (remaining (Lexer.skip_comment lx)).
  destruct (remaining lx) as [| m] eqn:Hrem; [lia |].
  cbn [Lexer.next_token_loop]. rewrite Hc.
  change (char_in "#"%char Lexer.blanks) with false.
  change (Ascii.eqb "#"%char LF) with false.
  change (Ascii.eqb "#"%char "#"%char) with true. cbv iota.
  apply next_token_loop_budget; lia.
Qed.

(** The text [r] is read like the text [s]: from any two places that
    stand before [r] and before [s], [tokenize] goes on in the same way. *)
Definition reads_like (r s : string) : Prop :=
  forall (src src' : string) (l c l' c' : nat) (acc acc' : list Token),
    map content acc = map content acc' ->
    same_content
      (Lexer.tokenize_loop (String.length r) acc (Lexer.mk src r l c))
      (Lexer.tokenize_loop (String.length s) acc' (Lexer.mk src' s l' c')).

Lemma reads_like_refl : forall s, reads_like s s.
Proof. intros s src src' l c l' c' acc acc' H. apply tokenize_loop_rest; [reflexivity | exact H]. Qed.

Lemma reads_like_trans :
  forall r s t, reads_like r s -> reads_like s t -> reads_like r t.
Proof.
  intros r s t Hrs Hst src src' l c l' c' acc acc' H.
  apply same_content_trans with
    (b := Lexer.tokenize_loop (String.length s) acc (Lexer.mk src s l c)).
  - apply Hrs. reflexivity.
  - apply Hst. exact H.
Qed.

Lemma reads_like_next_token :
  forall r s,
    (forall src src' l c l' c',
       same_token (Lexer.next_token (Lexer.mk src r l c))
                  (Lexer.next_token (Lexer.mk src' s l' c'))) ->
    reads_like r s.
Proof.
  intros r s Hnext src src' l c l' c' acc acc' H.
  apply tokenize_loop_same_token; try exact H; try apply Hnext;
    unfold remaining; cbn [Lexer.rest]; lia.
Qed.

Lemma reads_like_blank :
  forall c r, char_in c Lexer.blanks = true -> reads_like (String c r) r.
Proof.
  intros c r Hblank. apply reads_like_next_token. intros src src' l c0 l' c0'.
  rewrite (@next_token_skip_whitespace (Lexer.mk src (String c r) l c0) c eq_refl Hblank).
  unfold Lexer.skip_whitespace at 1. cbn [Lexer.rest String.length].
  cbn [Lexer.skip_whitespace_loop]. cbn [Lexer.current_char Lexer.rest]. rewrite Hblank.
  set (lx1 := Lexer.advance (Lexer.mk src (String c r) l c0)).
  assert (Hrest : Lexer.rest lx1 = r).
  { unfold lx1, Lexer.advance. cbn [Lexer.rest]. destruct (Ascii.eqb c LF); reflexivity. }
  destruct r as [| d r'].
  - cbn [String.length Lexer.skip_whitespace_loop].
    apply next_token_rest. exact Hrest.
  - destruct (char_in d Lexer.blanks) eqn:Hd.
    + rewrite (@next_token_skip_whitespace (Lexer.mk src' (String d r') l' c0') d eq_refl Hd).
      apply next_token_rest. unfold Lexer.skip_whitespace. cbn [Lexer.rest].
      apply skip_whitespace_loop_rest. exact Hrest.
    + cbn [String.length Lexer.skip_whitespace_loop].
      unfold Lexer.current_char. rewrite Hrest, Hd.
      apply next_token_rest. exact Hrest.
Qed.

Lemma reads_like_newline : forall r, reads_like (String LF r) r.
Proof.
  intros r src src' l c l' c' acc acc' H.
  cbn [String.length Lexer.tokenize_loop]. unfold Lexer.next_token at 1.
  cbn [Lexer.rest String.length Lexer.next_token_loop Lexer.current_char].
  change (char_in LF Lexer.blanks) with false.
  change (Ascii.eqb LF LF) with true. cbv iota.
  cbn [tok_type].
  change (TokenType.eqb TokenType.NEWLINE TokenType.NEWLINE) with true.
  change (TokenType.eqb TokenType.NEWLINE TokenType.EOF) with false. cbv iota.
  apply tokenize_loop_rest; [| exact H].
  unfold Lexer.advance. cbn [Lexer.rest].
  change (Ascii.eqb LF LF) with true. reflexivity.
Qed.

Lemma skip_comment_at_hash :
  forall src r l c,
    Lexer.skip_comment (Lexer.mk src (String "#"%char r) l c)
    = Lexer.skip_comment_loop (String.length r) (Lexer.mk src r l (c + 1)).
Proof. reflexivity. Qed.

Lemma reads_like_comment_char :
  forall c r,
    Ascii.eqb c LF = false ->
    reads_like (String "#"%char (String c r)) (String "#"%char r).
Proof.
  intros c r Hc. apply reads_like_next_token. intros src src' l c0 l' c0'.
  rewrite (next_token_skip_comment (Lexer.mk src (String "#"%char (String c r)) l c0))
    by reflexivity.
  rewrite (next_token_skip_comment (Lexer.mk src' (String "#"%char r) l' c0'))
    by reflexivity.
  rewrite !skip_comment_at_hash.
  cbn [String.length Lexer.skip_comment_loop Lexer.current_char Lexer.rest].
  rewrite Hc.
  apply next_token_rest, skip_comment_loop_rest.
  unfold Lexer.advance. cbn [Lexer.rest]. rewrite Hc. reflexivity.
Qed.

Lemma reads_like_comment_end :
  forall r, reads_like (String "#"%char (String LF r)) r.
Proof.
  intros r. apply reads_like_trans with (s := String LF r); [| apply reads_like_newline].
  apply reads_like_next_token. intros src src' l c l' c'.
  rewrite next_token_skip_comment by reflexivity.
  rewrite skip_comment_at_hash.
  cbn [String.length Lexer.skip_comment_loop Lexer.current_char Lexer.rest].
  change (Ascii.eqb LF LF) with true. cbv iota.
  apply next_token_rest. reflexivity.
Qed.

Lemma reads_like_layout :
  forall lead s,
    (is_layout false lead = true -> reads_like (lead ++ s) s)
    /\ (is_layout true lead = true -> reads_like (String "#"%char (lead ++ s)) s).
Proof.
  induction lead as [| c lead IH]; intros s.
  - split; intros H; [apply reads_like_refl | discriminate H].
  - destruct (IH s) as [IHout IHin]. cbn [is_layout]. cbn [append]. split; intros H.
    + destruct (Ascii.eqb c LF) eqn:Hlf.
      * apply Ascii.eqb_eq in Hlf. subst c. cbn [orb] in H.
        eapply reads_like_trans; [apply reads_like_newline | apply IHout; exact H].
      * cbn [orb] in H. destruct (char_in c Lexer.blanks) eqn:Hblank.
        -- eapply reads_like_trans; [apply reads_like_blank; exact Hblank |].
           apply IHout. exact H.
        -- destruct (Ascii.eqb c "#"%char) eqn:Hhash; [| discriminate H].
           apply Ascii.eqb_eq in Hhash. subst c. apply IHin. exact H.
    + destruct (Ascii.eqb c LF) eqn:Hlf.
      * apply Ascii.eqb_eq in Hlf. subst c. cbn [negb] in H.
        eapply reads_like_trans; [apply reads_like_comment_end | apply IHout; exact H].
      * cbn [negb] in H.
        eapply reads_like_trans; [apply reads_like_comment_char; exact Hlf |].
        apply IHin. exact H.
Qed.

(** Property X24. Layout before the first token is ignored: if [lead] is
    made of blanks, newlines and comments closed by a newline, [tokenize]
    of [lead] followed by a text gives tokens of the same kinds and values
    as [tokenize] of the text alone, and it raises exactly when [tokenize]
    of the text alone raises. *)
Theorem tokenize_skips_leading_layout :
  forall lead s : string,
    is_layout false lead = true ->
    same_content (Lexer.tokenize (lead ++ s)) (Lexer.tokenize s).
Proof.
  intros lead s H. unfold Lexer.tokenize, Lexer.init.
  apply (proj1 (reads_like_layout lead s) H). reflexivity.
Qed.

(** Property X24 at an indented text under a comment line. *)
Lemma tokenize_skips_leading_layout_witness :
  is_layout false ("# totals" ++ nl ++ "  ") = true
  /\ same_content (Lexer.tokenize (("# totals" ++ nl ++ "  ") ++ "info d"))
       (Lexer.tokenize "info d").
Proof.
  split; [reflexivity |].
  apply (tokenize_skips_leading_layout ("# totals" ++ nl ++ "  ") "info d"). reflexivity.
Defined.
